(** * Script transformation utilities: a verification development

    A shallow embedding of [backend/app/lesson/script_utils.py] and the
    properties its specification states about it.

    A Python [str] is a sequence of Unicode code points; it is modelled as a
    list of integers.  The library functions the module calls
    ([unicodedata.normalize], [unicodedata.category], [str.upper],
    [str.lower], [str.isalpha], [str.isupper], [str.strip], [str.replace],
    [re.sub]) are modelled by their documented algorithms over the tables of
    the Unicode Character Database, version 14.0.0, as CPython 3.11 ships
    them. *)

From Stdlib Require Import String Ascii.
From Stdlib Require Import ZArith List Bool Lia.
Import ListNotations.
Open Scope Z_scope.

(** ** Strings *)

Definition codepoint := Z.
Definition str := list codepoint.

Fixpoint bytes_of_string (s : String.string) : list Z :=
  match s with
  | String.EmptyString => []
  | String.String a r => Z.of_N (Ascii.N_of_ascii a) :: bytes_of_string r
  end.

(** UTF-8 decoding, so that the literals of the source can be written as
    they stand there. *)
Fixpoint utf8_decode (bs : list Z) : str :=
  match bs with
  | [] => []
  | b0 :: r0 =>
    if b0 <? 0x80 then b0 :: utf8_decode r0
    else match r0 with
    | [] => [b0]
    | b1 :: r1 =>
      if b0 <? 0xE0 then ((b0 - 0xC0) * 64 + (b1 - 0x80)) :: utf8_decode r1
      else match r1 with
      | [] => [b0; b1]
      | b2 :: r2 =>
        if b0 <? 0xF0
        then ((b0 - 0xE0) * 4096 + (b1 - 0x80) * 64 + (b2 - 0x80)) :: utf8_decode r2
        else match r2 with
        | [] => [b0; b1; b2]
        | b3 :: r3 =>
          ((b0 - 0xF0) * 262144 + (b1 - 0x80) * 4096 + (b2 - 0x80) * 64 + (b3 - 0x80))
            :: utf8_decode r3
        end
      end
    end
  end.

Definition utf8 (s : String.string) : str := utf8_decode (bytes_of_string s).
Arguments utf8 s%_string.

Fixpoint str_eqb (a b : str) : bool :=
  match a, b with
  | [], [] => true
  | x :: a', y :: b' => (x =? y) && str_eqb a' b'
  | _, _ => false
  end.

(** [old] is a prefix of [s]: [s.startswith(old)]. *)
Fixpoint startswith (old s : str) : bool :=
  match old, s with
  | [], _ => true
  | x :: old', y :: s' => (x =? y) && startswith old' s'
  | _ :: _, [] => false
  end.

Definition in_ranges (rs : list (Z * Z)) (c : Z) : bool :=
  existsb (fun r => (fst r <=? c) && (c <=? snd r)) rs.

Fixpoint assoc {B : Type} (c : Z) (t : list (Z * B)) : option B :=
  match t with
  | [] => None
  | (k, v) :: t' => if k =? c then Some v else assoc c t'
  end.

(** ** Exceptions *)

(** A call returns a value or raises.  The only exceptions the module's
    library calls can raise come from [re.sub] reading its replacement
    template ([re.error], or [IndexError] for an unknown group name); nothing
    in the module catches them, so which one is raised is not recorded. *)
Inductive PyResult (A : Type) :=
| Ok (v : A)
| Raised.
Arguments Ok {A} v.
Arguments Raised {A}.

Definition bind {A B : Type} (m : PyResult A) (f : A -> PyResult B) : PyResult B :=
  match m with
  | Ok v => f v
  | Raised => Raised
  end.

Notation "x <- m ;; k" := (bind m (fun x => k))
  (at level 61, m at next level, right associativity).

(** * The Unicode Character Database *)

Module UCD.

(** Code points of general category Mn (nonspacing mark), as inclusive ranges. *)
Definition Mn_ranges : list (Z * Z) :=
  [
   (0x300, 0x36F); (0x483, 0x487); (0x591, 0x5BD); (0x5BF, 0x5BF); (0x5C1, 0x5C2);
   (0x5C4, 0x5C5); (0x5C7, 0x5C7); (0x610, 0x61A); (0x64B, 0x65F); (0x670, 0x670);
   (0x6D6, 0x6DC); (0x6DF, 0x6E4); (0x6E7, 0x6E8); (0x6EA, 0x6ED); (0x711, 0x711);
   (0x730, 0x74A); (0x7A6, 0x7B0); (0x7EB, 0x7F3); (0x7FD, 0x7FD); (0x816, 0x819);
   (0x81B, 0x823); (0x825, 0x827); (0x829, 0x82D); (0x859, 0x85B); (0x898, 0x89F);
   (0x8CA, 0x8E1); (0x8E3, 0x902); (0x93A, 0x93A); (0x93C, 0x93C); (0x941, 0x948);
   (0x94D, 0x94D); (0x951, 0x957); (0x962, 0x963); (0x981, 0x981); (0x9BC, 0x9BC);
   (0x9C1, 0x9C4); (0x9CD, 0x9CD); (0x9E2, 0x9E3); (0x9FE, 0x9FE); (0xA01, 0xA02);
   (0xA3C, 0xA3C); (0xA41, 0xA42); (0xA47, 0xA48); (0xA4B, 0xA4D); (0xA51, 0xA51);
   (0xA70, 0xA71); (0xA75, 0xA75); (0xA81, 0xA82); (0xABC, 0xABC); (0xAC1, 0xAC5);
   (0xAC7, 0xAC8); (0xACD, 0xACD); (0xAE2, 0xAE3); (0xAFA, 0xAFF); (0xB01, 0xB01);
   (0xB3C, 0xB3C); (0xB3F, 0xB3F); (0xB41, 0xB44); (0xB4D, 0xB4D); (0xB55, 0xB56);
   (0xB62, 0xB63); (0xB82, 0xB82); (0xBC0, 0xBC0); (0xBCD, 0xBCD); (0xC00, 0xC00);
   (0xC04, 0xC04); (0xC3C, 0xC3C); (0xC3E, 0xC40); (0xC46, 0xC48); (0xC4A, 0xC4D);
   (0xC55, 0xC56); (0xC62, 0xC63); (0xC81, 0xC81); (0xCBC, 0xCBC); (0xCBF, 0xCBF);
   (0xCC6, 0xCC6); (0xCCC, 0xCCD); (0xCE2, 0xCE3); (0xD00, 0xD01); (0xD3B, 0xD3C);
   (0xD41, 0xD44); (0xD4D, 0xD4D); (0xD62, 0xD63); (0xD81, 0xD81); (0xDCA, 0xDCA);
   (0xDD2, 0xDD4); (0xDD6, 0xDD6); (0xE31, 0xE31); (0xE34, 0xE3A); (0xE47, 0xE4E);
   (0xEB1, 0xEB1); (0xEB4, 0xEBC); (0xEC8, 0xECD); (0xF18, 0xF19); (0xF35, 0xF35);
   (0xF37, 0xF37); (0xF39, 0xF39); (0xF71, 0xF7E); (0xF80, 0xF84); (0xF86, 0xF87);
   (0xF8D, 0xF97); (0xF99, 0xFBC); (0xFC6, 0xFC6); (0x102D, 0x1030); (0x1032, 0x1037);
   (0x1039, 0x103A); (0x103D, 0x103E); (0x1058, 0x1059); (0x105E, 0x1060); (0x1071, 0x1074);
   (0x1082, 0x1082); (0x1085, 0x1086); (0x108D, 0x108D); (0x109D, 0x109D); (0x135D, 0x135F);
   (0x1712, 0x1714); (0x1732, 0x1733); (0x1752, 0x1753); (0x1772, 0x1773); (0x17B4, 0x17B5);
   (0x17B7, 0x17BD); (0x17C6, 0x17C6); (0x17C9, 0x17D3); (0x17DD, 0x17DD); (0x180B, 0x180D);
   (0x180F, 0x180F); (0x1885, 0x1886); (0x18A9, 0x18A9); (0x1920, 0x1922); (0x1927, 0x1928);
   (0x1932, 0x1932); (0x1939, 0x193B); (0x1A17, 0x1A18); (0x1A1B, 0x1A1B); (0x1A56, 0x1A56);
   (0x1A58, 0x1A5E); (0x1A60, 0x1A60); (0x1A62, 0x1A62); (0x1A65, 0x1A6C); (0x1A73, 0x1A7C);
   (0x1A7F, 0x1A7F); (0x1AB0, 0x1ABD); (0x1ABF, 0x1ACE); (0x1B00, 0x1B03); (0x1B34, 0x1B34);
   (0x1B36, 0x1B3A); (0x1B3C, 0x1B3C); (0x1B42, 0x1B42); (0x1B6B, 0x1B73); (0x1B80, 0x1B81);
   (0x1BA2, 0x1BA5); (0x1BA8, 0x1BA9); (0x1BAB, 0x1BAD); (0x1BE6, 0x1BE6); (0x1BE8, 0x1BE9);
   (0x1BED, 0x1BED); (0x1BEF, 0x1BF1); (0x1C2C, 0x1C33); (0x1C36, 0x1C37); (0x1CD0, 0x1CD2);
   (0x1CD4, 0x1CE0); (0x1CE2, 0x1CE8); (0x1CED, 0x1CED); (0x1CF4, 0x1CF4); (0x1CF8, 0x1CF9);
   (0x1DC0, 0x1DFF); (0x20D0, 0x20DC); (0x20E1, 0x20E1); (0x20E5, 0x20F0); (0x2CEF, 0x2CF1);
   (0x2D7F, 0x2D7F); (0x2DE0, 0x2DFF); (0x302A, 0x302D); (0x3099, 0x309A); (0xA66F, 0xA66F);
   (0xA674, 0xA67D); (0xA69E, 0xA69F); (0xA6F0, 0xA6F1); (0xA802, 0xA802); (0xA806, 0xA806);
   (0xA80B, 0xA80B); (0xA825, 0xA826); (0xA82C, 0xA82C); (0xA8C4, 0xA8C5); (0xA8E0, 0xA8F1);
   (0xA8FF, 0xA8FF); (0xA926, 0xA92D); (0xA947, 0xA951); (0xA980, 0xA982); (0xA9B3, 0xA9B3);
   (0xA9B6, 0xA9B9); (0xA9BC, 0xA9BD); (0xA9E5, 0xA9E5); (0xAA29, 0xAA2E); (0xAA31, 0xAA32);
   (0xAA35, 0xAA36); (0xAA43, 0xAA43); (0xAA4C, 0xAA4C); (0xAA7C, 0xAA7C); (0xAAB0, 0xAAB0);
   (0xAAB2, 0xAAB4); (0xAAB7, 0xAAB8); (0xAABE, 0xAABF); (0xAAC1, 0xAAC1); (0xAAEC, 0xAAED);
   (0xAAF6, 0xAAF6); (0xABE5, 0xABE5); (0xABE8, 0xABE8); (0xABED, 0xABED); (0xFB1E, 0xFB1E);
   (0xFE00, 0xFE0F); (0xFE20, 0xFE2F); (0x101FD, 0x101FD); (0x102E0, 0x102E0);
   (0x10376, 0x1037A); (0x10A01, 0x10A03); (0x10A05, 0x10A06); (0x10A0C, 0x10A0F);
   (0x10A38, 0x10A3A); (0x10A3F, 0x10A3F); (0x10AE5, 0x10AE6); (0x10D24, 0x10D27);
   (0x10EAB, 0x10EAC); (0x10F46, 0x10F50); (0x10F82, 0x10F85); (0x11001, 0x11001);
   (0x11038, 0x11046); (0x11070, 0x11070); (0x11073, 0x11074); (0x1107F, 0x11081);
   (0x110B3, 0x110B6); (0x110B9, 0x110BA); (0x110C2, 0x110C2); (0x11100, 0x11102);
   (0x11127, 0x1112B); (0x1112D, 0x11134); (0x11173, 0x11173); (0x11180, 0x11181);
   (0x111B6, 0x111BE); (0x111C9, 0x111CC); (0x111CF, 0x111CF); (0x1122F, 0x11231);
   (0x11234, 0x11234); (0x11236, 0x11237); (0x1123E, 0x1123E); (0x112DF, 0x112DF);
   (0x112E3, 0x112EA); (0x11300, 0x11301); (0x1133B, 0x1133C); (0x11340, 0x11340);
   (0x11366, 0x1136C); (0x11370, 0x11374); (0x11438, 0x1143F); (0x11442, 0x11444);
   (0x11446, 0x11446); (0x1145E, 0x1145E); (0x114B3, 0x114B8); (0x114BA, 0x114BA);
   (0x114BF, 0x114C0); (0x114C2, 0x114C3); (0x115B2, 0x115B5); (0x115BC, 0x115BD);
   (0x115BF, 0x115C0); (0x115DC, 0x115DD); (0x11633, 0x1163A); (0x1163D, 0x1163D);
   (0x1163F, 0x11640); (0x116AB, 0x116AB); (0x116AD, 0x116AD); (0x116B0, 0x116B5);
   (0x116B7, 0x116B7); (0x1171D, 0x1171F); (0x11722, 0x11725); (0x11727, 0x1172B);
   (0x1182F, 0x11837); (0x11839, 0x1183A); (0x1193B, 0x1193C); (0x1193E, 0x1193E);
   (0x11943, 0x11943); (0x119D4, 0x119D7); (0x119DA, 0x119DB); (0x119E0, 0x119E0);
   (0x11A01, 0x11A0A); (0x11A33, 0x11A38); (0x11A3B, 0x11A3E); (0x11A47, 0x11A47);
   (0x11A51, 0x11A56); (0x11A59, 0x11A5B); (0x11A8A, 0x11A96); (0x11A98, 0x11A99);
   (0x11C30, 0x11C36); (0x11C38, 0x11C3D); (0x11C3F, 0x11C3F); (0x11C92, 0x11CA7);
   (0x11CAA, 0x11CB0); (0x11CB2, 0x11CB3); (0x11CB5, 0x11CB6); (0x11D31, 0x11D36);
   (0x11D3A, 0x11D3A); (0x11D3C, 0x11D3D); (0x11D3F, 0x11D45); (0x11D47, 0x11D47);
   (0x11D90, 0x11D91); (0x11D95, 0x11D95); (0x11D97, 0x11D97); (0x11EF3, 0x11EF4);
   (0x16AF0, 0x16AF4); (0x16B30, 0x16B36); (0x16F4F, 0x16F4F); (0x16F8F, 0x16F92);
   (0x16FE4, 0x16FE4); (0x1BC9D, 0x1BC9E); (0x1CF00, 0x1CF2D); (0x1CF30, 0x1CF46);
   (0x1D167, 0x1D169); (0x1D17B, 0x1D182); (0x1D185, 0x1D18B); (0x1D1AA, 0x1D1AD);
   (0x1D242, 0x1D244); (0x1DA00, 0x1DA36); (0x1DA3B, 0x1DA6C); (0x1DA75, 0x1DA75);
   (0x1DA84, 0x1DA84); (0x1DA9B, 0x1DA9F); (0x1DAA1, 0x1DAAF); (0x1E000, 0x1E006);
   (0x1E008, 0x1E018); (0x1E01B, 0x1E021); (0x1E023, 0x1E024); (0x1E026, 0x1E02A);
   (0x1E130, 0x1E136); (0x1E2AE, 0x1E2AE); (0x1E2EC, 0x1E2EF); (0x1E8D0, 0x1E8D6);
   (0x1E944, 0x1E94A); (0xE0100, 0xE01EF)
  ].

(** Canonical combining classes: (first, last, class) for every code point whose class is not 0. *)
Definition ccc_ranges : list (Z * Z * Z) :=
  [
   (0x300, 0x314, 230); (0x315, 0x315, 232); (0x316, 0x319, 220); (0x31A, 0x31A, 232);
   (0x31B, 0x31B, 216); (0x31C, 0x320, 220); (0x321, 0x322, 202); (0x323, 0x326, 220);
   (0x327, 0x328, 202); (0x329, 0x333, 220); (0x334, 0x338, 1); (0x339, 0x33C, 220);
   (0x33D, 0x344, 230); (0x345, 0x345, 240); (0x346, 0x346, 230); (0x347, 0x349, 220);
   (0x34A, 0x34C, 230); (0x34D, 0x34E, 220); (0x350, 0x352, 230); (0x353, 0x356, 220);
   (0x357, 0x357, 230); (0x358, 0x358, 232); (0x359, 0x35A, 220); (0x35B, 0x35B, 230);
   (0x35C, 0x35C, 233); (0x35D, 0x35E, 234); (0x35F, 0x35F, 233); (0x360, 0x361, 234);
   (0x362, 0x362, 233); (0x363, 0x36F, 230); (0x483, 0x487, 230); (0x591, 0x591, 220);
   (0x592, 0x595, 230); (0x596, 0x596, 220); (0x597, 0x599, 230); (0x59A, 0x59A, 222);
   (0x59B, 0x59B, 220); (0x59C, 0x5A1, 230); (0x5A2, 0x5A7, 220); (0x5A8, 0x5A9, 230);
   (0x5AA, 0x5AA, 220); (0x5AB, 0x5AC, 230); (0x5AD, 0x5AD, 222); (0x5AE, 0x5AE, 228);
   (0x5AF, 0x5AF, 230); (0x5B0, 0x5B0, 10); (0x5B1, 0x5B1, 11); (0x5B2, 0x5B2, 12);
   (0x5B3, 0x5B3, 13); (0x5B4, 0x5B4, 14); (0x5B5, 0x5B5, 15); (0x5B6, 0x5B6, 16);
   (0x5B7, 0x5B7, 17); (0x5B8, 0x5B8, 18); (0x5B9, 0x5BA, 19); (0x5BB, 0x5BB, 20);
   (0x5BC, 0x5BC, 21); (0x5BD, 0x5BD, 22); (0x5BF, 0x5BF, 23); (0x5C1, 0x5C1, 24);
   (0x5C2, 0x5C2, 25); (0x5C4, 0x5C4, 230); (0x5C5, 0x5C5, 220); (0x5C7, 0x5C7, 18);
   (0x610, 0x617, 230); (0x618, 0x618, 30); (0x619, 0x619, 31); (0x61A, 0x61A, 32);
   (0x64B, 0x64B, 27); (0x64C, 0x64C, 28); (0x64D, 0x64D, 29); (0x64E, 0x64E, 30);
   (0x64F, 0x64F, 31); (0x650, 0x650, 32); (0x651, 0x651, 33); (0x652, 0x652, 34);
   (0x653, 0x654, 230); (0x655, 0x656, 220); (0x657, 0x65B, 230); (0x65C, 0x65C, 220);
   (0x65D, 0x65E, 230); (0x65F, 0x65F, 220); (0x670, 0x670, 35); (0x6D6, 0x6DC, 230);
   (0x6DF, 0x6E2, 230); (0x6E3, 0x6E3, 220); (0x6E4, 0x6E4, 230); (0x6E7, 0x6E8, 230);
   (0x6EA, 0x6EA, 220); (0x6EB, 0x6EC, 230); (0x6ED, 0x6ED, 220); (0x711, 0x711, 36);
   (0x730, 0x730, 230); (0x731, 0x731, 220); (0x732, 0x733, 230); (0x734, 0x734, 220);
   (0x735, 0x736, 230); (0x737, 0x739, 220); (0x73A, 0x73A, 230); (0x73B, 0x73C, 220);
   (0x73D, 0x73D, 230); (0x73E, 0x73E, 220); (0x73F, 0x741, 230); (0x742, 0x742, 220);
   (0x743, 0x743, 230); (0x744, 0x744, 220); (0x745, 0x745, 230); (0x746, 0x746, 220);
   (0x747, 0x747, 230); (0x748, 0x748, 220); (0x749, 0x74A, 230); (0x7EB, 0x7F1, 230);
   (0x7F2, 0x7F2, 220); (0x7F3, 0x7F3, 230); (0x7FD, 0x7FD, 220); (0x816, 0x819, 230);
   (0x81B, 0x823, 230); (0x825, 0x827, 230); (0x829, 0x82D, 230); (0x859, 0x85B, 220);
   (0x898, 0x898, 230); (0x899, 0x89B, 220); (0x89C, 0x89F, 230); (0x8CA, 0x8CE, 230);
   (0x8CF, 0x8D3, 220); (0x8D4, 0x8E1, 230); (0x8E3, 0x8E3, 220); (0x8E4, 0x8E5, 230);
   (0x8E6, 0x8E6, 220); (0x8E7, 0x8E8, 230); (0x8E9, 0x8E9, 220); (0x8EA, 0x8EC, 230);
   (0x8ED, 0x8EF, 220); (0x8F0, 0x8F0, 27); (0x8F1, 0x8F1, 28); (0x8F2, 0x8F2, 29);
   (0x8F3, 0x8F5, 230); (0x8F6, 0x8F6, 220); (0x8F7, 0x8F8, 230); (0x8F9, 0x8FA, 220);
   (0x8FB, 0x8FF, 230); (0x93C, 0x93C, 7); (0x94D, 0x94D, 9); (0x951, 0x951, 230);
   (0x952, 0x952, 220); (0x953, 0x954, 230); (0x9BC, 0x9BC, 7); (0x9CD, 0x9CD, 9);
   (0x9FE, 0x9FE, 230); (0xA3C, 0xA3C, 7); (0xA4D, 0xA4D, 9); (0xABC, 0xABC, 7);
   (0xACD, 0xACD, 9); (0xB3C, 0xB3C, 7); (0xB4D, 0xB4D, 9); (0xBCD, 0xBCD, 9);
   (0xC3C, 0xC3C, 7); (0xC4D, 0xC4D, 9); (0xC55, 0xC55, 84); (0xC56, 0xC56, 91);
   (0xCBC, 0xCBC, 7); (0xCCD, 0xCCD, 9); (0xD3B, 0xD3C, 9); (0xD4D, 0xD4D, 9);
   (0xDCA, 0xDCA, 9); (0xE38, 0xE39, 103); (0xE3A, 0xE3A, 9); (0xE48, 0xE4B, 107);
   (0xEB8, 0xEB9, 118); (0xEBA, 0xEBA, 9); (0xEC8, 0xECB, 122); (0xF18, 0xF19, 220);
   (0xF35, 0xF35, 220); (0xF37, 0xF37, 220); (0xF39, 0xF39, 216); (0xF71, 0xF71, 129);
   (0xF72, 0xF72, 130); (0xF74, 0xF74, 132); (0xF7A, 0xF7D, 130); (0xF80, 0xF80, 130);
   (0xF82, 0xF83, 230); (0xF84, 0xF84, 9); (0xF86, 0xF87, 230); (0xFC6, 0xFC6, 220);
   (0x1037, 0x1037, 7); (0x1039, 0x103A, 9); (0x108D, 0x108D, 220); (0x135D, 0x135F, 230);
   (0x1714, 0x1715, 9); (0x1734, 0x1734, 9); (0x17D2, 0x17D2, 9); (0x17DD, 0x17DD, 230);
   (0x18A9, 0x18A9, 228); (0x1939, 0x1939, 222); (0x193A, 0x193A, 230); (0x193B, 0x193B, 220);
   (0x1A17, 0x1A17, 230); (0x1A18, 0x1A18, 220); (0x1A60, 0x1A60, 9); (0x1A75, 0x1A7C, 230);
   (0x1A7F, 0x1A7F, 220); (0x1AB0, 0x1AB4, 230); (0x1AB5, 0x1ABA, 220); (0x1ABB, 0x1ABC, 230);
   (0x1ABD, 0x1ABD, 220); (0x1ABF, 0x1AC0, 220); (0x1AC1, 0x1AC2, 230); (0x1AC3, 0x1AC4, 220);
   (0x1AC5, 0x1AC9, 230); (0x1ACA, 0x1ACA, 220); (0x1ACB, 0x1ACE, 230); (0x1B34, 0x1B34, 7);
   (0x1B44, 0x1B44, 9); (0x1B6B, 0x1B6B, 230); (0x1B6C, 0x1B6C, 220); (0x1B6D, 0x1B73, 230);
   (0x1BAA, 0x1BAB, 9); (0x1BE6, 0x1BE6, 7); (0x1BF2, 0x1BF3, 9); (0x1C37, 0x1C37, 7);
   (0x1CD0, 0x1CD2, 230); (0x1CD4, 0x1CD4, 1); (0x1CD5, 0x1CD9, 220); (0x1CDA, 0x1CDB, 230);
   (0x1CDC, 0x1CDF, 220); (0x1CE0, 0x1CE0, 230); (0x1CE2, 0x1CE8, 1); (0x1CED, 0x1CED, 220);
   (0x1CF4, 0x1CF4, 230); (0x1CF8, 0x1CF9, 230); (0x1DC0, 0x1DC1, 230); (0x1DC2, 0x1DC2, 220);
   (0x1DC3, 0x1DC9, 230); (0x1DCA, 0x1DCA, 220); (0x1DCB, 0x1DCC, 230); (0x1DCD, 0x1DCD, 234);
   (0x1DCE, 0x1DCE, 214); (0x1DCF, 0x1DCF, 220); (0x1DD0, 0x1DD0, 202); (0x1DD1, 0x1DF5, 230);
   (0x1DF6, 0x1DF6, 232); (0x1DF7, 0x1DF8, 228); (0x1DF9, 0x1DF9, 220); (0x1DFA, 0x1DFA, 218);
   (0x1DFB, 0x1DFB, 230); (0x1DFC, 0x1DFC, 233); (0x1DFD, 0x1DFD, 220); (0x1DFE, 0x1DFE, 230);
   (0x1DFF, 0x1DFF, 220); (0x20D0, 0x20D1, 230); (0x20D2, 0x20D3, 1); (0x20D4, 0x20D7, 230);
   (0x20D8, 0x20DA, 1); (0x20DB, 0x20DC, 230); (0x20E1, 0x20E1, 230); (0x20E5, 0x20E6, 1);
   (0x20E7, 0x20E7, 230); (0x20E8, 0x20E8, 220); (0x20E9, 0x20E9, 230); (0x20EA, 0x20EB, 1);
   (0x20EC, 0x20EF, 220); (0x20F0, 0x20F0, 230); (0x2CEF, 0x2CF1, 230); (0x2D7F, 0x2D7F, 9);
   (0x2DE0, 0x2DFF, 230); (0x302A, 0x302A, 218); (0x302B, 0x302B, 228); (0x302C, 0x302C, 232);
   (0x302D, 0x302D, 222); (0x302E, 0x302F, 224); (0x3099, 0x309A, 8); (0xA66F, 0xA66F, 230);
   (0xA674, 0xA67D, 230); (0xA69E, 0xA69F, 230); (0xA6F0, 0xA6F1, 230); (0xA806, 0xA806, 9);
   (0xA82C, 0xA82C, 9); (0xA8C4, 0xA8C4, 9); (0xA8E0, 0xA8F1, 230); (0xA92B, 0xA92D, 220);
   (0xA953, 0xA953, 9); (0xA9B3, 0xA9B3, 7); (0xA9C0, 0xA9C0, 9); (0xAAB0, 0xAAB0, 230);
   (0xAAB2, 0xAAB3, 230); (0xAAB4, 0xAAB4, 220); (0xAAB7, 0xAAB8, 230); (0xAABE, 0xAABF, 230);
   (0xAAC1, 0xAAC1, 230); (0xAAF6, 0xAAF6, 9); (0xABED, 0xABED, 9); (0xFB1E, 0xFB1E, 26);
   (0xFE20, 0xFE26, 230); (0xFE27, 0xFE2D, 220); (0xFE2E, 0xFE2F, 230);
   (0x101FD, 0x101FD, 220); (0x102E0, 0x102E0, 220); (0x10376, 0x1037A, 230);
   (0x10A0D, 0x10A0D, 220); (0x10A0F, 0x10A0F, 230); (0x10A38, 0x10A38, 230);
   (0x10A39, 0x10A39, 1); (0x10A3A, 0x10A3A, 220); (0x10A3F, 0x10A3F, 9);
   (0x10AE5, 0x10AE5, 230); (0x10AE6, 0x10AE6, 220); (0x10D24, 0x10D27, 230);
   (0x10EAB, 0x10EAC, 230); (0x10F46, 0x10F47, 220); (0x10F48, 0x10F4A, 230);
   (0x10F4B, 0x10F4B, 220); (0x10F4C, 0x10F4C, 230); (0x10F4D, 0x10F50, 220);
   (0x10F82, 0x10F82, 230); (0x10F83, 0x10F83, 220); (0x10F84, 0x10F84, 230);
   (0x10F85, 0x10F85, 220); (0x11046, 0x11046, 9); (0x11070, 0x11070, 9);
   (0x1107F, 0x1107F, 9); (0x110B9, 0x110B9, 9); (0x110BA, 0x110BA, 7);
   (0x11100, 0x11102, 230); (0x11133, 0x11134, 9); (0x11173, 0x11173, 7);
   (0x111C0, 0x111C0, 9); (0x111CA, 0x111CA, 7); (0x11235, 0x11235, 9); (0x11236, 0x11236, 7);
   (0x112E9, 0x112E9, 7); (0x112EA, 0x112EA, 9); (0x1133B, 0x1133C, 7); (0x1134D, 0x1134D, 9);
   (0x11366, 0x1136C, 230); (0x11370, 0x11374, 230); (0x11442, 0x11442, 9);
   (0x11446, 0x11446, 7); (0x1145E, 0x1145E, 230); (0x114C2, 0x114C2, 9);
   (0x114C3, 0x114C3, 7); (0x115BF, 0x115BF, 9); (0x115C0, 0x115C0, 7); (0x1163F, 0x1163F, 9);
   (0x116B6, 0x116B6, 9); (0x116B7, 0x116B7, 7); (0x1172B, 0x1172B, 9); (0x11839, 0x11839, 9);
   (0x1183A, 0x1183A, 7); (0x1193D, 0x1193E, 9); (0x11943, 0x11943, 7); (0x119E0, 0x119E0, 9);
   (0x11A34, 0x11A34, 9); (0x11A47, 0x11A47, 9); (0x11A99, 0x11A99, 9); (0x11C3F, 0x11C3F, 9);
   (0x11D42, 0x11D42, 7); (0x11D44, 0x11D45, 9); (0x11D97, 0x11D97, 9); (0x16AF0, 0x16AF4, 1);
   (0x16B30, 0x16B36, 230); (0x16FF0, 0x16FF1, 6); (0x1BC9E, 0x1BC9E, 1);
   (0x1D165, 0x1D166, 216); (0x1D167, 0x1D169, 1); (0x1D16D, 0x1D16D, 226);
   (0x1D16E, 0x1D172, 216); (0x1D17B, 0x1D182, 220); (0x1D185, 0x1D189, 230);
   (0x1D18A, 0x1D18B, 220); (0x1D1AA, 0x1D1AD, 230); (0x1D242, 0x1D244, 230);
   (0x1E000, 0x1E006, 230); (0x1E008, 0x1E018, 230); (0x1E01B, 0x1E021, 230);
   (0x1E023, 0x1E024, 230); (0x1E026, 0x1E02A, 230); (0x1E130, 0x1E136, 230);
   (0x1E2AE, 0x1E2AE, 230); (0x1E2EC, 0x1E2EF, 230); (0x1E8D0, 0x1E8D6, 220);
   (0x1E944, 0x1E949, 230); (0x1E94A, 0x1E94A, 7)
  ].

(** Full canonical decompositions (the NFD form of a single code point) of every code point that has one, Hangul syllables apart, which decompose by arithmetic. *)
Definition decomposition_table : list (Z * list Z) :=
  [
   (0xC0, [0x41; 0x300]); (0xC1, [0x41; 0x301]); (0xC2, [0x41; 0x302]); (0xC3, [0x41; 0x303]);
   (0xC4, [0x41; 0x308]); (0xC5, [0x41; 0x30A]); (0xC7, [0x43; 0x327]); (0xC8, [0x45; 0x300]);
   (0xC9, [0x45; 0x301]); (0xCA, [0x45; 0x302]); (0xCB, [0x45; 0x308]); (0xCC, [0x49; 0x300]);
   (0xCD, [0x49; 0x301]); (0xCE, [0x49; 0x302]); (0xCF, [0x49; 0x308]); (0xD1, [0x4E; 0x303]);
   (0xD2, [0x4F; 0x300]); (0xD3, [0x4F; 0x301]); (0xD4, [0x4F; 0x302]); (0xD5, [0x4F; 0x303]);
   (0xD6, [0x4F; 0x308]); (0xD9, [0x55; 0x300]); (0xDA, [0x55; 0x301]); (0xDB, [0x55; 0x302]);
   (0xDC, [0x55; 0x308]); (0xDD, [0x59; 0x301]); (0xE0, [0x61; 0x300]); (0xE1, [0x61; 0x301]);
   (0xE2, [0x61; 0x302]); (0xE3, [0x61; 0x303]); (0xE4, [0x61; 0x308]); (0xE5, [0x61; 0x30A]);
   (0xE7, [0x63; 0x327]); (0xE8, [0x65; 0x300]); (0xE9, [0x65; 0x301]); (0xEA, [0x65; 0x302]);
   (0xEB, [0x65; 0x308]); (0xEC, [0x69; 0x300]); (0xED, [0x69; 0x301]); (0xEE, [0x69; 0x302]);
   (0xEF, [0x69; 0x308]); (0xF1, [0x6E; 0x303]); (0xF2, [0x6F; 0x300]); (0xF3, [0x6F; 0x301]);
   (0xF4, [0x6F; 0x302]); (0xF5, [0x6F; 0x303]); (0xF6, [0x6F; 0x308]); (0xF9, [0x75; 0x300]);
   (0xFA, [0x75; 0x301]); (0xFB, [0x75; 0x302]); (0xFC, [0x75; 0x308]); (0xFD, [0x79; 0x301]);
   (0xFF, [0x79; 0x308]); (0x100, [0x41; 0x304]); (0x101, [0x61; 0x304]);
   (0x102, [0x41; 0x306]); (0x103, [0x61; 0x306]); (0x104, [0x41; 0x328]);
   (0x105, [0x61; 0x328]); (0x106, [0x43; 0x301]); (0x107, [0x63; 0x301]);
   (0x108, [0x43; 0x302]); (0x109, [0x63; 0x302]); (0x10A, [0x43; 0x307]);
   (0x10B, [0x63; 0x307]); (0x10C, [0x43; 0x30C]); (0x10D, [0x63; 0x30C]);
   (0x10E, [0x44; 0x30C]); (0x10F, [0x64; 0x30C]); (0x112, [0x45; 0x304]);
   (0x113, [0x65; 0x304]); (0x114, [0x45; 0x306]); (0x115, [0x65; 0x306]);
   (0x116, [0x45; 0x307]); (0x117, [0x65; 0x307]); (0x118, [0x45; 0x328]);
   (0x119, [0x65; 0x328]); (0x11A, [0x45; 0x30C]); (0x11B, [0x65; 0x30C]);
   (0x11C, [0x47; 0x302]); (0x11D, [0x67; 0x302]); (0x11E, [0x47; 0x306]);
   (0x11F, [0x67; 0x306]); (0x120, [0x47; 0x307]); (0x121, [0x67; 0x307]);
   (0x122, [0x47; 0x327]); (0x123, [0x67; 0x327]); (0x124, [0x48; 0x302]);
   (0x125, [0x68; 0x302]); (0x128, [0x49; 0x303]); (0x129, [0x69; 0x303]);
   (0x12A, [0x49; 0x304]); (0x12B, [0x69; 0x304]); (0x12C, [0x49; 0x306]);
   (0x12D, [0x69; 0x306]); (0x12E, [0x49; 0x328]); (0x12F, [0x69; 0x328]);
   (0x130, [0x49; 0x307]); (0x134, [0x4A; 0x302]); (0x135, [0x6A; 0x302]);
   (0x136, [0x4B; 0x327]); (0x137, [0x6B; 0x327]); (0x139, [0x4C; 0x301]);
   (0x13A, [0x6C; 0x301]); (0x13B, [0x4C; 0x327]); (0x13C, [0x6C; 0x327]);
   (0x13D, [0x4C; 0x30C]); (0x13E, [0x6C; 0x30C]); (0x143, [0x4E; 0x301]);
   (0x144, [0x6E; 0x301]); (0x145, [0x4E; 0x327]); (0x146, [0x6E; 0x327]);
   (0x147, [0x4E; 0x30C]); (0x148, [0x6E; 0x30C]); (0x14C, [0x4F; 0x304]);
   (0x14D, [0x6F; 0x304]); (0x14E, [0x4F; 0x306]); (0x14F, [0x6F; 0x306]);
   (0x150, [0x4F; 0x30B]); (0x151, [0x6F; 0x30B]); (0x154, [0x52; 0x301]);
   (0x155, [0x72; 0x301]); (0x156, [0x52; 0x327]); (0x157, [0x72; 0x327]);
   (0x158, [0x52; 0x30C]); (0x159, [0x72; 0x30C]); (0x15A, [0x53; 0x301]);
   (0x15B, [0x73; 0x301]); (0x15C, [0x53; 0x302]); (0x15D, [0x73; 0x302]);
   (0x15E, [0x53; 0x327]); (0x15F, [0x73; 0x327]); (0x160, [0x53; 0x30C]);
   (0x161, [0x73; 0x30C]); (0x162, [0x54; 0x327]); (0x163, [0x74; 0x327]);
   (0x164, [0x54; 0x30C]); (0x165, [0x74; 0x30C]); (0x168, [0x55; 0x303]);
   (0x169, [0x75; 0x303]); (0x16A, [0x55; 0x304]); (0x16B, [0x75; 0x304]);
   (0x16C, [0x55; 0x306]); (0x16D, [0x75; 0x306]); (0x16E, [0x55; 0x30A]);
   (0x16F, [0x75; 0x30A]); (0x170, [0x55; 0x30B]); (0x171, [0x75; 0x30B]);
   (0x172, [0x55; 0x328]); (0x173, [0x75; 0x328]); (0x174, [0x57; 0x302]);
   (0x175, [0x77; 0x302]); (0x176, [0x59; 0x302]); (0x177, [0x79; 0x302]);
   (0x178, [0x59; 0x308]); (0x179, [0x5A; 0x301]); (0x17A, [0x7A; 0x301]);
   (0x17B, [0x5A; 0x307]); (0x17C, [0x7A; 0x307]); (0x17D, [0x5A; 0x30C]);
   (0x17E, [0x7A; 0x30C]); (0x1A0, [0x4F; 0x31B]); (0x1A1, [0x6F; 0x31B]);
   (0x1AF, [0x55; 0x31B]); (0x1B0, [0x75; 0x31B]); (0x1CD, [0x41; 0x30C]);
   (0x1CE, [0x61; 0x30C]); (0x1CF, [0x49; 0x30C]); (0x1D0, [0x69; 0x30C]);
   (0x1D1, [0x4F; 0x30C]); (0x1D2, [0x6F; 0x30C]); (0x1D3, [0x55; 0x30C]);
   (0x1D4, [0x75; 0x30C]); (0x1D5, [0x55; 0x308; 0x304]); (0x1D6, [0x75; 0x308; 0x304]);
   (0x1D7, [0x55; 0x308; 0x301]); (0x1D8, [0x75; 0x308; 0x301]); (0x1D9, [0x55; 0x308; 0x30C]);
   (0x1DA, [0x75; 0x308; 0x30C]); (0x1DB, [0x55; 0x308; 0x300]); (0x1DC, [0x75; 0x308; 0x300]);
   (0x1DE, [0x41; 0x308; 0x304]); (0x1DF, [0x61; 0x308; 0x304]); (0x1E0, [0x41; 0x307; 0x304]);
   (0x1E1, [0x61; 0x307; 0x304]); (0x1E2, [0xC6; 0x304]); (0x1E3, [0xE6; 0x304]);
   (0x1E6, [0x47; 0x30C]); (0x1E7, [0x67; 0x30C]); (0x1E8, [0x4B; 0x30C]);
   (0x1E9, [0x6B; 0x30C]); (0x1EA, [0x4F; 0x328]); (0x1EB, [0x6F; 0x328]);
   (0x1EC, [0x4F; 0x328; 0x304]); (0x1ED, [0x6F; 0x328; 0x304]); (0x1EE, [0x1B7; 0x30C]);
   (0x1EF, [0x292; 0x30C]); (0x1F0, [0x6A; 0x30C]); (0x1F4, [0x47; 0x301]);
   (0x1F5, [0x67; 0x301]); (0x1F8, [0x4E; 0x300]); (0x1F9, [0x6E; 0x300]);
   (0x1FA, [0x41; 0x30A; 0x301]); (0x1FB, [0x61; 0x30A; 0x301]); (0x1FC, [0xC6; 0x301]);
   (0x1FD, [0xE6; 0x301]); (0x1FE, [0xD8; 0x301]); (0x1FF, [0xF8; 0x301]);
   (0x200, [0x41; 0x30F]); (0x201, [0x61; 0x30F]); (0x202, [0x41; 0x311]);
   (0x203, [0x61; 0x311]); (0x204, [0x45; 0x30F]); (0x205, [0x65; 0x30F]);
   (0x206, [0x45; 0x311]); (0x207, [0x65; 0x311]); (0x208, [0x49; 0x30F]);
   (0x209, [0x69; 0x30F]); (0x20A, [0x49; 0x311]); (0x20B, [0x69; 0x311]);
   (0x20C, [0x4F; 0x30F]); (0x20D, [0x6F; 0x30F]); (0x20E, [0x4F; 0x311]);
   (0x20F, [0x6F; 0x311]); (0x210, [0x52; 0x30F]); (0x211, [0x72; 0x30F]);
   (0x212, [0x52; 0x311]); (0x213, [0x72; 0x311]); (0x214, [0x55; 0x30F]);
   (0x215, [0x75; 0x30F]); (0x216, [0x55; 0x311]); (0x217, [0x75; 0x311]);
   (0x218, [0x53; 0x326]); (0x219, [0x73; 0x326]); (0x21A, [0x54; 0x326]);
   (0x21B, [0x74; 0x326]); (0x21E, [0x48; 0x30C]); (0x21F, [0x68; 0x30C]);
   (0x226, [0x41; 0x307]); (0x227, [0x61; 0x307]); (0x228, [0x45; 0x327]);
   (0x229, [0x65; 0x327]); (0x22A, [0x4F; 0x308; 0x304]); (0x22B, [0x6F; 0x308; 0x304]);
   (0x22C, [0x4F; 0x303; 0x304]); (0x22D, [0x6F; 0x303; 0x304]); (0x22E, [0x4F; 0x307]);
   (0x22F, [0x6F; 0x307]); (0x230, [0x4F; 0x307; 0x304]); (0x231, [0x6F; 0x307; 0x304]);
   (0x232, [0x59; 0x304]); (0x233, [0x79; 0x304]); (0x340, [0x300]); (0x341, [0x301]);
   (0x343, [0x313]); (0x344, [0x308; 0x301]); (0x374, [0x2B9]); (0x37E, [0x3B]);
   (0x385, [0xA8; 0x301]); (0x386, [0x391; 0x301]); (0x387, [0xB7]); (0x388, [0x395; 0x301]);
   (0x389, [0x397; 0x301]); (0x38A, [0x399; 0x301]); (0x38C, [0x39F; 0x301]);
   (0x38E, [0x3A5; 0x301]); (0x38F, [0x3A9; 0x301]); (0x390, [0x3B9; 0x308; 0x301]);
   (0x3AA, [0x399; 0x308]); (0x3AB, [0x3A5; 0x308]); (0x3AC, [0x3B1; 0x301]);
   (0x3AD, [0x3B5; 0x301]); (0x3AE, [0x3B7; 0x301]); (0x3AF, [0x3B9; 0x301]);
   (0x3B0, [0x3C5; 0x308; 0x301]); (0x3CA, [0x3B9; 0x308]); (0x3CB, [0x3C5; 0x308]);
   (0x3CC, [0x3BF; 0x301]); (0x3CD, [0x3C5; 0x301]); (0x3CE, [0x3C9; 0x301]);
   (0x3D3, [0x3D2; 0x301]); (0x3D4, [0x3D2; 0x308]); (0x400, [0x415; 0x300]);
   (0x401, [0x415; 0x308]); (0x403, [0x413; 0x301]); (0x407, [0x406; 0x308]);
   (0x40C, [0x41A; 0x301]); (0x40D, [0x418; 0x300]); (0x40E, [0x423; 0x306]);
   (0x419, [0x418; 0x306]); (0x439, [0x438; 0x306]); (0x450, [0x435; 0x300]);
   (0x451, [0x435; 0x308]); (0x453, [0x433; 0x301]); (0x457, [0x456; 0x308]);
   (0x45C, [0x43A; 0x301]); (0x45D, [0x438; 0x300]); (0x45E, [0x443; 0x306]);
   (0x476, [0x474; 0x30F]); (0x477, [0x475; 0x30F]); (0x4C1, [0x416; 0x306]);
   (0x4C2, [0x436; 0x306]); (0x4D0, [0x410; 0x306]); (0x4D1, [0x430; 0x306]);
   (0x4D2, [0x410; 0x308]); (0x4D3, [0x430; 0x308]); (0x4D6, [0x415; 0x306]);
   (0x4D7, [0x435; 0x306]); (0x4DA, [0x4D8; 0x308]); (0x4DB, [0x4D9; 0x308]);
   (0x4DC, [0x416; 0x308]); (0x4DD, [0x436; 0x308]); (0x4DE, [0x417; 0x308]);
   (0x4DF, [0x437; 0x308]); (0x4E2, [0x418; 0x304]); (0x4E3, [0x438; 0x304]);
   (0x4E4, [0x418; 0x308]); (0x4E5, [0x438; 0x308]); (0x4E6, [0x41E; 0x308]);
   (0x4E7, [0x43E; 0x308]); (0x4EA, [0x4E8; 0x308]); (0x4EB, [0x4E9; 0x308]);
   (0x4EC, [0x42D; 0x308]); (0x4ED, [0x44D; 0x308]); (0x4EE, [0x423; 0x304]);
   (0x4EF, [0x443; 0x304]); (0x4F0, [0x423; 0x308]); (0x4F1, [0x443; 0x308]);
   (0x4F2, [0x423; 0x30B]); (0x4F3, [0x443; 0x30B]); (0x4F4, [0x427; 0x308]);
   (0x4F5, [0x447; 0x308]); (0x4F8, [0x42B; 0x308]); (0x4F9, [0x44B; 0x308]);
   (0x622, [0x627; 0x653]); (0x623, [0x627; 0x654]); (0x624, [0x648; 0x654]);
   (0x625, [0x627; 0x655]); (0x626, [0x64A; 0x654]); (0x6C0, [0x6D5; 0x654]);
   (0x6C2, [0x6C1; 0x654]); (0x6D3, [0x6D2; 0x654]); (0x929, [0x928; 0x93C]);
   (0x931, [0x930; 0x93C]); (0x934, [0x933; 0x93C]); (0x958, [0x915; 0x93C]);
   (0x959, [0x916; 0x93C]); (0x95A, [0x917; 0x93C]); (0x95B, [0x91C; 0x93C]);
   (0x95C, [0x921; 0x93C]); (0x95D, [0x922; 0x93C]); (0x95E, [0x92B; 0x93C]);
   (0x95F, [0x92F; 0x93C]); (0x9CB, [0x9C7; 0x9BE]); (0x9CC, [0x9C7; 0x9D7]);
   (0x9DC, [0x9A1; 0x9BC]); (0x9DD, [0x9A2; 0x9BC]); (0x9DF, [0x9AF; 0x9BC]);
   (0xA33, [0xA32; 0xA3C]); (0xA36, [0xA38; 0xA3C]); (0xA59, [0xA16; 0xA3C]);
   (0xA5A, [0xA17; 0xA3C]); (0xA5B, [0xA1C; 0xA3C]); (0xA5E, [0xA2B; 0xA3C]);
   (0xB48, [0xB47; 0xB56]); (0xB4B, [0xB47; 0xB3E]); (0xB4C, [0xB47; 0xB57]);
   (0xB5C, [0xB21; 0xB3C]); (0xB5D, [0xB22; 0xB3C]); (0xB94, [0xB92; 0xBD7]);
   (0xBCA, [0xBC6; 0xBBE]); (0xBCB, [0xBC7; 0xBBE]); (0xBCC, [0xBC6; 0xBD7]);
   (0xC48, [0xC46; 0xC56]); (0xCC0, [0xCBF; 0xCD5]); (0xCC7, [0xCC6; 0xCD5]);
   (0xCC8, [0xCC6; 0xCD6]); (0xCCA, [0xCC6; 0xCC2]); (0xCCB, [0xCC6; 0xCC2; 0xCD5]);
   (0xD4A, [0xD46; 0xD3E]); (0xD4B, [0xD47; 0xD3E]); (0xD4C, [0xD46; 0xD57]);
   (0xDDA, [0xDD9; 0xDCA]); (0xDDC, [0xDD9; 0xDCF]); (0xDDD, [0xDD9; 0xDCF; 0xDCA]);
   (0xDDE, [0xDD9; 0xDDF]); (0xF43, [0xF42; 0xFB7]); (0xF4D, [0xF4C; 0xFB7]);
   (0xF52, [0xF51; 0xFB7]); (0xF57, [0xF56; 0xFB7]); (0xF5C, [0xF5B; 0xFB7]);
   (0xF69, [0xF40; 0xFB5]); (0xF73, [0xF71; 0xF72]); (0xF75, [0xF71; 0xF74]);
   (0xF76, [0xFB2; 0xF80]); (0xF78, [0xFB3; 0xF80]); (0xF81, [0xF71; 0xF80]);
   (0xF93, [0xF92; 0xFB7]); (0xF9D, [0xF9C; 0xFB7]); (0xFA2, [0xFA1; 0xFB7]);
   (0xFA7, [0xFA6; 0xFB7]); (0xFAC, [0xFAB; 0xFB7]); (0xFB9, [0xF90; 0xFB5]);
   (0x1026, [0x1025; 0x102E]); (0x1B06, [0x1B05; 0x1B35]); (0x1B08, [0x1B07; 0x1B35]);
   (0x1B0A, [0x1B09; 0x1B35]); (0x1B0C, [0x1B0B; 0x1B35]); (0x1B0E, [0x1B0D; 0x1B35]);
   (0x1B12, [0x1B11; 0x1B35]); (0x1B3B, [0x1B3A; 0x1B35]); (0x1B3D, [0x1B3C; 0x1B35]);
   (0x1B40, [0x1B3E; 0x1B35]); (0x1B41, [0x1B3F; 0x1B35]); (0x1B43, [0x1B42; 0x1B35]);
   (0x1E00, [0x41; 0x325]); (0x1E01, [0x61; 0x325]); (0x1E02, [0x42; 0x307]);
   (0x1E03, [0x62; 0x307]); (0x1E04, [0x42; 0x323]); (0x1E05, [0x62; 0x323]);
   (0x1E06, [0x42; 0x331]); (0x1E07, [0x62; 0x331]); (0x1E08, [0x43; 0x327; 0x301]);
   (0x1E09, [0x63; 0x327; 0x301]); (0x1E0A, [0x44; 0x307]); (0x1E0B, [0x64; 0x307]);
   (0x1E0C, [0x44; 0x323]); (0x1E0D, [0x64; 0x323]); (0x1E0E, [0x44; 0x331]);
   (0x1E0F, [0x64; 0x331]); (0x1E10, [0x44; 0x327]); (0x1E11, [0x64; 0x327]);
   (0x1E12, [0x44; 0x32D]); (0x1E13, [0x64; 0x32D]); (0x1E14, [0x45; 0x304; 0x300]);
   (0x1E15, [0x65; 0x304; 0x300]); (0x1E16, [0x45; 0x304; 0x301]);
   (0x1E17, [0x65; 0x304; 0x301]); (0x1E18, [0x45; 0x32D]); (0x1E19, [0x65; 0x32D]);
   (0x1E1A, [0x45; 0x330]); (0x1E1B, [0x65; 0x330]); (0x1E1C, [0x45; 0x327; 0x306]);
   (0x1E1D, [0x65; 0x327; 0x306]); (0x1E1E, [0x46; 0x307]); (0x1E1F, [0x66; 0x307]);
   (0x1E20, [0x47; 0x304]); (0x1E21, [0x67; 0x304]); (0x1E22, [0x48; 0x307]);
   (0x1E23, [0x68; 0x307]); (0x1E24, [0x48; 0x323]); (0x1E25, [0x68; 0x323]);
   (0x1E26, [0x48; 0x308]); (0x1E27, [0x68; 0x308]); (0x1E28, [0x48; 0x327]);
   (0x1E29, [0x68; 0x327]); (0x1E2A, [0x48; 0x32E]); (0x1E2B, [0x68; 0x32E]);
   (0x1E2C, [0x49; 0x330]); (0x1E2D, [0x69; 0x330]); (0x1E2E, [0x49; 0x308; 0x301]);
   (0x1E2F, [0x69; 0x308; 0x301]); (0x1E30, [0x4B; 0x301]); (0x1E31, [0x6B; 0x301]);
   (0x1E32, [0x4B; 0x323]); (0x1E33, [0x6B; 0x323]); (0x1E34, [0x4B; 0x331]);
   (0x1E35, [0x6B; 0x331]); (0x1E36, [0x4C; 0x323]); (0x1E37, [0x6C; 0x323]);
   (0x1E38, [0x4C; 0x323; 0x304]); (0x1E39, [0x6C; 0x323; 0x304]); (0x1E3A, [0x4C; 0x331]);
   (0x1E3B, [0x6C; 0x331]); (0x1E3C, [0x4C; 0x32D]); (0x1E3D, [0x6C; 0x32D]);
   (0x1E3E, [0x4D; 0x301]); (0x1E3F, [0x6D; 0x301]); (0x1E40, [0x4D; 0x307]);
   (0x1E41, [0x6D; 0x307]); (0x1E42, [0x4D; 0x323]); (0x1E43, [0x6D; 0x323]);
   (0x1E44, [0x4E; 0x307]); (0x1E45, [0x6E; 0x307]); (0x1E46, [0x4E; 0x323]);
   (0x1E47, [0x6E; 0x323]); (0x1E48, [0x4E; 0x331]); (0x1E49, [0x6E; 0x331]);
   (0x1E4A, [0x4E; 0x32D]); (0x1E4B, [0x6E; 0x32D]); (0x1E4C, [0x4F; 0x303; 0x301]);
   (0x1E4D, [0x6F; 0x303; 0x301]); (0x1E4E, [0x4F; 0x303; 0x308]);
   (0x1E4F, [0x6F; 0x303; 0x308]); (0x1E50, [0x4F; 0x304; 0x300]);
   (0x1E51, [0x6F; 0x304; 0x300]); (0x1E52, [0x4F; 0x304; 0x301]);
   (0x1E53, [0x6F; 0x304; 0x301]); (0x1E54, [0x50; 0x301]); (0x1E55, [0x70; 0x301]);
   (0x1E56, [0x50; 0x307]); (0x1E57, [0x70; 0x307]); (0x1E58, [0x52; 0x307]);
   (0x1E59, [0x72; 0x307]); (0x1E5A, [0x52; 0x323]); (0x1E5B, [0x72; 0x323]);
   (0x1E5C, [0x52; 0x323; 0x304]); (0x1E5D, [0x72; 0x323; 0x304]); (0x1E5E, [0x52; 0x331]);
   (0x1E5F, [0x72; 0x331]); (0x1E60, [0x53; 0x307]); (0x1E61, [0x73; 0x307]);
   (0x1E62, [0x53; 0x323]); (0x1E63, [0x73; 0x323]); (0x1E64, [0x53; 0x301; 0x307]);
   (0x1E65, [0x73; 0x301; 0x307]); (0x1E66, [0x53; 0x30C; 0x307]);
   (0x1E67, [0x73; 0x30C; 0x307]); (0x1E68, [0x53; 0x323; 0x307]);
   (0x1E69, [0x73; 0x323; 0x307]); (0x1E6A, [0x54; 0x307]); (0x1E6B, [0x74; 0x307]);
   (0x1E6C, [0x54; 0x323]); (0x1E6D, [0x74; 0x323]); (0x1E6E, [0x54; 0x331]);
   (0x1E6F, [0x74; 0x331]); (0x1E70, [0x54; 0x32D]); (0x1E71, [0x74; 0x32D]);
   (0x1E72, [0x55; 0x324]); (0x1E73, [0x75; 0x324]); (0x1E74, [0x55; 0x330]);
   (0x1E75, [0x75; 0x330]); (0x1E76, [0x55; 0x32D]); (0x1E77, [0x75; 0x32D]);
   (0x1E78, [0x55; 0x303; 0x301]); (0x1E79, [0x75; 0x303; 0x301]);
   (0x1E7A, [0x55; 0x304; 0x308]); (0x1E7B, [0x75; 0x304; 0x308]); (0x1E7C, [0x56; 0x303]);
   (0x1E7D, [0x76; 0x303]); (0x1E7E, [0x56; 0x323]); (0x1E7F, [0x76; 0x323]);
   (0x1E80, [0x57; 0x300]); (0x1E81, [0x77; 0x300]); (0x1E82, [0x57; 0x301]);
   (0x1E83, [0x77; 0x301]); (0x1E84, [0x57; 0x308]); (0x1E85, [0x77; 0x308]);
   (0x1E86, [0x57; 0x307]); (0x1E87, [0x77; 0x307]); (0x1E88, [0x57; 0x323]);
   (0x1E89, [0x77; 0x323]); (0x1E8A, [0x58; 0x307]); (0x1E8B, [0x78; 0x307]);
   (0x1E8C, [0x58; 0x308]); (0x1E8D, [0x78; 0x308]); (0x1E8E, [0x59; 0x307]);
   (0x1E8F, [0x79; 0x307]); (0x1E90, [0x5A; 0x302]); (0x1E91, [0x7A; 0x302]);
   (0x1E92, [0x5A; 0x323]); (0x1E93, [0x7A; 0x323]); (0x1E94, [0x5A; 0x331]);
   (0x1E95, [0x7A; 0x331]); (0x1E96, [0x68; 0x331]); (0x1E97, [0x74; 0x308]);
   (0x1E98, [0x77; 0x30A]); (0x1E99, [0x79; 0x30A]); (0x1E9B, [0x17F; 0x307]);
   (0x1EA0, [0x41; 0x323]); (0x1EA1, [0x61; 0x323]); (0x1EA2, [0x41; 0x309]);
   (0x1EA3, [0x61; 0x309]); (0x1EA4, [0x41; 0x302; 0x301]); (0x1EA5, [0x61; 0x302; 0x301]);
   (0x1EA6, [0x41; 0x302; 0x300]); (0x1EA7, [0x61; 0x302; 0x300]);
   (0x1EA8, [0x41; 0x302; 0x309]); (0x1EA9, [0x61; 0x302; 0x309]);
   (0x1EAA, [0x41; 0x302; 0x303]); (0x1EAB, [0x61; 0x302; 0x303]);
   (0x1EAC, [0x41; 0x323; 0x302]); (0x1EAD, [0x61; 0x323; 0x302]);
   (0x1EAE, [0x41; 0x306; 0x301]); (0x1EAF, [0x61; 0x306; 0x301]);
   (0x1EB0, [0x41; 0x306; 0x300]); (0x1EB1, [0x61; 0x306; 0x300]);
   (0x1EB2, [0x41; 0x306; 0x309]); (0x1EB3, [0x61; 0x306; 0x309]);
   (0x1EB4, [0x41; 0x306; 0x303]); (0x1EB5, [0x61; 0x306; 0x303]);
   (0x1EB6, [0x41; 0x323; 0x306]); (0x1EB7, [0x61; 0x323; 0x306]); (0x1EB8, [0x45; 0x323]);
   (0x1EB9, [0x65; 0x323]); (0x1EBA, [0x45; 0x309]); (0x1EBB, [0x65; 0x309]);
   (0x1EBC, [0x45; 0x303]); (0x1EBD, [0x65; 0x303]); (0x1EBE, [0x45; 0x302; 0x301]);
   (0x1EBF, [0x65; 0x302; 0x301]); (0x1EC0, [0x45; 0x302; 0x300]);
   (0x1EC1, [0x65; 0x302; 0x300]); (0x1EC2, [0x45; 0x302; 0x309]);
   (0x1EC3, [0x65; 0x302; 0x309]); (0x1EC4, [0x45; 0x302; 0x303]);
   (0x1EC5, [0x65; 0x302; 0x303]); (0x1EC6, [0x45; 0x323; 0x302]);
   (0x1EC7, [0x65; 0x323; 0x302]); (0x1EC8, [0x49; 0x309]); (0x1EC9, [0x69; 0x309]);
   (0x1ECA, [0x49; 0x323]); (0x1ECB, [0x69; 0x323]); (0x1ECC, [0x4F; 0x323]);
   (0x1ECD, [0x6F; 0x323]); (0x1ECE, [0x4F; 0x309]); (0x1ECF, [0x6F; 0x309]);
   (0x1ED0, [0x4F; 0x302; 0x301]); (0x1ED1, [0x6F; 0x302; 0x301]);
   (0x1ED2, [0x4F; 0x302; 0x300]); (0x1ED3, [0x6F; 0x302; 0x300]);
   (0x1ED4, [0x4F; 0x302; 0x309]); (0x1ED5, [0x6F; 0x302; 0x309]);
   (0x1ED6, [0x4F; 0x302; 0x303]); (0x1ED7, [0x6F; 0x302; 0x303]);
   (0x1ED8, [0x4F; 0x323; 0x302]); (0x1ED9, [0x6F; 0x323; 0x302]);
   (0x1EDA, [0x4F; 0x31B; 0x301]); (0x1EDB, [0x6F; 0x31B; 0x301]);
   (0x1EDC, [0x4F; 0x31B; 0x300]); (0x1EDD, [0x6F; 0x31B; 0x300]);
   (0x1EDE, [0x4F; 0x31B; 0x309]); (0x1EDF, [0x6F; 0x31B; 0x309]);
   (0x1EE0, [0x4F; 0x31B; 0x303]); (0x1EE1, [0x6F; 0x31B; 0x303]);
   (0x1EE2, [0x4F; 0x31B; 0x323]); (0x1EE3, [0x6F; 0x31B; 0x323]); (0x1EE4, [0x55; 0x323]);
   (0x1EE5, [0x75; 0x323]); (0x1EE6, [0x55; 0x309]); (0x1EE7, [0x75; 0x309]);
   (0x1EE8, [0x55; 0x31B; 0x301]); (0x1EE9, [0x75; 0x31B; 0x301]);
   (0x1EEA, [0x55; 0x31B; 0x300]); (0x1EEB, [0x75; 0x31B; 0x300]);
   (0x1EEC, [0x55; 0x31B; 0x309]); (0x1EED, [0x75; 0x31B; 0x309]);
   (0x1EEE, [0x55; 0x31B; 0x303]); (0x1EEF, [0x75; 0x31B; 0x303]);
   (0x1EF0, [0x55; 0x31B; 0x323]); (0x1EF1, [0x75; 0x31B; 0x323]); (0x1EF2, [0x59; 0x300]);
   (0x1EF3, [0x79; 0x300]); (0x1EF4, [0x59; 0x323]); (0x1EF5, [0x79; 0x323]);
   (0x1EF6, [0x59; 0x309]); (0x1EF7, [0x79; 0x309]); (0x1EF8, [0x59; 0x303]);
   (0x1EF9, [0x79; 0x303]); (0x1F00, [0x3B1; 0x313]); (0x1F01, [0x3B1; 0x314]);
   (0x1F02, [0x3B1; 0x313; 0x300]); (0x1F03, [0x3B1; 0x314; 0x300]);
   (0x1F04, [0x3B1; 0x313; 0x301]); (0x1F05, [0x3B1; 0x314; 0x301]);
   (0x1F06, [0x3B1; 0x313; 0x342]); (0x1F07, [0x3B1; 0x314; 0x342]); (0x1F08, [0x391; 0x313]);
   (0x1F09, [0x391; 0x314]); (0x1F0A, [0x391; 0x313; 0x300]); (0x1F0B, [0x391; 0x314; 0x300]);
   (0x1F0C, [0x391; 0x313; 0x301]); (0x1F0D, [0x391; 0x314; 0x301]);
   (0x1F0E, [0x391; 0x313; 0x342]); (0x1F0F, [0x391; 0x314; 0x342]); (0x1F10, [0x3B5; 0x313]);
   (0x1F11, [0x3B5; 0x314]); (0x1F12, [0x3B5; 0x313; 0x300]); (0x1F13, [0x3B5; 0x314; 0x300]);
   (0x1F14, [0x3B5; 0x313; 0x301]); (0x1F15, [0x3B5; 0x314; 0x301]); (0x1F18, [0x395; 0x313]);
   (0x1F19, [0x395; 0x314]); (0x1F1A, [0x395; 0x313; 0x300]); (0x1F1B, [0x395; 0x314; 0x300]);
   (0x1F1C, [0x395; 0x313; 0x301]); (0x1F1D, [0x395; 0x314; 0x301]); (0x1F20, [0x3B7; 0x313]);
   (0x1F21, [0x3B7; 0x314]); (0x1F22, [0x3B7; 0x313; 0x300]); (0x1F23, [0x3B7; 0x314; 0x300]);
   (0x1F24, [0x3B7; 0x313; 0x301]); (0x1F25, [0x3B7; 0x314; 0x301]);
   (0x1F26, [0x3B7; 0x313; 0x342]); (0x1F27, [0x3B7; 0x314; 0x342]); (0x1F28, [0x397; 0x313]);
   (0x1F29, [0x397; 0x314]); (0x1F2A, [0x397; 0x313; 0x300]); (0x1F2B, [0x397; 0x314; 0x300]);
   (0x1F2C, [0x397; 0x313; 0x301]); (0x1F2D, [0x397; 0x314; 0x301]);
   (0x1F2E, [0x397; 0x313; 0x342]); (0x1F2F, [0x397; 0x314; 0x342]); (0x1F30, [0x3B9; 0x313]);
   (0x1F31, [0x3B9; 0x314]); (0x1F32, [0x3B9; 0x313; 0x300]); (0x1F33, [0x3B9; 0x314; 0x300]);
   (0x1F34, [0x3B9; 0x313; 0x301]); (0x1F35, [0x3B9; 0x314; 0x301]);
   (0x1F36, [0x3B9; 0x313; 0x342]); (0x1F37, [0x3B9; 0x314; 0x342]); (0x1F38, [0x399; 0x313]);
   (0x1F39, [0x399; 0x314]); (0x1F3A, [0x399; 0x313; 0x300]); (0x1F3B, [0x399; 0x314; 0x300]);
   (0x1F3C, [0x399; 0x313; 0x301]); (0x1F3D, [0x399; 0x314; 0x301]);
   (0x1F3E, [0x399; 0x313; 0x342]); (0x1F3F, [0x399; 0x314; 0x342]); (0x1F40, [0x3BF; 0x313]);
   (0x1F41, [0x3BF; 0x314]); (0x1F42, [0x3BF; 0x313; 0x300]); (0x1F43, [0x3BF; 0x314; 0x300]);
   (0x1F44, [0x3BF; 0x313; 0x301]); (0x1F45, [0x3BF; 0x314; 0x301]); (0x1F48, [0x39F; 0x313]);
   (0x1F49, [0x39F; 0x314]); (0x1F4A, [0x39F; 0x313; 0x300]); (0x1F4B, [0x39F; 0x314; 0x300]);
   (0x1F4C, [0x39F; 0x313; 0x301]); (0x1F4D, [0x39F; 0x314; 0x301]); (0x1F50, [0x3C5; 0x313]);
   (0x1F51, [0x3C5; 0x314]); (0x1F52, [0x3C5; 0x313; 0x300]); (0x1F53, [0x3C5; 0x314; 0x300]);
   (0x1F54, [0x3C5; 0x313; 0x301]); (0x1F55, [0x3C5; 0x314; 0x301]);
   (0x1F56, [0x3C5; 0x313; 0x342]); (0x1F57, [0x3C5; 0x314; 0x342]); (0x1F59, [0x3A5; 0x314]);
   (0x1F5B, [0x3A5; 0x314; 0x300]); (0x1F5D, [0x3A5; 0x314; 0x301]);
   (0x1F5F, [0x3A5; 0x314; 0x342]); (0x1F60, [0x3C9; 0x313]); (0x1F61, [0x3C9; 0x314]);
   (0x1F62, [0x3C9; 0x313; 0x300]); (0x1F63, [0x3C9; 0x314; 0x300]);
   (0x1F64, [0x3C9; 0x313; 0x301]); (0x1F65, [0x3C9; 0x314; 0x301]);
   (0x1F66, [0x3C9; 0x313; 0x342]); (0x1F67, [0x3C9; 0x314; 0x342]); (0x1F68, [0x3A9; 0x313]);
   (0x1F69, [0x3A9; 0x314]); (0x1F6A, [0x3A9; 0x313; 0x300]); (0x1F6B, [0x3A9; 0x314; 0x300]);
   (0x1F6C, [0x3A9; 0x313; 0x301]); (0x1F6D, [0x3A9; 0x314; 0x301]);
   (0x1F6E, [0x3A9; 0x313; 0x342]); (0x1F6F, [0x3A9; 0x314; 0x342]); (0x1F70, [0x3B1; 0x300]);
   (0x1F71, [0x3B1; 0x301]); (0x1F72, [0x3B5; 0x300]); (0x1F73, [0x3B5; 0x301]);
   (0x1F74, [0x3B7; 0x300]); (0x1F75, [0x3B7; 0x301]); (0x1F76, [0x3B9; 0x300]);
   (0x1F77, [0x3B9; 0x301]); (0x1F78, [0x3BF; 0x300]); (0x1F79, [0x3BF; 0x301]);
   (0x1F7A, [0x3C5; 0x300]); (0x1F7B, [0x3C5; 0x301]); (0x1F7C, [0x3C9; 0x300]);
   (0x1F7D, [0x3C9; 0x301]); (0x1F80, [0x3B1; 0x313; 0x345]); (0x1F81, [0x3B1; 0x314; 0x345]);
   (0x1F82, [0x3B1; 0x313; 0x300; 0x345]); (0x1F83, [0x3B1; 0x314; 0x300; 0x345]);
   (0x1F84, [0x3B1; 0x313; 0x301; 0x345]); (0x1F85, [0x3B1; 0x314; 0x301; 0x345]);
   (0x1F86, [0x3B1; 0x313; 0x342; 0x345]); (0x1F87, [0x3B1; 0x314; 0x342; 0x345]);
   (0x1F88, [0x391; 0x313; 0x345]); (0x1F89, [0x391; 0x314; 0x345]);
   (0x1F8A, [0x391; 0x313; 0x300; 0x345]); (0x1F8B, [0x391; 0x314; 0x300; 0x345]);
   (0x1F8C, [0x391; 0x313; 0x301; 0x345]); (0x1F8D, [0x391; 0x314; 0x301; 0x345]);
   (0x1F8E, [0x391; 0x313; 0x342; 0x345]); (0x1F8F, [0x391; 0x314; 0x342; 0x345]);
   (0x1F90, [0x3B7; 0x313; 0x345]); (0x1F91, [0x3B7; 0x314; 0x345]);
   (0x1F92, [0x3B7; 0x313; 0x300; 0x345]); (0x1F93, [0x3B7; 0x314; 0x300; 0x345]);
   (0x1F94, [0x3B7; 0x313; 0x301; 0x345]); (0x1F95, [0x3B7; 0x314; 0x301; 0x345]);
   (0x1F96, [0x3B7; 0x313; 0x342; 0x345]); (0x1F97, [0x3B7; 0x314; 0x342; 0x345]);
   (0x1F98, [0x397; 0x313; 0x345]); (0x1F99, [0x397; 0x314; 0x345]);
   (0x1F9A, [0x397; 0x313; 0x300; 0x345]); (0x1F9B, [0x397; 0x314; 0x300; 0x345]);
   (0x1F9C, [0x397; 0x313; 0x301; 0x345]); (0x1F9D, [0x397; 0x314; 0x301; 0x345]);
   (0x1F9E, [0x397; 0x313; 0x342; 0x345]); (0x1F9F, [0x397; 0x314; 0x342; 0x345]);
   (0x1FA0, [0x3C9; 0x313; 0x345]); (0x1FA1, [0x3C9; 0x314; 0x345]);
   (0x1FA2, [0x3C9; 0x313; 0x300; 0x345]); (0x1FA3, [0x3C9; 0x314; 0x300; 0x345]);
   (0x1FA4, [0x3C9; 0x313; 0x301; 0x345]); (0x1FA5, [0x3C9; 0x314; 0x301; 0x345]);
   (0x1FA6, [0x3C9; 0x313; 0x342; 0x345]); (0x1FA7, [0x3C9; 0x314; 0x342; 0x345]);
   (0x1FA8, [0x3A9; 0x313; 0x345]); (0x1FA9, [0x3A9; 0x314; 0x345]);
   (0x1FAA, [0x3A9; 0x313; 0x300; 0x345]); (0x1FAB, [0x3A9; 0x314; 0x300; 0x345]);
   (0x1FAC, [0x3A9; 0x313; 0x301; 0x345]); (0x1FAD, [0x3A9; 0x314; 0x301; 0x345]);
   (0x1FAE, [0x3A9; 0x313; 0x342; 0x345]); (0x1FAF, [0x3A9; 0x314; 0x342; 0x345]);
   (0x1FB0, [0x3B1; 0x306]); (0x1FB1, [0x3B1; 0x304]); (0x1FB2, [0x3B1; 0x300; 0x345]);
   (0x1FB3, [0x3B1; 0x345]); (0x1FB4, [0x3B1; 0x301; 0x345]); (0x1FB6, [0x3B1; 0x342]);
   (0x1FB7, [0x3B1; 0x342; 0x345]); (0x1FB8, [0x391; 0x306]); (0x1FB9, [0x391; 0x304]);
   (0x1FBA, [0x391; 0x300]); (0x1FBB, [0x391; 0x301]); (0x1FBC, [0x391; 0x345]);
   (0x1FBE, [0x3B9]); (0x1FC1, [0xA8; 0x342]); (0x1FC2, [0x3B7; 0x300; 0x345]);
   (0x1FC3, [0x3B7; 0x345]); (0x1FC4, [0x3B7; 0x301; 0x345]); (0x1FC6, [0x3B7; 0x342]);
   (0x1FC7, [0x3B7; 0x342; 0x345]); (0x1FC8, [0x395; 0x300]); (0x1FC9, [0x395; 0x301]);
   (0x1FCA, [0x397; 0x300]); (0x1FCB, [0x397; 0x301]); (0x1FCC, [0x397; 0x345]);
   (0x1FCD, [0x1FBF; 0x300]); (0x1FCE, [0x1FBF; 0x301]); (0x1FCF, [0x1FBF; 0x342]);
   (0x1FD0, [0x3B9; 0x306]); (0x1FD1, [0x3B9; 0x304]); (0x1FD2, [0x3B9; 0x308; 0x300]);
   (0x1FD3, [0x3B9; 0x308; 0x301]); (0x1FD6, [0x3B9; 0x342]); (0x1FD7, [0x3B9; 0x308; 0x342]);
   (0x1FD8, [0x399; 0x306]); (0x1FD9, [0x399; 0x304]); (0x1FDA, [0x399; 0x300]);
   (0x1FDB, [0x399; 0x301]); (0x1FDD, [0x1FFE; 0x300]); (0x1FDE, [0x1FFE; 0x301]);
   (0x1FDF, [0x1FFE; 0x342]); (0x1FE0, [0x3C5; 0x306]); (0x1FE1, [0x3C5; 0x304]);
   (0x1FE2, [0x3C5; 0x308; 0x300]); (0x1FE3, [0x3C5; 0x308; 0x301]); (0x1FE4, [0x3C1; 0x313]);
   (0x1FE5, [0x3C1; 0x314]); (0x1FE6, [0x3C5; 0x342]); (0x1FE7, [0x3C5; 0x308; 0x342]);
   (0x1FE8, [0x3A5; 0x306]); (0x1FE9, [0x3A5; 0x304]); (0x1FEA, [0x3A5; 0x300]);
   (0x1FEB, [0x3A5; 0x301]); (0x1FEC, [0x3A1; 0x314]); (0x1FED, [0xA8; 0x300]);
   (0x1FEE, [0xA8; 0x301]); (0x1FEF, [0x60]); (0x1FF2, [0x3C9; 0x300; 0x345]);
   (0x1FF3, [0x3C9; 0x345]); (0x1FF4, [0x3C9; 0x301; 0x345]); (0x1FF6, [0x3C9; 0x342]);
   (0x1FF7, [0x3C9; 0x342; 0x345]); (0x1FF8, [0x39F; 0x300]); (0x1FF9, [0x39F; 0x301]);
   (0x1FFA, [0x3A9; 0x300]); (0x1FFB, [0x3A9; 0x301]); (0x1FFC, [0x3A9; 0x345]);
   (0x1FFD, [0xB4]); (0x2000, [0x2002]); (0x2001, [0x2003]); (0x2126, [0x3A9]);
   (0x212A, [0x4B]); (0x212B, [0x41; 0x30A]); (0x219A, [0x2190; 0x338]);
   (0x219B, [0x2192; 0x338]); (0x21AE, [0x2194; 0x338]); (0x21CD, [0x21D0; 0x338]);
   (0x21CE, [0x21D4; 0x338]); (0x21CF, [0x21D2; 0x338]); (0x2204, [0x2203; 0x338]);
   (0x2209, [0x2208; 0x338]); (0x220C, [0x220B; 0x338]); (0x2224, [0x2223; 0x338]);
   (0x2226, [0x2225; 0x338]); (0x2241, [0x223C; 0x338]); (0x2244, [0x2243; 0x338]);
   (0x2247, [0x2245; 0x338]); (0x2249, [0x2248; 0x338]); (0x2260, [0x3D; 0x338]);
   (0x2262, [0x2261; 0x338]); (0x226D, [0x224D; 0x338]); (0x226E, [0x3C; 0x338]);
   (0x226F, [0x3E; 0x338]); (0x2270, [0x2264; 0x338]); (0x2271, [0x2265; 0x338]);
   (0x2274, [0x2272; 0x338]); (0x2275, [0x2273; 0x338]); (0x2278, [0x2276; 0x338]);
   (0x2279, [0x2277; 0x338]); (0x2280, [0x227A; 0x338]); (0x2281, [0x227B; 0x338]);
   (0x2284, [0x2282; 0x338]); (0x2285, [0x2283; 0x338]); (0x2288, [0x2286; 0x338]);
   (0x2289, [0x2287; 0x338]); (0x22AC, [0x22A2; 0x338]); (0x22AD, [0x22A8; 0x338]);
   (0x22AE, [0x22A9; 0x338]); (0x22AF, [0x22AB; 0x338]); (0x22E0, [0x227C; 0x338]);
   (0x22E1, [0x227D; 0x338]); (0x22E2, [0x2291; 0x338]); (0x22E3, [0x2292; 0x338]);
   (0x22EA, [0x22B2; 0x338]); (0x22EB, [0x22B3; 0x338]); (0x22EC, [0x22B4; 0x338]);
   (0x22ED, [0x22B5; 0x338]); (0x2329, [0x3008]); (0x232A, [0x3009]);
   (0x2ADC, [0x2ADD; 0x338]); (0x304C, [0x304B; 0x3099]); (0x304E, [0x304D; 0x3099]);
   (0x3050, [0x304F; 0x3099]); (0x3052, [0x3051; 0x3099]); (0x3054, [0x3053; 0x3099]);
   (0x3056, [0x3055; 0x3099]); (0x3058, [0x3057; 0x3099]); (0x305A, [0x3059; 0x3099]);
   (0x305C, [0x305B; 0x3099]); (0x305E, [0x305D; 0x3099]); (0x3060, [0x305F; 0x3099]);
   (0x3062, [0x3061; 0x3099]); (0x3065, [0x3064; 0x3099]); (0x3067, [0x3066; 0x3099]);
   (0x3069, [0x3068; 0x3099]); (0x3070, [0x306F; 0x3099]); (0x3071, [0x306F; 0x309A]);
   (0x3073, [0x3072; 0x3099]); (0x3074, [0x3072; 0x309A]); (0x3076, [0x3075; 0x3099]);
   (0x3077, [0x3075; 0x309A]); (0x3079, [0x3078; 0x3099]); (0x307A, [0x3078; 0x309A]);
   (0x307C, [0x307B; 0x3099]); (0x307D, [0x307B; 0x309A]); (0x3094, [0x3046; 0x3099]);
   (0x309E, [0x309D; 0x3099]); (0x30AC, [0x30AB; 0x3099]); (0x30AE, [0x30AD; 0x3099]);
   (0x30B0, [0x30AF; 0x3099]); (0x30B2, [0x30B1; 0x3099]); (0x30B4, [0x30B3; 0x3099]);
   (0x30B6, [0x30B5; 0x3099]); (0x30B8, [0x30B7; 0x3099]); (0x30BA, [0x30B9; 0x3099]);
   (0x30BC, [0x30BB; 0x3099]); (0x30BE, [0x30BD; 0x3099]); (0x30C0, [0x30BF; 0x3099]);
   (0x30C2, [0x30C1; 0x3099]); (0x30C5, [0x30C4; 0x3099]); (0x30C7, [0x30C6; 0x3099]);
   (0x30C9, [0x30C8; 0x3099]); (0x30D0, [0x30CF; 0x3099]); (0x30D1, [0x30CF; 0x309A]);
   (0x30D3, [0x30D2; 0x3099]); (0x30D4, [0x30D2; 0x309A]); (0x30D6, [0x30D5; 0x3099]);
   (0x30D7, [0x30D5; 0x309A]); (0x30D9, [0x30D8; 0x3099]); (0x30DA, [0x30D8; 0x309A]);
   (0x30DC, [0x30DB; 0x3099]); (0x30DD, [0x30DB; 0x309A]); (0x30F4, [0x30A6; 0x3099]);
   (0x30F7, [0x30EF; 0x3099]); (0x30F8, [0x30F0; 0x3099]); (0x30F9, [0x30F1; 0x3099]);
   (0x30FA, [0x30F2; 0x3099]); (0x30FE, [0x30FD; 0x3099]); (0xF900, [0x8C48]);
   (0xF901, [0x66F4]); (0xF902, [0x8ECA]); (0xF903, [0x8CC8]); (0xF904, [0x6ED1]);
   (0xF905, [0x4E32]); (0xF906, [0x53E5]); (0xF907, [0x9F9C]); (0xF908, [0x9F9C]);
   (0xF909, [0x5951]); (0xF90A, [0x91D1]); (0xF90B, [0x5587]); (0xF90C, [0x5948]);
   (0xF90D, [0x61F6]); (0xF90E, [0x7669]); (0xF90F, [0x7F85]); (0xF910, [0x863F]);
   (0xF911, [0x87BA]); (0xF912, [0x88F8]); (0xF913, [0x908F]); (0xF914, [0x6A02]);
   (0xF915, [0x6D1B]); (0xF916, [0x70D9]); (0xF917, [0x73DE]); (0xF918, [0x843D]);
   (0xF919, [0x916A]); (0xF91A, [0x99F1]); (0xF91B, [0x4E82]); (0xF91C, [0x5375]);
   (0xF91D, [0x6B04]); (0xF91E, [0x721B]); (0xF91F, [0x862D]); (0xF920, [0x9E1E]);
   (0xF921, [0x5D50]); (0xF922, [0x6FEB]); (0xF923, [0x85CD]); (0xF924, [0x8964]);
   (0xF925, [0x62C9]); (0xF926, [0x81D8]); (0xF927, [0x881F]); (0xF928, [0x5ECA]);
   (0xF929, [0x6717]); (0xF92A, [0x6D6A]); (0xF92B, [0x72FC]); (0xF92C, [0x90CE]);
   (0xF92D, [0x4F86]); (0xF92E, [0x51B7]); (0xF92F, [0x52DE]); (0xF930, [0x64C4]);
   (0xF931, [0x6AD3]); (0xF932, [0x7210]); (0xF933, [0x76E7]); (0xF934, [0x8001]);
   (0xF935, [0x8606]); (0xF936, [0x865C]); (0xF937, [0x8DEF]); (0xF938, [0x9732]);
   (0xF939, [0x9B6F]); (0xF93A, [0x9DFA]); (0xF93B, [0x788C]); (0xF93C, [0x797F]);
   (0xF93D, [0x7DA0]); (0xF93E, [0x83C9]); (0xF93F, [0x9304]); (0xF940, [0x9E7F]);
   (0xF941, [0x8AD6]); (0xF942, [0x58DF]); (0xF943, [0x5F04]); (0xF944, [0x7C60]);
   (0xF945, [0x807E]); (0xF946, [0x7262]); (0xF947, [0x78CA]); (0xF948, [0x8CC2]);
   (0xF949, [0x96F7]); (0xF94A, [0x58D8]); (0xF94B, [0x5C62]); (0xF94C, [0x6A13]);
   (0xF94D, [0x6DDA]); (0xF94E, [0x6F0F]); (0xF94F, [0x7D2F]); (0xF950, [0x7E37]);
   (0xF951, [0x964B]); (0xF952, [0x52D2]); (0xF953, [0x808B]); (0xF954, [0x51DC]);
   (0xF955, [0x51CC]); (0xF956, [0x7A1C]); (0xF957, [0x7DBE]); (0xF958, [0x83F1]);
   (0xF959, [0x9675]); (0xF95A, [0x8B80]); (0xF95B, [0x62CF]); (0xF95C, [0x6A02]);
   (0xF95D, [0x8AFE]); (0xF95E, [0x4E39]); (0xF95F, [0x5BE7]); (0xF960, [0x6012]);
   (0xF961, [0x7387]); (0xF962, [0x7570]); (0xF963, [0x5317]); (0xF964, [0x78FB]);
   (0xF965, [0x4FBF]); (0xF966, [0x5FA9]); (0xF967, [0x4E0D]); (0xF968, [0x6CCC]);
   (0xF969, [0x6578]); (0xF96A, [0x7D22]); (0xF96B, [0x53C3]); (0xF96C, [0x585E]);
   (0xF96D, [0x7701]); (0xF96E, [0x8449]); (0xF96F, [0x8AAA]); (0xF970, [0x6BBA]);
   (0xF971, [0x8FB0]); (0xF972, [0x6C88]); (0xF973, [0x62FE]); (0xF974, [0x82E5]);
   (0xF975, [0x63A0]); (0xF976, [0x7565]); (0xF977, [0x4EAE]); (0xF978, [0x5169]);
   (0xF979, [0x51C9]); (0xF97A, [0x6881]); (0xF97B, [0x7CE7]); (0xF97C, [0x826F]);
   (0xF97D, [0x8AD2]); (0xF97E, [0x91CF]); (0xF97F, [0x52F5]); (0xF980, [0x5442]);
   (0xF981, [0x5973]); (0xF982, [0x5EEC]); (0xF983, [0x65C5]); (0xF984, [0x6FFE]);
   (0xF985, [0x792A]); (0xF986, [0x95AD]); (0xF987, [0x9A6A]); (0xF988, [0x9E97]);
   (0xF989, [0x9ECE]); (0xF98A, [0x529B]); (0xF98B, [0x66C6]); (0xF98C, [0x6B77]);
   (0xF98D, [0x8F62]); (0xF98E, [0x5E74]); (0xF98F, [0x6190]); (0xF990, [0x6200]);
   (0xF991, [0x649A]); (0xF992, [0x6F23]); (0xF993, [0x7149]); (0xF994, [0x7489]);
   (0xF995, [0x79CA]); (0xF996, [0x7DF4]); (0xF997, [0x806F]); (0xF998, [0x8F26]);
   (0xF999, [0x84EE]); (0xF99A, [0x9023]); (0xF99B, [0x934A]); (0xF99C, [0x5217]);
   (0xF99D, [0x52A3]); (0xF99E, [0x54BD]); (0xF99F, [0x70C8]); (0xF9A0, [0x88C2]);
   (0xF9A1, [0x8AAA]); (0xF9A2, [0x5EC9]); (0xF9A3, [0x5FF5]); (0xF9A4, [0x637B]);
   (0xF9A5, [0x6BAE]); (0xF9A6, [0x7C3E]); (0xF9A7, [0x7375]); (0xF9A8, [0x4EE4]);
   (0xF9A9, [0x56F9]); (0xF9AA, [0x5BE7]); (0xF9AB, [0x5DBA]); (0xF9AC, [0x601C]);
   (0xF9AD, [0x73B2]); (0xF9AE, [0x7469]); (0xF9AF, [0x7F9A]); (0xF9B0, [0x8046]);
   (0xF9B1, [0x9234]); (0xF9B2, [0x96F6]); (0xF9B3, [0x9748]); (0xF9B4, [0x9818]);
   (0xF9B5, [0x4F8B]); (0xF9B6, [0x79AE]); (0xF9B7, [0x91B4]); (0xF9B8, [0x96B8]);
   (0xF9B9, [0x60E1]); (0xF9BA, [0x4E86]); (0xF9BB, [0x50DA]); (0xF9BC, [0x5BEE]);
   (0xF9BD, [0x5C3F]); (0xF9BE, [0x6599]); (0xF9BF, [0x6A02]); (0xF9C0, [0x71CE]);
   (0xF9C1, [0x7642]); (0xF9C2, [0x84FC]); (0xF9C3, [0x907C]); (0xF9C4, [0x9F8D]);
   (0xF9C5, [0x6688]); (0xF9C6, [0x962E]); (0xF9C7, [0x5289]); (0xF9C8, [0x677B]);
   (0xF9C9, [0x67F3]); (0xF9CA, [0x6D41]); (0xF9CB, [0x6E9C]); (0xF9CC, [0x7409]);
   (0xF9CD, [0x7559]); (0xF9CE, [0x786B]); (0xF9CF, [0x7D10]); (0xF9D0, [0x985E]);
   (0xF9D1, [0x516D]); (0xF9D2, [0x622E]); (0xF9D3, [0x9678]); (0xF9D4, [0x502B]);
   (0xF9D5, [0x5D19]); (0xF9D6, [0x6DEA]); (0xF9D7, [0x8F2A]); (0xF9D8, [0x5F8B]);
   (0xF9D9, [0x6144]); (0xF9DA, [0x6817]); (0xF9DB, [0x7387]); (0xF9DC, [0x9686]);
   (0xF9DD, [0x5229]); (0xF9DE, [0x540F]); (0xF9DF, [0x5C65]); (0xF9E0, [0x6613]);
   (0xF9E1, [0x674E]); (0xF9E2, [0x68A8]); (0xF9E3, [0x6CE5]); (0xF9E4, [0x7406]);
   (0xF9E5, [0x75E2]); (0xF9E6, [0x7F79]); (0xF9E7, [0x88CF]); (0xF9E8, [0x88E1]);
   (0xF9E9, [0x91CC]); (0xF9EA, [0x96E2]); (0xF9EB, [0x533F]); (0xF9EC, [0x6EBA]);
   (0xF9ED, [0x541D]); (0xF9EE, [0x71D0]); (0xF9EF, [0x7498]); (0xF9F0, [0x85FA]);
   (0xF9F1, [0x96A3]); (0xF9F2, [0x9C57]); (0xF9F3, [0x9E9F]); (0xF9F4, [0x6797]);
   (0xF9F5, [0x6DCB]); (0xF9F6, [0x81E8]); (0xF9F7, [0x7ACB]); (0xF9F8, [0x7B20]);
   (0xF9F9, [0x7C92]); (0xF9FA, [0x72C0]); (0xF9FB, [0x7099]); (0xF9FC, [0x8B58]);
   (0xF9FD, [0x4EC0]); (0xF9FE, [0x8336]); (0xF9FF, [0x523A]); (0xFA00, [0x5207]);
   (0xFA01, [0x5EA6]); (0xFA02, [0x62D3]); (0xFA03, [0x7CD6]); (0xFA04, [0x5B85]);
   (0xFA05, [0x6D1E]); (0xFA06, [0x66B4]); (0xFA07, [0x8F3B]); (0xFA08, [0x884C]);
   (0xFA09, [0x964D]); (0xFA0A, [0x898B]); (0xFA0B, [0x5ED3]); (0xFA0C, [0x5140]);
   (0xFA0D, [0x55C0]); (0xFA10, [0x585A]); (0xFA12, [0x6674]); (0xFA15, [0x51DE]);
   (0xFA16, [0x732A]); (0xFA17, [0x76CA]); (0xFA18, [0x793C]); (0xFA19, [0x795E]);
   (0xFA1A, [0x7965]); (0xFA1B, [0x798F]); (0xFA1C, [0x9756]); (0xFA1D, [0x7CBE]);
   (0xFA1E, [0x7FBD]); (0xFA20, [0x8612]); (0xFA22, [0x8AF8]); (0xFA25, [0x9038]);
   (0xFA26, [0x90FD]); (0xFA2A, [0x98EF]); (0xFA2B, [0x98FC]); (0xFA2C, [0x9928]);
   (0xFA2D, [0x9DB4]); (0xFA2E, [0x90DE]); (0xFA2F, [0x96B7]); (0xFA30, [0x4FAE]);
   (0xFA31, [0x50E7]); (0xFA32, [0x514D]); (0xFA33, [0x52C9]); (0xFA34, [0x52E4]);
   (0xFA35, [0x5351]); (0xFA36, [0x559D]); (0xFA37, [0x5606]); (0xFA38, [0x5668]);
   (0xFA39, [0x5840]); (0xFA3A, [0x58A8]); (0xFA3B, [0x5C64]); (0xFA3C, [0x5C6E]);
   (0xFA3D, [0x6094]); (0xFA3E, [0x6168]); (0xFA3F, [0x618E]); (0xFA40, [0x61F2]);
   (0xFA41, [0x654F]); (0xFA42, [0x65E2]); (0xFA43, [0x6691]); (0xFA44, [0x6885]);
   (0xFA45, [0x6D77]); (0xFA46, [0x6E1A]); (0xFA47, [0x6F22]); (0xFA48, [0x716E]);
   (0xFA49, [0x722B]); (0xFA4A, [0x7422]); (0xFA4B, [0x7891]); (0xFA4C, [0x793E]);
   (0xFA4D, [0x7949]); (0xFA4E, [0x7948]); (0xFA4F, [0x7950]); (0xFA50, [0x7956]);
   (0xFA51, [0x795D]); (0xFA52, [0x798D]); (0xFA53, [0x798E]); (0xFA54, [0x7A40]);
   (0xFA55, [0x7A81]); (0xFA56, [0x7BC0]); (0xFA57, [0x7DF4]); (0xFA58, [0x7E09]);
   (0xFA59, [0x7E41]); (0xFA5A, [0x7F72]); (0xFA5B, [0x8005]); (0xFA5C, [0x81ED]);
   (0xFA5D, [0x8279]); (0xFA5E, [0x8279]); (0xFA5F, [0x8457]); (0xFA60, [0x8910]);
   (0xFA61, [0x8996]); (0xFA62, [0x8B01]); (0xFA63, [0x8B39]); (0xFA64, [0x8CD3]);
   (0xFA65, [0x8D08]); (0xFA66, [0x8FB6]); (0xFA67, [0x9038]); (0xFA68, [0x96E3]);
   (0xFA69, [0x97FF]); (0xFA6A, [0x983B]); (0xFA6B, [0x6075]); (0xFA6C, [0x242EE]);
   (0xFA6D, [0x8218]); (0xFA70, [0x4E26]); (0xFA71, [0x51B5]); (0xFA72, [0x5168]);
   (0xFA73, [0x4F80]); (0xFA74, [0x5145]); (0xFA75, [0x5180]); (0xFA76, [0x52C7]);
   (0xFA77, [0x52FA]); (0xFA78, [0x559D]); (0xFA79, [0x5555]); (0xFA7A, [0x5599]);
   (0xFA7B, [0x55E2]); (0xFA7C, [0x585A]); (0xFA7D, [0x58B3]); (0xFA7E, [0x5944]);
   (0xFA7F, [0x5954]); (0xFA80, [0x5A62]); (0xFA81, [0x5B28]); (0xFA82, [0x5ED2]);
   (0xFA83, [0x5ED9]); (0xFA84, [0x5F69]); (0xFA85, [0x5FAD]); (0xFA86, [0x60D8]);
   (0xFA87, [0x614E]); (0xFA88, [0x6108]); (0xFA89, [0x618E]); (0xFA8A, [0x6160]);
   (0xFA8B, [0x61F2]); (0xFA8C, [0x6234]); (0xFA8D, [0x63C4]); (0xFA8E, [0x641C]);
   (0xFA8F, [0x6452]); (0xFA90, [0x6556]); (0xFA91, [0x6674]); (0xFA92, [0x6717]);
   (0xFA93, [0x671B]); (0xFA94, [0x6756]); (0xFA95, [0x6B79]); (0xFA96, [0x6BBA]);
   (0xFA97, [0x6D41]); (0xFA98, [0x6EDB]); (0xFA99, [0x6ECB]); (0xFA9A, [0x6F22]);
   (0xFA9B, [0x701E]); (0xFA9C, [0x716E]); (0xFA9D, [0x77A7]); (0xFA9E, [0x7235]);
   (0xFA9F, [0x72AF]); (0xFAA0, [0x732A]); (0xFAA1, [0x7471]); (0xFAA2, [0x7506]);
   (0xFAA3, [0x753B]); (0xFAA4, [0x761D]); (0xFAA5, [0x761F]); (0xFAA6, [0x76CA]);
   (0xFAA7, [0x76DB]); (0xFAA8, [0x76F4]); (0xFAA9, [0x774A]); (0xFAAA, [0x7740]);
   (0xFAAB, [0x78CC]); (0xFAAC, [0x7AB1]); (0xFAAD, [0x7BC0]); (0xFAAE, [0x7C7B]);
   (0xFAAF, [0x7D5B]); (0xFAB0, [0x7DF4]); (0xFAB1, [0x7F3E]); (0xFAB2, [0x8005]);
   (0xFAB3, [0x8352]); (0xFAB4, [0x83EF]); (0xFAB5, [0x8779]); (0xFAB6, [0x8941]);
   (0xFAB7, [0x8986]); (0xFAB8, [0x8996]); (0xFAB9, [0x8ABF]); (0xFABA, [0x8AF8]);
   (0xFABB, [0x8ACB]); (0xFABC, [0x8B01]); (0xFABD, [0x8AFE]); (0xFABE, [0x8AED]);
   (0xFABF, [0x8B39]); (0xFAC0, [0x8B8A]); (0xFAC1, [0x8D08]); (0xFAC2, [0x8F38]);
   (0xFAC3, [0x9072]); (0xFAC4, [0x9199]); (0xFAC5, [0x9276]); (0xFAC6, [0x967C]);
   (0xFAC7, [0x96E3]); (0xFAC8, [0x9756]); (0xFAC9, [0x97DB]); (0xFACA, [0x97FF]);
   (0xFACB, [0x980B]); (0xFACC, [0x983B]); (0xFACD, [0x9B12]); (0xFACE, [0x9F9C]);
   (0xFACF, [0x2284A]); (0xFAD0, [0x22844]); (0xFAD1, [0x233D5]); (0xFAD2, [0x3B9D]);
   (0xFAD3, [0x4018]); (0xFAD4, [0x4039]); (0xFAD5, [0x25249]); (0xFAD6, [0x25CD0]);
   (0xFAD7, [0x27ED3]); (0xFAD8, [0x9F43]); (0xFAD9, [0x9F8E]); (0xFB1D, [0x5D9; 0x5B4]);
   (0xFB1F, [0x5F2; 0x5B7]); (0xFB2A, [0x5E9; 0x5C1]); (0xFB2B, [0x5E9; 0x5C2]);
   (0xFB2C, [0x5E9; 0x5BC; 0x5C1]); (0xFB2D, [0x5E9; 0x5BC; 0x5C2]); (0xFB2E, [0x5D0; 0x5B7]);
   (0xFB2F, [0x5D0; 0x5B8]); (0xFB30, [0x5D0; 0x5BC]); (0xFB31, [0x5D1; 0x5BC]);
   (0xFB32, [0x5D2; 0x5BC]); (0xFB33, [0x5D3; 0x5BC]); (0xFB34, [0x5D4; 0x5BC]);
   (0xFB35, [0x5D5; 0x5BC]); (0xFB36, [0x5D6; 0x5BC]); (0xFB38, [0x5D8; 0x5BC]);
   (0xFB39, [0x5D9; 0x5BC]); (0xFB3A, [0x5DA; 0x5BC]); (0xFB3B, [0x5DB; 0x5BC]);
   (0xFB3C, [0x5DC; 0x5BC]); (0xFB3E, [0x5DE; 0x5BC]); (0xFB40, [0x5E0; 0x5BC]);
   (0xFB41, [0x5E1; 0x5BC]); (0xFB43, [0x5E3; 0x5BC]); (0xFB44, [0x5E4; 0x5BC]);
   (0xFB46, [0x5E6; 0x5BC]); (0xFB47, [0x5E7; 0x5BC]); (0xFB48, [0x5E8; 0x5BC]);
   (0xFB49, [0x5E9; 0x5BC]); (0xFB4A, [0x5EA; 0x5BC]); (0xFB4B, [0x5D5; 0x5B9]);
   (0xFB4C, [0x5D1; 0x5BF]); (0xFB4D, [0x5DB; 0x5BF]); (0xFB4E, [0x5E4; 0x5BF]);
   (0x1109A, [0x11099; 0x110BA]); (0x1109C, [0x1109B; 0x110BA]); (0x110AB, [0x110A5; 0x110BA]);
   (0x1112E, [0x11131; 0x11127]); (0x1112F, [0x11132; 0x11127]); (0x1134B, [0x11347; 0x1133E]);
   (0x1134C, [0x11347; 0x11357]); (0x114BB, [0x114B9; 0x114BA]); (0x114BC, [0x114B9; 0x114B0]);
   (0x114BE, [0x114B9; 0x114BD]); (0x115BA, [0x115B8; 0x115AF]); (0x115BB, [0x115B9; 0x115AF]);
   (0x11938, [0x11935; 0x11930]); (0x1D15E, [0x1D157; 0x1D165]); (0x1D15F, [0x1D158; 0x1D165]);
   (0x1D160, [0x1D158; 0x1D165; 0x1D16E]); (0x1D161, [0x1D158; 0x1D165; 0x1D16F]);
   (0x1D162, [0x1D158; 0x1D165; 0x1D170]); (0x1D163, [0x1D158; 0x1D165; 0x1D171]);
   (0x1D164, [0x1D158; 0x1D165; 0x1D172]); (0x1D1BB, [0x1D1B9; 0x1D165]);
   (0x1D1BC, [0x1D1BA; 0x1D165]); (0x1D1BD, [0x1D1B9; 0x1D165; 0x1D16E]);
   (0x1D1BE, [0x1D1BA; 0x1D165; 0x1D16E]); (0x1D1BF, [0x1D1B9; 0x1D165; 0x1D16F]);
   (0x1D1C0, [0x1D1BA; 0x1D165; 0x1D16F]); (0x2F800, [0x4E3D]); (0x2F801, [0x4E38]);
   (0x2F802, [0x4E41]); (0x2F803, [0x20122]); (0x2F804, [0x4F60]); (0x2F805, [0x4FAE]);
   (0x2F806, [0x4FBB]); (0x2F807, [0x5002]); (0x2F808, [0x507A]); (0x2F809, [0x5099]);
   (0x2F80A, [0x50E7]); (0x2F80B, [0x50CF]); (0x2F80C, [0x349E]); (0x2F80D, [0x2063A]);
   (0x2F80E, [0x514D]); (0x2F80F, [0x5154]); (0x2F810, [0x5164]); (0x2F811, [0x5177]);
   (0x2F812, [0x2051C]); (0x2F813, [0x34B9]); (0x2F814, [0x5167]); (0x2F815, [0x518D]);
   (0x2F816, [0x2054B]); (0x2F817, [0x5197]); (0x2F818, [0x51A4]); (0x2F819, [0x4ECC]);
   (0x2F81A, [0x51AC]); (0x2F81B, [0x51B5]); (0x2F81C, [0x291DF]); (0x2F81D, [0x51F5]);
   (0x2F81E, [0x5203]); (0x2F81F, [0x34DF]); (0x2F820, [0x523B]); (0x2F821, [0x5246]);
   (0x2F822, [0x5272]); (0x2F823, [0x5277]); (0x2F824, [0x3515]); (0x2F825, [0x52C7]);
   (0x2F826, [0x52C9]); (0x2F827, [0x52E4]); (0x2F828, [0x52FA]); (0x2F829, [0x5305]);
   (0x2F82A, [0x5306]); (0x2F82B, [0x5317]); (0x2F82C, [0x5349]); (0x2F82D, [0x5351]);
   (0x2F82E, [0x535A]); (0x2F82F, [0x5373]); (0x2F830, [0x537D]); (0x2F831, [0x537F]);
   (0x2F832, [0x537F]); (0x2F833, [0x537F]); (0x2F834, [0x20A2C]); (0x2F835, [0x7070]);
   (0x2F836, [0x53CA]); (0x2F837, [0x53DF]); (0x2F838, [0x20B63]); (0x2F839, [0x53EB]);
   (0x2F83A, [0x53F1]); (0x2F83B, [0x5406]); (0x2F83C, [0x549E]); (0x2F83D, [0x5438]);
   (0x2F83E, [0x5448]); (0x2F83F, [0x5468]); (0x2F840, [0x54A2]); (0x2F841, [0x54F6]);
   (0x2F842, [0x5510]); (0x2F843, [0x5553]); (0x2F844, [0x5563]); (0x2F845, [0x5584]);
   (0x2F846, [0x5584]); (0x2F847, [0x5599]); (0x2F848, [0x55AB]); (0x2F849, [0x55B3]);
   (0x2F84A, [0x55C2]); (0x2F84B, [0x5716]); (0x2F84C, [0x5606]); (0x2F84D, [0x5717]);
   (0x2F84E, [0x5651]); (0x2F84F, [0x5674]); (0x2F850, [0x5207]); (0x2F851, [0x58EE]);
   (0x2F852, [0x57CE]); (0x2F853, [0x57F4]); (0x2F854, [0x580D]); (0x2F855, [0x578B]);
   (0x2F856, [0x5832]); (0x2F857, [0x5831]); (0x2F858, [0x58AC]); (0x2F859, [0x214E4]);
   (0x2F85A, [0x58F2]); (0x2F85B, [0x58F7]); (0x2F85C, [0x5906]); (0x2F85D, [0x591A]);
   (0x2F85E, [0x5922]); (0x2F85F, [0x5962]); (0x2F860, [0x216A8]); (0x2F861, [0x216EA]);
   (0x2F862, [0x59EC]); (0x2F863, [0x5A1B]); (0x2F864, [0x5A27]); (0x2F865, [0x59D8]);
   (0x2F866, [0x5A66]); (0x2F867, [0x36EE]); (0x2F868, [0x36FC]); (0x2F869, [0x5B08]);
   (0x2F86A, [0x5B3E]); (0x2F86B, [0x5B3E]); (0x2F86C, [0x219C8]); (0x2F86D, [0x5BC3]);
   (0x2F86E, [0x5BD8]); (0x2F86F, [0x5BE7]); (0x2F870, [0x5BF3]); (0x2F871, [0x21B18]);
   (0x2F872, [0x5BFF]); (0x2F873, [0x5C06]); (0x2F874, [0x5F53]); (0x2F875, [0x5C22]);
   (0x2F876, [0x3781]); (0x2F877, [0x5C60]); (0x2F878, [0x5C6E]); (0x2F879, [0x5CC0]);
   (0x2F87A, [0x5C8D]); (0x2F87B, [0x21DE4]); (0x2F87C, [0x5D43]); (0x2F87D, [0x21DE6]);
   (0x2F87E, [0x5D6E]); (0x2F87F, [0x5D6B]); (0x2F880, [0x5D7C]); (0x2F881, [0x5DE1]);
   (0x2F882, [0x5DE2]); (0x2F883, [0x382F]); (0x2F884, [0x5DFD]); (0x2F885, [0x5E28]);
   (0x2F886, [0x5E3D]); (0x2F887, [0x5E69]); (0x2F888, [0x3862]); (0x2F889, [0x22183]);
   (0x2F88A, [0x387C]); (0x2F88B, [0x5EB0]); (0x2F88C, [0x5EB3]); (0x2F88D, [0x5EB6]);
   (0x2F88E, [0x5ECA]); (0x2F88F, [0x2A392]); (0x2F890, [0x5EFE]); (0x2F891, [0x22331]);
   (0x2F892, [0x22331]); (0x2F893, [0x8201]); (0x2F894, [0x5F22]); (0x2F895, [0x5F22]);
   (0x2F896, [0x38C7]); (0x2F897, [0x232B8]); (0x2F898, [0x261DA]); (0x2F899, [0x5F62]);
   (0x2F89A, [0x5F6B]); (0x2F89B, [0x38E3]); (0x2F89C, [0x5F9A]); (0x2F89D, [0x5FCD]);
   (0x2F89E, [0x5FD7]); (0x2F89F, [0x5FF9]); (0x2F8A0, [0x6081]); (0x2F8A1, [0x393A]);
   (0x2F8A2, [0x391C]); (0x2F8A3, [0x6094]); (0x2F8A4, [0x226D4]); (0x2F8A5, [0x60C7]);
   (0x2F8A6, [0x6148]); (0x2F8A7, [0x614C]); (0x2F8A8, [0x614E]); (0x2F8A9, [0x614C]);
   (0x2F8AA, [0x617A]); (0x2F8AB, [0x618E]); (0x2F8AC, [0x61B2]); (0x2F8AD, [0x61A4]);
   (0x2F8AE, [0x61AF]); (0x2F8AF, [0x61DE]); (0x2F8B0, [0x61F2]); (0x2F8B1, [0x61F6]);
   (0x2F8B2, [0x6210]); (0x2F8B3, [0x621B]); (0x2F8B4, [0x625D]); (0x2F8B5, [0x62B1]);
   (0x2F8B6, [0x62D4]); (0x2F8B7, [0x6350]); (0x2F8B8, [0x22B0C]); (0x2F8B9, [0x633D]);
   (0x2F8BA, [0x62FC]); (0x2F8BB, [0x6368]); (0x2F8BC, [0x6383]); (0x2F8BD, [0x63E4]);
   (0x2F8BE, [0x22BF1]); (0x2F8BF, [0x6422]); (0x2F8C0, [0x63C5]); (0x2F8C1, [0x63A9]);
   (0x2F8C2, [0x3A2E]); (0x2F8C3, [0x6469]); (0x2F8C4, [0x647E]); (0x2F8C5, [0x649D]);
   (0x2F8C6, [0x6477]); (0x2F8C7, [0x3A6C]); (0x2F8C8, [0x654F]); (0x2F8C9, [0x656C]);
   (0x2F8CA, [0x2300A]); (0x2F8CB, [0x65E3]); (0x2F8CC, [0x66F8]); (0x2F8CD, [0x6649]);
   (0x2F8CE, [0x3B19]); (0x2F8CF, [0x6691]); (0x2F8D0, [0x3B08]); (0x2F8D1, [0x3AE4]);
   (0x2F8D2, [0x5192]); (0x2F8D3, [0x5195]); (0x2F8D4, [0x6700]); (0x2F8D5, [0x669C]);
   (0x2F8D6, [0x80AD]); (0x2F8D7, [0x43D9]); (0x2F8D8, [0x6717]); (0x2F8D9, [0x671B]);
   (0x2F8DA, [0x6721]); (0x2F8DB, [0x675E]); (0x2F8DC, [0x6753]); (0x2F8DD, [0x233C3]);
   (0x2F8DE, [0x3B49]); (0x2F8DF, [0x67FA]); (0x2F8E0, [0x6785]); (0x2F8E1, [0x6852]);
   (0x2F8E2, [0x6885]); (0x2F8E3, [0x2346D]); (0x2F8E4, [0x688E]); (0x2F8E5, [0x681F]);
   (0x2F8E6, [0x6914]); (0x2F8E7, [0x3B9D]); (0x2F8E8, [0x6942]); (0x2F8E9, [0x69A3]);
   (0x2F8EA, [0x69EA]); (0x2F8EB, [0x6AA8]); (0x2F8EC, [0x236A3]); (0x2F8ED, [0x6ADB]);
   (0x2F8EE, [0x3C18]); (0x2F8EF, [0x6B21]); (0x2F8F0, [0x238A7]); (0x2F8F1, [0x6B54]);
   (0x2F8F2, [0x3C4E]); (0x2F8F3, [0x6B72]); (0x2F8F4, [0x6B9F]); (0x2F8F5, [0x6BBA]);
   (0x2F8F6, [0x6BBB]); (0x2F8F7, [0x23A8D]); (0x2F8F8, [0x21D0B]); (0x2F8F9, [0x23AFA]);
   (0x2F8FA, [0x6C4E]); (0x2F8FB, [0x23CBC]); (0x2F8FC, [0x6CBF]); (0x2F8FD, [0x6CCD]);
   (0x2F8FE, [0x6C67]); (0x2F8FF, [0x6D16]); (0x2F900, [0x6D3E]); (0x2F901, [0x6D77]);
   (0x2F902, [0x6D41]); (0x2F903, [0x6D69]); (0x2F904, [0x6D78]); (0x2F905, [0x6D85]);
   (0x2F906, [0x23D1E]); (0x2F907, [0x6D34]); (0x2F908, [0x6E2F]); (0x2F909, [0x6E6E]);
   (0x2F90A, [0x3D33]); (0x2F90B, [0x6ECB]); (0x2F90C, [0x6EC7]); (0x2F90D, [0x23ED1]);
   (0x2F90E, [0x6DF9]); (0x2F90F, [0x6F6E]); (0x2F910, [0x23F5E]); (0x2F911, [0x23F8E]);
   (0x2F912, [0x6FC6]); (0x2F913, [0x7039]); (0x2F914, [0x701E]); (0x2F915, [0x701B]);
   (0x2F916, [0x3D96]); (0x2F917, [0x704A]); (0x2F918, [0x707D]); (0x2F919, [0x7077]);
   (0x2F91A, [0x70AD]); (0x2F91B, [0x20525]); (0x2F91C, [0x7145]); (0x2F91D, [0x24263]);
   (0x2F91E, [0x719C]); (0x2F91F, [0x243AB]); (0x2F920, [0x7228]); (0x2F921, [0x7235]);
   (0x2F922, [0x7250]); (0x2F923, [0x24608]); (0x2F924, [0x7280]); (0x2F925, [0x7295]);
   (0x2F926, [0x24735]); (0x2F927, [0x24814]); (0x2F928, [0x737A]); (0x2F929, [0x738B]);
   (0x2F92A, [0x3EAC]); (0x2F92B, [0x73A5]); (0x2F92C, [0x3EB8]); (0x2F92D, [0x3EB8]);
   (0x2F92E, [0x7447]); (0x2F92F, [0x745C]); (0x2F930, [0x7471]); (0x2F931, [0x7485]);
   (0x2F932, [0x74CA]); (0x2F933, [0x3F1B]); (0x2F934, [0x7524]); (0x2F935, [0x24C36]);
   (0x2F936, [0x753E]); (0x2F937, [0x24C92]); (0x2F938, [0x7570]); (0x2F939, [0x2219F]);
   (0x2F93A, [0x7610]); (0x2F93B, [0x24FA1]); (0x2F93C, [0x24FB8]); (0x2F93D, [0x25044]);
   (0x2F93E, [0x3FFC]); (0x2F93F, [0x4008]); (0x2F940, [0x76F4]); (0x2F941, [0x250F3]);
   (0x2F942, [0x250F2]); (0x2F943, [0x25119]); (0x2F944, [0x25133]); (0x2F945, [0x771E]);
   (0x2F946, [0x771F]); (0x2F947, [0x771F]); (0x2F948, [0x774A]); (0x2F949, [0x4039]);
   (0x2F94A, [0x778B]); (0x2F94B, [0x4046]); (0x2F94C, [0x4096]); (0x2F94D, [0x2541D]);
   (0x2F94E, [0x784E]); (0x2F94F, [0x788C]); (0x2F950, [0x78CC]); (0x2F951, [0x40E3]);
   (0x2F952, [0x25626]); (0x2F953, [0x7956]); (0x2F954, [0x2569A]); (0x2F955, [0x256C5]);
   (0x2F956, [0x798F]); (0x2F957, [0x79EB]); (0x2F958, [0x412F]); (0x2F959, [0x7A40]);
   (0x2F95A, [0x7A4A]); (0x2F95B, [0x7A4F]); (0x2F95C, [0x2597C]); (0x2F95D, [0x25AA7]);
   (0x2F95E, [0x25AA7]); (0x2F95F, [0x7AEE]); (0x2F960, [0x4202]); (0x2F961, [0x25BAB]);
   (0x2F962, [0x7BC6]); (0x2F963, [0x7BC9]); (0x2F964, [0x4227]); (0x2F965, [0x25C80]);
   (0x2F966, [0x7CD2]); (0x2F967, [0x42A0]); (0x2F968, [0x7CE8]); (0x2F969, [0x7CE3]);
   (0x2F96A, [0x7D00]); (0x2F96B, [0x25F86]); (0x2F96C, [0x7D63]); (0x2F96D, [0x4301]);
   (0x2F96E, [0x7DC7]); (0x2F96F, [0x7E02]); (0x2F970, [0x7E45]); (0x2F971, [0x4334]);
   (0x2F972, [0x26228]); (0x2F973, [0x26247]); (0x2F974, [0x4359]); (0x2F975, [0x262D9]);
   (0x2F976, [0x7F7A]); (0x2F977, [0x2633E]); (0x2F978, [0x7F95]); (0x2F979, [0x7FFA]);
   (0x2F97A, [0x8005]); (0x2F97B, [0x264DA]); (0x2F97C, [0x26523]); (0x2F97D, [0x8060]);
   (0x2F97E, [0x265A8]); (0x2F97F, [0x8070]); (0x2F980, [0x2335F]); (0x2F981, [0x43D5]);
   (0x2F982, [0x80B2]); (0x2F983, [0x8103]); (0x2F984, [0x440B]); (0x2F985, [0x813E]);
   (0x2F986, [0x5AB5]); (0x2F987, [0x267A7]); (0x2F988, [0x267B5]); (0x2F989, [0x23393]);
   (0x2F98A, [0x2339C]); (0x2F98B, [0x8201]); (0x2F98C, [0x8204]); (0x2F98D, [0x8F9E]);
   (0x2F98E, [0x446B]); (0x2F98F, [0x8291]); (0x2F990, [0x828B]); (0x2F991, [0x829D]);
   (0x2F992, [0x52B3]); (0x2F993, [0x82B1]); (0x2F994, [0x82B3]); (0x2F995, [0x82BD]);
   (0x2F996, [0x82E6]); (0x2F997, [0x26B3C]); (0x2F998, [0x82E5]); (0x2F999, [0x831D]);
   (0x2F99A, [0x8363]); (0x2F99B, [0x83AD]); (0x2F99C, [0x8323]); (0x2F99D, [0x83BD]);
   (0x2F99E, [0x83E7]); (0x2F99F, [0x8457]); (0x2F9A0, [0x8353]); (0x2F9A1, [0x83CA]);
   (0x2F9A2, [0x83CC]); (0x2F9A3, [0x83DC]); (0x2F9A4, [0x26C36]); (0x2F9A5, [0x26D6B]);
   (0x2F9A6, [0x26CD5]); (0x2F9A7, [0x452B]); (0x2F9A8, [0x84F1]); (0x2F9A9, [0x84F3]);
   (0x2F9AA, [0x8516]); (0x2F9AB, [0x273CA]); (0x2F9AC, [0x8564]); (0x2F9AD, [0x26F2C]);
   (0x2F9AE, [0x455D]); (0x2F9AF, [0x4561]); (0x2F9B0, [0x26FB1]); (0x2F9B1, [0x270D2]);
   (0x2F9B2, [0x456B]); (0x2F9B3, [0x8650]); (0x2F9B4, [0x865C]); (0x2F9B5, [0x8667]);
   (0x2F9B6, [0x8669]); (0x2F9B7, [0x86A9]); (0x2F9B8, [0x8688]); (0x2F9B9, [0x870E]);
   (0x2F9BA, [0x86E2]); (0x2F9BB, [0x8779]); (0x2F9BC, [0x8728]); (0x2F9BD, [0x876B]);
   (0x2F9BE, [0x8786]); (0x2F9BF, [0x45D7]); (0x2F9C0, [0x87E1]); (0x2F9C1, [0x8801]);
   (0x2F9C2, [0x45F9]); (0x2F9C3, [0x8860]); (0x2F9C4, [0x8863]); (0x2F9C5, [0x27667]);
   (0x2F9C6, [0x88D7]); (0x2F9C7, [0x88DE]); (0x2F9C8, [0x4635]); (0x2F9C9, [0x88FA]);
   (0x2F9CA, [0x34BB]); (0x2F9CB, [0x278AE]); (0x2F9CC, [0x27966]); (0x2F9CD, [0x46BE]);
   (0x2F9CE, [0x46C7]); (0x2F9CF, [0x8AA0]); (0x2F9D0, [0x8AED]); (0x2F9D1, [0x8B8A]);
   (0x2F9D2, [0x8C55]); (0x2F9D3, [0x27CA8]); (0x2F9D4, [0x8CAB]); (0x2F9D5, [0x8CC1]);
   (0x2F9D6, [0x8D1B]); (0x2F9D7, [0x8D77]); (0x2F9D8, [0x27F2F]); (0x2F9D9, [0x20804]);
   (0x2F9DA, [0x8DCB]); (0x2F9DB, [0x8DBC]); (0x2F9DC, [0x8DF0]); (0x2F9DD, [0x208DE]);
   (0x2F9DE, [0x8ED4]); (0x2F9DF, [0x8F38]); (0x2F9E0, [0x285D2]); (0x2F9E1, [0x285ED]);
   (0x2F9E2, [0x9094]); (0x2F9E3, [0x90F1]); (0x2F9E4, [0x9111]); (0x2F9E5, [0x2872E]);
   (0x2F9E6, [0x911B]); (0x2F9E7, [0x9238]); (0x2F9E8, [0x92D7]); (0x2F9E9, [0x92D8]);
   (0x2F9EA, [0x927C]); (0x2F9EB, [0x93F9]); (0x2F9EC, [0x9415]); (0x2F9ED, [0x28BFA]);
   (0x2F9EE, [0x958B]); (0x2F9EF, [0x4995]); (0x2F9F0, [0x95B7]); (0x2F9F1, [0x28D77]);
   (0x2F9F2, [0x49E6]); (0x2F9F3, [0x96C3]); (0x2F9F4, [0x5DB2]); (0x2F9F5, [0x9723]);
   (0x2F9F6, [0x29145]); (0x2F9F7, [0x2921A]); (0x2F9F8, [0x4A6E]); (0x2F9F9, [0x4A76]);
   (0x2F9FA, [0x97E0]); (0x2F9FB, [0x2940A]); (0x2F9FC, [0x4AB2]); (0x2F9FD, [0x29496]);
   (0x2F9FE, [0x980B]); (0x2F9FF, [0x980B]); (0x2FA00, [0x9829]); (0x2FA01, [0x295B6]);
   (0x2FA02, [0x98E2]); (0x2FA03, [0x4B33]); (0x2FA04, [0x9929]); (0x2FA05, [0x99A7]);
   (0x2FA06, [0x99C2]); (0x2FA07, [0x99FE]); (0x2FA08, [0x4BCE]); (0x2FA09, [0x29B30]);
   (0x2FA0A, [0x9B12]); (0x2FA0B, [0x9C40]); (0x2FA0C, [0x9CFD]); (0x2FA0D, [0x4CCE]);
   (0x2FA0E, [0x4CED]); (0x2FA0F, [0x9D67]); (0x2FA10, [0x2A0CE]); (0x2FA11, [0x4CF8]);
   (0x2FA12, [0x2A105]); (0x2FA13, [0x2A20E]); (0x2FA14, [0x2A291]); (0x2FA15, [0x9EBB]);
   (0x2FA16, [0x4D56]); (0x2FA17, [0x9EF9]); (0x2FA18, [0x9EFE]); (0x2FA19, [0x9F05]);
   (0x2FA1A, [0x9F0F]); (0x2FA1B, [0x9F16]); (0x2FA1C, [0x9F3B]); (0x2FA1D, [0x2A600])
  ].

(** Primary composites: (first, second, composite) for every canonical pair that NFC recombines (composition exclusions left out), Hangul apart. *)
Definition composition_table : list (Z * Z * Z) :=
  [
   (0x41, 0x300, 0xC0); (0x41, 0x301, 0xC1); (0x41, 0x302, 0xC2); (0x41, 0x303, 0xC3);
   (0x41, 0x308, 0xC4); (0x41, 0x30A, 0xC5); (0x43, 0x327, 0xC7); (0x45, 0x300, 0xC8);
   (0x45, 0x301, 0xC9); (0x45, 0x302, 0xCA); (0x45, 0x308, 0xCB); (0x49, 0x300, 0xCC);
   (0x49, 0x301, 0xCD); (0x49, 0x302, 0xCE); (0x49, 0x308, 0xCF); (0x4E, 0x303, 0xD1);
   (0x4F, 0x300, 0xD2); (0x4F, 0x301, 0xD3); (0x4F, 0x302, 0xD4); (0x4F, 0x303, 0xD5);
   (0x4F, 0x308, 0xD6); (0x55, 0x300, 0xD9); (0x55, 0x301, 0xDA); (0x55, 0x302, 0xDB);
   (0x55, 0x308, 0xDC); (0x59, 0x301, 0xDD); (0x61, 0x300, 0xE0); (0x61, 0x301, 0xE1);
   (0x61, 0x302, 0xE2); (0x61, 0x303, 0xE3); (0x61, 0x308, 0xE4); (0x61, 0x30A, 0xE5);
   (0x63, 0x327, 0xE7); (0x65, 0x300, 0xE8); (0x65, 0x301, 0xE9); (0x65, 0x302, 0xEA);
   (0x65, 0x308, 0xEB); (0x69, 0x300, 0xEC); (0x69, 0x301, 0xED); (0x69, 0x302, 0xEE);
   (0x69, 0x308, 0xEF); (0x6E, 0x303, 0xF1); (0x6F, 0x300, 0xF2); (0x6F, 0x301, 0xF3);
   (0x6F, 0x302, 0xF4); (0x6F, 0x303, 0xF5); (0x6F, 0x308, 0xF6); (0x75, 0x300, 0xF9);
   (0x75, 0x301, 0xFA); (0x75, 0x302, 0xFB); (0x75, 0x308, 0xFC); (0x79, 0x301, 0xFD);
   (0x79, 0x308, 0xFF); (0x41, 0x304, 0x100); (0x61, 0x304, 0x101); (0x41, 0x306, 0x102);
   (0x61, 0x306, 0x103); (0x41, 0x328, 0x104); (0x61, 0x328, 0x105); (0x43, 0x301, 0x106);
   (0x63, 0x301, 0x107); (0x43, 0x302, 0x108); (0x63, 0x302, 0x109); (0x43, 0x307, 0x10A);
   (0x63, 0x307, 0x10B); (0x43, 0x30C, 0x10C); (0x63, 0x30C, 0x10D); (0x44, 0x30C, 0x10E);
   (0x64, 0x30C, 0x10F); (0x45, 0x304, 0x112); (0x65, 0x304, 0x113); (0x45, 0x306, 0x114);
   (0x65, 0x306, 0x115); (0x45, 0x307, 0x116); (0x65, 0x307, 0x117); (0x45, 0x328, 0x118);
   (0x65, 0x328, 0x119); (0x45, 0x30C, 0x11A); (0x65, 0x30C, 0x11B); (0x47, 0x302, 0x11C);
   (0x67, 0x302, 0x11D); (0x47, 0x306, 0x11E); (0x67, 0x306, 0x11F); (0x47, 0x307, 0x120);
   (0x67, 0x307, 0x121); (0x47, 0x327, 0x122); (0x67, 0x327, 0x123); (0x48, 0x302, 0x124);
   (0x68, 0x302, 0x125); (0x49, 0x303, 0x128); (0x69, 0x303, 0x129); (0x49, 0x304, 0x12A);
   (0x69, 0x304, 0x12B); (0x49, 0x306, 0x12C); (0x69, 0x306, 0x12D); (0x49, 0x328, 0x12E);
   (0x69, 0x328, 0x12F); (0x49, 0x307, 0x130); (0x4A, 0x302, 0x134); (0x6A, 0x302, 0x135);
   (0x4B, 0x327, 0x136); (0x6B, 0x327, 0x137); (0x4C, 0x301, 0x139); (0x6C, 0x301, 0x13A);
   (0x4C, 0x327, 0x13B); (0x6C, 0x327, 0x13C); (0x4C, 0x30C, 0x13D); (0x6C, 0x30C, 0x13E);
   (0x4E, 0x301, 0x143); (0x6E, 0x301, 0x144); (0x4E, 0x327, 0x145); (0x6E, 0x327, 0x146);
   (0x4E, 0x30C, 0x147); (0x6E, 0x30C, 0x148); (0x4F, 0x304, 0x14C); (0x6F, 0x304, 0x14D);
   (0x4F, 0x306, 0x14E); (0x6F, 0x306, 0x14F); (0x4F, 0x30B, 0x150); (0x6F, 0x30B, 0x151);
   (0x52, 0x301, 0x154); (0x72, 0x301, 0x155); (0x52, 0x327, 0x156); (0x72, 0x327, 0x157);
   (0x52, 0x30C, 0x158); (0x72, 0x30C, 0x159); (0x53, 0x301, 0x15A); (0x73, 0x301, 0x15B);
   (0x53, 0x302, 0x15C); (0x73, 0x302, 0x15D); (0x53, 0x327, 0x15E); (0x73, 0x327, 0x15F);
   (0x53, 0x30C, 0x160); (0x73, 0x30C, 0x161); (0x54, 0x327, 0x162); (0x74, 0x327, 0x163);
   (0x54, 0x30C, 0x164); (0x74, 0x30C, 0x165); (0x55, 0x303, 0x168); (0x75, 0x303, 0x169);
   (0x55, 0x304, 0x16A); (0x75, 0x304, 0x16B); (0x55, 0x306, 0x16C); (0x75, 0x306, 0x16D);
   (0x55, 0x30A, 0x16E); (0x75, 0x30A, 0x16F); (0x55, 0x30B, 0x170); (0x75, 0x30B, 0x171);
   (0x55, 0x328, 0x172); (0x75, 0x328, 0x173); (0x57, 0x302, 0x174); (0x77, 0x302, 0x175);
   (0x59, 0x302, 0x176); (0x79, 0x302, 0x177); (0x59, 0x308, 0x178); (0x5A, 0x301, 0x179);
   (0x7A, 0x301, 0x17A); (0x5A, 0x307, 0x17B); (0x7A, 0x307, 0x17C); (0x5A, 0x30C, 0x17D);
   (0x7A, 0x30C, 0x17E); (0x4F, 0x31B, 0x1A0); (0x6F, 0x31B, 0x1A1); (0x55, 0x31B, 0x1AF);
   (0x75, 0x31B, 0x1B0); (0x41, 0x30C, 0x1CD); (0x61, 0x30C, 0x1CE); (0x49, 0x30C, 0x1CF);
   (0x69, 0x30C, 0x1D0); (0x4F, 0x30C, 0x1D1); (0x6F, 0x30C, 0x1D2); (0x55, 0x30C, 0x1D3);
   (0x75, 0x30C, 0x1D4); (0xDC, 0x304, 0x1D5); (0xFC, 0x304, 0x1D6); (0xDC, 0x301, 0x1D7);
   (0xFC, 0x301, 0x1D8); (0xDC, 0x30C, 0x1D9); (0xFC, 0x30C, 0x1DA); (0xDC, 0x300, 0x1DB);
   (0xFC, 0x300, 0x1DC); (0xC4, 0x304, 0x1DE); (0xE4, 0x304, 0x1DF); (0x226, 0x304, 0x1E0);
   (0x227, 0x304, 0x1E1); (0xC6, 0x304, 0x1E2); (0xE6, 0x304, 0x1E3); (0x47, 0x30C, 0x1E6);
   (0x67, 0x30C, 0x1E7); (0x4B, 0x30C, 0x1E8); (0x6B, 0x30C, 0x1E9); (0x4F, 0x328, 0x1EA);
   (0x6F, 0x328, 0x1EB); (0x1EA, 0x304, 0x1EC); (0x1EB, 0x304, 0x1ED); (0x1B7, 0x30C, 0x1EE);
   (0x292, 0x30C, 0x1EF); (0x6A, 0x30C, 0x1F0); (0x47, 0x301, 0x1F4); (0x67, 0x301, 0x1F5);
   (0x4E, 0x300, 0x1F8); (0x6E, 0x300, 0x1F9); (0xC5, 0x301, 0x1FA); (0xE5, 0x301, 0x1FB);
   (0xC6, 0x301, 0x1FC); (0xE6, 0x301, 0x1FD); (0xD8, 0x301, 0x1FE); (0xF8, 0x301, 0x1FF);
   (0x41, 0x30F, 0x200); (0x61, 0x30F, 0x201); (0x41, 0x311, 0x202); (0x61, 0x311, 0x203);
   (0x45, 0x30F, 0x204); (0x65, 0x30F, 0x205); (0x45, 0x311, 0x206); (0x65, 0x311, 0x207);
   (0x49, 0x30F, 0x208); (0x69, 0x30F, 0x209); (0x49, 0x311, 0x20A); (0x69, 0x311, 0x20B);
   (0x4F, 0x30F, 0x20C); (0x6F, 0x30F, 0x20D); (0x4F, 0x311, 0x20E); (0x6F, 0x311, 0x20F);
   (0x52, 0x30F, 0x210); (0x72, 0x30F, 0x211); (0x52, 0x311, 0x212); (0x72, 0x311, 0x213);
   (0x55, 0x30F, 0x214); (0x75, 0x30F, 0x215); (0x55, 0x311, 0x216); (0x75, 0x311, 0x217);
   (0x53, 0x326, 0x218); (0x73, 0x326, 0x219); (0x54, 0x326, 0x21A); (0x74, 0x326, 0x21B);
   (0x48, 0x30C, 0x21E); (0x68, 0x30C, 0x21F); (0x41, 0x307, 0x226); (0x61, 0x307, 0x227);
   (0x45, 0x327, 0x228); (0x65, 0x327, 0x229); (0xD6, 0x304, 0x22A); (0xF6, 0x304, 0x22B);
   (0xD5, 0x304, 0x22C); (0xF5, 0x304, 0x22D); (0x4F, 0x307, 0x22E); (0x6F, 0x307, 0x22F);
   (0x22E, 0x304, 0x230); (0x22F, 0x304, 0x231); (0x59, 0x304, 0x232); (0x79, 0x304, 0x233);
   (0xA8, 0x301, 0x385); (0x391, 0x301, 0x386); (0x395, 0x301, 0x388); (0x397, 0x301, 0x389);
   (0x399, 0x301, 0x38A); (0x39F, 0x301, 0x38C); (0x3A5, 0x301, 0x38E); (0x3A9, 0x301, 0x38F);
   (0x3CA, 0x301, 0x390); (0x399, 0x308, 0x3AA); (0x3A5, 0x308, 0x3AB); (0x3B1, 0x301, 0x3AC);
   (0x3B5, 0x301, 0x3AD); (0x3B7, 0x301, 0x3AE); (0x3B9, 0x301, 0x3AF); (0x3CB, 0x301, 0x3B0);
   (0x3B9, 0x308, 0x3CA); (0x3C5, 0x308, 0x3CB); (0x3BF, 0x301, 0x3CC); (0x3C5, 0x301, 0x3CD);
   (0x3C9, 0x301, 0x3CE); (0x3D2, 0x301, 0x3D3); (0x3D2, 0x308, 0x3D4); (0x415, 0x300, 0x400);
   (0x415, 0x308, 0x401); (0x413, 0x301, 0x403); (0x406, 0x308, 0x407); (0x41A, 0x301, 0x40C);
   (0x418, 0x300, 0x40D); (0x423, 0x306, 0x40E); (0x418, 0x306, 0x419); (0x438, 0x306, 0x439);
   (0x435, 0x300, 0x450); (0x435, 0x308, 0x451); (0x433, 0x301, 0x453); (0x456, 0x308, 0x457);
   (0x43A, 0x301, 0x45C); (0x438, 0x300, 0x45D); (0x443, 0x306, 0x45E); (0x474, 0x30F, 0x476);
   (0x475, 0x30F, 0x477); (0x416, 0x306, 0x4C1); (0x436, 0x306, 0x4C2); (0x410, 0x306, 0x4D0);
   (0x430, 0x306, 0x4D1); (0x410, 0x308, 0x4D2); (0x430, 0x308, 0x4D3); (0x415, 0x306, 0x4D6);
   (0x435, 0x306, 0x4D7); (0x4D8, 0x308, 0x4DA); (0x4D9, 0x308, 0x4DB); (0x416, 0x308, 0x4DC);
   (0x436, 0x308, 0x4DD); (0x417, 0x308, 0x4DE); (0x437, 0x308, 0x4DF); (0x418, 0x304, 0x4E2);
   (0x438, 0x304, 0x4E3); (0x418, 0x308, 0x4E4); (0x438, 0x308, 0x4E5); (0x41E, 0x308, 0x4E6);
   (0x43E, 0x308, 0x4E7); (0x4E8, 0x308, 0x4EA); (0x4E9, 0x308, 0x4EB); (0x42D, 0x308, 0x4EC);
   (0x44D, 0x308, 0x4ED); (0x423, 0x304, 0x4EE); (0x443, 0x304, 0x4EF); (0x423, 0x308, 0x4F0);
   (0x443, 0x308, 0x4F1); (0x423, 0x30B, 0x4F2); (0x443, 0x30B, 0x4F3); (0x427, 0x308, 0x4F4);
   (0x447, 0x308, 0x4F5); (0x42B, 0x308, 0x4F8); (0x44B, 0x308, 0x4F9); (0x627, 0x653, 0x622);
   (0x627, 0x654, 0x623); (0x648, 0x654, 0x624); (0x627, 0x655, 0x625); (0x64A, 0x654, 0x626);
   (0x6D5, 0x654, 0x6C0); (0x6C1, 0x654, 0x6C2); (0x6D2, 0x654, 0x6D3); (0x928, 0x93C, 0x929);
   (0x930, 0x93C, 0x931); (0x933, 0x93C, 0x934); (0x9C7, 0x9BE, 0x9CB); (0x9C7, 0x9D7, 0x9CC);
   (0xB47, 0xB56, 0xB48); (0xB47, 0xB3E, 0xB4B); (0xB47, 0xB57, 0xB4C); (0xB92, 0xBD7, 0xB94);
   (0xBC6, 0xBBE, 0xBCA); (0xBC7, 0xBBE, 0xBCB); (0xBC6, 0xBD7, 0xBCC); (0xC46, 0xC56, 0xC48);
   (0xCBF, 0xCD5, 0xCC0); (0xCC6, 0xCD5, 0xCC7); (0xCC6, 0xCD6, 0xCC8); (0xCC6, 0xCC2, 0xCCA);
   (0xCCA, 0xCD5, 0xCCB); (0xD46, 0xD3E, 0xD4A); (0xD47, 0xD3E, 0xD4B); (0xD46, 0xD57, 0xD4C);
   (0xDD9, 0xDCA, 0xDDA); (0xDD9, 0xDCF, 0xDDC); (0xDDC, 0xDCA, 0xDDD); (0xDD9, 0xDDF, 0xDDE);
   (0x1025, 0x102E, 0x1026); (0x1B05, 0x1B35, 0x1B06); (0x1B07, 0x1B35, 0x1B08);
   (0x1B09, 0x1B35, 0x1B0A); (0x1B0B, 0x1B35, 0x1B0C); (0x1B0D, 0x1B35, 0x1B0E);
   (0x1B11, 0x1B35, 0x1B12); (0x1B3A, 0x1B35, 0x1B3B); (0x1B3C, 0x1B35, 0x1B3D);
   (0x1B3E, 0x1B35, 0x1B40); (0x1B3F, 0x1B35, 0x1B41); (0x1B42, 0x1B35, 0x1B43);
   (0x41, 0x325, 0x1E00); (0x61, 0x325, 0x1E01); (0x42, 0x307, 0x1E02); (0x62, 0x307, 0x1E03);
   (0x42, 0x323, 0x1E04); (0x62, 0x323, 0x1E05); (0x42, 0x331, 0x1E06); (0x62, 0x331, 0x1E07);
   (0xC7, 0x301, 0x1E08); (0xE7, 0x301, 0x1E09); (0x44, 0x307, 0x1E0A); (0x64, 0x307, 0x1E0B);
   (0x44, 0x323, 0x1E0C); (0x64, 0x323, 0x1E0D); (0x44, 0x331, 0x1E0E); (0x64, 0x331, 0x1E0F);
   (0x44, 0x327, 0x1E10); (0x64, 0x327, 0x1E11); (0x44, 0x32D, 0x1E12); (0x64, 0x32D, 0x1E13);
   (0x112, 0x300, 0x1E14); (0x113, 0x300, 0x1E15); (0x112, 0x301, 0x1E16);
   (0x113, 0x301, 0x1E17); (0x45, 0x32D, 0x1E18); (0x65, 0x32D, 0x1E19); (0x45, 0x330, 0x1E1A);
   (0x65, 0x330, 0x1E1B); (0x228, 0x306, 0x1E1C); (0x229, 0x306, 0x1E1D);
   (0x46, 0x307, 0x1E1E); (0x66, 0x307, 0x1E1F); (0x47, 0x304, 0x1E20); (0x67, 0x304, 0x1E21);
   (0x48, 0x307, 0x1E22); (0x68, 0x307, 0x1E23); (0x48, 0x323, 0x1E24); (0x68, 0x323, 0x1E25);
   (0x48, 0x308, 0x1E26); (0x68, 0x308, 0x1E27); (0x48, 0x327, 0x1E28); (0x68, 0x327, 0x1E29);
   (0x48, 0x32E, 0x1E2A); (0x68, 0x32E, 0x1E2B); (0x49, 0x330, 0x1E2C); (0x69, 0x330, 0x1E2D);
   (0xCF, 0x301, 0x1E2E); (0xEF, 0x301, 0x1E2F); (0x4B, 0x301, 0x1E30); (0x6B, 0x301, 0x1E31);
   (0x4B, 0x323, 0x1E32); (0x6B, 0x323, 0x1E33); (0x4B, 0x331, 0x1E34); (0x6B, 0x331, 0x1E35);
   (0x4C, 0x323, 0x1E36); (0x6C, 0x323, 0x1E37); (0x1E36, 0x304, 0x1E38);
   (0x1E37, 0x304, 0x1E39); (0x4C, 0x331, 0x1E3A); (0x6C, 0x331, 0x1E3B);
   (0x4C, 0x32D, 0x1E3C); (0x6C, 0x32D, 0x1E3D); (0x4D, 0x301, 0x1E3E); (0x6D, 0x301, 0x1E3F);
   (0x4D, 0x307, 0x1E40); (0x6D, 0x307, 0x1E41); (0x4D, 0x323, 0x1E42); (0x6D, 0x323, 0x1E43);
   (0x4E, 0x307, 0x1E44); (0x6E, 0x307, 0x1E45); (0x4E, 0x323, 0x1E46); (0x6E, 0x323, 0x1E47);
   (0x4E, 0x331, 0x1E48); (0x6E, 0x331, 0x1E49); (0x4E, 0x32D, 0x1E4A); (0x6E, 0x32D, 0x1E4B);
   (0xD5, 0x301, 0x1E4C); (0xF5, 0x301, 0x1E4D); (0xD5, 0x308, 0x1E4E); (0xF5, 0x308, 0x1E4F);
   (0x14C, 0x300, 0x1E50); (0x14D, 0x300, 0x1E51); (0x14C, 0x301, 0x1E52);
   (0x14D, 0x301, 0x1E53); (0x50, 0x301, 0x1E54); (0x70, 0x301, 0x1E55); (0x50, 0x307, 0x1E56);
   (0x70, 0x307, 0x1E57); (0x52, 0x307, 0x1E58); (0x72, 0x307, 0x1E59); (0x52, 0x323, 0x1E5A);
   (0x72, 0x323, 0x1E5B); (0x1E5A, 0x304, 0x1E5C); (0x1E5B, 0x304, 0x1E5D);
   (0x52, 0x331, 0x1E5E); (0x72, 0x331, 0x1E5F); (0x53, 0x307, 0x1E60); (0x73, 0x307, 0x1E61);
   (0x53, 0x323, 0x1E62); (0x73, 0x323, 0x1E63); (0x15A, 0x307, 0x1E64);
   (0x15B, 0x307, 0x1E65); (0x160, 0x307, 0x1E66); (0x161, 0x307, 0x1E67);
   (0x1E62, 0x307, 0x1E68); (0x1E63, 0x307, 0x1E69); (0x54, 0x307, 0x1E6A);
   (0x74, 0x307, 0x1E6B); (0x54, 0x323, 0x1E6C); (0x74, 0x323, 0x1E6D); (0x54, 0x331, 0x1E6E);
   (0x74, 0x331, 0x1E6F); (0x54, 0x32D, 0x1E70); (0x74, 0x32D, 0x1E71); (0x55, 0x324, 0x1E72);
   (0x75, 0x324, 0x1E73); (0x55, 0x330, 0x1E74); (0x75, 0x330, 0x1E75); (0x55, 0x32D, 0x1E76);
   (0x75, 0x32D, 0x1E77); (0x168, 0x301, 0x1E78); (0x169, 0x301, 0x1E79);
   (0x16A, 0x308, 0x1E7A); (0x16B, 0x308, 0x1E7B); (0x56, 0x303, 0x1E7C);
   (0x76, 0x303, 0x1E7D); (0x56, 0x323, 0x1E7E); (0x76, 0x323, 0x1E7F); (0x57, 0x300, 0x1E80);
   (0x77, 0x300, 0x1E81); (0x57, 0x301, 0x1E82); (0x77, 0x301, 0x1E83); (0x57, 0x308, 0x1E84);
   (0x77, 0x308, 0x1E85); (0x57, 0x307, 0x1E86); (0x77, 0x307, 0x1E87); (0x57, 0x323, 0x1E88);
   (0x77, 0x323, 0x1E89); (0x58, 0x307, 0x1E8A); (0x78, 0x307, 0x1E8B); (0x58, 0x308, 0x1E8C);
   (0x78, 0x308, 0x1E8D); (0x59, 0x307, 0x1E8E); (0x79, 0x307, 0x1E8F); (0x5A, 0x302, 0x1E90);
   (0x7A, 0x302, 0x1E91); (0x5A, 0x323, 0x1E92); (0x7A, 0x323, 0x1E93); (0x5A, 0x331, 0x1E94);
   (0x7A, 0x331, 0x1E95); (0x68, 0x331, 0x1E96); (0x74, 0x308, 0x1E97); (0x77, 0x30A, 0x1E98);
   (0x79, 0x30A, 0x1E99); (0x17F, 0x307, 0x1E9B); (0x41, 0x323, 0x1EA0); (0x61, 0x323, 0x1EA1);
   (0x41, 0x309, 0x1EA2); (0x61, 0x309, 0x1EA3); (0xC2, 0x301, 0x1EA4); (0xE2, 0x301, 0x1EA5);
   (0xC2, 0x300, 0x1EA6); (0xE2, 0x300, 0x1EA7); (0xC2, 0x309, 0x1EA8); (0xE2, 0x309, 0x1EA9);
   (0xC2, 0x303, 0x1EAA); (0xE2, 0x303, 0x1EAB); (0x1EA0, 0x302, 0x1EAC);
   (0x1EA1, 0x302, 0x1EAD); (0x102, 0x301, 0x1EAE); (0x103, 0x301, 0x1EAF);
   (0x102, 0x300, 0x1EB0); (0x103, 0x300, 0x1EB1); (0x102, 0x309, 0x1EB2);
   (0x103, 0x309, 0x1EB3); (0x102, 0x303, 0x1EB4); (0x103, 0x303, 0x1EB5);
   (0x1EA0, 0x306, 0x1EB6); (0x1EA1, 0x306, 0x1EB7); (0x45, 0x323, 0x1EB8);
   (0x65, 0x323, 0x1EB9); (0x45, 0x309, 0x1EBA); (0x65, 0x309, 0x1EBB); (0x45, 0x303, 0x1EBC);
   (0x65, 0x303, 0x1EBD); (0xCA, 0x301, 0x1EBE); (0xEA, 0x301, 0x1EBF); (0xCA, 0x300, 0x1EC0);
   (0xEA, 0x300, 0x1EC1); (0xCA, 0x309, 0x1EC2); (0xEA, 0x309, 0x1EC3); (0xCA, 0x303, 0x1EC4);
   (0xEA, 0x303, 0x1EC5); (0x1EB8, 0x302, 0x1EC6); (0x1EB9, 0x302, 0x1EC7);
   (0x49, 0x309, 0x1EC8); (0x69, 0x309, 0x1EC9); (0x49, 0x323, 0x1ECA); (0x69, 0x323, 0x1ECB);
   (0x4F, 0x323, 0x1ECC); (0x6F, 0x323, 0x1ECD); (0x4F, 0x309, 0x1ECE); (0x6F, 0x309, 0x1ECF);
   (0xD4, 0x301, 0x1ED0); (0xF4, 0x301, 0x1ED1); (0xD4, 0x300, 0x1ED2); (0xF4, 0x300, 0x1ED3);
   (0xD4, 0x309, 0x1ED4); (0xF4, 0x309, 0x1ED5); (0xD4, 0x303, 0x1ED6); (0xF4, 0x303, 0x1ED7);
   (0x1ECC, 0x302, 0x1ED8); (0x1ECD, 0x302, 0x1ED9); (0x1A0, 0x301, 0x1EDA);
   (0x1A1, 0x301, 0x1EDB); (0x1A0, 0x300, 0x1EDC); (0x1A1, 0x300, 0x1EDD);
   (0x1A0, 0x309, 0x1EDE); (0x1A1, 0x309, 0x1EDF); (0x1A0, 0x303, 0x1EE0);
   (0x1A1, 0x303, 0x1EE1); (0x1A0, 0x323, 0x1EE2); (0x1A1, 0x323, 0x1EE3);
   (0x55, 0x323, 0x1EE4); (0x75, 0x323, 0x1EE5); (0x55, 0x309, 0x1EE6); (0x75, 0x309, 0x1EE7);
   (0x1AF, 0x301, 0x1EE8); (0x1B0, 0x301, 0x1EE9); (0x1AF, 0x300, 0x1EEA);
   (0x1B0, 0x300, 0x1EEB); (0x1AF, 0x309, 0x1EEC); (0x1B0, 0x309, 0x1EED);
   (0x1AF, 0x303, 0x1EEE); (0x1B0, 0x303, 0x1EEF); (0x1AF, 0x323, 0x1EF0);
   (0x1B0, 0x323, 0x1EF1); (0x59, 0x300, 0x1EF2); (0x79, 0x300, 0x1EF3); (0x59, 0x323, 0x1EF4);
   (0x79, 0x323, 0x1EF5); (0x59, 0x309, 0x1EF6); (0x79, 0x309, 0x1EF7); (0x59, 0x303, 0x1EF8);
   (0x79, 0x303, 0x1EF9); (0x3B1, 0x313, 0x1F00); (0x3B1, 0x314, 0x1F01);
   (0x1F00, 0x300, 0x1F02); (0x1F01, 0x300, 0x1F03); (0x1F00, 0x301, 0x1F04);
   (0x1F01, 0x301, 0x1F05); (0x1F00, 0x342, 0x1F06); (0x1F01, 0x342, 0x1F07);
   (0x391, 0x313, 0x1F08); (0x391, 0x314, 0x1F09); (0x1F08, 0x300, 0x1F0A);
   (0x1F09, 0x300, 0x1F0B); (0x1F08, 0x301, 0x1F0C); (0x1F09, 0x301, 0x1F0D);
   (0x1F08, 0x342, 0x1F0E); (0x1F09, 0x342, 0x1F0F); (0x3B5, 0x313, 0x1F10);
   (0x3B5, 0x314, 0x1F11); (0x1F10, 0x300, 0x1F12); (0x1F11, 0x300, 0x1F13);
   (0x1F10, 0x301, 0x1F14); (0x1F11, 0x301, 0x1F15); (0x395, 0x313, 0x1F18);
   (0x395, 0x314, 0x1F19); (0x1F18, 0x300, 0x1F1A); (0x1F19, 0x300, 0x1F1B);
   (0x1F18, 0x301, 0x1F1C); (0x1F19, 0x301, 0x1F1D); (0x3B7, 0x313, 0x1F20);
   (0x3B7, 0x314, 0x1F21); (0x1F20, 0x300, 0x1F22); (0x1F21, 0x300, 0x1F23);
   (0x1F20, 0x301, 0x1F24); (0x1F21, 0x301, 0x1F25); (0x1F20, 0x342, 0x1F26);
   (0x1F21, 0x342, 0x1F27); (0x397, 0x313, 0x1F28); (0x397, 0x314, 0x1F29);
   (0x1F28, 0x300, 0x1F2A); (0x1F29, 0x300, 0x1F2B); (0x1F28, 0x301, 0x1F2C);
   (0x1F29, 0x301, 0x1F2D); (0x1F28, 0x342, 0x1F2E); (0x1F29, 0x342, 0x1F2F);
   (0x3B9, 0x313, 0x1F30); (0x3B9, 0x314, 0x1F31); (0x1F30, 0x300, 0x1F32);
   (0x1F31, 0x300, 0x1F33); (0x1F30, 0x301, 0x1F34); (0x1F31, 0x301, 0x1F35);
   (0x1F30, 0x342, 0x1F36); (0x1F31, 0x342, 0x1F37); (0x399, 0x313, 0x1F38);
   (0x399, 0x314, 0x1F39); (0x1F38, 0x300, 0x1F3A); (0x1F39, 0x300, 0x1F3B);
   (0x1F38, 0x301, 0x1F3C); (0x1F39, 0x301, 0x1F3D); (0x1F38, 0x342, 0x1F3E);
   (0x1F39, 0x342, 0x1F3F); (0x3BF, 0x313, 0x1F40); (0x3BF, 0x314, 0x1F41);
   (0x1F40, 0x300, 0x1F42); (0x1F41, 0x300, 0x1F43); (0x1F40, 0x301, 0x1F44);
   (0x1F41, 0x301, 0x1F45); (0x39F, 0x313, 0x1F48); (0x39F, 0x314, 0x1F49);
   (0x1F48, 0x300, 0x1F4A); (0x1F49, 0x300, 0x1F4B); (0x1F48, 0x301, 0x1F4C);
   (0x1F49, 0x301, 0x1F4D); (0x3C5, 0x313, 0x1F50); (0x3C5, 0x314, 0x1F51);
   (0x1F50, 0x300, 0x1F52); (0x1F51, 0x300, 0x1F53); (0x1F50, 0x301, 0x1F54);
   (0x1F51, 0x301, 0x1F55); (0x1F50, 0x342, 0x1F56); (0x1F51, 0x342, 0x1F57);
   (0x3A5, 0x314, 0x1F59); (0x1F59, 0x300, 0x1F5B); (0x1F59, 0x301, 0x1F5D);
   (0x1F59, 0x342, 0x1F5F); (0x3C9, 0x313, 0x1F60); (0x3C9, 0x314, 0x1F61);
   (0x1F60, 0x300, 0x1F62); (0x1F61, 0x300, 0x1F63); (0x1F60, 0x301, 0x1F64);
   (0x1F61, 0x301, 0x1F65); (0x1F60, 0x342, 0x1F66); (0x1F61, 0x342, 0x1F67);
   (0x3A9, 0x313, 0x1F68); (0x3A9, 0x314, 0x1F69); (0x1F68, 0x300, 0x1F6A);
   (0x1F69, 0x300, 0x1F6B); (0x1F68, 0x301, 0x1F6C); (0x1F69, 0x301, 0x1F6D);
   (0x1F68, 0x342, 0x1F6E); (0x1F69, 0x342, 0x1F6F); (0x3B1, 0x300, 0x1F70);
   (0x3B5, 0x300, 0x1F72); (0x3B7, 0x300, 0x1F74); (0x3B9, 0x300, 0x1F76);
   (0x3BF, 0x300, 0x1F78); (0x3C5, 0x300, 0x1F7A); (0x3C9, 0x300, 0x1F7C);
   (0x1F00, 0x345, 0x1F80); (0x1F01, 0x345, 0x1F81); (0x1F02, 0x345, 0x1F82);
   (0x1F03, 0x345, 0x1F83); (0x1F04, 0x345, 0x1F84); (0x1F05, 0x345, 0x1F85);
   (0x1F06, 0x345, 0x1F86); (0x1F07, 0x345, 0x1F87); (0x1F08, 0x345, 0x1F88);
   (0x1F09, 0x345, 0x1F89); (0x1F0A, 0x345, 0x1F8A); (0x1F0B, 0x345, 0x1F8B);
   (0x1F0C, 0x345, 0x1F8C); (0x1F0D, 0x345, 0x1F8D); (0x1F0E, 0x345, 0x1F8E);
   (0x1F0F, 0x345, 0x1F8F); (0x1F20, 0x345, 0x1F90); (0x1F21, 0x345, 0x1F91);
   (0x1F22, 0x345, 0x1F92); (0x1F23, 0x345, 0x1F93); (0x1F24, 0x345, 0x1F94);
   (0x1F25, 0x345, 0x1F95); (0x1F26, 0x345, 0x1F96); (0x1F27, 0x345, 0x1F97);
   (0x1F28, 0x345, 0x1F98); (0x1F29, 0x345, 0x1F99); (0x1F2A, 0x345, 0x1F9A);
   (0x1F2B, 0x345, 0x1F9B); (0x1F2C, 0x345, 0x1F9C); (0x1F2D, 0x345, 0x1F9D);
   (0x1F2E, 0x345, 0x1F9E); (0x1F2F, 0x345, 0x1F9F); (0x1F60, 0x345, 0x1FA0);
   (0x1F61, 0x345, 0x1FA1); (0x1F62, 0x345, 0x1FA2); (0x1F63, 0x345, 0x1FA3);
   (0x1F64, 0x345, 0x1FA4); (0x1F65, 0x345, 0x1FA5); (0x1F66, 0x345, 0x1FA6);
   (0x1F67, 0x345, 0x1FA7); (0x1F68, 0x345, 0x1FA8); (0x1F69, 0x345, 0x1FA9);
   (0x1F6A, 0x345, 0x1FAA); (0x1F6B, 0x345, 0x1FAB); (0x1F6C, 0x345, 0x1FAC);
   (0x1F6D, 0x345, 0x1FAD); (0x1F6E, 0x345, 0x1FAE); (0x1F6F, 0x345, 0x1FAF);
   (0x3B1, 0x306, 0x1FB0); (0x3B1, 0x304, 0x1FB1); (0x1F70, 0x345, 0x1FB2);
   (0x3B1, 0x345, 0x1FB3); (0x3AC, 0x345, 0x1FB4); (0x3B1, 0x342, 0x1FB6);
   (0x1FB6, 0x345, 0x1FB7); (0x391, 0x306, 0x1FB8); (0x391, 0x304, 0x1FB9);
   (0x391, 0x300, 0x1FBA); (0x391, 0x345, 0x1FBC); (0xA8, 0x342, 0x1FC1);
   (0x1F74, 0x345, 0x1FC2); (0x3B7, 0x345, 0x1FC3); (0x3AE, 0x345, 0x1FC4);
   (0x3B7, 0x342, 0x1FC6); (0x1FC6, 0x345, 0x1FC7); (0x395, 0x300, 0x1FC8);
   (0x397, 0x300, 0x1FCA); (0x397, 0x345, 0x1FCC); (0x1FBF, 0x300, 0x1FCD);
   (0x1FBF, 0x301, 0x1FCE); (0x1FBF, 0x342, 0x1FCF); (0x3B9, 0x306, 0x1FD0);
   (0x3B9, 0x304, 0x1FD1); (0x3CA, 0x300, 0x1FD2); (0x3B9, 0x342, 0x1FD6);
   (0x3CA, 0x342, 0x1FD7); (0x399, 0x306, 0x1FD8); (0x399, 0x304, 0x1FD9);
   (0x399, 0x300, 0x1FDA); (0x1FFE, 0x300, 0x1FDD); (0x1FFE, 0x301, 0x1FDE);
   (0x1FFE, 0x342, 0x1FDF); (0x3C5, 0x306, 0x1FE0); (0x3C5, 0x304, 0x1FE1);
   (0x3CB, 0x300, 0x1FE2); (0x3C1, 0x313, 0x1FE4); (0x3C1, 0x314, 0x1FE5);
   (0x3C5, 0x342, 0x1FE6); (0x3CB, 0x342, 0x1FE7); (0x3A5, 0x306, 0x1FE8);
   (0x3A5, 0x304, 0x1FE9); (0x3A5, 0x300, 0x1FEA); (0x3A1, 0x314, 0x1FEC);
   (0xA8, 0x300, 0x1FED); (0x1F7C, 0x345, 0x1FF2); (0x3C9, 0x345, 0x1FF3);
   (0x3CE, 0x345, 0x1FF4); (0x3C9, 0x342, 0x1FF6); (0x1FF6, 0x345, 0x1FF7);
   (0x39F, 0x300, 0x1FF8); (0x3A9, 0x300, 0x1FFA); (0x3A9, 0x345, 0x1FFC);
   (0x2190, 0x338, 0x219A); (0x2192, 0x338, 0x219B); (0x2194, 0x338, 0x21AE);
   (0x21D0, 0x338, 0x21CD); (0x21D4, 0x338, 0x21CE); (0x21D2, 0x338, 0x21CF);
   (0x2203, 0x338, 0x2204); (0x2208, 0x338, 0x2209); (0x220B, 0x338, 0x220C);
   (0x2223, 0x338, 0x2224); (0x2225, 0x338, 0x2226); (0x223C, 0x338, 0x2241);
   (0x2243, 0x338, 0x2244); (0x2245, 0x338, 0x2247); (0x2248, 0x338, 0x2249);
   (0x3D, 0x338, 0x2260); (0x2261, 0x338, 0x2262); (0x224D, 0x338, 0x226D);
   (0x3C, 0x338, 0x226E); (0x3E, 0x338, 0x226F); (0x2264, 0x338, 0x2270);
   (0x2265, 0x338, 0x2271); (0x2272, 0x338, 0x2274); (0x2273, 0x338, 0x2275);
   (0x2276, 0x338, 0x2278); (0x2277, 0x338, 0x2279); (0x227A, 0x338, 0x2280);
   (0x227B, 0x338, 0x2281); (0x2282, 0x338, 0x2284); (0x2283, 0x338, 0x2285);
   (0x2286, 0x338, 0x2288); (0x2287, 0x338, 0x2289); (0x22A2, 0x338, 0x22AC);
   (0x22A8, 0x338, 0x22AD); (0x22A9, 0x338, 0x22AE); (0x22AB, 0x338, 0x22AF);
   (0x227C, 0x338, 0x22E0); (0x227D, 0x338, 0x22E1); (0x2291, 0x338, 0x22E2);
   (0x2292, 0x338, 0x22E3); (0x22B2, 0x338, 0x22EA); (0x22B3, 0x338, 0x22EB);
   (0x22B4, 0x338, 0x22EC); (0x22B5, 0x338, 0x22ED); (0x304B, 0x3099, 0x304C);
   (0x304D, 0x3099, 0x304E); (0x304F, 0x3099, 0x3050); (0x3051, 0x3099, 0x3052);
   (0x3053, 0x3099, 0x3054); (0x3055, 0x3099, 0x3056); (0x3057, 0x3099, 0x3058);
   (0x3059, 0x3099, 0x305A); (0x305B, 0x3099, 0x305C); (0x305D, 0x3099, 0x305E);
   (0x305F, 0x3099, 0x3060); (0x3061, 0x3099, 0x3062); (0x3064, 0x3099, 0x3065);
   (0x3066, 0x3099, 0x3067); (0x3068, 0x3099, 0x3069); (0x306F, 0x3099, 0x3070);
   (0x306F, 0x309A, 0x3071); (0x3072, 0x3099, 0x3073); (0x3072, 0x309A, 0x3074);
   (0x3075, 0x3099, 0x3076); (0x3075, 0x309A, 0x3077); (0x3078, 0x3099, 0x3079);
   (0x3078, 0x309A, 0x307A); (0x307B, 0x3099, 0x307C); (0x307B, 0x309A, 0x307D);
   (0x3046, 0x3099, 0x3094); (0x309D, 0x3099, 0x309E); (0x30AB, 0x3099, 0x30AC);
   (0x30AD, 0x3099, 0x30AE); (0x30AF, 0x3099, 0x30B0); (0x30B1, 0x3099, 0x30B2);
   (0x30B3, 0x3099, 0x30B4); (0x30B5, 0x3099, 0x30B6); (0x30B7, 0x3099, 0x30B8);
   (0x30B9, 0x3099, 0x30BA); (0x30BB, 0x3099, 0x30BC); (0x30BD, 0x3099, 0x30BE);
   (0x30BF, 0x3099, 0x30C0); (0x30C1, 0x3099, 0x30C2); (0x30C4, 0x3099, 0x30C5);
   (0x30C6, 0x3099, 0x30C7); (0x30C8, 0x3099, 0x30C9); (0x30CF, 0x3099, 0x30D0);
   (0x30CF, 0x309A, 0x30D1); (0x30D2, 0x3099, 0x30D3); (0x30D2, 0x309A, 0x30D4);
   (0x30D5, 0x3099, 0x30D6); (0x30D5, 0x309A, 0x30D7); (0x30D8, 0x3099, 0x30D9);
   (0x30D8, 0x309A, 0x30DA); (0x30DB, 0x3099, 0x30DC); (0x30DB, 0x309A, 0x30DD);
   (0x30A6, 0x3099, 0x30F4); (0x30EF, 0x3099, 0x30F7); (0x30F0, 0x3099, 0x30F8);
   (0x30F1, 0x3099, 0x30F9); (0x30F2, 0x3099, 0x30FA); (0x30FD, 0x3099, 0x30FE);
   (0x11099, 0x110BA, 0x1109A); (0x1109B, 0x110BA, 0x1109C); (0x110A5, 0x110BA, 0x110AB);
   (0x11131, 0x11127, 0x1112E); (0x11132, 0x11127, 0x1112F); (0x11347, 0x1133E, 0x1134B);
   (0x11347, 0x11357, 0x1134C); (0x114B9, 0x114BA, 0x114BB); (0x114B9, 0x114B0, 0x114BC);
   (0x114B9, 0x114BD, 0x114BE); (0x115B8, 0x115AF, 0x115BA); (0x115B9, 0x115AF, 0x115BB);
   (0x11935, 0x11930, 0x11938)
  ].

(** Full uppercase mappings (str.upper on one code point) of every code point that str.upper changes. *)
Definition upper_table : list (Z * list Z) :=
  [
   (0x61, [0x41]); (0x62, [0x42]); (0x63, [0x43]); (0x64, [0x44]); (0x65, [0x45]);
   (0x66, [0x46]); (0x67, [0x47]); (0x68, [0x48]); (0x69, [0x49]); (0x6A, [0x4A]);
   (0x6B, [0x4B]); (0x6C, [0x4C]); (0x6D, [0x4D]); (0x6E, [0x4E]); (0x6F, [0x4F]);
   (0x70, [0x50]); (0x71, [0x51]); (0x72, [0x52]); (0x73, [0x53]); (0x74, [0x54]);
   (0x75, [0x55]); (0x76, [0x56]); (0x77, [0x57]); (0x78, [0x58]); (0x79, [0x59]);
   (0x7A, [0x5A]); (0xB5, [0x39C]); (0xDF, [0x53; 0x53]); (0xE0, [0xC0]); (0xE1, [0xC1]);
   (0xE2, [0xC2]); (0xE3, [0xC3]); (0xE4, [0xC4]); (0xE5, [0xC5]); (0xE6, [0xC6]);
   (0xE7, [0xC7]); (0xE8, [0xC8]); (0xE9, [0xC9]); (0xEA, [0xCA]); (0xEB, [0xCB]);
   (0xEC, [0xCC]); (0xED, [0xCD]); (0xEE, [0xCE]); (0xEF, [0xCF]); (0xF0, [0xD0]);
   (0xF1, [0xD1]); (0xF2, [0xD2]); (0xF3, [0xD3]); (0xF4, [0xD4]); (0xF5, [0xD5]);
   (0xF6, [0xD6]); (0xF8, [0xD8]); (0xF9, [0xD9]); (0xFA, [0xDA]); (0xFB, [0xDB]);
   (0xFC, [0xDC]); (0xFD, [0xDD]); (0xFE, [0xDE]); (0xFF, [0x178]); (0x101, [0x100]);
   (0x103, [0x102]); (0x105, [0x104]); (0x107, [0x106]); (0x109, [0x108]); (0x10B, [0x10A]);
   (0x10D, [0x10C]); (0x10F, [0x10E]); (0x111, [0x110]); (0x113, [0x112]); (0x115, [0x114]);
   (0x117, [0x116]); (0x119, [0x118]); (0x11B, [0x11A]); (0x11D, [0x11C]); (0x11F, [0x11E]);
   (0x121, [0x120]); (0x123, [0x122]); (0x125, [0x124]); (0x127, [0x126]); (0x129, [0x128]);
   (0x12B, [0x12A]); (0x12D, [0x12C]); (0x12F, [0x12E]); (0x131, [0x49]); (0x133, [0x132]);
   (0x135, [0x134]); (0x137, [0x136]); (0x13A, [0x139]); (0x13C, [0x13B]); (0x13E, [0x13D]);
   (0x140, [0x13F]); (0x142, [0x141]); (0x144, [0x143]); (0x146, [0x145]); (0x148, [0x147]);
   (0x149, [0x2BC; 0x4E]); (0x14B, [0x14A]); (0x14D, [0x14C]); (0x14F, [0x14E]);
   (0x151, [0x150]); (0x153, [0x152]); (0x155, [0x154]); (0x157, [0x156]); (0x159, [0x158]);
   (0x15B, [0x15A]); (0x15D, [0x15C]); (0x15F, [0x15E]); (0x161, [0x160]); (0x163, [0x162]);
   (0x165, [0x164]); (0x167, [0x166]); (0x169, [0x168]); (0x16B, [0x16A]); (0x16D, [0x16C]);
   (0x16F, [0x16E]); (0x171, [0x170]); (0x173, [0x172]); (0x175, [0x174]); (0x177, [0x176]);
   (0x17A, [0x179]); (0x17C, [0x17B]); (0x17E, [0x17D]); (0x17F, [0x53]); (0x180, [0x243]);
   (0x183, [0x182]); (0x185, [0x184]); (0x188, [0x187]); (0x18C, [0x18B]); (0x192, [0x191]);
   (0x195, [0x1F6]); (0x199, [0x198]); (0x19A, [0x23D]); (0x19E, [0x220]); (0x1A1, [0x1A0]);
   (0x1A3, [0x1A2]); (0x1A5, [0x1A4]); (0x1A8, [0x1A7]); (0x1AD, [0x1AC]); (0x1B0, [0x1AF]);
   (0x1B4, [0x1B3]); (0x1B6, [0x1B5]); (0x1B9, [0x1B8]); (0x1BD, [0x1BC]); (0x1BF, [0x1F7]);
   (0x1C5, [0x1C4]); (0x1C6, [0x1C4]); (0x1C8, [0x1C7]); (0x1C9, [0x1C7]); (0x1CB, [0x1CA]);
   (0x1CC, [0x1CA]); (0x1CE, [0x1CD]); (0x1D0, [0x1CF]); (0x1D2, [0x1D1]); (0x1D4, [0x1D3]);
   (0x1D6, [0x1D5]); (0x1D8, [0x1D7]); (0x1DA, [0x1D9]); (0x1DC, [0x1DB]); (0x1DD, [0x18E]);
   (0x1DF, [0x1DE]); (0x1E1, [0x1E0]); (0x1E3, [0x1E2]); (0x1E5, [0x1E4]); (0x1E7, [0x1E6]);
   (0x1E9, [0x1E8]); (0x1EB, [0x1EA]); (0x1ED, [0x1EC]); (0x1EF, [0x1EE]);
   (0x1F0, [0x4A; 0x30C]); (0x1F2, [0x1F1]); (0x1F3, [0x1F1]); (0x1F5, [0x1F4]);
   (0x1F9, [0x1F8]); (0x1FB, [0x1FA]); (0x1FD, [0x1FC]); (0x1FF, [0x1FE]); (0x201, [0x200]);
   (0x203, [0x202]); (0x205, [0x204]); (0x207, [0x206]); (0x209, [0x208]); (0x20B, [0x20A]);
   (0x20D, [0x20C]); (0x20F, [0x20E]); (0x211, [0x210]); (0x213, [0x212]); (0x215, [0x214]);
   (0x217, [0x216]); (0x219, [0x218]); (0x21B, [0x21A]); (0x21D, [0x21C]); (0x21F, [0x21E]);
   (0x223, [0x222]); (0x225, [0x224]); (0x227, [0x226]); (0x229, [0x228]); (0x22B, [0x22A]);
   (0x22D, [0x22C]); (0x22F, [0x22E]); (0x231, [0x230]); (0x233, [0x232]); (0x23C, [0x23B]);
   (0x23F, [0x2C7E]); (0x240, [0x2C7F]); (0x242, [0x241]); (0x247, [0x246]); (0x249, [0x248]);
   (0x24B, [0x24A]); (0x24D, [0x24C]); (0x24F, [0x24E]); (0x250, [0x2C6F]); (0x251, [0x2C6D]);
   (0x252, [0x2C70]); (0x253, [0x181]); (0x254, [0x186]); (0x256, [0x189]); (0x257, [0x18A]);
   (0x259, [0x18F]); (0x25B, [0x190]); (0x25C, [0xA7AB]); (0x260, [0x193]); (0x261, [0xA7AC]);
   (0x263, [0x194]); (0x265, [0xA78D]); (0x266, [0xA7AA]); (0x268, [0x197]); (0x269, [0x196]);
   (0x26A, [0xA7AE]); (0x26B, [0x2C62]); (0x26C, [0xA7AD]); (0x26F, [0x19C]);
   (0x271, [0x2C6E]); (0x272, [0x19D]); (0x275, [0x19F]); (0x27D, [0x2C64]); (0x280, [0x1A6]);
   (0x282, [0xA7C5]); (0x283, [0x1A9]); (0x287, [0xA7B1]); (0x288, [0x1AE]); (0x289, [0x244]);
   (0x28A, [0x1B1]); (0x28B, [0x1B2]); (0x28C, [0x245]); (0x292, [0x1B7]); (0x29D, [0xA7B2]);
   (0x29E, [0xA7B0]); (0x345, [0x399]); (0x371, [0x370]); (0x373, [0x372]); (0x377, [0x376]);
   (0x37B, [0x3FD]); (0x37C, [0x3FE]); (0x37D, [0x3FF]); (0x390, [0x399; 0x308; 0x301]);
   (0x3AC, [0x386]); (0x3AD, [0x388]); (0x3AE, [0x389]); (0x3AF, [0x38A]);
   (0x3B0, [0x3A5; 0x308; 0x301]); (0x3B1, [0x391]); (0x3B2, [0x392]); (0x3B3, [0x393]);
   (0x3B4, [0x394]); (0x3B5, [0x395]); (0x3B6, [0x396]); (0x3B7, [0x397]); (0x3B8, [0x398]);
   (0x3B9, [0x399]); (0x3BA, [0x39A]); (0x3BB, [0x39B]); (0x3BC, [0x39C]); (0x3BD, [0x39D]);
   (0x3BE, [0x39E]); (0x3BF, [0x39F]); (0x3C0, [0x3A0]); (0x3C1, [0x3A1]); (0x3C2, [0x3A3]);
   (0x3C3, [0x3A3]); (0x3C4, [0x3A4]); (0x3C5, [0x3A5]); (0x3C6, [0x3A6]); (0x3C7, [0x3A7]);
   (0x3C8, [0x3A8]); (0x3C9, [0x3A9]); (0x3CA, [0x3AA]); (0x3CB, [0x3AB]); (0x3CC, [0x38C]);
   (0x3CD, [0x38E]); (0x3CE, [0x38F]); (0x3D0, [0x392]); (0x3D1, [0x398]); (0x3D5, [0x3A6]);
   (0x3D6, [0x3A0]); (0x3D7, [0x3CF]); (0x3D9, [0x3D8]); (0x3DB, [0x3DA]); (0x3DD, [0x3DC]);
   (0x3DF, [0x3DE]); (0x3E1, [0x3E0]); (0x3E3, [0x3E2]); (0x3E5, [0x3E4]); (0x3E7, [0x3E6]);
   (0x3E9, [0x3E8]); (0x3EB, [0x3EA]); (0x3ED, [0x3EC]); (0x3EF, [0x3EE]); (0x3F0, [0x39A]);
   (0x3F1, [0x3A1]); (0x3F2, [0x3F9]); (0x3F3, [0x37F]); (0x3F5, [0x395]); (0x3F8, [0x3F7]);
   (0x3FB, [0x3FA]); (0x430, [0x410]); (0x431, [0x411]); (0x432, [0x412]); (0x433, [0x413]);
   (0x434, [0x414]); (0x435, [0x415]); (0x436, [0x416]); (0x437, [0x417]); (0x438, [0x418]);
   (0x439, [0x419]); (0x43A, [0x41A]); (0x43B, [0x41B]); (0x43C, [0x41C]); (0x43D, [0x41D]);
   (0x43E, [0x41E]); (0x43F, [0x41F]); (0x440, [0x420]); (0x441, [0x421]); (0x442, [0x422]);
   (0x443, [0x423]); (0x444, [0x424]); (0x445, [0x425]); (0x446, [0x426]); (0x447, [0x427]);
   (0x448, [0x428]); (0x449, [0x429]); (0x44A, [0x42A]); (0x44B, [0x42B]); (0x44C, [0x42C]);
   (0x44D, [0x42D]); (0x44E, [0x42E]); (0x44F, [0x42F]); (0x450, [0x400]); (0x451, [0x401]);
   (0x452, [0x402]); (0x453, [0x403]); (0x454, [0x404]); (0x455, [0x405]); (0x456, [0x406]);
   (0x457, [0x407]); (0x458, [0x408]); (0x459, [0x409]); (0x45A, [0x40A]); (0x45B, [0x40B]);
   (0x45C, [0x40C]); (0x45D, [0x40D]); (0x45E, [0x40E]); (0x45F, [0x40F]); (0x461, [0x460]);
   (0x463, [0x462]); (0x465, [0x464]); (0x467, [0x466]); (0x469, [0x468]); (0x46B, [0x46A]);
   (0x46D, [0x46C]); (0x46F, [0x46E]); (0x471, [0x470]); (0x473, [0x472]); (0x475, [0x474]);
   (0x477, [0x476]); (0x479, [0x478]); (0x47B, [0x47A]); (0x47D, [0x47C]); (0x47F, [0x47E]);
   (0x481, [0x480]); (0x48B, [0x48A]); (0x48D, [0x48C]); (0x48F, [0x48E]); (0x491, [0x490]);
   (0x493, [0x492]); (0x495, [0x494]); (0x497, [0x496]); (0x499, [0x498]); (0x49B, [0x49A]);
   (0x49D, [0x49C]); (0x49F, [0x49E]); (0x4A1, [0x4A0]); (0x4A3, [0x4A2]); (0x4A5, [0x4A4]);
   (0x4A7, [0x4A6]); (0x4A9, [0x4A8]); (0x4AB, [0x4AA]); (0x4AD, [0x4AC]); (0x4AF, [0x4AE]);
   (0x4B1, [0x4B0]); (0x4B3, [0x4B2]); (0x4B5, [0x4B4]); (0x4B7, [0x4B6]); (0x4B9, [0x4B8]);
   (0x4BB, [0x4BA]); (0x4BD, [0x4BC]); (0x4BF, [0x4BE]); (0x4C2, [0x4C1]); (0x4C4, [0x4C3]);
   (0x4C6, [0x4C5]); (0x4C8, [0x4C7]); (0x4CA, [0x4C9]); (0x4CC, [0x4CB]); (0x4CE, [0x4CD]);
   (0x4CF, [0x4C0]); (0x4D1, [0x4D0]); (0x4D3, [0x4D2]); (0x4D5, [0x4D4]); (0x4D7, [0x4D6]);
   (0x4D9, [0x4D8]); (0x4DB, [0x4DA]); (0x4DD, [0x4DC]); (0x4DF, [0x4DE]); (0x4E1, [0x4E0]);
   (0x4E3, [0x4E2]); (0x4E5, [0x4E4]); (0x4E7, [0x4E6]); (0x4E9, [0x4E8]); (0x4EB, [0x4EA]);
   (0x4ED, [0x4EC]); (0x4EF, [0x4EE]); (0x4F1, [0x4F0]); (0x4F3, [0x4F2]); (0x4F5, [0x4F4]);
   (0x4F7, [0x4F6]); (0x4F9, [0x4F8]); (0x4FB, [0x4FA]); (0x4FD, [0x4FC]); (0x4FF, [0x4FE]);
   (0x501, [0x500]); (0x503, [0x502]); (0x505, [0x504]); (0x507, [0x506]); (0x509, [0x508]);
   (0x50B, [0x50A]); (0x50D, [0x50C]); (0x50F, [0x50E]); (0x511, [0x510]); (0x513, [0x512]);
   (0x515, [0x514]); (0x517, [0x516]); (0x519, [0x518]); (0x51B, [0x51A]); (0x51D, [0x51C]);
   (0x51F, [0x51E]); (0x521, [0x520]); (0x523, [0x522]); (0x525, [0x524]); (0x527, [0x526]);
   (0x529, [0x528]); (0x52B, [0x52A]); (0x52D, [0x52C]); (0x52F, [0x52E]); (0x561, [0x531]);
   (0x562, [0x532]); (0x563, [0x533]); (0x564, [0x534]); (0x565, [0x535]); (0x566, [0x536]);
   (0x567, [0x537]); (0x568, [0x538]); (0x569, [0x539]); (0x56A, [0x53A]); (0x56B, [0x53B]);
   (0x56C, [0x53C]); (0x56D, [0x53D]); (0x56E, [0x53E]); (0x56F, [0x53F]); (0x570, [0x540]);
   (0x571, [0x541]); (0x572, [0x542]); (0x573, [0x543]); (0x574, [0x544]); (0x575, [0x545]);
   (0x576, [0x546]); (0x577, [0x547]); (0x578, [0x548]); (0x579, [0x549]); (0x57A, [0x54A]);
   (0x57B, [0x54B]); (0x57C, [0x54C]); (0x57D, [0x54D]); (0x57E, [0x54E]); (0x57F, [0x54F]);
   (0x580, [0x550]); (0x581, [0x551]); (0x582, [0x552]); (0x583, [0x553]); (0x584, [0x554]);
   (0x585, [0x555]); (0x586, [0x556]); (0x587, [0x535; 0x552]); (0x10D0, [0x1C90]);
   (0x10D1, [0x1C91]); (0x10D2, [0x1C92]); (0x10D3, [0x1C93]); (0x10D4, [0x1C94]);
   (0x10D5, [0x1C95]); (0x10D6, [0x1C96]); (0x10D7, [0x1C97]); (0x10D8, [0x1C98]);
   (0x10D9, [0x1C99]); (0x10DA, [0x1C9A]); (0x10DB, [0x1C9B]); (0x10DC, [0x1C9C]);
   (0x10DD, [0x1C9D]); (0x10DE, [0x1C9E]); (0x10DF, [0x1C9F]); (0x10E0, [0x1CA0]);
   (0x10E1, [0x1CA1]); (0x10E2, [0x1CA2]); (0x10E3, [0x1CA3]); (0x10E4, [0x1CA4]);
   (0x10E5, [0x1CA5]); (0x10E6, [0x1CA6]); (0x10E7, [0x1CA7]); (0x10E8, [0x1CA8]);
   (0x10E9, [0x1CA9]); (0x10EA, [0x1CAA]); (0x10EB, [0x1CAB]); (0x10EC, [0x1CAC]);
   (0x10ED, [0x1CAD]); (0x10EE, [0x1CAE]); (0x10EF, [0x1CAF]); (0x10F0, [0x1CB0]);
   (0x10F1, [0x1CB1]); (0x10F2, [0x1CB2]); (0x10F3, [0x1CB3]); (0x10F4, [0x1CB4]);
   (0x10F5, [0x1CB5]); (0x10F6, [0x1CB6]); (0x10F7, [0x1CB7]); (0x10F8, [0x1CB8]);
   (0x10F9, [0x1CB9]); (0x10FA, [0x1CBA]); (0x10FD, [0x1CBD]); (0x10FE, [0x1CBE]);
   (0x10FF, [0x1CBF]); (0x13F8, [0x13F0]); (0x13F9, [0x13F1]); (0x13FA, [0x13F2]);
   (0x13FB, [0x13F3]); (0x13FC, [0x13F4]); (0x13FD, [0x13F5]); (0x1C80, [0x412]);
   (0x1C81, [0x414]); (0x1C82, [0x41E]); (0x1C83, [0x421]); (0x1C84, [0x422]);
   (0x1C85, [0x422]); (0x1C86, [0x42A]); (0x1C87, [0x462]); (0x1C88, [0xA64A]);
   (0x1D79, [0xA77D]); (0x1D7D, [0x2C63]); (0x1D8E, [0xA7C6]); (0x1E01, [0x1E00]);
   (0x1E03, [0x1E02]); (0x1E05, [0x1E04]); (0x1E07, [0x1E06]); (0x1E09, [0x1E08]);
   (0x1E0B, [0x1E0A]); (0x1E0D, [0x1E0C]); (0x1E0F, [0x1E0E]); (0x1E11, [0x1E10]);
   (0x1E13, [0x1E12]); (0x1E15, [0x1E14]); (0x1E17, [0x1E16]); (0x1E19, [0x1E18]);
   (0x1E1B, [0x1E1A]); (0x1E1D, [0x1E1C]); (0x1E1F, [0x1E1E]); (0x1E21, [0x1E20]);
   (0x1E23, [0x1E22]); (0x1E25, [0x1E24]); (0x1E27, [0x1E26]); (0x1E29, [0x1E28]);
   (0x1E2B, [0x1E2A]); (0x1E2D, [0x1E2C]); (0x1E2F, [0x1E2E]); (0x1E31, [0x1E30]);
   (0x1E33, [0x1E32]); (0x1E35, [0x1E34]); (0x1E37, [0x1E36]); (0x1E39, [0x1E38]);
   (0x1E3B, [0x1E3A]); (0x1E3D, [0x1E3C]); (0x1E3F, [0x1E3E]); (0x1E41, [0x1E40]);
   (0x1E43, [0x1E42]); (0x1E45, [0x1E44]); (0x1E47, [0x1E46]); (0x1E49, [0x1E48]);
   (0x1E4B, [0x1E4A]); (0x1E4D, [0x1E4C]); (0x1E4F, [0x1E4E]); (0x1E51, [0x1E50]);
   (0x1E53, [0x1E52]); (0x1E55, [0x1E54]); (0x1E57, [0x1E56]); (0x1E59, [0x1E58]);
   (0x1E5B, [0x1E5A]); (0x1E5D, [0x1E5C]); (0x1E5F, [0x1E5E]); (0x1E61, [0x1E60]);
   (0x1E63, [0x1E62]); (0x1E65, [0x1E64]); (0x1E67, [0x1E66]); (0x1E69, [0x1E68]);
   (0x1E6B, [0x1E6A]); (0x1E6D, [0x1E6C]); (0x1E6F, [0x1E6E]); (0x1E71, [0x1E70]);
   (0x1E73, [0x1E72]); (0x1E75, [0x1E74]); (0x1E77, [0x1E76]); (0x1E79, [0x1E78]);
   (0x1E7B, [0x1E7A]); (0x1E7D, [0x1E7C]); (0x1E7F, [0x1E7E]); (0x1E81, [0x1E80]);
   (0x1E83, [0x1E82]); (0x1E85, [0x1E84]); (0x1E87, [0x1E86]); (0x1E89, [0x1E88]);
   (0x1E8B, [0x1E8A]); (0x1E8D, [0x1E8C]); (0x1E8F, [0x1E8E]); (0x1E91, [0x1E90]);
   (0x1E93, [0x1E92]); (0x1E95, [0x1E94]); (0x1E96, [0x48; 0x331]); (0x1E97, [0x54; 0x308]);
   (0x1E98, [0x57; 0x30A]); (0x1E99, [0x59; 0x30A]); (0x1E9A, [0x41; 0x2BE]);
   (0x1E9B, [0x1E60]); (0x1EA1, [0x1EA0]); (0x1EA3, [0x1EA2]); (0x1EA5, [0x1EA4]);
   (0x1EA7, [0x1EA6]); (0x1EA9, [0x1EA8]); (0x1EAB, [0x1EAA]); (0x1EAD, [0x1EAC]);
   (0x1EAF, [0x1EAE]); (0x1EB1, [0x1EB0]); (0x1EB3, [0x1EB2]); (0x1EB5, [0x1EB4]);
   (0x1EB7, [0x1EB6]); (0x1EB9, [0x1EB8]); (0x1EBB, [0x1EBA]); (0x1EBD, [0x1EBC]);
   (0x1EBF, [0x1EBE]); (0x1EC1, [0x1EC0]); (0x1EC3, [0x1EC2]); (0x1EC5, [0x1EC4]);
   (0x1EC7, [0x1EC6]); (0x1EC9, [0x1EC8]); (0x1ECB, [0x1ECA]); (0x1ECD, [0x1ECC]);
   (0x1ECF, [0x1ECE]); (0x1ED1, [0x1ED0]); (0x1ED3, [0x1ED2]); (0x1ED5, [0x1ED4]);
   (0x1ED7, [0x1ED6]); (0x1ED9, [0x1ED8]); (0x1EDB, [0x1EDA]); (0x1EDD, [0x1EDC]);
   (0x1EDF, [0x1EDE]); (0x1EE1, [0x1EE0]); (0x1EE3, [0x1EE2]); (0x1EE5, [0x1EE4]);
   (0x1EE7, [0x1EE6]); (0x1EE9, [0x1EE8]); (0x1EEB, [0x1EEA]); (0x1EED, [0x1EEC]);
   (0x1EEF, [0x1EEE]); (0x1EF1, [0x1EF0]); (0x1EF3, [0x1EF2]); (0x1EF5, [0x1EF4]);
   (0x1EF7, [0x1EF6]); (0x1EF9, [0x1EF8]); (0x1EFB, [0x1EFA]); (0x1EFD, [0x1EFC]);
   (0x1EFF, [0x1EFE]); (0x1F00, [0x1F08]); (0x1F01, [0x1F09]); (0x1F02, [0x1F0A]);
   (0x1F03, [0x1F0B]); (0x1F04, [0x1F0C]); (0x1F05, [0x1F0D]); (0x1F06, [0x1F0E]);
   (0x1F07, [0x1F0F]); (0x1F10, [0x1F18]); (0x1F11, [0x1F19]); (0x1F12, [0x1F1A]);
   (0x1F13, [0x1F1B]); (0x1F14, [0x1F1C]); (0x1F15, [0x1F1D]); (0x1F20, [0x1F28]);
   (0x1F21, [0x1F29]); (0x1F22, [0x1F2A]); (0x1F23, [0x1F2B]); (0x1F24, [0x1F2C]);
   (0x1F25, [0x1F2D]); (0x1F26, [0x1F2E]); (0x1F27, [0x1F2F]); (0x1F30, [0x1F38]);
   (0x1F31, [0x1F39]); (0x1F32, [0x1F3A]); (0x1F33, [0x1F3B]); (0x1F34, [0x1F3C]);
   (0x1F35, [0x1F3D]); (0x1F36, [0x1F3E]); (0x1F37, [0x1F3F]); (0x1F40, [0x1F48]);
   (0x1F41, [0x1F49]); (0x1F42, [0x1F4A]); (0x1F43, [0x1F4B]); (0x1F44, [0x1F4C]);
   (0x1F45, [0x1F4D]); (0x1F50, [0x3A5; 0x313]); (0x1F51, [0x1F59]);
   (0x1F52, [0x3A5; 0x313; 0x300]); (0x1F53, [0x1F5B]); (0x1F54, [0x3A5; 0x313; 0x301]);
   (0x1F55, [0x1F5D]); (0x1F56, [0x3A5; 0x313; 0x342]); (0x1F57, [0x1F5F]); (0x1F60, [0x1F68]);
   (0x1F61, [0x1F69]); (0x1F62, [0x1F6A]); (0x1F63, [0x1F6B]); (0x1F64, [0x1F6C]);
   (0x1F65, [0x1F6D]); (0x1F66, [0x1F6E]); (0x1F67, [0x1F6F]); (0x1F70, [0x1FBA]);
   (0x1F71, [0x1FBB]); (0x1F72, [0x1FC8]); (0x1F73, [0x1FC9]); (0x1F74, [0x1FCA]);
   (0x1F75, [0x1FCB]); (0x1F76, [0x1FDA]); (0x1F77, [0x1FDB]); (0x1F78, [0x1FF8]);
   (0x1F79, [0x1FF9]); (0x1F7A, [0x1FEA]); (0x1F7B, [0x1FEB]); (0x1F7C, [0x1FFA]);
   (0x1F7D, [0x1FFB]); (0x1F80, [0x1F08; 0x399]); (0x1F81, [0x1F09; 0x399]);
   (0x1F82, [0x1F0A; 0x399]); (0x1F83, [0x1F0B; 0x399]); (0x1F84, [0x1F0C; 0x399]);
   (0x1F85, [0x1F0D; 0x399]); (0x1F86, [0x1F0E; 0x399]); (0x1F87, [0x1F0F; 0x399]);
   (0x1F88, [0x1F08; 0x399]); (0x1F89, [0x1F09; 0x399]); (0x1F8A, [0x1F0A; 0x399]);
   (0x1F8B, [0x1F0B; 0x399]); (0x1F8C, [0x1F0C; 0x399]); (0x1F8D, [0x1F0D; 0x399]);
   (0x1F8E, [0x1F0E; 0x399]); (0x1F8F, [0x1F0F; 0x399]); (0x1F90, [0x1F28; 0x399]);
   (0x1F91, [0x1F29; 0x399]); (0x1F92, [0x1F2A; 0x399]); (0x1F93, [0x1F2B; 0x399]);
   (0x1F94, [0x1F2C; 0x399]); (0x1F95, [0x1F2D; 0x399]); (0x1F96, [0x1F2E; 0x399]);
   (0x1F97, [0x1F2F; 0x399]); (0x1F98, [0x1F28; 0x399]); (0x1F99, [0x1F29; 0x399]);
   (0x1F9A, [0x1F2A; 0x399]); (0x1F9B, [0x1F2B; 0x399]); (0x1F9C, [0x1F2C; 0x399]);
   (0x1F9D, [0x1F2D; 0x399]); (0x1F9E, [0x1F2E; 0x399]); (0x1F9F, [0x1F2F; 0x399]);
   (0x1FA0, [0x1F68; 0x399]); (0x1FA1, [0x1F69; 0x399]); (0x1FA2, [0x1F6A; 0x399]);
   (0x1FA3, [0x1F6B; 0x399]); (0x1FA4, [0x1F6C; 0x399]); (0x1FA5, [0x1F6D; 0x399]);
   (0x1FA6, [0x1F6E; 0x399]); (0x1FA7, [0x1F6F; 0x399]); (0x1FA8, [0x1F68; 0x399]);
   (0x1FA9, [0x1F69; 0x399]); (0x1FAA, [0x1F6A; 0x399]); (0x1FAB, [0x1F6B; 0x399]);
   (0x1FAC, [0x1F6C; 0x399]); (0x1FAD, [0x1F6D; 0x399]); (0x1FAE, [0x1F6E; 0x399]);
   (0x1FAF, [0x1F6F; 0x399]); (0x1FB0, [0x1FB8]); (0x1FB1, [0x1FB9]);
   (0x1FB2, [0x1FBA; 0x399]); (0x1FB3, [0x391; 0x399]); (0x1FB4, [0x386; 0x399]);
   (0x1FB6, [0x391; 0x342]); (0x1FB7, [0x391; 0x342; 0x399]); (0x1FBC, [0x391; 0x399]);
   (0x1FBE, [0x399]); (0x1FC2, [0x1FCA; 0x399]); (0x1FC3, [0x397; 0x399]);
   (0x1FC4, [0x389; 0x399]); (0x1FC6, [0x397; 0x342]); (0x1FC7, [0x397; 0x342; 0x399]);
   (0x1FCC, [0x397; 0x399]); (0x1FD0, [0x1FD8]); (0x1FD1, [0x1FD9]);
   (0x1FD2, [0x399; 0x308; 0x300]); (0x1FD3, [0x399; 0x308; 0x301]); (0x1FD6, [0x399; 0x342]);
   (0x1FD7, [0x399; 0x308; 0x342]); (0x1FE0, [0x1FE8]); (0x1FE1, [0x1FE9]);
   (0x1FE2, [0x3A5; 0x308; 0x300]); (0x1FE3, [0x3A5; 0x308; 0x301]); (0x1FE4, [0x3A1; 0x313]);
   (0x1FE5, [0x1FEC]); (0x1FE6, [0x3A5; 0x342]); (0x1FE7, [0x3A5; 0x308; 0x342]);
   (0x1FF2, [0x1FFA; 0x399]); (0x1FF3, [0x3A9; 0x399]); (0x1FF4, [0x38F; 0x399]);
   (0x1FF6, [0x3A9; 0x342]); (0x1FF7, [0x3A9; 0x342; 0x399]); (0x1FFC, [0x3A9; 0x399]);
   (0x214E, [0x2132]); (0x2170, [0x2160]); (0x2171, [0x2161]); (0x2172, [0x2162]);
   (0x2173, [0x2163]); (0x2174, [0x2164]); (0x2175, [0x2165]); (0x2176, [0x2166]);
   (0x2177, [0x2167]); (0x2178, [0x2168]); (0x2179, [0x2169]); (0x217A, [0x216A]);
   (0x217B, [0x216B]); (0x217C, [0x216C]); (0x217D, [0x216D]); (0x217E, [0x216E]);
   (0x217F, [0x216F]); (0x2184, [0x2183]); (0x24D0, [0x24B6]); (0x24D1, [0x24B7]);
   (0x24D2, [0x24B8]); (0x24D3, [0x24B9]); (0x24D4, [0x24BA]); (0x24D5, [0x24BB]);
   (0x24D6, [0x24BC]); (0x24D7, [0x24BD]); (0x24D8, [0x24BE]); (0x24D9, [0x24BF]);
   (0x24DA, [0x24C0]); (0x24DB, [0x24C1]); (0x24DC, [0x24C2]); (0x24DD, [0x24C3]);
   (0x24DE, [0x24C4]); (0x24DF, [0x24C5]); (0x24E0, [0x24C6]); (0x24E1, [0x24C7]);
   (0x24E2, [0x24C8]); (0x24E3, [0x24C9]); (0x24E4, [0x24CA]); (0x24E5, [0x24CB]);
   (0x24E6, [0x24CC]); (0x24E7, [0x24CD]); (0x24E8, [0x24CE]); (0x24E9, [0x24CF]);
   (0x2C30, [0x2C00]); (0x2C31, [0x2C01]); (0x2C32, [0x2C02]); (0x2C33, [0x2C03]);
   (0x2C34, [0x2C04]); (0x2C35, [0x2C05]); (0x2C36, [0x2C06]); (0x2C37, [0x2C07]);
   (0x2C38, [0x2C08]); (0x2C39, [0x2C09]); (0x2C3A, [0x2C0A]); (0x2C3B, [0x2C0B]);
   (0x2C3C, [0x2C0C]); (0x2C3D, [0x2C0D]); (0x2C3E, [0x2C0E]); (0x2C3F, [0x2C0F]);
   (0x2C40, [0x2C10]); (0x2C41, [0x2C11]); (0x2C42, [0x2C12]); (0x2C43, [0x2C13]);
   (0x2C44, [0x2C14]); (0x2C45, [0x2C15]); (0x2C46, [0x2C16]); (0x2C47, [0x2C17]);
   (0x2C48, [0x2C18]); (0x2C49, [0x2C19]); (0x2C4A, [0x2C1A]); (0x2C4B, [0x2C1B]);
   (0x2C4C, [0x2C1C]); (0x2C4D, [0x2C1D]); (0x2C4E, [0x2C1E]); (0x2C4F, [0x2C1F]);
   (0x2C50, [0x2C20]); (0x2C51, [0x2C21]); (0x2C52, [0x2C22]); (0x2C53, [0x2C23]);
   (0x2C54, [0x2C24]); (0x2C55, [0x2C25]); (0x2C56, [0x2C26]); (0x2C57, [0x2C27]);
   (0x2C58, [0x2C28]); (0x2C59, [0x2C29]); (0x2C5A, [0x2C2A]); (0x2C5B, [0x2C2B]);
   (0x2C5C, [0x2C2C]); (0x2C5D, [0x2C2D]); (0x2C5E, [0x2C2E]); (0x2C5F, [0x2C2F]);
   (0x2C61, [0x2C60]); (0x2C65, [0x23A]); (0x2C66, [0x23E]); (0x2C68, [0x2C67]);
   (0x2C6A, [0x2C69]); (0x2C6C, [0x2C6B]); (0x2C73, [0x2C72]); (0x2C76, [0x2C75]);
   (0x2C81, [0x2C80]); (0x2C83, [0x2C82]); (0x2C85, [0x2C84]); (0x2C87, [0x2C86]);
   (0x2C89, [0x2C88]); (0x2C8B, [0x2C8A]); (0x2C8D, [0x2C8C]); (0x2C8F, [0x2C8E]);
   (0x2C91, [0x2C90]); (0x2C93, [0x2C92]); (0x2C95, [0x2C94]); (0x2C97, [0x2C96]);
   (0x2C99, [0x2C98]); (0x2C9B, [0x2C9A]); (0x2C9D, [0x2C9C]); (0x2C9F, [0x2C9E]);
   (0x2CA1, [0x2CA0]); (0x2CA3, [0x2CA2]); (0x2CA5, [0x2CA4]); (0x2CA7, [0x2CA6]);
   (0x2CA9, [0x2CA8]); (0x2CAB, [0x2CAA]); (0x2CAD, [0x2CAC]); (0x2CAF, [0x2CAE]);
   (0x2CB1, [0x2CB0]); (0x2CB3, [0x2CB2]); (0x2CB5, [0x2CB4]); (0x2CB7, [0x2CB6]);
   (0x2CB9, [0x2CB8]); (0x2CBB, [0x2CBA]); (0x2CBD, [0x2CBC]); (0x2CBF, [0x2CBE]);
   (0x2CC1, [0x2CC0]); (0x2CC3, [0x2CC2]); (0x2CC5, [0x2CC4]); (0x2CC7, [0x2CC6]);
   (0x2CC9, [0x2CC8]); (0x2CCB, [0x2CCA]); (0x2CCD, [0x2CCC]); (0x2CCF, [0x2CCE]);
   (0x2CD1, [0x2CD0]); (0x2CD3, [0x2CD2]); (0x2CD5, [0x2CD4]); (0x2CD7, [0x2CD6]);
   (0x2CD9, [0x2CD8]); (0x2CDB, [0x2CDA]); (0x2CDD, [0x2CDC]); (0x2CDF, [0x2CDE]);
   (0x2CE1, [0x2CE0]); (0x2CE3, [0x2CE2]); (0x2CEC, [0x2CEB]); (0x2CEE, [0x2CED]);
   (0x2CF3, [0x2CF2]); (0x2D00, [0x10A0]); (0x2D01, [0x10A1]); (0x2D02, [0x10A2]);
   (0x2D03, [0x10A3]); (0x2D04, [0x10A4]); (0x2D05, [0x10A5]); (0x2D06, [0x10A6]);
   (0x2D07, [0x10A7]); (0x2D08, [0x10A8]); (0x2D09, [0x10A9]); (0x2D0A, [0x10AA]);
   (0x2D0B, [0x10AB]); (0x2D0C, [0x10AC]); (0x2D0D, [0x10AD]); (0x2D0E, [0x10AE]);
   (0x2D0F, [0x10AF]); (0x2D10, [0x10B0]); (0x2D11, [0x10B1]); (0x2D12, [0x10B2]);
   (0x2D13, [0x10B3]); (0x2D14, [0x10B4]); (0x2D15, [0x10B5]); (0x2D16, [0x10B6]);
   (0x2D17, [0x10B7]); (0x2D18, [0x10B8]); (0x2D19, [0x10B9]); (0x2D1A, [0x10BA]);
   (0x2D1B, [0x10BB]); (0x2D1C, [0x10BC]); (0x2D1D, [0x10BD]); (0x2D1E, [0x10BE]);
   (0x2D1F, [0x10BF]); (0x2D20, [0x10C0]); (0x2D21, [0x10C1]); (0x2D22, [0x10C2]);
   (0x2D23, [0x10C3]); (0x2D24, [0x10C4]); (0x2D25, [0x10C5]); (0x2D27, [0x10C7]);
   (0x2D2D, [0x10CD]); (0xA641, [0xA640]); (0xA643, [0xA642]); (0xA645, [0xA644]);
   (0xA647, [0xA646]); (0xA649, [0xA648]); (0xA64B, [0xA64A]); (0xA64D, [0xA64C]);
   (0xA64F, [0xA64E]); (0xA651, [0xA650]); (0xA653, [0xA652]); (0xA655, [0xA654]);
   (0xA657, [0xA656]); (0xA659, [0xA658]); (0xA65B, [0xA65A]); (0xA65D, [0xA65C]);
   (0xA65F, [0xA65E]); (0xA661, [0xA660]); (0xA663, [0xA662]); (0xA665, [0xA664]);
   (0xA667, [0xA666]); (0xA669, [0xA668]); (0xA66B, [0xA66A]); (0xA66D, [0xA66C]);
   (0xA681, [0xA680]); (0xA683, [0xA682]); (0xA685, [0xA684]); (0xA687, [0xA686]);
   (0xA689, [0xA688]); (0xA68B, [0xA68A]); (0xA68D, [0xA68C]); (0xA68F, [0xA68E]);
   (0xA691, [0xA690]); (0xA693, [0xA692]); (0xA695, [0xA694]); (0xA697, [0xA696]);
   (0xA699, [0xA698]); (0xA69B, [0xA69A]); (0xA723, [0xA722]); (0xA725, [0xA724]);
   (0xA727, [0xA726]); (0xA729, [0xA728]); (0xA72B, [0xA72A]); (0xA72D, [0xA72C]);
   (0xA72F, [0xA72E]); (0xA733, [0xA732]); (0xA735, [0xA734]); (0xA737, [0xA736]);
   (0xA739, [0xA738]); (0xA73B, [0xA73A]); (0xA73D, [0xA73C]); (0xA73F, [0xA73E]);
   (0xA741, [0xA740]); (0xA743, [0xA742]); (0xA745, [0xA744]); (0xA747, [0xA746]);
   (0xA749, [0xA748]); (0xA74B, [0xA74A]); (0xA74D, [0xA74C]); (0xA74F, [0xA74E]);
   (0xA751, [0xA750]); (0xA753, [0xA752]); (0xA755, [0xA754]); (0xA757, [0xA756]);
   (0xA759, [0xA758]); (0xA75B, [0xA75A]); (0xA75D, [0xA75C]); (0xA75F, [0xA75E]);
   (0xA761, [0xA760]); (0xA763, [0xA762]); (0xA765, [0xA764]); (0xA767, [0xA766]);
   (0xA769, [0xA768]); (0xA76B, [0xA76A]); (0xA76D, [0xA76C]); (0xA76F, [0xA76E]);
   (0xA77A, [0xA779]); (0xA77C, [0xA77B]); (0xA77F, [0xA77E]); (0xA781, [0xA780]);
   (0xA783, [0xA782]); (0xA785, [0xA784]); (0xA787, [0xA786]); (0xA78C, [0xA78B]);
   (0xA791, [0xA790]); (0xA793, [0xA792]); (0xA794, [0xA7C4]); (0xA797, [0xA796]);
   (0xA799, [0xA798]); (0xA79B, [0xA79A]); (0xA79D, [0xA79C]); (0xA79F, [0xA79E]);
   (0xA7A1, [0xA7A0]); (0xA7A3, [0xA7A2]); (0xA7A5, [0xA7A4]); (0xA7A7, [0xA7A6]);
   (0xA7A9, [0xA7A8]); (0xA7B5, [0xA7B4]); (0xA7B7, [0xA7B6]); (0xA7B9, [0xA7B8]);
   (0xA7BB, [0xA7BA]); (0xA7BD, [0xA7BC]); (0xA7BF, [0xA7BE]); (0xA7C1, [0xA7C0]);
   (0xA7C3, [0xA7C2]); (0xA7C8, [0xA7C7]); (0xA7CA, [0xA7C9]); (0xA7D1, [0xA7D0]);
   (0xA7D7, [0xA7D6]); (0xA7D9, [0xA7D8]); (0xA7F6, [0xA7F5]); (0xAB53, [0xA7B3]);
   (0xAB70, [0x13A0]); (0xAB71, [0x13A1]); (0xAB72, [0x13A2]); (0xAB73, [0x13A3]);
   (0xAB74, [0x13A4]); (0xAB75, [0x13A5]); (0xAB76, [0x13A6]); (0xAB77, [0x13A7]);
   (0xAB78, [0x13A8]); (0xAB79, [0x13A9]); (0xAB7A, [0x13AA]); (0xAB7B, [0x13AB]);
   (0xAB7C, [0x13AC]); (0xAB7D, [0x13AD]); (0xAB7E, [0x13AE]); (0xAB7F, [0x13AF]);
   (0xAB80, [0x13B0]); (0xAB81, [0x13B1]); (0xAB82, [0x13B2]); (0xAB83, [0x13B3]);
   (0xAB84, [0x13B4]); (0xAB85, [0x13B5]); (0xAB86, [0x13B6]); (0xAB87, [0x13B7]);
   (0xAB88, [0x13B8]); (0xAB89, [0x13B9]); (0xAB8A, [0x13BA]); (0xAB8B, [0x13BB]);
   (0xAB8C, [0x13BC]); (0xAB8D, [0x13BD]); (0xAB8E, [0x13BE]); (0xAB8F, [0x13BF]);
   (0xAB90, [0x13C0]); (0xAB91, [0x13C1]); (0xAB92, [0x13C2]); (0xAB93, [0x13C3]);
   (0xAB94, [0x13C4]); (0xAB95, [0x13C5]); (0xAB96, [0x13C6]); (0xAB97, [0x13C7]);
   (0xAB98, [0x13C8]); (0xAB99, [0x13C9]); (0xAB9A, [0x13CA]); (0xAB9B, [0x13CB]);
   (0xAB9C, [0x13CC]); (0xAB9D, [0x13CD]); (0xAB9E, [0x13CE]); (0xAB9F, [0x13CF]);
   (0xABA0, [0x13D0]); (0xABA1, [0x13D1]); (0xABA2, [0x13D2]); (0xABA3, [0x13D3]);
   (0xABA4, [0x13D4]); (0xABA5, [0x13D5]); (0xABA6, [0x13D6]); (0xABA7, [0x13D7]);
   (0xABA8, [0x13D8]); (0xABA9, [0x13D9]); (0xABAA, [0x13DA]); (0xABAB, [0x13DB]);
   (0xABAC, [0x13DC]); (0xABAD, [0x13DD]); (0xABAE, [0x13DE]); (0xABAF, [0x13DF]);
   (0xABB0, [0x13E0]); (0xABB1, [0x13E1]); (0xABB2, [0x13E2]); (0xABB3, [0x13E3]);
   (0xABB4, [0x13E4]); (0xABB5, [0x13E5]); (0xABB6, [0x13E6]); (0xABB7, [0x13E7]);
   (0xABB8, [0x13E8]); (0xABB9, [0x13E9]); (0xABBA, [0x13EA]); (0xABBB, [0x13EB]);
   (0xABBC, [0x13EC]); (0xABBD, [0x13ED]); (0xABBE, [0x13EE]); (0xABBF, [0x13EF]);
   (0xFB00, [0x46; 0x46]); (0xFB01, [0x46; 0x49]); (0xFB02, [0x46; 0x4C]);
   (0xFB03, [0x46; 0x46; 0x49]); (0xFB04, [0x46; 0x46; 0x4C]); (0xFB05, [0x53; 0x54]);
   (0xFB06, [0x53; 0x54]); (0xFB13, [0x544; 0x546]); (0xFB14, [0x544; 0x535]);
   (0xFB15, [0x544; 0x53B]); (0xFB16, [0x54E; 0x546]); (0xFB17, [0x544; 0x53D]);
   (0xFF41, [0xFF21]); (0xFF42, [0xFF22]); (0xFF43, [0xFF23]); (0xFF44, [0xFF24]);
   (0xFF45, [0xFF25]); (0xFF46, [0xFF26]); (0xFF47, [0xFF27]); (0xFF48, [0xFF28]);
   (0xFF49, [0xFF29]); (0xFF4A, [0xFF2A]); (0xFF4B, [0xFF2B]); (0xFF4C, [0xFF2C]);
   (0xFF4D, [0xFF2D]); (0xFF4E, [0xFF2E]); (0xFF4F, [0xFF2F]); (0xFF50, [0xFF30]);
   (0xFF51, [0xFF31]); (0xFF52, [0xFF32]); (0xFF53, [0xFF33]); (0xFF54, [0xFF34]);
   (0xFF55, [0xFF35]); (0xFF56, [0xFF36]); (0xFF57, [0xFF37]); (0xFF58, [0xFF38]);
   (0xFF59, [0xFF39]); (0xFF5A, [0xFF3A]); (0x10428, [0x10400]); (0x10429, [0x10401]);
   (0x1042A, [0x10402]); (0x1042B, [0x10403]); (0x1042C, [0x10404]); (0x1042D, [0x10405]);
   (0x1042E, [0x10406]); (0x1042F, [0x10407]); (0x10430, [0x10408]); (0x10431, [0x10409]);
   (0x10432, [0x1040A]); (0x10433, [0x1040B]); (0x10434, [0x1040C]); (0x10435, [0x1040D]);
   (0x10436, [0x1040E]); (0x10437, [0x1040F]); (0x10438, [0x10410]); (0x10439, [0x10411]);
   (0x1043A, [0x10412]); (0x1043B, [0x10413]); (0x1043C, [0x10414]); (0x1043D, [0x10415]);
   (0x1043E, [0x10416]); (0x1043F, [0x10417]); (0x10440, [0x10418]); (0x10441, [0x10419]);
   (0x10442, [0x1041A]); (0x10443, [0x1041B]); (0x10444, [0x1041C]); (0x10445, [0x1041D]);
   (0x10446, [0x1041E]); (0x10447, [0x1041F]); (0x10448, [0x10420]); (0x10449, [0x10421]);
   (0x1044A, [0x10422]); (0x1044B, [0x10423]); (0x1044C, [0x10424]); (0x1044D, [0x10425]);
   (0x1044E, [0x10426]); (0x1044F, [0x10427]); (0x104D8, [0x104B0]); (0x104D9, [0x104B1]);
   (0x104DA, [0x104B2]); (0x104DB, [0x104B3]); (0x104DC, [0x104B4]); (0x104DD, [0x104B5]);
   (0x104DE, [0x104B6]); (0x104DF, [0x104B7]); (0x104E0, [0x104B8]); (0x104E1, [0x104B9]);
   (0x104E2, [0x104BA]); (0x104E3, [0x104BB]); (0x104E4, [0x104BC]); (0x104E5, [0x104BD]);
   (0x104E6, [0x104BE]); (0x104E7, [0x104BF]); (0x104E8, [0x104C0]); (0x104E9, [0x104C1]);
   (0x104EA, [0x104C2]); (0x104EB, [0x104C3]); (0x104EC, [0x104C4]); (0x104ED, [0x104C5]);
   (0x104EE, [0x104C6]); (0x104EF, [0x104C7]); (0x104F0, [0x104C8]); (0x104F1, [0x104C9]);
   (0x104F2, [0x104CA]); (0x104F3, [0x104CB]); (0x104F4, [0x104CC]); (0x104F5, [0x104CD]);
   (0x104F6, [0x104CE]); (0x104F7, [0x104CF]); (0x104F8, [0x104D0]); (0x104F9, [0x104D1]);
   (0x104FA, [0x104D2]); (0x104FB, [0x104D3]); (0x10597, [0x10570]); (0x10598, [0x10571]);
   (0x10599, [0x10572]); (0x1059A, [0x10573]); (0x1059B, [0x10574]); (0x1059C, [0x10575]);
   (0x1059D, [0x10576]); (0x1059E, [0x10577]); (0x1059F, [0x10578]); (0x105A0, [0x10579]);
   (0x105A1, [0x1057A]); (0x105A3, [0x1057C]); (0x105A4, [0x1057D]); (0x105A5, [0x1057E]);
   (0x105A6, [0x1057F]); (0x105A7, [0x10580]); (0x105A8, [0x10581]); (0x105A9, [0x10582]);
   (0x105AA, [0x10583]); (0x105AB, [0x10584]); (0x105AC, [0x10585]); (0x105AD, [0x10586]);
   (0x105AE, [0x10587]); (0x105AF, [0x10588]); (0x105B0, [0x10589]); (0x105B1, [0x1058A]);
   (0x105B3, [0x1058C]); (0x105B4, [0x1058D]); (0x105B5, [0x1058E]); (0x105B6, [0x1058F]);
   (0x105B7, [0x10590]); (0x105B8, [0x10591]); (0x105B9, [0x10592]); (0x105BB, [0x10594]);
   (0x105BC, [0x10595]); (0x10CC0, [0x10C80]); (0x10CC1, [0x10C81]); (0x10CC2, [0x10C82]);
   (0x10CC3, [0x10C83]); (0x10CC4, [0x10C84]); (0x10CC5, [0x10C85]); (0x10CC6, [0x10C86]);
   (0x10CC7, [0x10C87]); (0x10CC8, [0x10C88]); (0x10CC9, [0x10C89]); (0x10CCA, [0x10C8A]);
   (0x10CCB, [0x10C8B]); (0x10CCC, [0x10C8C]); (0x10CCD, [0x10C8D]); (0x10CCE, [0x10C8E]);
   (0x10CCF, [0x10C8F]); (0x10CD0, [0x10C90]); (0x10CD1, [0x10C91]); (0x10CD2, [0x10C92]);
   (0x10CD3, [0x10C93]); (0x10CD4, [0x10C94]); (0x10CD5, [0x10C95]); (0x10CD6, [0x10C96]);
   (0x10CD7, [0x10C97]); (0x10CD8, [0x10C98]); (0x10CD9, [0x10C99]); (0x10CDA, [0x10C9A]);
   (0x10CDB, [0x10C9B]); (0x10CDC, [0x10C9C]); (0x10CDD, [0x10C9D]); (0x10CDE, [0x10C9E]);
   (0x10CDF, [0x10C9F]); (0x10CE0, [0x10CA0]); (0x10CE1, [0x10CA1]); (0x10CE2, [0x10CA2]);
   (0x10CE3, [0x10CA3]); (0x10CE4, [0x10CA4]); (0x10CE5, [0x10CA5]); (0x10CE6, [0x10CA6]);
   (0x10CE7, [0x10CA7]); (0x10CE8, [0x10CA8]); (0x10CE9, [0x10CA9]); (0x10CEA, [0x10CAA]);
   (0x10CEB, [0x10CAB]); (0x10CEC, [0x10CAC]); (0x10CED, [0x10CAD]); (0x10CEE, [0x10CAE]);
   (0x10CEF, [0x10CAF]); (0x10CF0, [0x10CB0]); (0x10CF1, [0x10CB1]); (0x10CF2, [0x10CB2]);
   (0x118C0, [0x118A0]); (0x118C1, [0x118A1]); (0x118C2, [0x118A2]); (0x118C3, [0x118A3]);
   (0x118C4, [0x118A4]); (0x118C5, [0x118A5]); (0x118C6, [0x118A6]); (0x118C7, [0x118A7]);
   (0x118C8, [0x118A8]); (0x118C9, [0x118A9]); (0x118CA, [0x118AA]); (0x118CB, [0x118AB]);
   (0x118CC, [0x118AC]); (0x118CD, [0x118AD]); (0x118CE, [0x118AE]); (0x118CF, [0x118AF]);
   (0x118D0, [0x118B0]); (0x118D1, [0x118B1]); (0x118D2, [0x118B2]); (0x118D3, [0x118B3]);
   (0x118D4, [0x118B4]); (0x118D5, [0x118B5]); (0x118D6, [0x118B6]); (0x118D7, [0x118B7]);
   (0x118D8, [0x118B8]); (0x118D9, [0x118B9]); (0x118DA, [0x118BA]); (0x118DB, [0x118BB]);
   (0x118DC, [0x118BC]); (0x118DD, [0x118BD]); (0x118DE, [0x118BE]); (0x118DF, [0x118BF]);
   (0x16E60, [0x16E40]); (0x16E61, [0x16E41]); (0x16E62, [0x16E42]); (0x16E63, [0x16E43]);
   (0x16E64, [0x16E44]); (0x16E65, [0x16E45]); (0x16E66, [0x16E46]); (0x16E67, [0x16E47]);
   (0x16E68, [0x16E48]); (0x16E69, [0x16E49]); (0x16E6A, [0x16E4A]); (0x16E6B, [0x16E4B]);
   (0x16E6C, [0x16E4C]); (0x16E6D, [0x16E4D]); (0x16E6E, [0x16E4E]); (0x16E6F, [0x16E4F]);
   (0x16E70, [0x16E50]); (0x16E71, [0x16E51]); (0x16E72, [0x16E52]); (0x16E73, [0x16E53]);
   (0x16E74, [0x16E54]); (0x16E75, [0x16E55]); (0x16E76, [0x16E56]); (0x16E77, [0x16E57]);
   (0x16E78, [0x16E58]); (0x16E79, [0x16E59]); (0x16E7A, [0x16E5A]); (0x16E7B, [0x16E5B]);
   (0x16E7C, [0x16E5C]); (0x16E7D, [0x16E5D]); (0x16E7E, [0x16E5E]); (0x16E7F, [0x16E5F]);
   (0x1E922, [0x1E900]); (0x1E923, [0x1E901]); (0x1E924, [0x1E902]); (0x1E925, [0x1E903]);
   (0x1E926, [0x1E904]); (0x1E927, [0x1E905]); (0x1E928, [0x1E906]); (0x1E929, [0x1E907]);
   (0x1E92A, [0x1E908]); (0x1E92B, [0x1E909]); (0x1E92C, [0x1E90A]); (0x1E92D, [0x1E90B]);
   (0x1E92E, [0x1E90C]); (0x1E92F, [0x1E90D]); (0x1E930, [0x1E90E]); (0x1E931, [0x1E90F]);
   (0x1E932, [0x1E910]); (0x1E933, [0x1E911]); (0x1E934, [0x1E912]); (0x1E935, [0x1E913]);
   (0x1E936, [0x1E914]); (0x1E937, [0x1E915]); (0x1E938, [0x1E916]); (0x1E939, [0x1E917]);
   (0x1E93A, [0x1E918]); (0x1E93B, [0x1E919]); (0x1E93C, [0x1E91A]); (0x1E93D, [0x1E91B]);
   (0x1E93E, [0x1E91C]); (0x1E93F, [0x1E91D]); (0x1E940, [0x1E91E]); (0x1E941, [0x1E91F]);
   (0x1E942, [0x1E920]); (0x1E943, [0x1E921])
  ].

(** Full lowercase mappings (str.lower on one code point, out of context) of every code point that str.lower changes. *)
Definition lower_table : list (Z * list Z) :=
  [
   (0x41, [0x61]); (0x42, [0x62]); (0x43, [0x63]); (0x44, [0x64]); (0x45, [0x65]);
   (0x46, [0x66]); (0x47, [0x67]); (0x48, [0x68]); (0x49, [0x69]); (0x4A, [0x6A]);
   (0x4B, [0x6B]); (0x4C, [0x6C]); (0x4D, [0x6D]); (0x4E, [0x6E]); (0x4F, [0x6F]);
   (0x50, [0x70]); (0x51, [0x71]); (0x52, [0x72]); (0x53, [0x73]); (0x54, [0x74]);
   (0x55, [0x75]); (0x56, [0x76]); (0x57, [0x77]); (0x58, [0x78]); (0x59, [0x79]);
   (0x5A, [0x7A]); (0xC0, [0xE0]); (0xC1, [0xE1]); (0xC2, [0xE2]); (0xC3, [0xE3]);
   (0xC4, [0xE4]); (0xC5, [0xE5]); (0xC6, [0xE6]); (0xC7, [0xE7]); (0xC8, [0xE8]);
   (0xC9, [0xE9]); (0xCA, [0xEA]); (0xCB, [0xEB]); (0xCC, [0xEC]); (0xCD, [0xED]);
   (0xCE, [0xEE]); (0xCF, [0xEF]); (0xD0, [0xF0]); (0xD1, [0xF1]); (0xD2, [0xF2]);
   (0xD3, [0xF3]); (0xD4, [0xF4]); (0xD5, [0xF5]); (0xD6, [0xF6]); (0xD8, [0xF8]);
   (0xD9, [0xF9]); (0xDA, [0xFA]); (0xDB, [0xFB]); (0xDC, [0xFC]); (0xDD, [0xFD]);
   (0xDE, [0xFE]); (0x100, [0x101]); (0x102, [0x103]); (0x104, [0x105]); (0x106, [0x107]);
   (0x108, [0x109]); (0x10A, [0x10B]); (0x10C, [0x10D]); (0x10E, [0x10F]); (0x110, [0x111]);
   (0x112, [0x113]); (0x114, [0x115]); (0x116, [0x117]); (0x118, [0x119]); (0x11A, [0x11B]);
   (0x11C, [0x11D]); (0x11E, [0x11F]); (0x120, [0x121]); (0x122, [0x123]); (0x124, [0x125]);
   (0x126, [0x127]); (0x128, [0x129]); (0x12A, [0x12B]); (0x12C, [0x12D]); (0x12E, [0x12F]);
   (0x130, [0x69; 0x307]); (0x132, [0x133]); (0x134, [0x135]); (0x136, [0x137]);
   (0x139, [0x13A]); (0x13B, [0x13C]); (0x13D, [0x13E]); (0x13F, [0x140]); (0x141, [0x142]);
   (0x143, [0x144]); (0x145, [0x146]); (0x147, [0x148]); (0x14A, [0x14B]); (0x14C, [0x14D]);
   (0x14E, [0x14F]); (0x150, [0x151]); (0x152, [0x153]); (0x154, [0x155]); (0x156, [0x157]);
   (0x158, [0x159]); (0x15A, [0x15B]); (0x15C, [0x15D]); (0x15E, [0x15F]); (0x160, [0x161]);
   (0x162, [0x163]); (0x164, [0x165]); (0x166, [0x167]); (0x168, [0x169]); (0x16A, [0x16B]);
   (0x16C, [0x16D]); (0x16E, [0x16F]); (0x170, [0x171]); (0x172, [0x173]); (0x174, [0x175]);
   (0x176, [0x177]); (0x178, [0xFF]); (0x179, [0x17A]); (0x17B, [0x17C]); (0x17D, [0x17E]);
   (0x181, [0x253]); (0x182, [0x183]); (0x184, [0x185]); (0x186, [0x254]); (0x187, [0x188]);
   (0x189, [0x256]); (0x18A, [0x257]); (0x18B, [0x18C]); (0x18E, [0x1DD]); (0x18F, [0x259]);
   (0x190, [0x25B]); (0x191, [0x192]); (0x193, [0x260]); (0x194, [0x263]); (0x196, [0x269]);
   (0x197, [0x268]); (0x198, [0x199]); (0x19C, [0x26F]); (0x19D, [0x272]); (0x19F, [0x275]);
   (0x1A0, [0x1A1]); (0x1A2, [0x1A3]); (0x1A4, [0x1A5]); (0x1A6, [0x280]); (0x1A7, [0x1A8]);
   (0x1A9, [0x283]); (0x1AC, [0x1AD]); (0x1AE, [0x288]); (0x1AF, [0x1B0]); (0x1B1, [0x28A]);
   (0x1B2, [0x28B]); (0x1B3, [0x1B4]); (0x1B5, [0x1B6]); (0x1B7, [0x292]); (0x1B8, [0x1B9]);
   (0x1BC, [0x1BD]); (0x1C4, [0x1C6]); (0x1C5, [0x1C6]); (0x1C7, [0x1C9]); (0x1C8, [0x1C9]);
   (0x1CA, [0x1CC]); (0x1CB, [0x1CC]); (0x1CD, [0x1CE]); (0x1CF, [0x1D0]); (0x1D1, [0x1D2]);
   (0x1D3, [0x1D4]); (0x1D5, [0x1D6]); (0x1D7, [0x1D8]); (0x1D9, [0x1DA]); (0x1DB, [0x1DC]);
   (0x1DE, [0x1DF]); (0x1E0, [0x1E1]); (0x1E2, [0x1E3]); (0x1E4, [0x1E5]); (0x1E6, [0x1E7]);
   (0x1E8, [0x1E9]); (0x1EA, [0x1EB]); (0x1EC, [0x1ED]); (0x1EE, [0x1EF]); (0x1F1, [0x1F3]);
   (0x1F2, [0x1F3]); (0x1F4, [0x1F5]); (0x1F6, [0x195]); (0x1F7, [0x1BF]); (0x1F8, [0x1F9]);
   (0x1FA, [0x1FB]); (0x1FC, [0x1FD]); (0x1FE, [0x1FF]); (0x200, [0x201]); (0x202, [0x203]);
   (0x204, [0x205]); (0x206, [0x207]); (0x208, [0x209]); (0x20A, [0x20B]); (0x20C, [0x20D]);
   (0x20E, [0x20F]); (0x210, [0x211]); (0x212, [0x213]); (0x214, [0x215]); (0x216, [0x217]);
   (0x218, [0x219]); (0x21A, [0x21B]); (0x21C, [0x21D]); (0x21E, [0x21F]); (0x220, [0x19E]);
   (0x222, [0x223]); (0x224, [0x225]); (0x226, [0x227]); (0x228, [0x229]); (0x22A, [0x22B]);
   (0x22C, [0x22D]); (0x22E, [0x22F]); (0x230, [0x231]); (0x232, [0x233]); (0x23A, [0x2C65]);
   (0x23B, [0x23C]); (0x23D, [0x19A]); (0x23E, [0x2C66]); (0x241, [0x242]); (0x243, [0x180]);
   (0x244, [0x289]); (0x245, [0x28C]); (0x246, [0x247]); (0x248, [0x249]); (0x24A, [0x24B]);
   (0x24C, [0x24D]); (0x24E, [0x24F]); (0x370, [0x371]); (0x372, [0x373]); (0x376, [0x377]);
   (0x37F, [0x3F3]); (0x386, [0x3AC]); (0x388, [0x3AD]); (0x389, [0x3AE]); (0x38A, [0x3AF]);
   (0x38C, [0x3CC]); (0x38E, [0x3CD]); (0x38F, [0x3CE]); (0x391, [0x3B1]); (0x392, [0x3B2]);
   (0x393, [0x3B3]); (0x394, [0x3B4]); (0x395, [0x3B5]); (0x396, [0x3B6]); (0x397, [0x3B7]);
   (0x398, [0x3B8]); (0x399, [0x3B9]); (0x39A, [0x3BA]); (0x39B, [0x3BB]); (0x39C, [0x3BC]);
   (0x39D, [0x3BD]); (0x39E, [0x3BE]); (0x39F, [0x3BF]); (0x3A0, [0x3C0]); (0x3A1, [0x3C1]);
   (0x3A3, [0x3C3]); (0x3A4, [0x3C4]); (0x3A5, [0x3C5]); (0x3A6, [0x3C6]); (0x3A7, [0x3C7]);
   (0x3A8, [0x3C8]); (0x3A9, [0x3C9]); (0x3AA, [0x3CA]); (0x3AB, [0x3CB]); (0x3CF, [0x3D7]);
   (0x3D8, [0x3D9]); (0x3DA, [0x3DB]); (0x3DC, [0x3DD]); (0x3DE, [0x3DF]); (0x3E0, [0x3E1]);
   (0x3E2, [0x3E3]); (0x3E4, [0x3E5]); (0x3E6, [0x3E7]); (0x3E8, [0x3E9]); (0x3EA, [0x3EB]);
   (0x3EC, [0x3ED]); (0x3EE, [0x3EF]); (0x3F4, [0x3B8]); (0x3F7, [0x3F8]); (0x3F9, [0x3F2]);
   (0x3FA, [0x3FB]); (0x3FD, [0x37B]); (0x3FE, [0x37C]); (0x3FF, [0x37D]); (0x400, [0x450]);
   (0x401, [0x451]); (0x402, [0x452]); (0x403, [0x453]); (0x404, [0x454]); (0x405, [0x455]);
   (0x406, [0x456]); (0x407, [0x457]); (0x408, [0x458]); (0x409, [0x459]); (0x40A, [0x45A]);
   (0x40B, [0x45B]); (0x40C, [0x45C]); (0x40D, [0x45D]); (0x40E, [0x45E]); (0x40F, [0x45F]);
   (0x410, [0x430]); (0x411, [0x431]); (0x412, [0x432]); (0x413, [0x433]); (0x414, [0x434]);
   (0x415, [0x435]); (0x416, [0x436]); (0x417, [0x437]); (0x418, [0x438]); (0x419, [0x439]);
   (0x41A, [0x43A]); (0x41B, [0x43B]); (0x41C, [0x43C]); (0x41D, [0x43D]); (0x41E, [0x43E]);
   (0x41F, [0x43F]); (0x420, [0x440]); (0x421, [0x441]); (0x422, [0x442]); (0x423, [0x443]);
   (0x424, [0x444]); (0x425, [0x445]); (0x426, [0x446]); (0x427, [0x447]); (0x428, [0x448]);
   (0x429, [0x449]); (0x42A, [0x44A]); (0x42B, [0x44B]); (0x42C, [0x44C]); (0x42D, [0x44D]);
   (0x42E, [0x44E]); (0x42F, [0x44F]); (0x460, [0x461]); (0x462, [0x463]); (0x464, [0x465]);
   (0x466, [0x467]); (0x468, [0x469]); (0x46A, [0x46B]); (0x46C, [0x46D]); (0x46E, [0x46F]);
   (0x470, [0x471]); (0x472, [0x473]); (0x474, [0x475]); (0x476, [0x477]); (0x478, [0x479]);
   (0x47A, [0x47B]); (0x47C, [0x47D]); (0x47E, [0x47F]); (0x480, [0x481]); (0x48A, [0x48B]);
   (0x48C, [0x48D]); (0x48E, [0x48F]); (0x490, [0x491]); (0x492, [0x493]); (0x494, [0x495]);
   (0x496, [0x497]); (0x498, [0x499]); (0x49A, [0x49B]); (0x49C, [0x49D]); (0x49E, [0x49F]);
   (0x4A0, [0x4A1]); (0x4A2, [0x4A3]); (0x4A4, [0x4A5]); (0x4A6, [0x4A7]); (0x4A8, [0x4A9]);
   (0x4AA, [0x4AB]); (0x4AC, [0x4AD]); (0x4AE, [0x4AF]); (0x4B0, [0x4B1]); (0x4B2, [0x4B3]);
   (0x4B4, [0x4B5]); (0x4B6, [0x4B7]); (0x4B8, [0x4B9]); (0x4BA, [0x4BB]); (0x4BC, [0x4BD]);
   (0x4BE, [0x4BF]); (0x4C0, [0x4CF]); (0x4C1, [0x4C2]); (0x4C3, [0x4C4]); (0x4C5, [0x4C6]);
   (0x4C7, [0x4C8]); (0x4C9, [0x4CA]); (0x4CB, [0x4CC]); (0x4CD, [0x4CE]); (0x4D0, [0x4D1]);
   (0x4D2, [0x4D3]); (0x4D4, [0x4D5]); (0x4D6, [0x4D7]); (0x4D8, [0x4D9]); (0x4DA, [0x4DB]);
   (0x4DC, [0x4DD]); (0x4DE, [0x4DF]); (0x4E0, [0x4E1]); (0x4E2, [0x4E3]); (0x4E4, [0x4E5]);
   (0x4E6, [0x4E7]); (0x4E8, [0x4E9]); (0x4EA, [0x4EB]); (0x4EC, [0x4ED]); (0x4EE, [0x4EF]);
   (0x4F0, [0x4F1]); (0x4F2, [0x4F3]); (0x4F4, [0x4F5]); (0x4F6, [0x4F7]); (0x4F8, [0x4F9]);
   (0x4FA, [0x4FB]); (0x4FC, [0x4FD]); (0x4FE, [0x4FF]); (0x500, [0x501]); (0x502, [0x503]);
   (0x504, [0x505]); (0x506, [0x507]); (0x508, [0x509]); (0x50A, [0x50B]); (0x50C, [0x50D]);
   (0x50E, [0x50F]); (0x510, [0x511]); (0x512, [0x513]); (0x514, [0x515]); (0x516, [0x517]);
   (0x518, [0x519]); (0x51A, [0x51B]); (0x51C, [0x51D]); (0x51E, [0x51F]); (0x520, [0x521]);
   (0x522, [0x523]); (0x524, [0x525]); (0x526, [0x527]); (0x528, [0x529]); (0x52A, [0x52B]);
   (0x52C, [0x52D]); (0x52E, [0x52F]); (0x531, [0x561]); (0x532, [0x562]); (0x533, [0x563]);
   (0x534, [0x564]); (0x535, [0x565]); (0x536, [0x566]); (0x537, [0x567]); (0x538, [0x568]);
   (0x539, [0x569]); (0x53A, [0x56A]); (0x53B, [0x56B]); (0x53C, [0x56C]); (0x53D, [0x56D]);
   (0x53E, [0x56E]); (0x53F, [0x56F]); (0x540, [0x570]); (0x541, [0x571]); (0x542, [0x572]);
   (0x543, [0x573]); (0x544, [0x574]); (0x545, [0x575]); (0x546, [0x576]); (0x547, [0x577]);
   (0x548, [0x578]); (0x549, [0x579]); (0x54A, [0x57A]); (0x54B, [0x57B]); (0x54C, [0x57C]);
   (0x54D, [0x57D]); (0x54E, [0x57E]); (0x54F, [0x57F]); (0x550, [0x580]); (0x551, [0x581]);
   (0x552, [0x582]); (0x553, [0x583]); (0x554, [0x584]); (0x555, [0x585]); (0x556, [0x586]);
   (0x10A0, [0x2D00]); (0x10A1, [0x2D01]); (0x10A2, [0x2D02]); (0x10A3, [0x2D03]);
   (0x10A4, [0x2D04]); (0x10A5, [0x2D05]); (0x10A6, [0x2D06]); (0x10A7, [0x2D07]);
   (0x10A8, [0x2D08]); (0x10A9, [0x2D09]); (0x10AA, [0x2D0A]); (0x10AB, [0x2D0B]);
   (0x10AC, [0x2D0C]); (0x10AD, [0x2D0D]); (0x10AE, [0x2D0E]); (0x10AF, [0x2D0F]);
   (0x10B0, [0x2D10]); (0x10B1, [0x2D11]); (0x10B2, [0x2D12]); (0x10B3, [0x2D13]);
   (0x10B4, [0x2D14]); (0x10B5, [0x2D15]); (0x10B6, [0x2D16]); (0x10B7, [0x2D17]);
   (0x10B8, [0x2D18]); (0x10B9, [0x2D19]); (0x10BA, [0x2D1A]); (0x10BB, [0x2D1B]);
   (0x10BC, [0x2D1C]); (0x10BD, [0x2D1D]); (0x10BE, [0x2D1E]); (0x10BF, [0x2D1F]);
   (0x10C0, [0x2D20]); (0x10C1, [0x2D21]); (0x10C2, [0x2D22]); (0x10C3, [0x2D23]);
   (0x10C4, [0x2D24]); (0x10C5, [0x2D25]); (0x10C7, [0x2D27]); (0x10CD, [0x2D2D]);
   (0x13A0, [0xAB70]); (0x13A1, [0xAB71]); (0x13A2, [0xAB72]); (0x13A3, [0xAB73]);
   (0x13A4, [0xAB74]); (0x13A5, [0xAB75]); (0x13A6, [0xAB76]); (0x13A7, [0xAB77]);
   (0x13A8, [0xAB78]); (0x13A9, [0xAB79]); (0x13AA, [0xAB7A]); (0x13AB, [0xAB7B]);
   (0x13AC, [0xAB7C]); (0x13AD, [0xAB7D]); (0x13AE, [0xAB7E]); (0x13AF, [0xAB7F]);
   (0x13B0, [0xAB80]); (0x13B1, [0xAB81]); (0x13B2, [0xAB82]); (0x13B3, [0xAB83]);
   (0x13B4, [0xAB84]); (0x13B5, [0xAB85]); (0x13B6, [0xAB86]); (0x13B7, [0xAB87]);
   (0x13B8, [0xAB88]); (0x13B9, [0xAB89]); (0x13BA, [0xAB8A]); (0x13BB, [0xAB8B]);
   (0x13BC, [0xAB8C]); (0x13BD, [0xAB8D]); (0x13BE, [0xAB8E]); (0x13BF, [0xAB8F]);
   (0x13C0, [0xAB90]); (0x13C1, [0xAB91]); (0x13C2, [0xAB92]); (0x13C3, [0xAB93]);
   (0x13C4, [0xAB94]); (0x13C5, [0xAB95]); (0x13C6, [0xAB96]); (0x13C7, [0xAB97]);
   (0x13C8, [0xAB98]); (0x13C9, [0xAB99]); (0x13CA, [0xAB9A]); (0x13CB, [0xAB9B]);
   (0x13CC, [0xAB9C]); (0x13CD, [0xAB9D]); (0x13CE, [0xAB9E]); (0x13CF, [0xAB9F]);
   (0x13D0, [0xABA0]); (0x13D1, [0xABA1]); (0x13D2, [0xABA2]); (0x13D3, [0xABA3]);
   (0x13D4, [0xABA4]); (0x13D5, [0xABA5]); (0x13D6, [0xABA6]); (0x13D7, [0xABA7]);
   (0x13D8, [0xABA8]); (0x13D9, [0xABA9]); (0x13DA, [0xABAA]); (0x13DB, [0xABAB]);
   (0x13DC, [0xABAC]); (0x13DD, [0xABAD]); (0x13DE, [0xABAE]); (0x13DF, [0xABAF]);
   (0x13E0, [0xABB0]); (0x13E1, [0xABB1]); (0x13E2, [0xABB2]); (0x13E3, [0xABB3]);
   (0x13E4, [0xABB4]); (0x13E5, [0xABB5]); (0x13E6, [0xABB6]); (0x13E7, [0xABB7]);
   (0x13E8, [0xABB8]); (0x13E9, [0xABB9]); (0x13EA, [0xABBA]); (0x13EB, [0xABBB]);
   (0x13EC, [0xABBC]); (0x13ED, [0xABBD]); (0x13EE, [0xABBE]); (0x13EF, [0xABBF]);
   (0x13F0, [0x13F8]); (0x13F1, [0x13F9]); (0x13F2, [0x13FA]); (0x13F3, [0x13FB]);
   (0x13F4, [0x13FC]); (0x13F5, [0x13FD]); (0x1C90, [0x10D0]); (0x1C91, [0x10D1]);
   (0x1C92, [0x10D2]); (0x1C93, [0x10D3]); (0x1C94, [0x10D4]); (0x1C95, [0x10D5]);
   (0x1C96, [0x10D6]); (0x1C97, [0x10D7]); (0x1C98, [0x10D8]); (0x1C99, [0x10D9]);
   (0x1C9A, [0x10DA]); (0x1C9B, [0x10DB]); (0x1C9C, [0x10DC]); (0x1C9D, [0x10DD]);
   (0x1C9E, [0x10DE]); (0x1C9F, [0x10DF]); (0x1CA0, [0x10E0]); (0x1CA1, [0x10E1]);
   (0x1CA2, [0x10E2]); (0x1CA3, [0x10E3]); (0x1CA4, [0x10E4]); (0x1CA5, [0x10E5]);
   (0x1CA6, [0x10E6]); (0x1CA7, [0x10E7]); (0x1CA8, [0x10E8]); (0x1CA9, [0x10E9]);
   (0x1CAA, [0x10EA]); (0x1CAB, [0x10EB]); (0x1CAC, [0x10EC]); (0x1CAD, [0x10ED]);
   (0x1CAE, [0x10EE]); (0x1CAF, [0x10EF]); (0x1CB0, [0x10F0]); (0x1CB1, [0x10F1]);
   (0x1CB2, [0x10F2]); (0x1CB3, [0x10F3]); (0x1CB4, [0x10F4]); (0x1CB5, [0x10F5]);
   (0x1CB6, [0x10F6]); (0x1CB7, [0x10F7]); (0x1CB8, [0x10F8]); (0x1CB9, [0x10F9]);
   (0x1CBA, [0x10FA]); (0x1CBD, [0x10FD]); (0x1CBE, [0x10FE]); (0x1CBF, [0x10FF]);
   (0x1E00, [0x1E01]); (0x1E02, [0x1E03]); (0x1E04, [0x1E05]); (0x1E06, [0x1E07]);
   (0x1E08, [0x1E09]); (0x1E0A, [0x1E0B]); (0x1E0C, [0x1E0D]); (0x1E0E, [0x1E0F]);
   (0x1E10, [0x1E11]); (0x1E12, [0x1E13]); (0x1E14, [0x1E15]); (0x1E16, [0x1E17]);
   (0x1E18, [0x1E19]); (0x1E1A, [0x1E1B]); (0x1E1C, [0x1E1D]); (0x1E1E, [0x1E1F]);
   (0x1E20, [0x1E21]); (0x1E22, [0x1E23]); (0x1E24, [0x1E25]); (0x1E26, [0x1E27]);
   (0x1E28, [0x1E29]); (0x1E2A, [0x1E2B]); (0x1E2C, [0x1E2D]); (0x1E2E, [0x1E2F]);
   (0x1E30, [0x1E31]); (0x1E32, [0x1E33]); (0x1E34, [0x1E35]); (0x1E36, [0x1E37]);
   (0x1E38, [0x1E39]); (0x1E3A, [0x1E3B]); (0x1E3C, [0x1E3D]); (0x1E3E, [0x1E3F]);
   (0x1E40, [0x1E41]); (0x1E42, [0x1E43]); (0x1E44, [0x1E45]); (0x1E46, [0x1E47]);
   (0x1E48, [0x1E49]); (0x1E4A, [0x1E4B]); (0x1E4C, [0x1E4D]); (0x1E4E, [0x1E4F]);
   (0x1E50, [0x1E51]); (0x1E52, [0x1E53]); (0x1E54, [0x1E55]); (0x1E56, [0x1E57]);
   (0x1E58, [0x1E59]); (0x1E5A, [0x1E5B]); (0x1E5C, [0x1E5D]); (0x1E5E, [0x1E5F]);
   (0x1E60, [0x1E61]); (0x1E62, [0x1E63]); (0x1E64, [0x1E65]); (0x1E66, [0x1E67]);
   (0x1E68, [0x1E69]); (0x1E6A, [0x1E6B]); (0x1E6C, [0x1E6D]); (0x1E6E, [0x1E6F]);
   (0x1E70, [0x1E71]); (0x1E72, [0x1E73]); (0x1E74, [0x1E75]); (0x1E76, [0x1E77]);
   (0x1E78, [0x1E79]); (0x1E7A, [0x1E7B]); (0x1E7C, [0x1E7D]); (0x1E7E, [0x1E7F]);
   (0x1E80, [0x1E81]); (0x1E82, [0x1E83]); (0x1E84, [0x1E85]); (0x1E86, [0x1E87]);
   (0x1E88, [0x1E89]); (0x1E8A, [0x1E8B]); (0x1E8C, [0x1E8D]); (0x1E8E, [0x1E8F]);
   (0x1E90, [0x1E91]); (0x1E92, [0x1E93]); (0x1E94, [0x1E95]); (0x1E9E, [0xDF]);
   (0x1EA0, [0x1EA1]); (0x1EA2, [0x1EA3]); (0x1EA4, [0x1EA5]); (0x1EA6, [0x1EA7]);
   (0x1EA8, [0x1EA9]); (0x1EAA, [0x1EAB]); (0x1EAC, [0x1EAD]); (0x1EAE, [0x1EAF]);
   (0x1EB0, [0x1EB1]); (0x1EB2, [0x1EB3]); (0x1EB4, [0x1EB5]); (0x1EB6, [0x1EB7]);
   (0x1EB8, [0x1EB9]); (0x1EBA, [0x1EBB]); (0x1EBC, [0x1EBD]); (0x1EBE, [0x1EBF]);
   (0x1EC0, [0x1EC1]); (0x1EC2, [0x1EC3]); (0x1EC4, [0x1EC5]); (0x1EC6, [0x1EC7]);
   (0x1EC8, [0x1EC9]); (0x1ECA, [0x1ECB]); (0x1ECC, [0x1ECD]); (0x1ECE, [0x1ECF]);
   (0x1ED0, [0x1ED1]); (0x1ED2, [0x1ED3]); (0x1ED4, [0x1ED5]); (0x1ED6, [0x1ED7]);
   (0x1ED8, [0x1ED9]); (0x1EDA, [0x1EDB]); (0x1EDC, [0x1EDD]); (0x1EDE, [0x1EDF]);
   (0x1EE0, [0x1EE1]); (0x1EE2, [0x1EE3]); (0x1EE4, [0x1EE5]); (0x1EE6, [0x1EE7]);
   (0x1EE8, [0x1EE9]); (0x1EEA, [0x1EEB]); (0x1EEC, [0x1EED]); (0x1EEE, [0x1EEF]);
   (0x1EF0, [0x1EF1]); (0x1EF2, [0x1EF3]); (0x1EF4, [0x1EF5]); (0x1EF6, [0x1EF7]);
   (0x1EF8, [0x1EF9]); (0x1EFA, [0x1EFB]); (0x1EFC, [0x1EFD]); (0x1EFE, [0x1EFF]);
   (0x1F08, [0x1F00]); (0x1F09, [0x1F01]); (0x1F0A, [0x1F02]); (0x1F0B, [0x1F03]);
   (0x1F0C, [0x1F04]); (0x1F0D, [0x1F05]); (0x1F0E, [0x1F06]); (0x1F0F, [0x1F07]);
   (0x1F18, [0x1F10]); (0x1F19, [0x1F11]); (0x1F1A, [0x1F12]); (0x1F1B, [0x1F13]);
   (0x1F1C, [0x1F14]); (0x1F1D, [0x1F15]); (0x1F28, [0x1F20]); (0x1F29, [0x1F21]);
   (0x1F2A, [0x1F22]); (0x1F2B, [0x1F23]); (0x1F2C, [0x1F24]); (0x1F2D, [0x1F25]);
   (0x1F2E, [0x1F26]); (0x1F2F, [0x1F27]); (0x1F38, [0x1F30]); (0x1F39, [0x1F31]);
   (0x1F3A, [0x1F32]); (0x1F3B, [0x1F33]); (0x1F3C, [0x1F34]); (0x1F3D, [0x1F35]);
   (0x1F3E, [0x1F36]); (0x1F3F, [0x1F37]); (0x1F48, [0x1F40]); (0x1F49, [0x1F41]);
   (0x1F4A, [0x1F42]); (0x1F4B, [0x1F43]); (0x1F4C, [0x1F44]); (0x1F4D, [0x1F45]);
   (0x1F59, [0x1F51]); (0x1F5B, [0x1F53]); (0x1F5D, [0x1F55]); (0x1F5F, [0x1F57]);
   (0x1F68, [0x1F60]); (0x1F69, [0x1F61]); (0x1F6A, [0x1F62]); (0x1F6B, [0x1F63]);
   (0x1F6C, [0x1F64]); (0x1F6D, [0x1F65]); (0x1F6E, [0x1F66]); (0x1F6F, [0x1F67]);
   (0x1F88, [0x1F80]); (0x1F89, [0x1F81]); (0x1F8A, [0x1F82]); (0x1F8B, [0x1F83]);
   (0x1F8C, [0x1F84]); (0x1F8D, [0x1F85]); (0x1F8E, [0x1F86]); (0x1F8F, [0x1F87]);
   (0x1F98, [0x1F90]); (0x1F99, [0x1F91]); (0x1F9A, [0x1F92]); (0x1F9B, [0x1F93]);
   (0x1F9C, [0x1F94]); (0x1F9D, [0x1F95]); (0x1F9E, [0x1F96]); (0x1F9F, [0x1F97]);
   (0x1FA8, [0x1FA0]); (0x1FA9, [0x1FA1]); (0x1FAA, [0x1FA2]); (0x1FAB, [0x1FA3]);
   (0x1FAC, [0x1FA4]); (0x1FAD, [0x1FA5]); (0x1FAE, [0x1FA6]); (0x1FAF, [0x1FA7]);
   (0x1FB8, [0x1FB0]); (0x1FB9, [0x1FB1]); (0x1FBA, [0x1F70]); (0x1FBB, [0x1F71]);
   (0x1FBC, [0x1FB3]); (0x1FC8, [0x1F72]); (0x1FC9, [0x1F73]); (0x1FCA, [0x1F74]);
   (0x1FCB, [0x1F75]); (0x1FCC, [0x1FC3]); (0x1FD8, [0x1FD0]); (0x1FD9, [0x1FD1]);
   (0x1FDA, [0x1F76]); (0x1FDB, [0x1F77]); (0x1FE8, [0x1FE0]); (0x1FE9, [0x1FE1]);
   (0x1FEA, [0x1F7A]); (0x1FEB, [0x1F7B]); (0x1FEC, [0x1FE5]); (0x1FF8, [0x1F78]);
   (0x1FF9, [0x1F79]); (0x1FFA, [0x1F7C]); (0x1FFB, [0x1F7D]); (0x1FFC, [0x1FF3]);
   (0x2126, [0x3C9]); (0x212A, [0x6B]); (0x212B, [0xE5]); (0x2132, [0x214E]);
   (0x2160, [0x2170]); (0x2161, [0x2171]); (0x2162, [0x2172]); (0x2163, [0x2173]);
   (0x2164, [0x2174]); (0x2165, [0x2175]); (0x2166, [0x2176]); (0x2167, [0x2177]);
   (0x2168, [0x2178]); (0x2169, [0x2179]); (0x216A, [0x217A]); (0x216B, [0x217B]);
   (0x216C, [0x217C]); (0x216D, [0x217D]); (0x216E, [0x217E]); (0x216F, [0x217F]);
   (0x2183, [0x2184]); (0x24B6, [0x24D0]); (0x24B7, [0x24D1]); (0x24B8, [0x24D2]);
   (0x24B9, [0x24D3]); (0x24BA, [0x24D4]); (0x24BB, [0x24D5]); (0x24BC, [0x24D6]);
   (0x24BD, [0x24D7]); (0x24BE, [0x24D8]); (0x24BF, [0x24D9]); (0x24C0, [0x24DA]);
   (0x24C1, [0x24DB]); (0x24C2, [0x24DC]); (0x24C3, [0x24DD]); (0x24C4, [0x24DE]);
   (0x24C5, [0x24DF]); (0x24C6, [0x24E0]); (0x24C7, [0x24E1]); (0x24C8, [0x24E2]);
   (0x24C9, [0x24E3]); (0x24CA, [0x24E4]); (0x24CB, [0x24E5]); (0x24CC, [0x24E6]);
   (0x24CD, [0x24E7]); (0x24CE, [0x24E8]); (0x24CF, [0x24E9]); (0x2C00, [0x2C30]);
   (0x2C01, [0x2C31]); (0x2C02, [0x2C32]); (0x2C03, [0x2C33]); (0x2C04, [0x2C34]);
   (0x2C05, [0x2C35]); (0x2C06, [0x2C36]); (0x2C07, [0x2C37]); (0x2C08, [0x2C38]);
   (0x2C09, [0x2C39]); (0x2C0A, [0x2C3A]); (0x2C0B, [0x2C3B]); (0x2C0C, [0x2C3C]);
   (0x2C0D, [0x2C3D]); (0x2C0E, [0x2C3E]); (0x2C0F, [0x2C3F]); (0x2C10, [0x2C40]);
   (0x2C11, [0x2C41]); (0x2C12, [0x2C42]); (0x2C13, [0x2C43]); (0x2C14, [0x2C44]);
   (0x2C15, [0x2C45]); (0x2C16, [0x2C46]); (0x2C17, [0x2C47]); (0x2C18, [0x2C48]);
   (0x2C19, [0x2C49]); (0x2C1A, [0x2C4A]); (0x2C1B, [0x2C4B]); (0x2C1C, [0x2C4C]);
   (0x2C1D, [0x2C4D]); (0x2C1E, [0x2C4E]); (0x2C1F, [0x2C4F]); (0x2C20, [0x2C50]);
   (0x2C21, [0x2C51]); (0x2C22, [0x2C52]); (0x2C23, [0x2C53]); (0x2C24, [0x2C54]);
   (0x2C25, [0x2C55]); (0x2C26, [0x2C56]); (0x2C27, [0x2C57]); (0x2C28, [0x2C58]);
   (0x2C29, [0x2C59]); (0x2C2A, [0x2C5A]); (0x2C2B, [0x2C5B]); (0x2C2C, [0x2C5C]);
   (0x2C2D, [0x2C5D]); (0x2C2E, [0x2C5E]); (0x2C2F, [0x2C5F]); (0x2C60, [0x2C61]);
   (0x2C62, [0x26B]); (0x2C63, [0x1D7D]); (0x2C64, [0x27D]); (0x2C67, [0x2C68]);
   (0x2C69, [0x2C6A]); (0x2C6B, [0x2C6C]); (0x2C6D, [0x251]); (0x2C6E, [0x271]);
   (0x2C6F, [0x250]); (0x2C70, [0x252]); (0x2C72, [0x2C73]); (0x2C75, [0x2C76]);
   (0x2C7E, [0x23F]); (0x2C7F, [0x240]); (0x2C80, [0x2C81]); (0x2C82, [0x2C83]);
   (0x2C84, [0x2C85]); (0x2C86, [0x2C87]); (0x2C88, [0x2C89]); (0x2C8A, [0x2C8B]);
   (0x2C8C, [0x2C8D]); (0x2C8E, [0x2C8F]); (0x2C90, [0x2C91]); (0x2C92, [0x2C93]);
   (0x2C94, [0x2C95]); (0x2C96, [0x2C97]); (0x2C98, [0x2C99]); (0x2C9A, [0x2C9B]);
   (0x2C9C, [0x2C9D]); (0x2C9E, [0x2C9F]); (0x2CA0, [0x2CA1]); (0x2CA2, [0x2CA3]);
   (0x2CA4, [0x2CA5]); (0x2CA6, [0x2CA7]); (0x2CA8, [0x2CA9]); (0x2CAA, [0x2CAB]);
   (0x2CAC, [0x2CAD]); (0x2CAE, [0x2CAF]); (0x2CB0, [0x2CB1]); (0x2CB2, [0x2CB3]);
   (0x2CB4, [0x2CB5]); (0x2CB6, [0x2CB7]); (0x2CB8, [0x2CB9]); (0x2CBA, [0x2CBB]);
   (0x2CBC, [0x2CBD]); (0x2CBE, [0x2CBF]); (0x2CC0, [0x2CC1]); (0x2CC2, [0x2CC3]);
   (0x2CC4, [0x2CC5]); (0x2CC6, [0x2CC7]); (0x2CC8, [0x2CC9]); (0x2CCA, [0x2CCB]);
   (0x2CCC, [0x2CCD]); (0x2CCE, [0x2CCF]); (0x2CD0, [0x2CD1]); (0x2CD2, [0x2CD3]);
   (0x2CD4, [0x2CD5]); (0x2CD6, [0x2CD7]); (0x2CD8, [0x2CD9]); (0x2CDA, [0x2CDB]);
   (0x2CDC, [0x2CDD]); (0x2CDE, [0x2CDF]); (0x2CE0, [0x2CE1]); (0x2CE2, [0x2CE3]);
   (0x2CEB, [0x2CEC]); (0x2CED, [0x2CEE]); (0x2CF2, [0x2CF3]); (0xA640, [0xA641]);
   (0xA642, [0xA643]); (0xA644, [0xA645]); (0xA646, [0xA647]); (0xA648, [0xA649]);
   (0xA64A, [0xA64B]); (0xA64C, [0xA64D]); (0xA64E, [0xA64F]); (0xA650, [0xA651]);
   (0xA652, [0xA653]); (0xA654, [0xA655]); (0xA656, [0xA657]); (0xA658, [0xA659]);
   (0xA65A, [0xA65B]); (0xA65C, [0xA65D]); (0xA65E, [0xA65F]); (0xA660, [0xA661]);
   (0xA662, [0xA663]); (0xA664, [0xA665]); (0xA666, [0xA667]); (0xA668, [0xA669]);
   (0xA66A, [0xA66B]); (0xA66C, [0xA66D]); (0xA680, [0xA681]); (0xA682, [0xA683]);
   (0xA684, [0xA685]); (0xA686, [0xA687]); (0xA688, [0xA689]); (0xA68A, [0xA68B]);
   (0xA68C, [0xA68D]); (0xA68E, [0xA68F]); (0xA690, [0xA691]); (0xA692, [0xA693]);
   (0xA694, [0xA695]); (0xA696, [0xA697]); (0xA698, [0xA699]); (0xA69A, [0xA69B]);
   (0xA722, [0xA723]); (0xA724, [0xA725]); (0xA726, [0xA727]); (0xA728, [0xA729]);
   (0xA72A, [0xA72B]); (0xA72C, [0xA72D]); (0xA72E, [0xA72F]); (0xA732, [0xA733]);
   (0xA734, [0xA735]); (0xA736, [0xA737]); (0xA738, [0xA739]); (0xA73A, [0xA73B]);
   (0xA73C, [0xA73D]); (0xA73E, [0xA73F]); (0xA740, [0xA741]); (0xA742, [0xA743]);
   (0xA744, [0xA745]); (0xA746, [0xA747]); (0xA748, [0xA749]); (0xA74A, [0xA74B]);
   (0xA74C, [0xA74D]); (0xA74E, [0xA74F]); (0xA750, [0xA751]); (0xA752, [0xA753]);
   (0xA754, [0xA755]); (0xA756, [0xA757]); (0xA758, [0xA759]); (0xA75A, [0xA75B]);
   (0xA75C, [0xA75D]); (0xA75E, [0xA75F]); (0xA760, [0xA761]); (0xA762, [0xA763]);
   (0xA764, [0xA765]); (0xA766, [0xA767]); (0xA768, [0xA769]); (0xA76A, [0xA76B]);
   (0xA76C, [0xA76D]); (0xA76E, [0xA76F]); (0xA779, [0xA77A]); (0xA77B, [0xA77C]);
   (0xA77D, [0x1D79]); (0xA77E, [0xA77F]); (0xA780, [0xA781]); (0xA782, [0xA783]);
   (0xA784, [0xA785]); (0xA786, [0xA787]); (0xA78B, [0xA78C]); (0xA78D, [0x265]);
   (0xA790, [0xA791]); (0xA792, [0xA793]); (0xA796, [0xA797]); (0xA798, [0xA799]);
   (0xA79A, [0xA79B]); (0xA79C, [0xA79D]); (0xA79E, [0xA79F]); (0xA7A0, [0xA7A1]);
   (0xA7A2, [0xA7A3]); (0xA7A4, [0xA7A5]); (0xA7A6, [0xA7A7]); (0xA7A8, [0xA7A9]);
   (0xA7AA, [0x266]); (0xA7AB, [0x25C]); (0xA7AC, [0x261]); (0xA7AD, [0x26C]);
   (0xA7AE, [0x26A]); (0xA7B0, [0x29E]); (0xA7B1, [0x287]); (0xA7B2, [0x29D]);
   (0xA7B3, [0xAB53]); (0xA7B4, [0xA7B5]); (0xA7B6, [0xA7B7]); (0xA7B8, [0xA7B9]);
   (0xA7BA, [0xA7BB]); (0xA7BC, [0xA7BD]); (0xA7BE, [0xA7BF]); (0xA7C0, [0xA7C1]);
   (0xA7C2, [0xA7C3]); (0xA7C4, [0xA794]); (0xA7C5, [0x282]); (0xA7C6, [0x1D8E]);
   (0xA7C7, [0xA7C8]); (0xA7C9, [0xA7CA]); (0xA7D0, [0xA7D1]); (0xA7D6, [0xA7D7]);
   (0xA7D8, [0xA7D9]); (0xA7F5, [0xA7F6]); (0xFF21, [0xFF41]); (0xFF22, [0xFF42]);
   (0xFF23, [0xFF43]); (0xFF24, [0xFF44]); (0xFF25, [0xFF45]); (0xFF26, [0xFF46]);
   (0xFF27, [0xFF47]); (0xFF28, [0xFF48]); (0xFF29, [0xFF49]); (0xFF2A, [0xFF4A]);
   (0xFF2B, [0xFF4B]); (0xFF2C, [0xFF4C]); (0xFF2D, [0xFF4D]); (0xFF2E, [0xFF4E]);
   (0xFF2F, [0xFF4F]); (0xFF30, [0xFF50]); (0xFF31, [0xFF51]); (0xFF32, [0xFF52]);
   (0xFF33, [0xFF53]); (0xFF34, [0xFF54]); (0xFF35, [0xFF55]); (0xFF36, [0xFF56]);
   (0xFF37, [0xFF57]); (0xFF38, [0xFF58]); (0xFF39, [0xFF59]); (0xFF3A, [0xFF5A]);
   (0x10400, [0x10428]); (0x10401, [0x10429]); (0x10402, [0x1042A]); (0x10403, [0x1042B]);
   (0x10404, [0x1042C]); (0x10405, [0x1042D]); (0x10406, [0x1042E]); (0x10407, [0x1042F]);
   (0x10408, [0x10430]); (0x10409, [0x10431]); (0x1040A, [0x10432]); (0x1040B, [0x10433]);
   (0x1040C, [0x10434]); (0x1040D, [0x10435]); (0x1040E, [0x10436]); (0x1040F, [0x10437]);
   (0x10410, [0x10438]); (0x10411, [0x10439]); (0x10412, [0x1043A]); (0x10413, [0x1043B]);
   (0x10414, [0x1043C]); (0x10415, [0x1043D]); (0x10416, [0x1043E]); (0x10417, [0x1043F]);
   (0x10418, [0x10440]); (0x10419, [0x10441]); (0x1041A, [0x10442]); (0x1041B, [0x10443]);
   (0x1041C, [0x10444]); (0x1041D, [0x10445]); (0x1041E, [0x10446]); (0x1041F, [0x10447]);
   (0x10420, [0x10448]); (0x10421, [0x10449]); (0x10422, [0x1044A]); (0x10423, [0x1044B]);
   (0x10424, [0x1044C]); (0x10425, [0x1044D]); (0x10426, [0x1044E]); (0x10427, [0x1044F]);
   (0x104B0, [0x104D8]); (0x104B1, [0x104D9]); (0x104B2, [0x104DA]); (0x104B3, [0x104DB]);
   (0x104B4, [0x104DC]); (0x104B5, [0x104DD]); (0x104B6, [0x104DE]); (0x104B7, [0x104DF]);
   (0x104B8, [0x104E0]); (0x104B9, [0x104E1]); (0x104BA, [0x104E2]); (0x104BB, [0x104E3]);
   (0x104BC, [0x104E4]); (0x104BD, [0x104E5]); (0x104BE, [0x104E6]); (0x104BF, [0x104E7]);
   (0x104C0, [0x104E8]); (0x104C1, [0x104E9]); (0x104C2, [0x104EA]); (0x104C3, [0x104EB]);
   (0x104C4, [0x104EC]); (0x104C5, [0x104ED]); (0x104C6, [0x104EE]); (0x104C7, [0x104EF]);
   (0x104C8, [0x104F0]); (0x104C9, [0x104F1]); (0x104CA, [0x104F2]); (0x104CB, [0x104F3]);
   (0x104CC, [0x104F4]); (0x104CD, [0x104F5]); (0x104CE, [0x104F6]); (0x104CF, [0x104F7]);
   (0x104D0, [0x104F8]); (0x104D1, [0x104F9]); (0x104D2, [0x104FA]); (0x104D3, [0x104FB]);
   (0x10570, [0x10597]); (0x10571, [0x10598]); (0x10572, [0x10599]); (0x10573, [0x1059A]);
   (0x10574, [0x1059B]); (0x10575, [0x1059C]); (0x10576, [0x1059D]); (0x10577, [0x1059E]);
   (0x10578, [0x1059F]); (0x10579, [0x105A0]); (0x1057A, [0x105A1]); (0x1057C, [0x105A3]);
   (0x1057D, [0x105A4]); (0x1057E, [0x105A5]); (0x1057F, [0x105A6]); (0x10580, [0x105A7]);
   (0x10581, [0x105A8]); (0x10582, [0x105A9]); (0x10583, [0x105AA]); (0x10584, [0x105AB]);
   (0x10585, [0x105AC]); (0x10586, [0x105AD]); (0x10587, [0x105AE]); (0x10588, [0x105AF]);
   (0x10589, [0x105B0]); (0x1058A, [0x105B1]); (0x1058C, [0x105B3]); (0x1058D, [0x105B4]);
   (0x1058E, [0x105B5]); (0x1058F, [0x105B6]); (0x10590, [0x105B7]); (0x10591, [0x105B8]);
   (0x10592, [0x105B9]); (0x10594, [0x105BB]); (0x10595, [0x105BC]); (0x10C80, [0x10CC0]);
   (0x10C81, [0x10CC1]); (0x10C82, [0x10CC2]); (0x10C83, [0x10CC3]); (0x10C84, [0x10CC4]);
   (0x10C85, [0x10CC5]); (0x10C86, [0x10CC6]); (0x10C87, [0x10CC7]); (0x10C88, [0x10CC8]);
   (0x10C89, [0x10CC9]); (0x10C8A, [0x10CCA]); (0x10C8B, [0x10CCB]); (0x10C8C, [0x10CCC]);
   (0x10C8D, [0x10CCD]); (0x10C8E, [0x10CCE]); (0x10C8F, [0x10CCF]); (0x10C90, [0x10CD0]);
   (0x10C91, [0x10CD1]); (0x10C92, [0x10CD2]); (0x10C93, [0x10CD3]); (0x10C94, [0x10CD4]);
   (0x10C95, [0x10CD5]); (0x10C96, [0x10CD6]); (0x10C97, [0x10CD7]); (0x10C98, [0x10CD8]);
   (0x10C99, [0x10CD9]); (0x10C9A, [0x10CDA]); (0x10C9B, [0x10CDB]); (0x10C9C, [0x10CDC]);
   (0x10C9D, [0x10CDD]); (0x10C9E, [0x10CDE]); (0x10C9F, [0x10CDF]); (0x10CA0, [0x10CE0]);
   (0x10CA1, [0x10CE1]); (0x10CA2, [0x10CE2]); (0x10CA3, [0x10CE3]); (0x10CA4, [0x10CE4]);
   (0x10CA5, [0x10CE5]); (0x10CA6, [0x10CE6]); (0x10CA7, [0x10CE7]); (0x10CA8, [0x10CE8]);
   (0x10CA9, [0x10CE9]); (0x10CAA, [0x10CEA]); (0x10CAB, [0x10CEB]); (0x10CAC, [0x10CEC]);
   (0x10CAD, [0x10CED]); (0x10CAE, [0x10CEE]); (0x10CAF, [0x10CEF]); (0x10CB0, [0x10CF0]);
   (0x10CB1, [0x10CF1]); (0x10CB2, [0x10CF2]); (0x118A0, [0x118C0]); (0x118A1, [0x118C1]);
   (0x118A2, [0x118C2]); (0x118A3, [0x118C3]); (0x118A4, [0x118C4]); (0x118A5, [0x118C5]);
   (0x118A6, [0x118C6]); (0x118A7, [0x118C7]); (0x118A8, [0x118C8]); (0x118A9, [0x118C9]);
   (0x118AA, [0x118CA]); (0x118AB, [0x118CB]); (0x118AC, [0x118CC]); (0x118AD, [0x118CD]);
   (0x118AE, [0x118CE]); (0x118AF, [0x118CF]); (0x118B0, [0x118D0]); (0x118B1, [0x118D1]);
   (0x118B2, [0x118D2]); (0x118B3, [0x118D3]); (0x118B4, [0x118D4]); (0x118B5, [0x118D5]);
   (0x118B6, [0x118D6]); (0x118B7, [0x118D7]); (0x118B8, [0x118D8]); (0x118B9, [0x118D9]);
   (0x118BA, [0x118DA]); (0x118BB, [0x118DB]); (0x118BC, [0x118DC]); (0x118BD, [0x118DD]);
   (0x118BE, [0x118DE]); (0x118BF, [0x118DF]); (0x16E40, [0x16E60]); (0x16E41, [0x16E61]);
   (0x16E42, [0x16E62]); (0x16E43, [0x16E63]); (0x16E44, [0x16E64]); (0x16E45, [0x16E65]);
   (0x16E46, [0x16E66]); (0x16E47, [0x16E67]); (0x16E48, [0x16E68]); (0x16E49, [0x16E69]);
   (0x16E4A, [0x16E6A]); (0x16E4B, [0x16E6B]); (0x16E4C, [0x16E6C]); (0x16E4D, [0x16E6D]);
   (0x16E4E, [0x16E6E]); (0x16E4F, [0x16E6F]); (0x16E50, [0x16E70]); (0x16E51, [0x16E71]);
   (0x16E52, [0x16E72]); (0x16E53, [0x16E73]); (0x16E54, [0x16E74]); (0x16E55, [0x16E75]);
   (0x16E56, [0x16E76]); (0x16E57, [0x16E77]); (0x16E58, [0x16E78]); (0x16E59, [0x16E79]);
   (0x16E5A, [0x16E7A]); (0x16E5B, [0x16E7B]); (0x16E5C, [0x16E7C]); (0x16E5D, [0x16E7D]);
   (0x16E5E, [0x16E7E]); (0x16E5F, [0x16E7F]); (0x1E900, [0x1E922]); (0x1E901, [0x1E923]);
   (0x1E902, [0x1E924]); (0x1E903, [0x1E925]); (0x1E904, [0x1E926]); (0x1E905, [0x1E927]);
   (0x1E906, [0x1E928]); (0x1E907, [0x1E929]); (0x1E908, [0x1E92A]); (0x1E909, [0x1E92B]);
   (0x1E90A, [0x1E92C]); (0x1E90B, [0x1E92D]); (0x1E90C, [0x1E92E]); (0x1E90D, [0x1E92F]);
   (0x1E90E, [0x1E930]); (0x1E90F, [0x1E931]); (0x1E910, [0x1E932]); (0x1E911, [0x1E933]);
   (0x1E912, [0x1E934]); (0x1E913, [0x1E935]); (0x1E914, [0x1E936]); (0x1E915, [0x1E937]);
   (0x1E916, [0x1E938]); (0x1E917, [0x1E939]); (0x1E918, [0x1E93A]); (0x1E919, [0x1E93B]);
   (0x1E91A, [0x1E93C]); (0x1E91B, [0x1E93D]); (0x1E91C, [0x1E93E]); (0x1E91D, [0x1E93F]);
   (0x1E91E, [0x1E940]); (0x1E91F, [0x1E941]); (0x1E920, [0x1E942]); (0x1E921, [0x1E943])
  ].

(** Code points on which str.isalpha holds (general categories Lu, Ll, Lt, Lm, Lo). *)
Definition alpha_ranges : list (Z * Z) :=
  [
   (0x41, 0x5A); (0x61, 0x7A); (0xAA, 0xAA); (0xB5, 0xB5); (0xBA, 0xBA); (0xC0, 0xD6);
   (0xD8, 0xF6); (0xF8, 0x2C1); (0x2C6, 0x2D1); (0x2E0, 0x2E4); (0x2EC, 0x2EC); (0x2EE, 0x2EE);
   (0x370, 0x374); (0x376, 0x377); (0x37A, 0x37D); (0x37F, 0x37F); (0x386, 0x386);
   (0x388, 0x38A); (0x38C, 0x38C); (0x38E, 0x3A1); (0x3A3, 0x3F5); (0x3F7, 0x481);
   (0x48A, 0x52F); (0x531, 0x556); (0x559, 0x559); (0x560, 0x588); (0x5D0, 0x5EA);
   (0x5EF, 0x5F2); (0x620, 0x64A); (0x66E, 0x66F); (0x671, 0x6D3); (0x6D5, 0x6D5);
   (0x6E5, 0x6E6); (0x6EE, 0x6EF); (0x6FA, 0x6FC); (0x6FF, 0x6FF); (0x710, 0x710);
   (0x712, 0x72F); (0x74D, 0x7A5); (0x7B1, 0x7B1); (0x7CA, 0x7EA); (0x7F4, 0x7F5);
   (0x7FA, 0x7FA); (0x800, 0x815); (0x81A, 0x81A); (0x824, 0x824); (0x828, 0x828);
   (0x840, 0x858); (0x860, 0x86A); (0x870, 0x887); (0x889, 0x88E); (0x8A0, 0x8C9);
   (0x904, 0x939); (0x93D, 0x93D); (0x950, 0x950); (0x958, 0x961); (0x971, 0x980);
   (0x985, 0x98C); (0x98F, 0x990); (0x993, 0x9A8); (0x9AA, 0x9B0); (0x9B2, 0x9B2);
   (0x9B6, 0x9B9); (0x9BD, 0x9BD); (0x9CE, 0x9CE); (0x9DC, 0x9DD); (0x9DF, 0x9E1);
   (0x9F0, 0x9F1); (0x9FC, 0x9FC); (0xA05, 0xA0A); (0xA0F, 0xA10); (0xA13, 0xA28);
   (0xA2A, 0xA30); (0xA32, 0xA33); (0xA35, 0xA36); (0xA38, 0xA39); (0xA59, 0xA5C);
   (0xA5E, 0xA5E); (0xA72, 0xA74); (0xA85, 0xA8D); (0xA8F, 0xA91); (0xA93, 0xAA8);
   (0xAAA, 0xAB0); (0xAB2, 0xAB3); (0xAB5, 0xAB9); (0xABD, 0xABD); (0xAD0, 0xAD0);
   (0xAE0, 0xAE1); (0xAF9, 0xAF9); (0xB05, 0xB0C); (0xB0F, 0xB10); (0xB13, 0xB28);
   (0xB2A, 0xB30); (0xB32, 0xB33); (0xB35, 0xB39); (0xB3D, 0xB3D); (0xB5C, 0xB5D);
   (0xB5F, 0xB61); (0xB71, 0xB71); (0xB83, 0xB83); (0xB85, 0xB8A); (0xB8E, 0xB90);
   (0xB92, 0xB95); (0xB99, 0xB9A); (0xB9C, 0xB9C); (0xB9E, 0xB9F); (0xBA3, 0xBA4);
   (0xBA8, 0xBAA); (0xBAE, 0xBB9); (0xBD0, 0xBD0); (0xC05, 0xC0C); (0xC0E, 0xC10);
   (0xC12, 0xC28); (0xC2A, 0xC39); (0xC3D, 0xC3D); (0xC58, 0xC5A); (0xC5D, 0xC5D);
   (0xC60, 0xC61); (0xC80, 0xC80); (0xC85, 0xC8C); (0xC8E, 0xC90); (0xC92, 0xCA8);
   (0xCAA, 0xCB3); (0xCB5, 0xCB9); (0xCBD, 0xCBD); (0xCDD, 0xCDE); (0xCE0, 0xCE1);
   (0xCF1, 0xCF2); (0xD04, 0xD0C); (0xD0E, 0xD10); (0xD12, 0xD3A); (0xD3D, 0xD3D);
   (0xD4E, 0xD4E); (0xD54, 0xD56); (0xD5F, 0xD61); (0xD7A, 0xD7F); (0xD85, 0xD96);
   (0xD9A, 0xDB1); (0xDB3, 0xDBB); (0xDBD, 0xDBD); (0xDC0, 0xDC6); (0xE01, 0xE30);
   (0xE32, 0xE33); (0xE40, 0xE46); (0xE81, 0xE82); (0xE84, 0xE84); (0xE86, 0xE8A);
   (0xE8C, 0xEA3); (0xEA5, 0xEA5); (0xEA7, 0xEB0); (0xEB2, 0xEB3); (0xEBD, 0xEBD);
   (0xEC0, 0xEC4); (0xEC6, 0xEC6); (0xEDC, 0xEDF); (0xF00, 0xF00); (0xF40, 0xF47);
   (0xF49, 0xF6C); (0xF88, 0xF8C); (0x1000, 0x102A); (0x103F, 0x103F); (0x1050, 0x1055);
   (0x105A, 0x105D); (0x1061, 0x1061); (0x1065, 0x1066); (0x106E, 0x1070); (0x1075, 0x1081);
   (0x108E, 0x108E); (0x10A0, 0x10C5); (0x10C7, 0x10C7); (0x10CD, 0x10CD); (0x10D0, 0x10FA);
   (0x10FC, 0x1248); (0x124A, 0x124D); (0x1250, 0x1256); (0x1258, 0x1258); (0x125A, 0x125D);
   (0x1260, 0x1288); (0x128A, 0x128D); (0x1290, 0x12B0); (0x12B2, 0x12B5); (0x12B8, 0x12BE);
   (0x12C0, 0x12C0); (0x12C2, 0x12C5); (0x12C8, 0x12D6); (0x12D8, 0x1310); (0x1312, 0x1315);
   (0x1318, 0x135A); (0x1380, 0x138F); (0x13A0, 0x13F5); (0x13F8, 0x13FD); (0x1401, 0x166C);
   (0x166F, 0x167F); (0x1681, 0x169A); (0x16A0, 0x16EA); (0x16F1, 0x16F8); (0x1700, 0x1711);
   (0x171F, 0x1731); (0x1740, 0x1751); (0x1760, 0x176C); (0x176E, 0x1770); (0x1780, 0x17B3);
   (0x17D7, 0x17D7); (0x17DC, 0x17DC); (0x1820, 0x1878); (0x1880, 0x1884); (0x1887, 0x18A8);
   (0x18AA, 0x18AA); (0x18B0, 0x18F5); (0x1900, 0x191E); (0x1950, 0x196D); (0x1970, 0x1974);
   (0x1980, 0x19AB); (0x19B0, 0x19C9); (0x1A00, 0x1A16); (0x1A20, 0x1A54); (0x1AA7, 0x1AA7);
   (0x1B05, 0x1B33); (0x1B45, 0x1B4C); (0x1B83, 0x1BA0); (0x1BAE, 0x1BAF); (0x1BBA, 0x1BE5);
   (0x1C00, 0x1C23); (0x1C4D, 0x1C4F); (0x1C5A, 0x1C7D); (0x1C80, 0x1C88); (0x1C90, 0x1CBA);
   (0x1CBD, 0x1CBF); (0x1CE9, 0x1CEC); (0x1CEE, 0x1CF3); (0x1CF5, 0x1CF6); (0x1CFA, 0x1CFA);
   (0x1D00, 0x1DBF); (0x1E00, 0x1F15); (0x1F18, 0x1F1D); (0x1F20, 0x1F45); (0x1F48, 0x1F4D);
   (0x1F50, 0x1F57); (0x1F59, 0x1F59); (0x1F5B, 0x1F5B); (0x1F5D, 0x1F5D); (0x1F5F, 0x1F7D);
   (0x1F80, 0x1FB4); (0x1FB6, 0x1FBC); (0x1FBE, 0x1FBE); (0x1FC2, 0x1FC4); (0x1FC6, 0x1FCC);
   (0x1FD0, 0x1FD3); (0x1FD6, 0x1FDB); (0x1FE0, 0x1FEC); (0x1FF2, 0x1FF4); (0x1FF6, 0x1FFC);
   (0x2071, 0x2071); (0x207F, 0x207F); (0x2090, 0x209C); (0x2102, 0x2102); (0x2107, 0x2107);
   (0x210A, 0x2113); (0x2115, 0x2115); (0x2119, 0x211D); (0x2124, 0x2124); (0x2126, 0x2126);
   (0x2128, 0x2128); (0x212A, 0x212D); (0x212F, 0x2139); (0x213C, 0x213F); (0x2145, 0x2149);
   (0x214E, 0x214E); (0x2183, 0x2184); (0x2C00, 0x2CE4); (0x2CEB, 0x2CEE); (0x2CF2, 0x2CF3);
   (0x2D00, 0x2D25); (0x2D27, 0x2D27); (0x2D2D, 0x2D2D); (0x2D30, 0x2D67); (0x2D6F, 0x2D6F);
   (0x2D80, 0x2D96); (0x2DA0, 0x2DA6); (0x2DA8, 0x2DAE); (0x2DB0, 0x2DB6); (0x2DB8, 0x2DBE);
   (0x2DC0, 0x2DC6); (0x2DC8, 0x2DCE); (0x2DD0, 0x2DD6); (0x2DD8, 0x2DDE); (0x2E2F, 0x2E2F);
   (0x3005, 0x3006); (0x3031, 0x3035); (0x303B, 0x303C); (0x3041, 0x3096); (0x309D, 0x309F);
   (0x30A1, 0x30FA); (0x30FC, 0x30FF); (0x3105, 0x312F); (0x3131, 0x318E); (0x31A0, 0x31BF);
   (0x31F0, 0x31FF); (0x3400, 0x4DBF); (0x4E00, 0xA48C); (0xA4D0, 0xA4FD); (0xA500, 0xA60C);
   (0xA610, 0xA61F); (0xA62A, 0xA62B); (0xA640, 0xA66E); (0xA67F, 0xA69D); (0xA6A0, 0xA6E5);
   (0xA717, 0xA71F); (0xA722, 0xA788); (0xA78B, 0xA7CA); (0xA7D0, 0xA7D1); (0xA7D3, 0xA7D3);
   (0xA7D5, 0xA7D9); (0xA7F2, 0xA801); (0xA803, 0xA805); (0xA807, 0xA80A); (0xA80C, 0xA822);
   (0xA840, 0xA873); (0xA882, 0xA8B3); (0xA8F2, 0xA8F7); (0xA8FB, 0xA8FB); (0xA8FD, 0xA8FE);
   (0xA90A, 0xA925); (0xA930, 0xA946); (0xA960, 0xA97C); (0xA984, 0xA9B2); (0xA9CF, 0xA9CF);
   (0xA9E0, 0xA9E4); (0xA9E6, 0xA9EF); (0xA9FA, 0xA9FE); (0xAA00, 0xAA28); (0xAA40, 0xAA42);
   (0xAA44, 0xAA4B); (0xAA60, 0xAA76); (0xAA7A, 0xAA7A); (0xAA7E, 0xAAAF); (0xAAB1, 0xAAB1);
   (0xAAB5, 0xAAB6); (0xAAB9, 0xAABD); (0xAAC0, 0xAAC0); (0xAAC2, 0xAAC2); (0xAADB, 0xAADD);
   (0xAAE0, 0xAAEA); (0xAAF2, 0xAAF4); (0xAB01, 0xAB06); (0xAB09, 0xAB0E); (0xAB11, 0xAB16);
   (0xAB20, 0xAB26); (0xAB28, 0xAB2E); (0xAB30, 0xAB5A); (0xAB5C, 0xAB69); (0xAB70, 0xABE2);
   (0xAC00, 0xD7A3); (0xD7B0, 0xD7C6); (0xD7CB, 0xD7FB); (0xF900, 0xFA6D); (0xFA70, 0xFAD9);
   (0xFB00, 0xFB06); (0xFB13, 0xFB17); (0xFB1D, 0xFB1D); (0xFB1F, 0xFB28); (0xFB2A, 0xFB36);
   (0xFB38, 0xFB3C); (0xFB3E, 0xFB3E); (0xFB40, 0xFB41); (0xFB43, 0xFB44); (0xFB46, 0xFBB1);
   (0xFBD3, 0xFD3D); (0xFD50, 0xFD8F); (0xFD92, 0xFDC7); (0xFDF0, 0xFDFB); (0xFE70, 0xFE74);
   (0xFE76, 0xFEFC); (0xFF21, 0xFF3A); (0xFF41, 0xFF5A); (0xFF66, 0xFFBE); (0xFFC2, 0xFFC7);
   (0xFFCA, 0xFFCF); (0xFFD2, 0xFFD7); (0xFFDA, 0xFFDC); (0x10000, 0x1000B);
   (0x1000D, 0x10026); (0x10028, 0x1003A); (0x1003C, 0x1003D); (0x1003F, 0x1004D);
   (0x10050, 0x1005D); (0x10080, 0x100FA); (0x10280, 0x1029C); (0x102A0, 0x102D0);
   (0x10300, 0x1031F); (0x1032D, 0x10340); (0x10342, 0x10349); (0x10350, 0x10375);
   (0x10380, 0x1039D); (0x103A0, 0x103C3); (0x103C8, 0x103CF); (0x10400, 0x1049D);
   (0x104B0, 0x104D3); (0x104D8, 0x104FB); (0x10500, 0x10527); (0x10530, 0x10563);
   (0x10570, 0x1057A); (0x1057C, 0x1058A); (0x1058C, 0x10592); (0x10594, 0x10595);
   (0x10597, 0x105A1); (0x105A3, 0x105B1); (0x105B3, 0x105B9); (0x105BB, 0x105BC);
   (0x10600, 0x10736); (0x10740, 0x10755); (0x10760, 0x10767); (0x10780, 0x10785);
   (0x10787, 0x107B0); (0x107B2, 0x107BA); (0x10800, 0x10805); (0x10808, 0x10808);
   (0x1080A, 0x10835); (0x10837, 0x10838); (0x1083C, 0x1083C); (0x1083F, 0x10855);
   (0x10860, 0x10876); (0x10880, 0x1089E); (0x108E0, 0x108F2); (0x108F4, 0x108F5);
   (0x10900, 0x10915); (0x10920, 0x10939); (0x10980, 0x109B7); (0x109BE, 0x109BF);
   (0x10A00, 0x10A00); (0x10A10, 0x10A13); (0x10A15, 0x10A17); (0x10A19, 0x10A35);
   (0x10A60, 0x10A7C); (0x10A80, 0x10A9C); (0x10AC0, 0x10AC7); (0x10AC9, 0x10AE4);
   (0x10B00, 0x10B35); (0x10B40, 0x10B55); (0x10B60, 0x10B72); (0x10B80, 0x10B91);
   (0x10C00, 0x10C48); (0x10C80, 0x10CB2); (0x10CC0, 0x10CF2); (0x10D00, 0x10D23);
   (0x10E80, 0x10EA9); (0x10EB0, 0x10EB1); (0x10F00, 0x10F1C); (0x10F27, 0x10F27);
   (0x10F30, 0x10F45); (0x10F70, 0x10F81); (0x10FB0, 0x10FC4); (0x10FE0, 0x10FF6);
   (0x11003, 0x11037); (0x11071, 0x11072); (0x11075, 0x11075); (0x11083, 0x110AF);
   (0x110D0, 0x110E8); (0x11103, 0x11126); (0x11144, 0x11144); (0x11147, 0x11147);
   (0x11150, 0x11172); (0x11176, 0x11176); (0x11183, 0x111B2); (0x111C1, 0x111C4);
   (0x111DA, 0x111DA); (0x111DC, 0x111DC); (0x11200, 0x11211); (0x11213, 0x1122B);
   (0x11280, 0x11286); (0x11288, 0x11288); (0x1128A, 0x1128D); (0x1128F, 0x1129D);
   (0x1129F, 0x112A8); (0x112B0, 0x112DE); (0x11305, 0x1130C); (0x1130F, 0x11310);
   (0x11313, 0x11328); (0x1132A, 0x11330); (0x11332, 0x11333); (0x11335, 0x11339);
   (0x1133D, 0x1133D); (0x11350, 0x11350); (0x1135D, 0x11361); (0x11400, 0x11434);
   (0x11447, 0x1144A); (0x1145F, 0x11461); (0x11480, 0x114AF); (0x114C4, 0x114C5);
   (0x114C7, 0x114C7); (0x11580, 0x115AE); (0x115D8, 0x115DB); (0x11600, 0x1162F);
   (0x11644, 0x11644); (0x11680, 0x116AA); (0x116B8, 0x116B8); (0x11700, 0x1171A);
   (0x11740, 0x11746); (0x11800, 0x1182B); (0x118A0, 0x118DF); (0x118FF, 0x11906);
   (0x11909, 0x11909); (0x1190C, 0x11913); (0x11915, 0x11916); (0x11918, 0x1192F);
   (0x1193F, 0x1193F); (0x11941, 0x11941); (0x119A0, 0x119A7); (0x119AA, 0x119D0);
   (0x119E1, 0x119E1); (0x119E3, 0x119E3); (0x11A00, 0x11A00); (0x11A0B, 0x11A32);
   (0x11A3A, 0x11A3A); (0x11A50, 0x11A50); (0x11A5C, 0x11A89); (0x11A9D, 0x11A9D);
   (0x11AB0, 0x11AF8); (0x11C00, 0x11C08); (0x11C0A, 0x11C2E); (0x11C40, 0x11C40);
   (0x11C72, 0x11C8F); (0x11D00, 0x11D06); (0x11D08, 0x11D09); (0x11D0B, 0x11D30);
   (0x11D46, 0x11D46); (0x11D60, 0x11D65); (0x11D67, 0x11D68); (0x11D6A, 0x11D89);
   (0x11D98, 0x11D98); (0x11EE0, 0x11EF2); (0x11FB0, 0x11FB0); (0x12000, 0x12399);
   (0x12480, 0x12543); (0x12F90, 0x12FF0); (0x13000, 0x1342E); (0x14400, 0x14646);
   (0x16800, 0x16A38); (0x16A40, 0x16A5E); (0x16A70, 0x16ABE); (0x16AD0, 0x16AED);
   (0x16B00, 0x16B2F); (0x16B40, 0x16B43); (0x16B63, 0x16B77); (0x16B7D, 0x16B8F);
   (0x16E40, 0x16E7F); (0x16F00, 0x16F4A); (0x16F50, 0x16F50); (0x16F93, 0x16F9F);
   (0x16FE0, 0x16FE1); (0x16FE3, 0x16FE3); (0x17000, 0x187F7); (0x18800, 0x18CD5);
   (0x18D00, 0x18D08); (0x1AFF0, 0x1AFF3); (0x1AFF5, 0x1AFFB); (0x1AFFD, 0x1AFFE);
   (0x1B000, 0x1B122); (0x1B150, 0x1B152); (0x1B164, 0x1B167); (0x1B170, 0x1B2FB);
   (0x1BC00, 0x1BC6A); (0x1BC70, 0x1BC7C); (0x1BC80, 0x1BC88); (0x1BC90, 0x1BC99);
   (0x1D400, 0x1D454); (0x1D456, 0x1D49C); (0x1D49E, 0x1D49F); (0x1D4A2, 0x1D4A2);
   (0x1D4A5, 0x1D4A6); (0x1D4A9, 0x1D4AC); (0x1D4AE, 0x1D4B9); (0x1D4BB, 0x1D4BB);
   (0x1D4BD, 0x1D4C3); (0x1D4C5, 0x1D505); (0x1D507, 0x1D50A); (0x1D50D, 0x1D514);
   (0x1D516, 0x1D51C); (0x1D51E, 0x1D539); (0x1D53B, 0x1D53E); (0x1D540, 0x1D544);
   (0x1D546, 0x1D546); (0x1D54A, 0x1D550); (0x1D552, 0x1D6A5); (0x1D6A8, 0x1D6C0);
   (0x1D6C2, 0x1D6DA); (0x1D6DC, 0x1D6FA); (0x1D6FC, 0x1D714); (0x1D716, 0x1D734);
   (0x1D736, 0x1D74E); (0x1D750, 0x1D76E); (0x1D770, 0x1D788); (0x1D78A, 0x1D7A8);
   (0x1D7AA, 0x1D7C2); (0x1D7C4, 0x1D7CB); (0x1DF00, 0x1DF1E); (0x1E100, 0x1E12C);
   (0x1E137, 0x1E13D); (0x1E14E, 0x1E14E); (0x1E290, 0x1E2AD); (0x1E2C0, 0x1E2EB);
   (0x1E7E0, 0x1E7E6); (0x1E7E8, 0x1E7EB); (0x1E7ED, 0x1E7EE); (0x1E7F0, 0x1E7FE);
   (0x1E800, 0x1E8C4); (0x1E900, 0x1E943); (0x1E94B, 0x1E94B); (0x1EE00, 0x1EE03);
   (0x1EE05, 0x1EE1F); (0x1EE21, 0x1EE22); (0x1EE24, 0x1EE24); (0x1EE27, 0x1EE27);
   (0x1EE29, 0x1EE32); (0x1EE34, 0x1EE37); (0x1EE39, 0x1EE39); (0x1EE3B, 0x1EE3B);
   (0x1EE42, 0x1EE42); (0x1EE47, 0x1EE47); (0x1EE49, 0x1EE49); (0x1EE4B, 0x1EE4B);
   (0x1EE4D, 0x1EE4F); (0x1EE51, 0x1EE52); (0x1EE54, 0x1EE54); (0x1EE57, 0x1EE57);
   (0x1EE59, 0x1EE59); (0x1EE5B, 0x1EE5B); (0x1EE5D, 0x1EE5D); (0x1EE5F, 0x1EE5F);
   (0x1EE61, 0x1EE62); (0x1EE64, 0x1EE64); (0x1EE67, 0x1EE6A); (0x1EE6C, 0x1EE72);
   (0x1EE74, 0x1EE77); (0x1EE79, 0x1EE7C); (0x1EE7E, 0x1EE7E); (0x1EE80, 0x1EE89);
   (0x1EE8B, 0x1EE9B); (0x1EEA1, 0x1EEA3); (0x1EEA5, 0x1EEA9); (0x1EEAB, 0x1EEBB);
   (0x20000, 0x2A6DF); (0x2A700, 0x2B738); (0x2B740, 0x2B81D); (0x2B820, 0x2CEA1);
   (0x2CEB0, 0x2EBE0); (0x2F800, 0x2FA1D); (0x30000, 0x3134A)
  ].

(** Code points on which str.isupper holds (the Uppercase property). *)
Definition uppercase_ranges : list (Z * Z) :=
  [
   (0x41, 0x5A); (0xC0, 0xD6); (0xD8, 0xDE); (0x100, 0x100); (0x102, 0x102); (0x104, 0x104);
   (0x106, 0x106); (0x108, 0x108); (0x10A, 0x10A); (0x10C, 0x10C); (0x10E, 0x10E);
   (0x110, 0x110); (0x112, 0x112); (0x114, 0x114); (0x116, 0x116); (0x118, 0x118);
   (0x11A, 0x11A); (0x11C, 0x11C); (0x11E, 0x11E); (0x120, 0x120); (0x122, 0x122);
   (0x124, 0x124); (0x126, 0x126); (0x128, 0x128); (0x12A, 0x12A); (0x12C, 0x12C);
   (0x12E, 0x12E); (0x130, 0x130); (0x132, 0x132); (0x134, 0x134); (0x136, 0x136);
   (0x139, 0x139); (0x13B, 0x13B); (0x13D, 0x13D); (0x13F, 0x13F); (0x141, 0x141);
   (0x143, 0x143); (0x145, 0x145); (0x147, 0x147); (0x14A, 0x14A); (0x14C, 0x14C);
   (0x14E, 0x14E); (0x150, 0x150); (0x152, 0x152); (0x154, 0x154); (0x156, 0x156);
   (0x158, 0x158); (0x15A, 0x15A); (0x15C, 0x15C); (0x15E, 0x15E); (0x160, 0x160);
   (0x162, 0x162); (0x164, 0x164); (0x166, 0x166); (0x168, 0x168); (0x16A, 0x16A);
   (0x16C, 0x16C); (0x16E, 0x16E); (0x170, 0x170); (0x172, 0x172); (0x174, 0x174);
   (0x176, 0x176); (0x178, 0x179); (0x17B, 0x17B); (0x17D, 0x17D); (0x181, 0x182);
   (0x184, 0x184); (0x186, 0x187); (0x189, 0x18B); (0x18E, 0x191); (0x193, 0x194);
   (0x196, 0x198); (0x19C, 0x19D); (0x19F, 0x1A0); (0x1A2, 0x1A2); (0x1A4, 0x1A4);
   (0x1A6, 0x1A7); (0x1A9, 0x1A9); (0x1AC, 0x1AC); (0x1AE, 0x1AF); (0x1B1, 0x1B3);
   (0x1B5, 0x1B5); (0x1B7, 0x1B8); (0x1BC, 0x1BC); (0x1C4, 0x1C4); (0x1C7, 0x1C7);
   (0x1CA, 0x1CA); (0x1CD, 0x1CD); (0x1CF, 0x1CF); (0x1D1, 0x1D1); (0x1D3, 0x1D3);
   (0x1D5, 0x1D5); (0x1D7, 0x1D7); (0x1D9, 0x1D9); (0x1DB, 0x1DB); (0x1DE, 0x1DE);
   (0x1E0, 0x1E0); (0x1E2, 0x1E2); (0x1E4, 0x1E4); (0x1E6, 0x1E6); (0x1E8, 0x1E8);
   (0x1EA, 0x1EA); (0x1EC, 0x1EC); (0x1EE, 0x1EE); (0x1F1, 0x1F1); (0x1F4, 0x1F4);
   (0x1F6, 0x1F8); (0x1FA, 0x1FA); (0x1FC, 0x1FC); (0x1FE, 0x1FE); (0x200, 0x200);
   (0x202, 0x202); (0x204, 0x204); (0x206, 0x206); (0x208, 0x208); (0x20A, 0x20A);
   (0x20C, 0x20C); (0x20E, 0x20E); (0x210, 0x210); (0x212, 0x212); (0x214, 0x214);
   (0x216, 0x216); (0x218, 0x218); (0x21A, 0x21A); (0x21C, 0x21C); (0x21E, 0x21E);
   (0x220, 0x220); (0x222, 0x222); (0x224, 0x224); (0x226, 0x226); (0x228, 0x228);
   (0x22A, 0x22A); (0x22C, 0x22C); (0x22E, 0x22E); (0x230, 0x230); (0x232, 0x232);
   (0x23A, 0x23B); (0x23D, 0x23E); (0x241, 0x241); (0x243, 0x246); (0x248, 0x248);
   (0x24A, 0x24A); (0x24C, 0x24C); (0x24E, 0x24E); (0x370, 0x370); (0x372, 0x372);
   (0x376, 0x376); (0x37F, 0x37F); (0x386, 0x386); (0x388, 0x38A); (0x38C, 0x38C);
   (0x38E, 0x38F); (0x391, 0x3A1); (0x3A3, 0x3AB); (0x3CF, 0x3CF); (0x3D2, 0x3D4);
   (0x3D8, 0x3D8); (0x3DA, 0x3DA); (0x3DC, 0x3DC); (0x3DE, 0x3DE); (0x3E0, 0x3E0);
   (0x3E2, 0x3E2); (0x3E4, 0x3E4); (0x3E6, 0x3E6); (0x3E8, 0x3E8); (0x3EA, 0x3EA);
   (0x3EC, 0x3EC); (0x3EE, 0x3EE); (0x3F4, 0x3F4); (0x3F7, 0x3F7); (0x3F9, 0x3FA);
   (0x3FD, 0x42F); (0x460, 0x460); (0x462, 0x462); (0x464, 0x464); (0x466, 0x466);
   (0x468, 0x468); (0x46A, 0x46A); (0x46C, 0x46C); (0x46E, 0x46E); (0x470, 0x470);
   (0x472, 0x472); (0x474, 0x474); (0x476, 0x476); (0x478, 0x478); (0x47A, 0x47A);
   (0x47C, 0x47C); (0x47E, 0x47E); (0x480, 0x480); (0x48A, 0x48A); (0x48C, 0x48C);
   (0x48E, 0x48E); (0x490, 0x490); (0x492, 0x492); (0x494, 0x494); (0x496, 0x496);
   (0x498, 0x498); (0x49A, 0x49A); (0x49C, 0x49C); (0x49E, 0x49E); (0x4A0, 0x4A0);
   (0x4A2, 0x4A2); (0x4A4, 0x4A4); (0x4A6, 0x4A6); (0x4A8, 0x4A8); (0x4AA, 0x4AA);
   (0x4AC, 0x4AC); (0x4AE, 0x4AE); (0x4B0, 0x4B0); (0x4B2, 0x4B2); (0x4B4, 0x4B4);
   (0x4B6, 0x4B6); (0x4B8, 0x4B8); (0x4BA, 0x4BA); (0x4BC, 0x4BC); (0x4BE, 0x4BE);
   (0x4C0, 0x4C1); (0x4C3, 0x4C3); (0x4C5, 0x4C5); (0x4C7, 0x4C7); (0x4C9, 0x4C9);
   (0x4CB, 0x4CB); (0x4CD, 0x4CD); (0x4D0, 0x4D0); (0x4D2, 0x4D2); (0x4D4, 0x4D4);
   (0x4D6, 0x4D6); (0x4D8, 0x4D8); (0x4DA, 0x4DA); (0x4DC, 0x4DC); (0x4DE, 0x4DE);
   (0x4E0, 0x4E0); (0x4E2, 0x4E2); (0x4E4, 0x4E4); (0x4E6, 0x4E6); (0x4E8, 0x4E8);
   (0x4EA, 0x4EA); (0x4EC, 0x4EC); (0x4EE, 0x4EE); (0x4F0, 0x4F0); (0x4F2, 0x4F2);
   (0x4F4, 0x4F4); (0x4F6, 0x4F6); (0x4F8, 0x4F8); (0x4FA, 0x4FA); (0x4FC, 0x4FC);
   (0x4FE, 0x4FE); (0x500, 0x500); (0x502, 0x502); (0x504, 0x504); (0x506, 0x506);
   (0x508, 0x508); (0x50A, 0x50A); (0x50C, 0x50C); (0x50E, 0x50E); (0x510, 0x510);
   (0x512, 0x512); (0x514, 0x514); (0x516, 0x516); (0x518, 0x518); (0x51A, 0x51A);
   (0x51C, 0x51C); (0x51E, 0x51E); (0x520, 0x520); (0x522, 0x522); (0x524, 0x524);
   (0x526, 0x526); (0x528, 0x528); (0x52A, 0x52A); (0x52C, 0x52C); (0x52E, 0x52E);
   (0x531, 0x556); (0x10A0, 0x10C5); (0x10C7, 0x10C7); (0x10CD, 0x10CD); (0x13A0, 0x13F5);
   (0x1C90, 0x1CBA); (0x1CBD, 0x1CBF); (0x1E00, 0x1E00); (0x1E02, 0x1E02); (0x1E04, 0x1E04);
   (0x1E06, 0x1E06); (0x1E08, 0x1E08); (0x1E0A, 0x1E0A); (0x1E0C, 0x1E0C); (0x1E0E, 0x1E0E);
   (0x1E10, 0x1E10); (0x1E12, 0x1E12); (0x1E14, 0x1E14); (0x1E16, 0x1E16); (0x1E18, 0x1E18);
   (0x1E1A, 0x1E1A); (0x1E1C, 0x1E1C); (0x1E1E, 0x1E1E); (0x1E20, 0x1E20); (0x1E22, 0x1E22);
   (0x1E24, 0x1E24); (0x1E26, 0x1E26); (0x1E28, 0x1E28); (0x1E2A, 0x1E2A); (0x1E2C, 0x1E2C);
   (0x1E2E, 0x1E2E); (0x1E30, 0x1E30); (0x1E32, 0x1E32); (0x1E34, 0x1E34); (0x1E36, 0x1E36);
   (0x1E38, 0x1E38); (0x1E3A, 0x1E3A); (0x1E3C, 0x1E3C); (0x1E3E, 0x1E3E); (0x1E40, 0x1E40);
   (0x1E42, 0x1E42); (0x1E44, 0x1E44); (0x1E46, 0x1E46); (0x1E48, 0x1E48); (0x1E4A, 0x1E4A);
   (0x1E4C, 0x1E4C); (0x1E4E, 0x1E4E); (0x1E50, 0x1E50); (0x1E52, 0x1E52); (0x1E54, 0x1E54);
   (0x1E56, 0x1E56); (0x1E58, 0x1E58); (0x1E5A, 0x1E5A); (0x1E5C, 0x1E5C); (0x1E5E, 0x1E5E);
   (0x1E60, 0x1E60); (0x1E62, 0x1E62); (0x1E64, 0x1E64); (0x1E66, 0x1E66); (0x1E68, 0x1E68);
   (0x1E6A, 0x1E6A); (0x1E6C, 0x1E6C); (0x1E6E, 0x1E6E); (0x1E70, 0x1E70); (0x1E72, 0x1E72);
   (0x1E74, 0x1E74); (0x1E76, 0x1E76); (0x1E78, 0x1E78); (0x1E7A, 0x1E7A); (0x1E7C, 0x1E7C);
   (0x1E7E, 0x1E7E); (0x1E80, 0x1E80); (0x1E82, 0x1E82); (0x1E84, 0x1E84); (0x1E86, 0x1E86);
   (0x1E88, 0x1E88); (0x1E8A, 0x1E8A); (0x1E8C, 0x1E8C); (0x1E8E, 0x1E8E); (0x1E90, 0x1E90);
   (0x1E92, 0x1E92); (0x1E94, 0x1E94); (0x1E9E, 0x1E9E); (0x1EA0, 0x1EA0); (0x1EA2, 0x1EA2);
   (0x1EA4, 0x1EA4); (0x1EA6, 0x1EA6); (0x1EA8, 0x1EA8); (0x1EAA, 0x1EAA); (0x1EAC, 0x1EAC);
   (0x1EAE, 0x1EAE); (0x1EB0, 0x1EB0); (0x1EB2, 0x1EB2); (0x1EB4, 0x1EB4); (0x1EB6, 0x1EB6);
   (0x1EB8, 0x1EB8); (0x1EBA, 0x1EBA); (0x1EBC, 0x1EBC); (0x1EBE, 0x1EBE); (0x1EC0, 0x1EC0);
   (0x1EC2, 0x1EC2); (0x1EC4, 0x1EC4); (0x1EC6, 0x1EC6); (0x1EC8, 0x1EC8); (0x1ECA, 0x1ECA);
   (0x1ECC, 0x1ECC); (0x1ECE, 0x1ECE); (0x1ED0, 0x1ED0); (0x1ED2, 0x1ED2); (0x1ED4, 0x1ED4);
   (0x1ED6, 0x1ED6); (0x1ED8, 0x1ED8); (0x1EDA, 0x1EDA); (0x1EDC, 0x1EDC); (0x1EDE, 0x1EDE);
   (0x1EE0, 0x1EE0); (0x1EE2, 0x1EE2); (0x1EE4, 0x1EE4); (0x1EE6, 0x1EE6); (0x1EE8, 0x1EE8);
   (0x1EEA, 0x1EEA); (0x1EEC, 0x1EEC); (0x1EEE, 0x1EEE); (0x1EF0, 0x1EF0); (0x1EF2, 0x1EF2);
   (0x1EF4, 0x1EF4); (0x1EF6, 0x1EF6); (0x1EF8, 0x1EF8); (0x1EFA, 0x1EFA); (0x1EFC, 0x1EFC);
   (0x1EFE, 0x1EFE); (0x1F08, 0x1F0F); (0x1F18, 0x1F1D); (0x1F28, 0x1F2F); (0x1F38, 0x1F3F);
   (0x1F48, 0x1F4D); (0x1F59, 0x1F59); (0x1F5B, 0x1F5B); (0x1F5D, 0x1F5D); (0x1F5F, 0x1F5F);
   (0x1F68, 0x1F6F); (0x1FB8, 0x1FBB); (0x1FC8, 0x1FCB); (0x1FD8, 0x1FDB); (0x1FE8, 0x1FEC);
   (0x1FF8, 0x1FFB); (0x2102, 0x2102); (0x2107, 0x2107); (0x210B, 0x210D); (0x2110, 0x2112);
   (0x2115, 0x2115); (0x2119, 0x211D); (0x2124, 0x2124); (0x2126, 0x2126); (0x2128, 0x2128);
   (0x212A, 0x212D); (0x2130, 0x2133); (0x213E, 0x213F); (0x2145, 0x2145); (0x2160, 0x216F);
   (0x2183, 0x2183); (0x24B6, 0x24CF); (0x2C00, 0x2C2F); (0x2C60, 0x2C60); (0x2C62, 0x2C64);
   (0x2C67, 0x2C67); (0x2C69, 0x2C69); (0x2C6B, 0x2C6B); (0x2C6D, 0x2C70); (0x2C72, 0x2C72);
   (0x2C75, 0x2C75); (0x2C7E, 0x2C80); (0x2C82, 0x2C82); (0x2C84, 0x2C84); (0x2C86, 0x2C86);
   (0x2C88, 0x2C88); (0x2C8A, 0x2C8A); (0x2C8C, 0x2C8C); (0x2C8E, 0x2C8E); (0x2C90, 0x2C90);
   (0x2C92, 0x2C92); (0x2C94, 0x2C94); (0x2C96, 0x2C96); (0x2C98, 0x2C98); (0x2C9A, 0x2C9A);
   (0x2C9C, 0x2C9C); (0x2C9E, 0x2C9E); (0x2CA0, 0x2CA0); (0x2CA2, 0x2CA2); (0x2CA4, 0x2CA4);
   (0x2CA6, 0x2CA6); (0x2CA8, 0x2CA8); (0x2CAA, 0x2CAA); (0x2CAC, 0x2CAC); (0x2CAE, 0x2CAE);
   (0x2CB0, 0x2CB0); (0x2CB2, 0x2CB2); (0x2CB4, 0x2CB4); (0x2CB6, 0x2CB6); (0x2CB8, 0x2CB8);
   (0x2CBA, 0x2CBA); (0x2CBC, 0x2CBC); (0x2CBE, 0x2CBE); (0x2CC0, 0x2CC0); (0x2CC2, 0x2CC2);
   (0x2CC4, 0x2CC4); (0x2CC6, 0x2CC6); (0x2CC8, 0x2CC8); (0x2CCA, 0x2CCA); (0x2CCC, 0x2CCC);
   (0x2CCE, 0x2CCE); (0x2CD0, 0x2CD0); (0x2CD2, 0x2CD2); (0x2CD4, 0x2CD4); (0x2CD6, 0x2CD6);
   (0x2CD8, 0x2CD8); (0x2CDA, 0x2CDA); (0x2CDC, 0x2CDC); (0x2CDE, 0x2CDE); (0x2CE0, 0x2CE0);
   (0x2CE2, 0x2CE2); (0x2CEB, 0x2CEB); (0x2CED, 0x2CED); (0x2CF2, 0x2CF2); (0xA640, 0xA640);
   (0xA642, 0xA642); (0xA644, 0xA644); (0xA646, 0xA646); (0xA648, 0xA648); (0xA64A, 0xA64A);
   (0xA64C, 0xA64C); (0xA64E, 0xA64E); (0xA650, 0xA650); (0xA652, 0xA652); (0xA654, 0xA654);
   (0xA656, 0xA656); (0xA658, 0xA658); (0xA65A, 0xA65A); (0xA65C, 0xA65C); (0xA65E, 0xA65E);
   (0xA660, 0xA660); (0xA662, 0xA662); (0xA664, 0xA664); (0xA666, 0xA666); (0xA668, 0xA668);
   (0xA66A, 0xA66A); (0xA66C, 0xA66C); (0xA680, 0xA680); (0xA682, 0xA682); (0xA684, 0xA684);
   (0xA686, 0xA686); (0xA688, 0xA688); (0xA68A, 0xA68A); (0xA68C, 0xA68C); (0xA68E, 0xA68E);
   (0xA690, 0xA690); (0xA692, 0xA692); (0xA694, 0xA694); (0xA696, 0xA696); (0xA698, 0xA698);
   (0xA69A, 0xA69A); (0xA722, 0xA722); (0xA724, 0xA724); (0xA726, 0xA726); (0xA728, 0xA728);
   (0xA72A, 0xA72A); (0xA72C, 0xA72C); (0xA72E, 0xA72E); (0xA732, 0xA732); (0xA734, 0xA734);
   (0xA736, 0xA736); (0xA738, 0xA738); (0xA73A, 0xA73A); (0xA73C, 0xA73C); (0xA73E, 0xA73E);
   (0xA740, 0xA740); (0xA742, 0xA742); (0xA744, 0xA744); (0xA746, 0xA746); (0xA748, 0xA748);
   (0xA74A, 0xA74A); (0xA74C, 0xA74C); (0xA74E, 0xA74E); (0xA750, 0xA750); (0xA752, 0xA752);
   (0xA754, 0xA754); (0xA756, 0xA756); (0xA758, 0xA758); (0xA75A, 0xA75A); (0xA75C, 0xA75C);
   (0xA75E, 0xA75E); (0xA760, 0xA760); (0xA762, 0xA762); (0xA764, 0xA764); (0xA766, 0xA766);
   (0xA768, 0xA768); (0xA76A, 0xA76A); (0xA76C, 0xA76C); (0xA76E, 0xA76E); (0xA779, 0xA779);
   (0xA77B, 0xA77B); (0xA77D, 0xA77E); (0xA780, 0xA780); (0xA782, 0xA782); (0xA784, 0xA784);
   (0xA786, 0xA786); (0xA78B, 0xA78B); (0xA78D, 0xA78D); (0xA790, 0xA790); (0xA792, 0xA792);
   (0xA796, 0xA796); (0xA798, 0xA798); (0xA79A, 0xA79A); (0xA79C, 0xA79C); (0xA79E, 0xA79E);
   (0xA7A0, 0xA7A0); (0xA7A2, 0xA7A2); (0xA7A4, 0xA7A4); (0xA7A6, 0xA7A6); (0xA7A8, 0xA7A8);
   (0xA7AA, 0xA7AE); (0xA7B0, 0xA7B4); (0xA7B6, 0xA7B6); (0xA7B8, 0xA7B8); (0xA7BA, 0xA7BA);
   (0xA7BC, 0xA7BC); (0xA7BE, 0xA7BE); (0xA7C0, 0xA7C0); (0xA7C2, 0xA7C2); (0xA7C4, 0xA7C7);
   (0xA7C9, 0xA7C9); (0xA7D0, 0xA7D0); (0xA7D6, 0xA7D6); (0xA7D8, 0xA7D8); (0xA7F5, 0xA7F5);
   (0xFF21, 0xFF3A); (0x10400, 0x10427); (0x104B0, 0x104D3); (0x10570, 0x1057A);
   (0x1057C, 0x1058A); (0x1058C, 0x10592); (0x10594, 0x10595); (0x10C80, 0x10CB2);
   (0x118A0, 0x118BF); (0x16E40, 0x16E5F); (0x1D400, 0x1D419); (0x1D434, 0x1D44D);
   (0x1D468, 0x1D481); (0x1D49C, 0x1D49C); (0x1D49E, 0x1D49F); (0x1D4A2, 0x1D4A2);
   (0x1D4A5, 0x1D4A6); (0x1D4A9, 0x1D4AC); (0x1D4AE, 0x1D4B5); (0x1D4D0, 0x1D4E9);
   (0x1D504, 0x1D505); (0x1D507, 0x1D50A); (0x1D50D, 0x1D514); (0x1D516, 0x1D51C);
   (0x1D538, 0x1D539); (0x1D53B, 0x1D53E); (0x1D540, 0x1D544); (0x1D546, 0x1D546);
   (0x1D54A, 0x1D550); (0x1D56C, 0x1D585); (0x1D5A0, 0x1D5B9); (0x1D5D4, 0x1D5ED);
   (0x1D608, 0x1D621); (0x1D63C, 0x1D655); (0x1D670, 0x1D689); (0x1D6A8, 0x1D6C0);
   (0x1D6E2, 0x1D6FA); (0x1D71C, 0x1D734); (0x1D756, 0x1D76E); (0x1D790, 0x1D7A8);
   (0x1D7CA, 0x1D7CA); (0x1E900, 0x1E921); (0x1F130, 0x1F149); (0x1F150, 0x1F169);
   (0x1F170, 0x1F189)
  ].

(** Code points the re module's \w matches in a str pattern: str.isalnum or the underscore. *)
Definition word_ranges : list (Z * Z) :=
  [
   (0x30, 0x39); (0x41, 0x5A); (0x5F, 0x5F); (0x61, 0x7A); (0xAA, 0xAA); (0xB2, 0xB3);
   (0xB5, 0xB5); (0xB9, 0xBA); (0xBC, 0xBE); (0xC0, 0xD6); (0xD8, 0xF6); (0xF8, 0x2C1);
   (0x2C6, 0x2D1); (0x2E0, 0x2E4); (0x2EC, 0x2EC); (0x2EE, 0x2EE); (0x370, 0x374);
   (0x376, 0x377); (0x37A, 0x37D); (0x37F, 0x37F); (0x386, 0x386); (0x388, 0x38A);
   (0x38C, 0x38C); (0x38E, 0x3A1); (0x3A3, 0x3F5); (0x3F7, 0x481); (0x48A, 0x52F);
   (0x531, 0x556); (0x559, 0x559); (0x560, 0x588); (0x5D0, 0x5EA); (0x5EF, 0x5F2);
   (0x620, 0x64A); (0x660, 0x669); (0x66E, 0x66F); (0x671, 0x6D3); (0x6D5, 0x6D5);
   (0x6E5, 0x6E6); (0x6EE, 0x6FC); (0x6FF, 0x6FF); (0x710, 0x710); (0x712, 0x72F);
   (0x74D, 0x7A5); (0x7B1, 0x7B1); (0x7C0, 0x7EA); (0x7F4, 0x7F5); (0x7FA, 0x7FA);
   (0x800, 0x815); (0x81A, 0x81A); (0x824, 0x824); (0x828, 0x828); (0x840, 0x858);
   (0x860, 0x86A); (0x870, 0x887); (0x889, 0x88E); (0x8A0, 0x8C9); (0x904, 0x939);
   (0x93D, 0x93D); (0x950, 0x950); (0x958, 0x961); (0x966, 0x96F); (0x971, 0x980);
   (0x985, 0x98C); (0x98F, 0x990); (0x993, 0x9A8); (0x9AA, 0x9B0); (0x9B2, 0x9B2);
   (0x9B6, 0x9B9); (0x9BD, 0x9BD); (0x9CE, 0x9CE); (0x9DC, 0x9DD); (0x9DF, 0x9E1);
   (0x9E6, 0x9F1); (0x9F4, 0x9F9); (0x9FC, 0x9FC); (0xA05, 0xA0A); (0xA0F, 0xA10);
   (0xA13, 0xA28); (0xA2A, 0xA30); (0xA32, 0xA33); (0xA35, 0xA36); (0xA38, 0xA39);
   (0xA59, 0xA5C); (0xA5E, 0xA5E); (0xA66, 0xA6F); (0xA72, 0xA74); (0xA85, 0xA8D);
   (0xA8F, 0xA91); (0xA93, 0xAA8); (0xAAA, 0xAB0); (0xAB2, 0xAB3); (0xAB5, 0xAB9);
   (0xABD, 0xABD); (0xAD0, 0xAD0); (0xAE0, 0xAE1); (0xAE6, 0xAEF); (0xAF9, 0xAF9);
   (0xB05, 0xB0C); (0xB0F, 0xB10); (0xB13, 0xB28); (0xB2A, 0xB30); (0xB32, 0xB33);
   (0xB35, 0xB39); (0xB3D, 0xB3D); (0xB5C, 0xB5D); (0xB5F, 0xB61); (0xB66, 0xB6F);
   (0xB71, 0xB77); (0xB83, 0xB83); (0xB85, 0xB8A); (0xB8E, 0xB90); (0xB92, 0xB95);
   (0xB99, 0xB9A); (0xB9C, 0xB9C); (0xB9E, 0xB9F); (0xBA3, 0xBA4); (0xBA8, 0xBAA);
   (0xBAE, 0xBB9); (0xBD0, 0xBD0); (0xBE6, 0xBF2); (0xC05, 0xC0C); (0xC0E, 0xC10);
   (0xC12, 0xC28); (0xC2A, 0xC39); (0xC3D, 0xC3D); (0xC58, 0xC5A); (0xC5D, 0xC5D);
   (0xC60, 0xC61); (0xC66, 0xC6F); (0xC78, 0xC7E); (0xC80, 0xC80); (0xC85, 0xC8C);
   (0xC8E, 0xC90); (0xC92, 0xCA8); (0xCAA, 0xCB3); (0xCB5, 0xCB9); (0xCBD, 0xCBD);
   (0xCDD, 0xCDE); (0xCE0, 0xCE1); (0xCE6, 0xCEF); (0xCF1, 0xCF2); (0xD04, 0xD0C);
   (0xD0E, 0xD10); (0xD12, 0xD3A); (0xD3D, 0xD3D); (0xD4E, 0xD4E); (0xD54, 0xD56);
   (0xD58, 0xD61); (0xD66, 0xD78); (0xD7A, 0xD7F); (0xD85, 0xD96); (0xD9A, 0xDB1);
   (0xDB3, 0xDBB); (0xDBD, 0xDBD); (0xDC0, 0xDC6); (0xDE6, 0xDEF); (0xE01, 0xE30);
   (0xE32, 0xE33); (0xE40, 0xE46); (0xE50, 0xE59); (0xE81, 0xE82); (0xE84, 0xE84);
   (0xE86, 0xE8A); (0xE8C, 0xEA3); (0xEA5, 0xEA5); (0xEA7, 0xEB0); (0xEB2, 0xEB3);
   (0xEBD, 0xEBD); (0xEC0, 0xEC4); (0xEC6, 0xEC6); (0xED0, 0xED9); (0xEDC, 0xEDF);
   (0xF00, 0xF00); (0xF20, 0xF33); (0xF40, 0xF47); (0xF49, 0xF6C); (0xF88, 0xF8C);
   (0x1000, 0x102A); (0x103F, 0x1049); (0x1050, 0x1055); (0x105A, 0x105D); (0x1061, 0x1061);
   (0x1065, 0x1066); (0x106E, 0x1070); (0x1075, 0x1081); (0x108E, 0x108E); (0x1090, 0x1099);
   (0x10A0, 0x10C5); (0x10C7, 0x10C7); (0x10CD, 0x10CD); (0x10D0, 0x10FA); (0x10FC, 0x1248);
   (0x124A, 0x124D); (0x1250, 0x1256); (0x1258, 0x1258); (0x125A, 0x125D); (0x1260, 0x1288);
   (0x128A, 0x128D); (0x1290, 0x12B0); (0x12B2, 0x12B5); (0x12B8, 0x12BE); (0x12C0, 0x12C0);
   (0x12C2, 0x12C5); (0x12C8, 0x12D6); (0x12D8, 0x1310); (0x1312, 0x1315); (0x1318, 0x135A);
   (0x1369, 0x137C); (0x1380, 0x138F); (0x13A0, 0x13F5); (0x13F8, 0x13FD); (0x1401, 0x166C);
   (0x166F, 0x167F); (0x1681, 0x169A); (0x16A0, 0x16EA); (0x16EE, 0x16F8); (0x1700, 0x1711);
   (0x171F, 0x1731); (0x1740, 0x1751); (0x1760, 0x176C); (0x176E, 0x1770); (0x1780, 0x17B3);
   (0x17D7, 0x17D7); (0x17DC, 0x17DC); (0x17E0, 0x17E9); (0x17F0, 0x17F9); (0x1810, 0x1819);
   (0x1820, 0x1878); (0x1880, 0x1884); (0x1887, 0x18A8); (0x18AA, 0x18AA); (0x18B0, 0x18F5);
   (0x1900, 0x191E); (0x1946, 0x196D); (0x1970, 0x1974); (0x1980, 0x19AB); (0x19B0, 0x19C9);
   (0x19D0, 0x19DA); (0x1A00, 0x1A16); (0x1A20, 0x1A54); (0x1A80, 0x1A89); (0x1A90, 0x1A99);
   (0x1AA7, 0x1AA7); (0x1B05, 0x1B33); (0x1B45, 0x1B4C); (0x1B50, 0x1B59); (0x1B83, 0x1BA0);
   (0x1BAE, 0x1BE5); (0x1C00, 0x1C23); (0x1C40, 0x1C49); (0x1C4D, 0x1C7D); (0x1C80, 0x1C88);
   (0x1C90, 0x1CBA); (0x1CBD, 0x1CBF); (0x1CE9, 0x1CEC); (0x1CEE, 0x1CF3); (0x1CF5, 0x1CF6);
   (0x1CFA, 0x1CFA); (0x1D00, 0x1DBF); (0x1E00, 0x1F15); (0x1F18, 0x1F1D); (0x1F20, 0x1F45);
   (0x1F48, 0x1F4D); (0x1F50, 0x1F57); (0x1F59, 0x1F59); (0x1F5B, 0x1F5B); (0x1F5D, 0x1F5D);
   (0x1F5F, 0x1F7D); (0x1F80, 0x1FB4); (0x1FB6, 0x1FBC); (0x1FBE, 0x1FBE); (0x1FC2, 0x1FC4);
   (0x1FC6, 0x1FCC); (0x1FD0, 0x1FD3); (0x1FD6, 0x1FDB); (0x1FE0, 0x1FEC); (0x1FF2, 0x1FF4);
   (0x1FF6, 0x1FFC); (0x2070, 0x2071); (0x2074, 0x2079); (0x207F, 0x2089); (0x2090, 0x209C);
   (0x2102, 0x2102); (0x2107, 0x2107); (0x210A, 0x2113); (0x2115, 0x2115); (0x2119, 0x211D);
   (0x2124, 0x2124); (0x2126, 0x2126); (0x2128, 0x2128); (0x212A, 0x212D); (0x212F, 0x2139);
   (0x213C, 0x213F); (0x2145, 0x2149); (0x214E, 0x214E); (0x2150, 0x2189); (0x2460, 0x249B);
   (0x24EA, 0x24FF); (0x2776, 0x2793); (0x2C00, 0x2CE4); (0x2CEB, 0x2CEE); (0x2CF2, 0x2CF3);
   (0x2CFD, 0x2CFD); (0x2D00, 0x2D25); (0x2D27, 0x2D27); (0x2D2D, 0x2D2D); (0x2D30, 0x2D67);
   (0x2D6F, 0x2D6F); (0x2D80, 0x2D96); (0x2DA0, 0x2DA6); (0x2DA8, 0x2DAE); (0x2DB0, 0x2DB6);
   (0x2DB8, 0x2DBE); (0x2DC0, 0x2DC6); (0x2DC8, 0x2DCE); (0x2DD0, 0x2DD6); (0x2DD8, 0x2DDE);
   (0x2E2F, 0x2E2F); (0x3005, 0x3007); (0x3021, 0x3029); (0x3031, 0x3035); (0x3038, 0x303C);
   (0x3041, 0x3096); (0x309D, 0x309F); (0x30A1, 0x30FA); (0x30FC, 0x30FF); (0x3105, 0x312F);
   (0x3131, 0x318E); (0x3192, 0x3195); (0x31A0, 0x31BF); (0x31F0, 0x31FF); (0x3220, 0x3229);
   (0x3248, 0x324F); (0x3251, 0x325F); (0x3280, 0x3289); (0x32B1, 0x32BF); (0x3400, 0x4DBF);
   (0x4E00, 0xA48C); (0xA4D0, 0xA4FD); (0xA500, 0xA60C); (0xA610, 0xA62B); (0xA640, 0xA66E);
   (0xA67F, 0xA69D); (0xA6A0, 0xA6EF); (0xA717, 0xA71F); (0xA722, 0xA788); (0xA78B, 0xA7CA);
   (0xA7D0, 0xA7D1); (0xA7D3, 0xA7D3); (0xA7D5, 0xA7D9); (0xA7F2, 0xA801); (0xA803, 0xA805);
   (0xA807, 0xA80A); (0xA80C, 0xA822); (0xA830, 0xA835); (0xA840, 0xA873); (0xA882, 0xA8B3);
   (0xA8D0, 0xA8D9); (0xA8F2, 0xA8F7); (0xA8FB, 0xA8FB); (0xA8FD, 0xA8FE); (0xA900, 0xA925);
   (0xA930, 0xA946); (0xA960, 0xA97C); (0xA984, 0xA9B2); (0xA9CF, 0xA9D9); (0xA9E0, 0xA9E4);
   (0xA9E6, 0xA9FE); (0xAA00, 0xAA28); (0xAA40, 0xAA42); (0xAA44, 0xAA4B); (0xAA50, 0xAA59);
   (0xAA60, 0xAA76); (0xAA7A, 0xAA7A); (0xAA7E, 0xAAAF); (0xAAB1, 0xAAB1); (0xAAB5, 0xAAB6);
   (0xAAB9, 0xAABD); (0xAAC0, 0xAAC0); (0xAAC2, 0xAAC2); (0xAADB, 0xAADD); (0xAAE0, 0xAAEA);
   (0xAAF2, 0xAAF4); (0xAB01, 0xAB06); (0xAB09, 0xAB0E); (0xAB11, 0xAB16); (0xAB20, 0xAB26);
   (0xAB28, 0xAB2E); (0xAB30, 0xAB5A); (0xAB5C, 0xAB69); (0xAB70, 0xABE2); (0xABF0, 0xABF9);
   (0xAC00, 0xD7A3); (0xD7B0, 0xD7C6); (0xD7CB, 0xD7FB); (0xF900, 0xFA6D); (0xFA70, 0xFAD9);
   (0xFB00, 0xFB06); (0xFB13, 0xFB17); (0xFB1D, 0xFB1D); (0xFB1F, 0xFB28); (0xFB2A, 0xFB36);
   (0xFB38, 0xFB3C); (0xFB3E, 0xFB3E); (0xFB40, 0xFB41); (0xFB43, 0xFB44); (0xFB46, 0xFBB1);
   (0xFBD3, 0xFD3D); (0xFD50, 0xFD8F); (0xFD92, 0xFDC7); (0xFDF0, 0xFDFB); (0xFE70, 0xFE74);
   (0xFE76, 0xFEFC); (0xFF10, 0xFF19); (0xFF21, 0xFF3A); (0xFF41, 0xFF5A); (0xFF66, 0xFFBE);
   (0xFFC2, 0xFFC7); (0xFFCA, 0xFFCF); (0xFFD2, 0xFFD7); (0xFFDA, 0xFFDC); (0x10000, 0x1000B);
   (0x1000D, 0x10026); (0x10028, 0x1003A); (0x1003C, 0x1003D); (0x1003F, 0x1004D);
   (0x10050, 0x1005D); (0x10080, 0x100FA); (0x10107, 0x10133); (0x10140, 0x10178);
   (0x1018A, 0x1018B); (0x10280, 0x1029C); (0x102A0, 0x102D0); (0x102E1, 0x102FB);
   (0x10300, 0x10323); (0x1032D, 0x1034A); (0x10350, 0x10375); (0x10380, 0x1039D);
   (0x103A0, 0x103C3); (0x103C8, 0x103CF); (0x103D1, 0x103D5); (0x10400, 0x1049D);
   (0x104A0, 0x104A9); (0x104B0, 0x104D3); (0x104D8, 0x104FB); (0x10500, 0x10527);
   (0x10530, 0x10563); (0x10570, 0x1057A); (0x1057C, 0x1058A); (0x1058C, 0x10592);
   (0x10594, 0x10595); (0x10597, 0x105A1); (0x105A3, 0x105B1); (0x105B3, 0x105B9);
   (0x105BB, 0x105BC); (0x10600, 0x10736); (0x10740, 0x10755); (0x10760, 0x10767);
   (0x10780, 0x10785); (0x10787, 0x107B0); (0x107B2, 0x107BA); (0x10800, 0x10805);
   (0x10808, 0x10808); (0x1080A, 0x10835); (0x10837, 0x10838); (0x1083C, 0x1083C);
   (0x1083F, 0x10855); (0x10858, 0x10876); (0x10879, 0x1089E); (0x108A7, 0x108AF);
   (0x108E0, 0x108F2); (0x108F4, 0x108F5); (0x108FB, 0x1091B); (0x10920, 0x10939);
   (0x10980, 0x109B7); (0x109BC, 0x109CF); (0x109D2, 0x10A00); (0x10A10, 0x10A13);
   (0x10A15, 0x10A17); (0x10A19, 0x10A35); (0x10A40, 0x10A48); (0x10A60, 0x10A7E);
   (0x10A80, 0x10A9F); (0x10AC0, 0x10AC7); (0x10AC9, 0x10AE4); (0x10AEB, 0x10AEF);
   (0x10B00, 0x10B35); (0x10B40, 0x10B55); (0x10B58, 0x10B72); (0x10B78, 0x10B91);
   (0x10BA9, 0x10BAF); (0x10C00, 0x10C48); (0x10C80, 0x10CB2); (0x10CC0, 0x10CF2);
   (0x10CFA, 0x10D23); (0x10D30, 0x10D39); (0x10E60, 0x10E7E); (0x10E80, 0x10EA9);
   (0x10EB0, 0x10EB1); (0x10F00, 0x10F27); (0x10F30, 0x10F45); (0x10F51, 0x10F54);
   (0x10F70, 0x10F81); (0x10FB0, 0x10FCB); (0x10FE0, 0x10FF6); (0x11003, 0x11037);
   (0x11052, 0x1106F); (0x11071, 0x11072); (0x11075, 0x11075); (0x11083, 0x110AF);
   (0x110D0, 0x110E8); (0x110F0, 0x110F9); (0x11103, 0x11126); (0x11136, 0x1113F);
   (0x11144, 0x11144); (0x11147, 0x11147); (0x11150, 0x11172); (0x11176, 0x11176);
   (0x11183, 0x111B2); (0x111C1, 0x111C4); (0x111D0, 0x111DA); (0x111DC, 0x111DC);
   (0x111E1, 0x111F4); (0x11200, 0x11211); (0x11213, 0x1122B); (0x11280, 0x11286);
   (0x11288, 0x11288); (0x1128A, 0x1128D); (0x1128F, 0x1129D); (0x1129F, 0x112A8);
   (0x112B0, 0x112DE); (0x112F0, 0x112F9); (0x11305, 0x1130C); (0x1130F, 0x11310);
   (0x11313, 0x11328); (0x1132A, 0x11330); (0x11332, 0x11333); (0x11335, 0x11339);
   (0x1133D, 0x1133D); (0x11350, 0x11350); (0x1135D, 0x11361); (0x11400, 0x11434);
   (0x11447, 0x1144A); (0x11450, 0x11459); (0x1145F, 0x11461); (0x11480, 0x114AF);
   (0x114C4, 0x114C5); (0x114C7, 0x114C7); (0x114D0, 0x114D9); (0x11580, 0x115AE);
   (0x115D8, 0x115DB); (0x11600, 0x1162F); (0x11644, 0x11644); (0x11650, 0x11659);
   (0x11680, 0x116AA); (0x116B8, 0x116B8); (0x116C0, 0x116C9); (0x11700, 0x1171A);
   (0x11730, 0x1173B); (0x11740, 0x11746); (0x11800, 0x1182B); (0x118A0, 0x118F2);
   (0x118FF, 0x11906); (0x11909, 0x11909); (0x1190C, 0x11913); (0x11915, 0x11916);
   (0x11918, 0x1192F); (0x1193F, 0x1193F); (0x11941, 0x11941); (0x11950, 0x11959);
   (0x119A0, 0x119A7); (0x119AA, 0x119D0); (0x119E1, 0x119E1); (0x119E3, 0x119E3);
   (0x11A00, 0x11A00); (0x11A0B, 0x11A32); (0x11A3A, 0x11A3A); (0x11A50, 0x11A50);
   (0x11A5C, 0x11A89); (0x11A9D, 0x11A9D); (0x11AB0, 0x11AF8); (0x11C00, 0x11C08);
   (0x11C0A, 0x11C2E); (0x11C40, 0x11C40); (0x11C50, 0x11C6C); (0x11C72, 0x11C8F);
   (0x11D00, 0x11D06); (0x11D08, 0x11D09); (0x11D0B, 0x11D30); (0x11D46, 0x11D46);
   (0x11D50, 0x11D59); (0x11D60, 0x11D65); (0x11D67, 0x11D68); (0x11D6A, 0x11D89);
   (0x11D98, 0x11D98); (0x11DA0, 0x11DA9); (0x11EE0, 0x11EF2); (0x11FB0, 0x11FB0);
   (0x11FC0, 0x11FD4); (0x12000, 0x12399); (0x12400, 0x1246E); (0x12480, 0x12543);
   (0x12F90, 0x12FF0); (0x13000, 0x1342E); (0x14400, 0x14646); (0x16800, 0x16A38);
   (0x16A40, 0x16A5E); (0x16A60, 0x16A69); (0x16A70, 0x16ABE); (0x16AC0, 0x16AC9);
   (0x16AD0, 0x16AED); (0x16B00, 0x16B2F); (0x16B40, 0x16B43); (0x16B50, 0x16B59);
   (0x16B5B, 0x16B61); (0x16B63, 0x16B77); (0x16B7D, 0x16B8F); (0x16E40, 0x16E96);
   (0x16F00, 0x16F4A); (0x16F50, 0x16F50); (0x16F93, 0x16F9F); (0x16FE0, 0x16FE1);
   (0x16FE3, 0x16FE3); (0x17000, 0x187F7); (0x18800, 0x18CD5); (0x18D00, 0x18D08);
   (0x1AFF0, 0x1AFF3); (0x1AFF5, 0x1AFFB); (0x1AFFD, 0x1AFFE); (0x1B000, 0x1B122);
   (0x1B150, 0x1B152); (0x1B164, 0x1B167); (0x1B170, 0x1B2FB); (0x1BC00, 0x1BC6A);
   (0x1BC70, 0x1BC7C); (0x1BC80, 0x1BC88); (0x1BC90, 0x1BC99); (0x1D2E0, 0x1D2F3);
   (0x1D360, 0x1D378); (0x1D400, 0x1D454); (0x1D456, 0x1D49C); (0x1D49E, 0x1D49F);
   (0x1D4A2, 0x1D4A2); (0x1D4A5, 0x1D4A6); (0x1D4A9, 0x1D4AC); (0x1D4AE, 0x1D4B9);
   (0x1D4BB, 0x1D4BB); (0x1D4BD, 0x1D4C3); (0x1D4C5, 0x1D505); (0x1D507, 0x1D50A);
   (0x1D50D, 0x1D514); (0x1D516, 0x1D51C); (0x1D51E, 0x1D539); (0x1D53B, 0x1D53E);
   (0x1D540, 0x1D544); (0x1D546, 0x1D546); (0x1D54A, 0x1D550); (0x1D552, 0x1D6A5);
   (0x1D6A8, 0x1D6C0); (0x1D6C2, 0x1D6DA); (0x1D6DC, 0x1D6FA); (0x1D6FC, 0x1D714);
   (0x1D716, 0x1D734); (0x1D736, 0x1D74E); (0x1D750, 0x1D76E); (0x1D770, 0x1D788);
   (0x1D78A, 0x1D7A8); (0x1D7AA, 0x1D7C2); (0x1D7C4, 0x1D7CB); (0x1D7CE, 0x1D7FF);
   (0x1DF00, 0x1DF1E); (0x1E100, 0x1E12C); (0x1E137, 0x1E13D); (0x1E140, 0x1E149);
   (0x1E14E, 0x1E14E); (0x1E290, 0x1E2AD); (0x1E2C0, 0x1E2EB); (0x1E2F0, 0x1E2F9);
   (0x1E7E0, 0x1E7E6); (0x1E7E8, 0x1E7EB); (0x1E7ED, 0x1E7EE); (0x1E7F0, 0x1E7FE);
   (0x1E800, 0x1E8C4); (0x1E8C7, 0x1E8CF); (0x1E900, 0x1E943); (0x1E94B, 0x1E94B);
   (0x1E950, 0x1E959); (0x1EC71, 0x1ECAB); (0x1ECAD, 0x1ECAF); (0x1ECB1, 0x1ECB4);
   (0x1ED01, 0x1ED2D); (0x1ED2F, 0x1ED3D); (0x1EE00, 0x1EE03); (0x1EE05, 0x1EE1F);
   (0x1EE21, 0x1EE22); (0x1EE24, 0x1EE24); (0x1EE27, 0x1EE27); (0x1EE29, 0x1EE32);
   (0x1EE34, 0x1EE37); (0x1EE39, 0x1EE39); (0x1EE3B, 0x1EE3B); (0x1EE42, 0x1EE42);
   (0x1EE47, 0x1EE47); (0x1EE49, 0x1EE49); (0x1EE4B, 0x1EE4B); (0x1EE4D, 0x1EE4F);
   (0x1EE51, 0x1EE52); (0x1EE54, 0x1EE54); (0x1EE57, 0x1EE57); (0x1EE59, 0x1EE59);
   (0x1EE5B, 0x1EE5B); (0x1EE5D, 0x1EE5D); (0x1EE5F, 0x1EE5F); (0x1EE61, 0x1EE62);
   (0x1EE64, 0x1EE64); (0x1EE67, 0x1EE6A); (0x1EE6C, 0x1EE72); (0x1EE74, 0x1EE77);
   (0x1EE79, 0x1EE7C); (0x1EE7E, 0x1EE7E); (0x1EE80, 0x1EE89); (0x1EE8B, 0x1EE9B);
   (0x1EEA1, 0x1EEA3); (0x1EEA5, 0x1EEA9); (0x1EEAB, 0x1EEBB); (0x1F100, 0x1F10C);
   (0x1FBF0, 0x1FBF9); (0x20000, 0x2A6DF); (0x2A700, 0x2B738); (0x2B740, 0x2B81D);
   (0x2B820, 0x2CEA1); (0x2CEB0, 0x2EBE0); (0x2F800, 0x2FA1D); (0x30000, 0x3134A)
  ].

(** Code points on which str.isspace holds: what str.strip removes. *)
Definition space_ranges : list (Z * Z) :=
  [
   (0x9, 0xD); (0x1C, 0x20); (0x85, 0x85); (0xA0, 0xA0); (0x1680, 0x1680); (0x2000, 0x200A);
   (0x2028, 0x2029); (0x202F, 0x202F); (0x205F, 0x205F); (0x3000, 0x3000)
  ].

(** Code points with the Case_Ignorable property. *)
Definition case_ignorable_ranges : list (Z * Z) :=
  [
   (0x27, 0x27); (0x2E, 0x2E); (0x3A, 0x3A); (0x5E, 0x5E); (0x60, 0x60); (0xA8, 0xA8);
   (0xAD, 0xAD); (0xAF, 0xAF); (0xB4, 0xB4); (0xB7, 0xB8); (0x2B0, 0x36F); (0x374, 0x375);
   (0x37A, 0x37A); (0x384, 0x385); (0x387, 0x387); (0x483, 0x489); (0x559, 0x559);
   (0x55F, 0x55F); (0x591, 0x5BD); (0x5BF, 0x5BF); (0x5C1, 0x5C2); (0x5C4, 0x5C5);
   (0x5C7, 0x5C7); (0x5F4, 0x5F4); (0x600, 0x605); (0x610, 0x61A); (0x61C, 0x61C);
   (0x640, 0x640); (0x64B, 0x65F); (0x670, 0x670); (0x6D6, 0x6DD); (0x6DF, 0x6E8);
   (0x6EA, 0x6ED); (0x70F, 0x70F); (0x711, 0x711); (0x730, 0x74A); (0x7A6, 0x7B0);
   (0x7EB, 0x7F5); (0x7FA, 0x7FA); (0x7FD, 0x7FD); (0x816, 0x82D); (0x859, 0x85B);
   (0x888, 0x888); (0x890, 0x891); (0x898, 0x89F); (0x8C9, 0x902); (0x93A, 0x93A);
   (0x93C, 0x93C); (0x941, 0x948); (0x94D, 0x94D); (0x951, 0x957); (0x962, 0x963);
   (0x971, 0x971); (0x981, 0x981); (0x9BC, 0x9BC); (0x9C1, 0x9C4); (0x9CD, 0x9CD);
   (0x9E2, 0x9E3); (0x9FE, 0x9FE); (0xA01, 0xA02); (0xA3C, 0xA3C); (0xA41, 0xA42);
   (0xA47, 0xA48); (0xA4B, 0xA4D); (0xA51, 0xA51); (0xA70, 0xA71); (0xA75, 0xA75);
   (0xA81, 0xA82); (0xABC, 0xABC); (0xAC1, 0xAC5); (0xAC7, 0xAC8); (0xACD, 0xACD);
   (0xAE2, 0xAE3); (0xAFA, 0xAFF); (0xB01, 0xB01); (0xB3C, 0xB3C); (0xB3F, 0xB3F);
   (0xB41, 0xB44); (0xB4D, 0xB4D); (0xB55, 0xB56); (0xB62, 0xB63); (0xB82, 0xB82);
   (0xBC0, 0xBC0); (0xBCD, 0xBCD); (0xC00, 0xC00); (0xC04, 0xC04); (0xC3C, 0xC3C);
   (0xC3E, 0xC40); (0xC46, 0xC48); (0xC4A, 0xC4D); (0xC55, 0xC56); (0xC62, 0xC63);
   (0xC81, 0xC81); (0xCBC, 0xCBC); (0xCBF, 0xCBF); (0xCC6, 0xCC6); (0xCCC, 0xCCD);
   (0xCE2, 0xCE3); (0xD00, 0xD01); (0xD3B, 0xD3C); (0xD41, 0xD44); (0xD4D, 0xD4D);
   (0xD62, 0xD63); (0xD81, 0xD81); (0xDCA, 0xDCA); (0xDD2, 0xDD4); (0xDD6, 0xDD6);
   (0xE31, 0xE31); (0xE34, 0xE3A); (0xE46, 0xE4E); (0xEB1, 0xEB1); (0xEB4, 0xEBC);
   (0xEC6, 0xEC6); (0xEC8, 0xECD); (0xF18, 0xF19); (0xF35, 0xF35); (0xF37, 0xF37);
   (0xF39, 0xF39); (0xF71, 0xF7E); (0xF80, 0xF84); (0xF86, 0xF87); (0xF8D, 0xF97);
   (0xF99, 0xFBC); (0xFC6, 0xFC6); (0x102D, 0x1030); (0x1032, 0x1037); (0x1039, 0x103A);
   (0x103D, 0x103E); (0x1058, 0x1059); (0x105E, 0x1060); (0x1071, 0x1074); (0x1082, 0x1082);
   (0x1085, 0x1086); (0x108D, 0x108D); (0x109D, 0x109D); (0x10FC, 0x10FC); (0x135D, 0x135F);
   (0x1712, 0x1714); (0x1732, 0x1733); (0x1752, 0x1753); (0x1772, 0x1773); (0x17B4, 0x17B5);
   (0x17B7, 0x17BD); (0x17C6, 0x17C6); (0x17C9, 0x17D3); (0x17D7, 0x17D7); (0x17DD, 0x17DD);
   (0x180B, 0x180F); (0x1843, 0x1843); (0x1885, 0x1886); (0x18A9, 0x18A9); (0x1920, 0x1922);
   (0x1927, 0x1928); (0x1932, 0x1932); (0x1939, 0x193B); (0x1A17, 0x1A18); (0x1A1B, 0x1A1B);
   (0x1A56, 0x1A56); (0x1A58, 0x1A5E); (0x1A60, 0x1A60); (0x1A62, 0x1A62); (0x1A65, 0x1A6C);
   (0x1A73, 0x1A7C); (0x1A7F, 0x1A7F); (0x1AA7, 0x1AA7); (0x1AB0, 0x1ACE); (0x1B00, 0x1B03);
   (0x1B34, 0x1B34); (0x1B36, 0x1B3A); (0x1B3C, 0x1B3C); (0x1B42, 0x1B42); (0x1B6B, 0x1B73);
   (0x1B80, 0x1B81); (0x1BA2, 0x1BA5); (0x1BA8, 0x1BA9); (0x1BAB, 0x1BAD); (0x1BE6, 0x1BE6);
   (0x1BE8, 0x1BE9); (0x1BED, 0x1BED); (0x1BEF, 0x1BF1); (0x1C2C, 0x1C33); (0x1C36, 0x1C37);
   (0x1C78, 0x1C7D); (0x1CD0, 0x1CD2); (0x1CD4, 0x1CE0); (0x1CE2, 0x1CE8); (0x1CED, 0x1CED);
   (0x1CF4, 0x1CF4); (0x1CF8, 0x1CF9); (0x1D2C, 0x1D6A); (0x1D78, 0x1D78); (0x1D9B, 0x1DFF);
   (0x1FBD, 0x1FBD); (0x1FBF, 0x1FC1); (0x1FCD, 0x1FCF); (0x1FDD, 0x1FDF); (0x1FED, 0x1FEF);
   (0x1FFD, 0x1FFE); (0x200B, 0x200F); (0x2018, 0x2019); (0x2024, 0x2024); (0x2027, 0x2027);
   (0x202A, 0x202E); (0x2060, 0x2064); (0x2066, 0x206F); (0x2071, 0x2071); (0x207F, 0x207F);
   (0x2090, 0x209C); (0x20D0, 0x20F0); (0x2C7C, 0x2C7D); (0x2CEF, 0x2CF1); (0x2D6F, 0x2D6F);
   (0x2D7F, 0x2D7F); (0x2DE0, 0x2DFF); (0x2E2F, 0x2E2F); (0x3005, 0x3005); (0x302A, 0x302D);
   (0x3031, 0x3035); (0x303B, 0x303B); (0x3099, 0x309E); (0x30FC, 0x30FE); (0xA015, 0xA015);
   (0xA4F8, 0xA4FD); (0xA60C, 0xA60C); (0xA66F, 0xA672); (0xA674, 0xA67D); (0xA67F, 0xA67F);
   (0xA69C, 0xA69F); (0xA6F0, 0xA6F1); (0xA700, 0xA721); (0xA770, 0xA770); (0xA788, 0xA78A);
   (0xA7F2, 0xA7F4); (0xA7F8, 0xA7F9); (0xA802, 0xA802); (0xA806, 0xA806); (0xA80B, 0xA80B);
   (0xA825, 0xA826); (0xA82C, 0xA82C); (0xA8C4, 0xA8C5); (0xA8E0, 0xA8F1); (0xA8FF, 0xA8FF);
   (0xA926, 0xA92D); (0xA947, 0xA951); (0xA980, 0xA982); (0xA9B3, 0xA9B3); (0xA9B6, 0xA9B9);
   (0xA9BC, 0xA9BD); (0xA9CF, 0xA9CF); (0xA9E5, 0xA9E6); (0xAA29, 0xAA2E); (0xAA31, 0xAA32);
   (0xAA35, 0xAA36); (0xAA43, 0xAA43); (0xAA4C, 0xAA4C); (0xAA70, 0xAA70); (0xAA7C, 0xAA7C);
   (0xAAB0, 0xAAB0); (0xAAB2, 0xAAB4); (0xAAB7, 0xAAB8); (0xAABE, 0xAABF); (0xAAC1, 0xAAC1);
   (0xAADD, 0xAADD); (0xAAEC, 0xAAED); (0xAAF3, 0xAAF4); (0xAAF6, 0xAAF6); (0xAB5B, 0xAB5F);
   (0xAB69, 0xAB6B); (0xABE5, 0xABE5); (0xABE8, 0xABE8); (0xABED, 0xABED); (0xFB1E, 0xFB1E);
   (0xFBB2, 0xFBC2); (0xFE00, 0xFE0F); (0xFE13, 0xFE13); (0xFE20, 0xFE2F); (0xFE52, 0xFE52);
   (0xFE55, 0xFE55); (0xFEFF, 0xFEFF); (0xFF07, 0xFF07); (0xFF0E, 0xFF0E); (0xFF1A, 0xFF1A);
   (0xFF3E, 0xFF3E); (0xFF40, 0xFF40); (0xFF70, 0xFF70); (0xFF9E, 0xFF9F); (0xFFE3, 0xFFE3);
   (0xFFF9, 0xFFFB); (0x101FD, 0x101FD); (0x102E0, 0x102E0); (0x10376, 0x1037A);
   (0x10780, 0x10785); (0x10787, 0x107B0); (0x107B2, 0x107BA); (0x10A01, 0x10A03);
   (0x10A05, 0x10A06); (0x10A0C, 0x10A0F); (0x10A38, 0x10A3A); (0x10A3F, 0x10A3F);
   (0x10AE5, 0x10AE6); (0x10D24, 0x10D27); (0x10EAB, 0x10EAC); (0x10F46, 0x10F50);
   (0x10F82, 0x10F85); (0x11001, 0x11001); (0x11038, 0x11046); (0x11070, 0x11070);
   (0x11073, 0x11074); (0x1107F, 0x11081); (0x110B3, 0x110B6); (0x110B9, 0x110BA);
   (0x110BD, 0x110BD); (0x110C2, 0x110C2); (0x110CD, 0x110CD); (0x11100, 0x11102);
   (0x11127, 0x1112B); (0x1112D, 0x11134); (0x11173, 0x11173); (0x11180, 0x11181);
   (0x111B6, 0x111BE); (0x111C9, 0x111CC); (0x111CF, 0x111CF); (0x1122F, 0x11231);
   (0x11234, 0x11234); (0x11236, 0x11237); (0x1123E, 0x1123E); (0x112DF, 0x112DF);
   (0x112E3, 0x112EA); (0x11300, 0x11301); (0x1133B, 0x1133C); (0x11340, 0x11340);
   (0x11366, 0x1136C); (0x11370, 0x11374); (0x11438, 0x1143F); (0x11442, 0x11444);
   (0x11446, 0x11446); (0x1145E, 0x1145E); (0x114B3, 0x114B8); (0x114BA, 0x114BA);
   (0x114BF, 0x114C0); (0x114C2, 0x114C3); (0x115B2, 0x115B5); (0x115BC, 0x115BD);
   (0x115BF, 0x115C0); (0x115DC, 0x115DD); (0x11633, 0x1163A); (0x1163D, 0x1163D);
   (0x1163F, 0x11640); (0x116AB, 0x116AB); (0x116AD, 0x116AD); (0x116B0, 0x116B5);
   (0x116B7, 0x116B7); (0x1171D, 0x1171F); (0x11722, 0x11725); (0x11727, 0x1172B);
   (0x1182F, 0x11837); (0x11839, 0x1183A); (0x1193B, 0x1193C); (0x1193E, 0x1193E);
   (0x11943, 0x11943); (0x119D4, 0x119D7); (0x119DA, 0x119DB); (0x119E0, 0x119E0);
   (0x11A01, 0x11A0A); (0x11A33, 0x11A38); (0x11A3B, 0x11A3E); (0x11A47, 0x11A47);
   (0x11A51, 0x11A56); (0x11A59, 0x11A5B); (0x11A8A, 0x11A96); (0x11A98, 0x11A99);
   (0x11C30, 0x11C36); (0x11C38, 0x11C3D); (0x11C3F, 0x11C3F); (0x11C92, 0x11CA7);
   (0x11CAA, 0x11CB0); (0x11CB2, 0x11CB3); (0x11CB5, 0x11CB6); (0x11D31, 0x11D36);
   (0x11D3A, 0x11D3A); (0x11D3C, 0x11D3D); (0x11D3F, 0x11D45); (0x11D47, 0x11D47);
   (0x11D90, 0x11D91); (0x11D95, 0x11D95); (0x11D97, 0x11D97); (0x11EF3, 0x11EF4);
   (0x13430, 0x13438); (0x16AF0, 0x16AF4); (0x16B30, 0x16B36); (0x16B40, 0x16B43);
   (0x16F4F, 0x16F4F); (0x16F8F, 0x16F9F); (0x16FE0, 0x16FE1); (0x16FE3, 0x16FE4);
   (0x1AFF0, 0x1AFF3); (0x1AFF5, 0x1AFFB); (0x1AFFD, 0x1AFFE); (0x1BC9D, 0x1BC9E);
   (0x1BCA0, 0x1BCA3); (0x1CF00, 0x1CF2D); (0x1CF30, 0x1CF46); (0x1D167, 0x1D169);
   (0x1D173, 0x1D182); (0x1D185, 0x1D18B); (0x1D1AA, 0x1D1AD); (0x1D242, 0x1D244);
   (0x1DA00, 0x1DA36); (0x1DA3B, 0x1DA6C); (0x1DA75, 0x1DA75); (0x1DA84, 0x1DA84);
   (0x1DA9B, 0x1DA9F); (0x1DAA1, 0x1DAAF); (0x1E000, 0x1E006); (0x1E008, 0x1E018);
   (0x1E01B, 0x1E021); (0x1E023, 0x1E024); (0x1E026, 0x1E02A); (0x1E130, 0x1E13D);
   (0x1E2AE, 0x1E2AE); (0x1E2EC, 0x1E2EF); (0x1E8D0, 0x1E8D6); (0x1E944, 0x1E94B);
   (0x1F3FB, 0x1F3FF); (0xE0001, 0xE0001); (0xE0020, 0xE007F); (0xE0100, 0xE01EF)
  ].

(** Code points with the Cased property that are not Case_Ignorable (the final-sigma rule reads Cased only there). *)
Definition cased_ranges : list (Z * Z) :=
  [
   (0x41, 0x5A); (0x61, 0x7A); (0xAA, 0xAA); (0xB5, 0xB5); (0xBA, 0xBA); (0xC0, 0xD6);
   (0xD8, 0xF6); (0xF8, 0x1BA); (0x1BC, 0x1BF); (0x1C4, 0x293); (0x295, 0x2AF); (0x370, 0x373);
   (0x376, 0x377); (0x37B, 0x37D); (0x37F, 0x37F); (0x386, 0x386); (0x388, 0x38A);
   (0x38C, 0x38C); (0x38E, 0x3A1); (0x3A3, 0x3F5); (0x3F7, 0x481); (0x48A, 0x52F);
   (0x531, 0x556); (0x560, 0x588); (0x10A0, 0x10C5); (0x10C7, 0x10C7); (0x10CD, 0x10CD);
   (0x10D0, 0x10FA); (0x10FD, 0x10FF); (0x13A0, 0x13F5); (0x13F8, 0x13FD); (0x1C80, 0x1C88);
   (0x1C90, 0x1CBA); (0x1CBD, 0x1CBF); (0x1D00, 0x1D2B); (0x1D6B, 0x1D77); (0x1D79, 0x1D9A);
   (0x1E00, 0x1F15); (0x1F18, 0x1F1D); (0x1F20, 0x1F45); (0x1F48, 0x1F4D); (0x1F50, 0x1F57);
   (0x1F59, 0x1F59); (0x1F5B, 0x1F5B); (0x1F5D, 0x1F5D); (0x1F5F, 0x1F7D); (0x1F80, 0x1FB4);
   (0x1FB6, 0x1FBC); (0x1FBE, 0x1FBE); (0x1FC2, 0x1FC4); (0x1FC6, 0x1FCC); (0x1FD0, 0x1FD3);
   (0x1FD6, 0x1FDB); (0x1FE0, 0x1FEC); (0x1FF2, 0x1FF4); (0x1FF6, 0x1FFC); (0x2102, 0x2102);
   (0x2107, 0x2107); (0x210A, 0x2113); (0x2115, 0x2115); (0x2119, 0x211D); (0x2124, 0x2124);
   (0x2126, 0x2126); (0x2128, 0x2128); (0x212A, 0x212D); (0x212F, 0x2134); (0x2139, 0x2139);
   (0x213C, 0x213F); (0x2145, 0x2149); (0x214E, 0x214E); (0x2160, 0x217F); (0x2183, 0x2184);
   (0x24B6, 0x24E9); (0x2C00, 0x2C7B); (0x2C7E, 0x2CE4); (0x2CEB, 0x2CEE); (0x2CF2, 0x2CF3);
   (0x2D00, 0x2D25); (0x2D27, 0x2D27); (0x2D2D, 0x2D2D); (0xA640, 0xA66D); (0xA680, 0xA69B);
   (0xA722, 0xA76F); (0xA771, 0xA787); (0xA78B, 0xA78E); (0xA790, 0xA7CA); (0xA7D0, 0xA7D1);
   (0xA7D3, 0xA7D3); (0xA7D5, 0xA7D9); (0xA7F5, 0xA7F6); (0xA7FA, 0xA7FA); (0xAB30, 0xAB5A);
   (0xAB60, 0xAB68); (0xAB70, 0xABBF); (0xFB00, 0xFB06); (0xFB13, 0xFB17); (0xFF21, 0xFF3A);
   (0xFF41, 0xFF5A); (0x10400, 0x1044F); (0x104B0, 0x104D3); (0x104D8, 0x104FB);
   (0x10570, 0x1057A); (0x1057C, 0x1058A); (0x1058C, 0x10592); (0x10594, 0x10595);
   (0x10597, 0x105A1); (0x105A3, 0x105B1); (0x105B3, 0x105B9); (0x105BB, 0x105BC);
   (0x10C80, 0x10CB2); (0x10CC0, 0x10CF2); (0x118A0, 0x118DF); (0x16E40, 0x16E7F);
   (0x1D400, 0x1D454); (0x1D456, 0x1D49C); (0x1D49E, 0x1D49F); (0x1D4A2, 0x1D4A2);
   (0x1D4A5, 0x1D4A6); (0x1D4A9, 0x1D4AC); (0x1D4AE, 0x1D4B9); (0x1D4BB, 0x1D4BB);
   (0x1D4BD, 0x1D4C3); (0x1D4C5, 0x1D505); (0x1D507, 0x1D50A); (0x1D50D, 0x1D514);
   (0x1D516, 0x1D51C); (0x1D51E, 0x1D539); (0x1D53B, 0x1D53E); (0x1D540, 0x1D544);
   (0x1D546, 0x1D546); (0x1D54A, 0x1D550); (0x1D552, 0x1D6A5); (0x1D6A8, 0x1D6C0);
   (0x1D6C2, 0x1D6DA); (0x1D6DC, 0x1D6FA); (0x1D6FC, 0x1D714); (0x1D716, 0x1D734);
   (0x1D736, 0x1D74E); (0x1D750, 0x1D76E); (0x1D770, 0x1D788); (0x1D78A, 0x1D7A8);
   (0x1D7AA, 0x1D7C2); (0x1D7C4, 0x1D7CB); (0x1DF00, 0x1DF09); (0x1DF0B, 0x1DF1E);
   (0x1E900, 0x1E943); (0x1F130, 0x1F149); (0x1F150, 0x1F169); (0x1F170, 0x1F189)
  ].

(** The digit zero of every run of decimal digits (general category Nd): each run is ten consecutive code points, zero to nine. *)
Definition decimal_zeros : list Z :=
  [
   0x30; 0x660; 0x6F0; 0x7C0; 0x966; 0x9E6; 0xA66; 0xAE6; 0xB66; 0xBE6; 0xC66; 0xCE6; 0xD66;
   0xDE6; 0xE50; 0xED0; 0xF20; 0x1040; 0x1090; 0x17E0; 0x1810; 0x1946; 0x19D0; 0x1A80; 0x1A90;
   0x1B50; 0x1BB0; 0x1C40; 0x1C50; 0xA620; 0xA8D0; 0xA900; 0xA9D0; 0xA9F0; 0xAA50; 0xABF0;
   0xFF10; 0x104A0; 0x10D30; 0x11066; 0x110F0; 0x11136; 0x111D0; 0x112F0; 0x11450; 0x114D0;
   0x11650; 0x116C0; 0x11730; 0x118E0; 0x11950; 0x11C50; 0x11D50; 0x11DA0; 0x16A60; 0x16AC0;
   0x16B50; 0x1D7CE; 0x1D7D8; 0x1D7E2; 0x1D7EC; 0x1D7F6; 0x1E140; 0x1E2F0; 0x1E950; 0x1FBF0
  ].

End UCD.

(** * Unicode algorithms *)

Module Unicode.

(** [unicodedata.category(c) == "Mn"] *)
Definition is_Mn (c : codepoint) : bool := in_ranges UCD.Mn_ranges c.

(** [unicodedata.combining(c)]: the canonical combining class. *)
Fixpoint combining_in (t : list (Z * Z * Z)) (c : codepoint) : Z :=
  match t with
  | [] => 0
  | (lo, hi, v) :: t' => if (lo <=? c) && (c <=? hi) then v else combining_in t' c
  end.

Definition combining (c : codepoint) : Z := combining_in UCD.ccc_ranges c.

(** Hangul syllables decompose and compose by arithmetic (The Unicode
    Standard, section 3.12). *)
Definition SBase := 0xAC00.
Definition LBase := 0x1100.
Definition VBase := 0x1161.
Definition TBase := 0x11A7.
Definition LCount := 19.
Definition VCount := 21.
Definition TCount := 28.
Definition NCount := 588.
Definition SCount := 11172.

Definition is_hangul_syllable (c : codepoint) : bool :=
  (SBase <=? c) && (c <? SBase + SCount).

Definition hangul_decomposition (c : codepoint) : str :=
  let s := c - SBase in
  let l := LBase + s / NCount in
  let v := VBase + (s mod NCount) / TCount in
  let t := TBase + s mod TCount in
  if t =? TBase then [l; v] else [l; v; t].

(** The full canonical decomposition of one code point. *)
Definition decomposition (c : codepoint) : str :=
  if is_hangul_syllable c then hangul_decomposition c
  else match assoc c UCD.decomposition_table with
       | Some d => d
       | None => [c]
       end.

(** Canonical ordering: within every run of characters of non-zero
    combining class, a stable sort by class.  [insert_mark c s] puts [c] in
    front of the ordered [s] and lets it sink past the marks of a smaller
    class; a starter neither moves nor is passed. *)
Fixpoint insert_mark (c : codepoint) (s : str) : str :=
  match s with
  | [] => [c]
  | d :: r =>
    if (0 <? combining d) && (combining d <? combining c)
    then d :: insert_mark c r
    else c :: s
  end.

Fixpoint canonical_order (s : str) : str :=
  match s with
  | [] => []
  | c :: r => insert_mark c (canonical_order r)
  end.

(** [unicodedata.normalize("NFD", s)] *)
Definition NFD (s : str) : str := canonical_order (flat_map decomposition s).

Fixpoint composite_in (t : list (Z * Z * Z)) (a b : codepoint) : option codepoint :=
  match t with
  | [] => None
  | (x, y, p) :: t' => if (x =? a) && (y =? b) then Some p else composite_in t' a b
  end.

(** The primary composite of a starter and a following character. *)
Definition compose_pair (a b : codepoint) : option codepoint :=
  if (LBase <=? a) && (a <? LBase + LCount) && (VBase <=? b) && (b <? VBase + VCount)
  then Some (SBase + ((a - LBase) * VCount + (b - VBase)) * TCount)
  else if is_hangul_syllable a && ((a - SBase) mod TCount =? 0)
          && (TBase <? b) && (b <? TBase + TCount)
  then Some (a + (b - TBase))
  else composite_in UCD.composition_table a b.

(** The canonical composition algorithm.  [starter] is the last starter
    read, with what was already composed into it; [marks] are the characters
    read after it that stay (all of non-zero class).  The next character [c]
    is blocked from the starter when a mark of the same or a higher class
    stands between them. *)
Fixpoint compose_from (starter : codepoint) (marks : str) (s : str) : str :=
  match s with
  | [] => starter :: marks
  | c :: r =>
    let blocked :=
      match marks with
      | [] => false
      | _ => combining c <=? combining (last marks 0)
      end in
    match (if blocked then None else compose_pair starter c) with
    | Some p => compose_from p marks r
    | None =>
      if combining c =? 0
      then starter :: marks ++ compose_from c [] r
      else compose_from starter (marks ++ [c]) r
    end
  end.

Fixpoint compose (s : str) : str :=
  match s with
  | [] => []
  | c :: r => if combining c =? 0 then compose_from c [] r else c :: compose r
  end.

(** [unicodedata.normalize("NFC", s)] *)
Definition NFC (s : str) : str := compose (NFD s).

(** [str.upper], [str.lower] on one code point, out of context. *)
Definition to_upper_full (c : codepoint) : str :=
  match assoc c UCD.upper_table with Some d => d | None => [c] end.

Definition to_lower_full (c : codepoint) : str :=
  match assoc c UCD.lower_table with Some d => d | None => [c] end.

Definition is_case_ignorable (c : codepoint) : bool := in_ranges UCD.case_ignorable_ranges c.
Definition is_cased (c : codepoint) : bool := in_ranges UCD.cased_ranges c.

(** [c.isalpha()], [c.isupper()], [c.isspace()] for a one-character string,
    and what [\w] matches. *)
Definition isalpha (c : codepoint) : bool := in_ranges UCD.alpha_ranges c.
Definition isupper (c : codepoint) : bool := in_ranges UCD.uppercase_ranges c.
Definition isspace (c : codepoint) : bool := in_ranges UCD.space_ranges c.
Definition is_word (c : codepoint) : bool := in_ranges UCD.word_ranges c.

(** [Py_UNICODE_TODECIMAL]: the value of a decimal digit, of any script. *)
Definition to_decimal (c : codepoint) : option Z :=
  match find (fun zero => (zero <=? c) && (c <=? zero + 9)) UCD.decimal_zeros with
  | Some zero => Some (c - zero)
  | None => None
  end.

End Unicode.

(** * Python's string methods *)

Module Py.

Import Unicode.

(** [s.replace(old, new)]: the occurrences of [old] are taken from the
    left and do not overlap; an empty [old] matches between any two
    characters and at both ends. *)
Fixpoint replace_from (old new : str) (skip : nat) (s : str) : str :=
  match s with
  | [] => []
  | c :: r =>
    match skip with
    | S k => replace_from old new k r
    | O =>
      if startswith old s
      then new ++ replace_from old new (length old - 1) r
      else c :: replace_from old new 0 r
    end
  end.

Definition replace (old new s : str) : str :=
  match old with
  | [] => new ++ flat_map (fun c => c :: new) s
  | _ => replace_from old new 0 s
  end.

(** [for old, new in table.items(): s = s.replace(old, new)] *)
Definition replace_each (table : list (str * str)) (s : str) : str :=
  fold_left (fun acc kv => replace (fst kv) (snd kv) acc) table s.

(** [s.upper()] maps every character by its full uppercase mapping. *)
Definition upper (s : str) : str := flat_map to_upper_full s.

Fixpoint skip_case_ignorable (s : str) : str :=
  match s with
  | c :: r => if is_case_ignorable c then skip_case_ignorable r else s
  | [] => []
  end.

(** Capital sigma lowers to the final form when a cased letter stands
    before it and none after it, case-ignorable characters skipped. *)
Definition final_sigma (before_rev after : str) : bool :=
  match skip_case_ignorable before_rev with
  | c :: _ => is_cased c
  | [] => false
  end &&
  match skip_case_ignorable after with
  | c :: _ => negb (is_cased c)
  | [] => true
  end.

Fixpoint lower_from (before_rev : str) (s : str) : str :=
  match s with
  | [] => []
  | c :: r =>
    (if c =? 0x3A3
     then [if final_sigma before_rev r then 0x3C2 else 0x3C3]
     else to_lower_full c) ++ lower_from (c :: before_rev) r
  end.

(** [s.lower()] *)
Definition lower (s : str) : str := lower_from [] s.

Fixpoint lstrip (s : str) : str :=
  match s with
  | c :: r => if isspace c then lstrip r else s
  | [] => []
  end.

(** [s.strip()] *)
Definition strip (s : str) : str := rev (lstrip (rev (lstrip s))).

(** [s.endswith(suffix)] *)
Definition endswith (suffix s : str) : bool := startswith (rev suffix) (rev s).

(** [sum(1 for c in s if p(c))] *)
Definition count (p : codepoint -> bool) (s : str) : Z :=
  Z.of_nat (length (filter p s)).

(** [c in s] for a one-character [c]. *)
Definition contains (c : codepoint) (s : str) : bool := existsb (Z.eqb c) s.

(** [sorted(items, key=key)]: a stable sort, here by insertion from the
    right, an item going in front of those whose key is not smaller. *)
Fixpoint insert_by {A : Type} (key : A -> Z) (x : A) (l : list A) : list A :=
  match l with
  | [] => [x]
  | y :: r => if key y <? key x then y :: insert_by key x r else x :: l
  end.

Fixpoint sorted {A : Type} (key : A -> Z) (l : list A) : list A :=
  match l with
  | [] => []
  | x :: r => insert_by key x (sorted key r)
  end.

(** [int(s)] for a string, in base 10.  The string is first brought to
    ASCII ([_PyUnicode_TransformDecimalAndSpaceToASCII]): whitespace beyond
    ASCII becomes a space, a decimal digit of any script its ASCII digit,
    and at any other character beyond ASCII the string ends in a question
    mark.  [PyLong_FromString] then reads whitespace, a sign, digits with
    single underscores between them, and whitespace up to the end. *)
Definition is_c_space (c : codepoint) : bool :=
  ((0x09 <=? c) && (c <=? 0x0D)) || (c =? 0x20).

Definition is_c_digit (c : codepoint) : bool := (0x30 <=? c) && (c <=? 0x39).

Fixpoint to_ascii_decimal (s : str) : str :=
  match s with
  | [] => []
  | c :: r =>
    if c <? 127 then c :: to_ascii_decimal r
    else if isspace c then 0x20 :: to_ascii_decimal r
    else match to_decimal c with
         | Some d => (0x30 + d) :: to_ascii_decimal r
         | None => [0x3F]
         end
  end.

Fixpoint skip_spaces (s : str) : str :=
  match s with
  | c :: r => if is_c_space c then skip_spaces r else s
  | [] => []
  end.

(** The digits: their value, their number and what follows them.  Two
    underscores in a row, or one at the end, are an error. *)
Fixpoint read_digits (after_underscore : bool) (value : Z) (digits : nat) (s : str)
    : option (Z * nat * str) :=
  match s with
  | c :: r =>
    if is_c_digit c then read_digits false (value * 10 + (c - 0x30)) (S digits) r
    else if c =? 0x5F then
      if after_underscore then None else read_digits true value digits r
    else if after_underscore then None else Some (value, digits, s)
  | [] => if after_underscore then None else Some (value, digits, [])
  end.

(** [sys.int_info.default_max_str_digits]: a longer number is a
    [ValueError]. *)
Definition max_str_digits : nat := 4300.

Definition int (s : str) : option Z :=
  let a := skip_spaces (to_ascii_decimal s) in
  let signed :=
    match a with
    | c :: r => if c =? 0x2B then (1, r) else if c =? 0x2D then (-1, r) else (1, a)
    | [] => (1, [])
    end in
  match snd signed with
  | [] => None
  | c :: _ =>
    if c =? 0x5F then None
    else match read_digits false 0 0 (snd signed) with
         | Some (value, digits, rest) =>
           if (digits =? 0)%nat then None
           else if (max_str_digits <? digits)%nat then None
           else match skip_spaces rest with
                | [] => Some (fst signed * value)
                | _ => None
                end
         | None => None
         end
  end.

End Py.

(** * The [re] module, as far as the source uses it *)

Module Re.

Import Unicode.

(** A replacement template: literal text and references to the whole match.
    None of the patterns of the source has a group, so group 0 is the only
    one a template can name. *)
Inductive item :=
| Lit (s : str)
| Group0.

Definition backslash := 0x5C.
Definition is_digit (c : codepoint) : bool := (0x30 <=? c) && (c <=? 0x39).
Definition is_octdigit (c : codepoint) : bool := (0x30 <=? c) && (c <=? 0x37).
Definition is_ascii_letter (c : codepoint) : bool :=
  ((0x41 <=? c) && (c <=? 0x5A)) || ((0x61 <=? c) && (c <=? 0x7A)).

(** The escapes a template knows: a, b, f, n, r, t, v and the backslash. *)
Definition escape (c : codepoint) : option codepoint :=
  if c =? 0x61 then Some 7 else if c =? 0x62 then Some 8
  else if c =? 0x66 then Some 12 else if c =? 0x6E then Some 10
  else if c =? 0x72 then Some 13 else if c =? 0x74 then Some 9
  else if c =? 0x76 then Some 11 else if c =? backslash then Some backslash
  else None.

(** The name of [\g<name>] and what follows the closing [>].  (A backslash
    in the name takes the next character with it, also a [>]; a name with a
    backslash is no number and names no group, so it may end here at the
    first [>].) *)
Fixpoint group_name (s : str) : option (str * str) :=
  match s with
  | [] => None
  | c :: r =>
    if c =? 0x3E then Some ([], r)
    else match group_name r with
         | Some (n, rest) => Some (c :: n, rest)
         | None => None
         end
  end.

(** [parse_template] for a pattern without groups, as CPython 3.11 has
    it.  A group name that is an identifier names no group (IndexError);
    any other name is read by [int], and only 0 is a group that is there
    (a name that is not plain ASCII digits costs a DeprecationWarning,
    which is no exception).  Every step reads at least one character, so
    the length of the template bounds the number of steps. *)
Fixpoint parse_escapes (fuel : nat) (s : str) : PyResult (list item) :=
  match fuel with
  | O => match s with [] => Ok [] | _ => Raised end
  | S fuel' =>
    match s with
    | [] => Ok []
    | c :: r =>
      if negb (c =? backslash) then
        items <- parse_escapes fuel' r ;; Ok (Lit [c] :: items)
      else match r with
      | [] => Raised                      (* bad escape (end of pattern) *)
      | e :: r1 =>
        if e =? 0x67 then                        (* \g<name> *)
          match r1 with
          | lt :: r2 =>
            if lt =? 0x3C then
              match group_name r2 with
              | Some (name, rest) =>
                match name with
                | [] => Raised            (* missing group name *)
                | _ =>
                  match Py.int name with
                  | Some index =>
                    if index =? 0
                    then items <- parse_escapes fuel' rest ;; Ok (Group0 :: items)
                    else Raised   (* negative, or an invalid group reference *)
                  | None => Raised (* unknown group name, or a bad character in it *)
                  end
                end
              | None => Raised            (* missing >, unterminated name *)
              end
            else Raised                   (* missing < *)
          | [] => Raised
          end
        else if e =? 0x30 then                   (* \0, \0o, \0oo *)
          match r1 with
          | o1 :: r2 =>
            if is_octdigit o1 then
              match r2 with
              | o2 :: r3 =>
                if is_octdigit o2
                then items <- parse_escapes fuel' r3 ;;
                     Ok (Lit [Z.land ((o1 - 0x30) * 8 + (o2 - 0x30)) 0xFF] :: items)
                else items <- parse_escapes fuel' r2 ;; Ok (Lit [o1 - 0x30] :: items)
              | [] => Ok [Lit [o1 - 0x30]]
              end
            else items <- parse_escapes fuel' r1 ;; Ok (Lit [0] :: items)
          | [] => Ok [Lit [0]]
          end
        else if is_digit e then                  (* \ooo, or a group that is not there *)
          match r1 with
          | d1 :: d2 :: r3 =>
            if is_octdigit e && is_octdigit d1 && is_octdigit d2 then
              let v := (e - 0x30) * 64 + (d1 - 0x30) * 8 + (d2 - 0x30) in
              if 0xFF <? v then Raised     (* octal escape out of range *)
              else items <- parse_escapes fuel' r3 ;; Ok (Lit [v] :: items)
            else Raised                   (* invalid group reference *)
          | _ => Raised
          end
        else match escape e with
        | Some v => items <- parse_escapes fuel' r1 ;; Ok (Lit [v] :: items)
        | None =>
          if is_ascii_letter e then Raised  (* bad escape *)
          else items <- parse_escapes fuel' r1 ;; Ok (Lit [backslash; e] :: items)
        end
      end
    end
  end.

(** A template without a backslash is literal text and is not parsed. *)
Definition parse_template (repl : str) : PyResult (list item) :=
  if existsb (Z.eqb backslash) repl
  then parse_escapes (length repl) repl
  else Ok [Lit repl].

Definition expand (items : list item) (matched : str) : str :=
  flat_map (fun i => match i with Lit s => s | Group0 => matched end) items.

(** Replaces every maximal run of characters of [cls] (the pattern
    [[cls]+]); [run] holds the run being read, last character first. *)
Fixpoint sub_runs (cls : codepoint -> bool) (items : list item) (run : str) (s : str) : str :=
  match s with
  | [] => match run with [] => [] | _ => expand items (rev run) end
  | c :: r =>
    if cls c then sub_runs cls items (c :: run) r
    else match run with [] => [] | _ => expand items (rev run) end
           ++ c :: sub_runs cls items [] r
  end.

(** [re.sub("[cls]+", repl, s)] *)
Definition sub_plus (cls : codepoint -> bool) (repl : str) (s : str) : PyResult str :=
  items <- parse_template repl ;; Ok (sub_runs cls items [] s).

(** [re.sub("[cls]", repl, s)]: every character of [cls] on its own. *)
Definition sub_each (cls : codepoint -> bool) (repl : str) (s : str) : PyResult str :=
  items <- parse_template repl ;;
  Ok (flat_map (fun c => if cls c then expand items [c] else [c]) s).

(** [\b]: between a word character and a character that is none, the ends
    of the string counting as none. *)
Definition word_before_or_after (c : option codepoint) : bool :=
  match c with Some x => is_word x | None => false end.

Definition at_boundary (before after : option codepoint) : bool :=
  xorb (word_before_or_after before) (word_before_or_after after).

(** The pattern [\bword\b] matches at the head of [s], [before] being the
    character in front of it. *)
Definition matches_word (word : str) (before : option codepoint) (s : str) : bool :=
  at_boundary before (hd_error word)
  && startswith word s
  && at_boundary (Some (last word 0)) (hd_error (skipn (length word) s)).

Fixpoint sub_words (word : str) (items : list item) (before : option codepoint)
    (skip : nat) (s : str) : str :=
  match s with
  | [] => []
  | c :: r =>
    match skip with
    | S k => sub_words word items (Some c) k r
    | O =>
      if matches_word word before s
      then expand items word ++ sub_words word items (Some c) (length word - 1) r
      else c :: sub_words word items (Some c) 0 r
    end
  end.

(** [re.sub(rf"\b{word}\b", repl, s)] for a non-empty [word] of literal
    characters. *)
Definition sub_word (word repl s : str) : PyResult str :=
  items <- parse_template repl ;; Ok (sub_words word items None 0 s).

End Re.

(** * Floating point, as far as the validator needs it *)

Module Float.

(** A finite non-negative binary64 number [m * 2^e]. *)
Definition double := (Z * Z)%type.

(** The quotient [n / d] (with [0 <= n], [0 < d]) rounded to the nearest
    integer, ties to even. *)
Definition round_half_even (n d : Z) : Z :=
  let q := n / d in
  let r := n mod d in
  if 2 * r <? d then q
  else if d <? 2 * r then q + 1
  else if Z.even q then q else q + 1.

(** [n / d] for two Python ints [0 <= n], [0 < d]: the quotient correctly
    rounded to 53 significant bits, ties to even.  The numerator is scaled
    by [2^l] so that the integer quotient has more than 53 bits; [x] is then
    the position of its leading bit and [2^s] the weight of the last bit
    that is kept.  (The quotient of two character counts neither overflows
    nor is subnormal.) *)
Definition true_divide (n d : Z) : double :=
  if n =? 0 then (0, 0)
  else
    let l := Z.log2 d + 54 in
    let x := Z.log2 (n * 2 ^ l / d) in
    let s := x - 52 in
    (round_half_even (n * 2 ^ l) (d * 2 ^ s), s - l).

(** [x < y] *)
Definition ltb (x y : double) : bool :=
  let e := Z.min (snd x) (snd y) in
  fst x * 2 ^ (snd x - e) <? fst y * 2 ^ (snd y - e).

(** The literal [0.8]: the double nearest to 4/5,
    [0x1.999999999999ap-1]. *)
Definition d0_8 : double := (7205759403792794, -53).

End Float.

(** * The module [script_utils] *)

(** Modelled from the spec: [language_config.py], which declares
    [LanguageConfig], its [script] rules and the registry
    [get_language_config], is not among the sources.  The records hold the
    fields the spec lists for them and the module reads.  [normalize_chars]
    is the dictionary's items in order ([None] and the empty dictionary are
    both [[]]: the module only tests its truth value and iterates it). *)
Inductive CaseMode := case_upper | case_lower | case_mixed.

Record ScriptConfig := {
  case : CaseMode;
  has_accents : bool;
  normalize_chars : list (str * str);
  char_v_for_u : bool;
  scriptio_continua_default : bool;
  word_separator : option str
}.

Record LanguageConfig := {
  native_name : str;
  script : ScriptConfig
}.

(** Modelled from the spec: the preferences object [ScriptDisplayMode] of
    [app.api.schemas.script_preferences], not among the sources, with the
    five fields [apply_script_preferences] reads. *)
Record ScriptDisplayMode := {
  pref_use_scriptio_continua : bool;
  pref_use_interpuncts : bool;
  pref_use_iota_adscript : bool;
  pref_use_nomina_sacra : bool;
  pref_remove_modern_punctuation : bool
}.

Module ScriptUtils.

Import Unicode.

Definition is_space (c : codepoint) : bool := c =? 0x20.
Definition is_space_or_tab (c : codepoint) : bool := (c =? 0x20) || (c =? 0x09).

Definition greek_monotonic_map : list (str * str) :=
  [ ([0x0386], [0x0391]); ([0x0388], [0x0395]); ([0x0389], [0x0397]);
    ([0x038A], [0x0399]); ([0x038C], [0x039F]); ([0x038E], [0x03A5]);
    ([0x038F], [0x03A9]); ([0x03AA], [0x0399]); ([0x03AB], [0x03A5]) ].

Definition _remove_accents (text : str) : str :=
  let result := Py.replace_each greek_monotonic_map text in
  let nfd := NFD result in
  let without_accents := filter (fun char => negb (is_Mn char)) nfd in
  NFC without_accents.

Definition lowercase_map : list (str * str) :=
  [ (utf8 "ᾀ", utf8 "αι"); (utf8 "ᾁ", utf8 "αι"); (utf8 "ᾂ", utf8 "αι");
    (utf8 "ᾃ", utf8 "αι"); (utf8 "ᾄ", utf8 "αι"); (utf8 "ᾅ", utf8 "αι");
    (utf8 "ᾆ", utf8 "αι"); (utf8 "ᾇ", utf8 "αι"); (utf8 "ᾰ", utf8 "α");
    (utf8 "ᾱ", utf8 "α"); (utf8 "ᾳ", utf8 "αι"); (utf8 "ᾴ", utf8 "αι");
    (utf8 "ᾶ", utf8 "α"); (utf8 "ᾷ", utf8 "αι");
    (utf8 "ᾐ", utf8 "ηι"); (utf8 "ᾑ", utf8 "ηι"); (utf8 "ᾒ", utf8 "ηι");
    (utf8 "ᾓ", utf8 "ηι"); (utf8 "ᾔ", utf8 "ηι"); (utf8 "ᾕ", utf8 "ηι");
    (utf8 "ᾖ", utf8 "ηι"); (utf8 "ᾗ", utf8 "ηι"); (utf8 "ῃ", utf8 "ηι");
    (utf8 "ῄ", utf8 "ηι"); (utf8 "ῆ", utf8 "η"); (utf8 "ῇ", utf8 "ηι");
    (utf8 "ᾠ", utf8 "ωι"); (utf8 "ᾡ", utf8 "ωι"); (utf8 "ᾢ", utf8 "ωι");
    (utf8 "ᾣ", utf8 "ωι"); (utf8 "ᾤ", utf8 "ωι"); (utf8 "ᾥ", utf8 "ωι");
    (utf8 "ᾦ", utf8 "ωι"); (utf8 "ᾧ", utf8 "ωι"); (utf8 "ῳ", utf8 "ωι");
    (utf8 "ῴ", utf8 "ωι"); (utf8 "ῶ", utf8 "ω"); (utf8 "ῷ", utf8 "ωι") ].

Definition uppercase_map : list (str * str) :=
  [ (utf8 "ᾈ", utf8 "ΑΙ"); (utf8 "ᾉ", utf8 "ΑΙ"); (utf8 "ᾊ", utf8 "ΑΙ");
    (utf8 "ᾋ", utf8 "ΑΙ"); (utf8 "ᾌ", utf8 "ΑΙ"); (utf8 "ᾍ", utf8 "ΑΙ");
    (utf8 "ᾎ", utf8 "ΑΙ"); (utf8 "ᾏ", utf8 "ΑΙ"); (utf8 "ᾼ", utf8 "ΑΙ");
    (utf8 "ᾘ", utf8 "ΗΙ"); (utf8 "ᾙ", utf8 "ΗΙ"); (utf8 "ᾚ", utf8 "ΗΙ");
    (utf8 "ᾛ", utf8 "ΗΙ"); (utf8 "ᾜ", utf8 "ΗΙ"); (utf8 "ᾝ", utf8 "ΗΙ");
    (utf8 "ᾞ", utf8 "ΗΙ"); (utf8 "ᾟ", utf8 "ΗΙ"); (utf8 "ῌ", utf8 "ΗΙ");
    (utf8 "ᾨ", utf8 "ΩΙ"); (utf8 "ᾩ", utf8 "ΩΙ"); (utf8 "ᾪ", utf8 "ΩΙ");
    (utf8 "ᾫ", utf8 "ΩΙ"); (utf8 "ᾬ", utf8 "ΩΙ"); (utf8 "ᾭ", utf8 "ΩΙ");
    (utf8 "ᾮ", utf8 "ΩΙ"); (utf8 "ᾯ", utf8 "ΩΙ"); (utf8 "ῼ", utf8 "ΩΙ") ].

Definition convert_iota_subscript_to_adscript (text : str) : str :=
  let result := Py.replace_each lowercase_map text in
  Py.replace_each uppercase_map result.

Definition apply_scriptio_continua (text : str) : PyResult str :=
  Re.sub_plus is_space_or_tab [] text.

Definition apply_interpunct (text : str) : PyResult str :=
  Re.sub_plus is_space (utf8 "·") (Py.strip text).

Definition _apply_word_separator (text separator : str) : PyResult str :=
  Re.sub_plus is_space separator (Py.strip text).

Definition OVERLINE : codepoint := 0x035E.

(** [f"A{OVERLINE}B{OVERLINE}..."]: every letter followed by the overline. *)
Definition overlined (letters : str) : str :=
  flat_map (fun c => [c; OVERLINE]) letters.

Definition nomina_sacra : list (str * str) :=
  [ (utf8 "ΘΕΟΣ", overlined (utf8 "ΘΣ"));
    (utf8 "ΘΕΟΥ", overlined (utf8 "ΘΥ"));
    (utf8 "ΘΕΩΝ", overlined (utf8 "ΘΝ"));
    (utf8 "ΚΥΡΙΟΣ", overlined (utf8 "ΚΣ"));
    (utf8 "ΚΥΡΙΟΥ", overlined (utf8 "ΚΥ"));
    (utf8 "ΚΥΡΙΩΝ", overlined (utf8 "ΚΝ"));
    (utf8 "ΙΗΣΟΥΣ", overlined (utf8 "ΙΣ"));
    (utf8 "ΙΗΣΟΥ", overlined (utf8 "ΙΥ"));
    (utf8 "ΧΡΙΣΤΟΣ", overlined (utf8 "ΧΣ"));
    (utf8 "ΧΡΙΣΤΟΥ", overlined (utf8 "ΧΥ"));
    (utf8 "ΠΝΕΥΜΑ", overlined (utf8 "ΠΝΑ"));
    (utf8 "ΠΝΕΥΜΑΤΟΣ", overlined (utf8 "ΠΝΣ"));
    (utf8 "ΥΙΟΣ", overlined (utf8 "ΥΣ"));
    (utf8 "ΥΙΟΥ", overlined (utf8 "ΥΥ"));
    (utf8 "ΠΑΤΗΡ", overlined (utf8 "ΠΗΡ"));
    (utf8 "ΠΑΤΡΟΣ", overlined (utf8 "ΠΡΣ"));
    (utf8 "ΜΗΤΗΡ", overlined (utf8 "ΜΗΡ"));
    (utf8 "ΜΗΤΡΟΣ", overlined (utf8 "ΜΡΣ"));
    (utf8 "ΑΝΘΡΩΠΟΣ", overlined (utf8 "ΑΝΟΣ"));
    (utf8 "ΑΝΘΡΩΠΟΥ", overlined (utf8 "ΑΝΟΥ"));
    (utf8 "ΟΥΡΑΝΟΣ", overlined (utf8 "ΟΥΝΣ"));
    (utf8 "ΟΥΡΑΝΟΥ", overlined (utf8 "ΟΥΝΥ"));
    (utf8 "ΙΣΡΑΗΛ", overlined (utf8 "ΙΗΛ"));
    (utf8 "ΔΑΥΙΔ", overlined (utf8 "ΔΑΔ"));
    (utf8 "ΙΕΡΟΥΣΑΛΗΜ", overlined (utf8 "ΙΛΗΜ"));
    (utf8 "ΣΤΑΥΡΟΣ", overlined (utf8 "ΣΤΣ")) ].

(** [for full_word, abbreviated in ...: result = re.sub(...)] *)
Fixpoint sub_each_word (table : list (str * str)) (result : str) : PyResult str :=
  match table with
  | [] => Ok result
  | (full_word, abbreviated) :: rest =>
    result' <- Re.sub_word full_word abbreviated result ;;
    sub_each_word rest result'
  end.

Definition apply_nomina_sacra (text language_code : str) : PyResult str :=
  if negb (str_eqb language_code (utf8 "grc-koi")) then Ok text
  else sub_each_word
         (Py.sorted (fun x => - Z.of_nat (length (fst x))) nomina_sacra) text.

Definition modern_punctuation : list (str * str) :=
  [ (utf8 "?", []); (utf8 "!", []); (utf8 ",", utf8 " "); (utf8 ";", utf8 " ");
    (utf8 ":", utf8 " "); (utf8 ".", utf8 " "); ([0x22], []); (utf8 "'", []);
    (utf8 "—", utf8 " "); (utf8 "–", utf8 " "); (utf8 "(", []); (utf8 ")", []);
    (utf8 "[", []); (utf8 "]", []) ].

Definition remove_modern_punctuation (text language_code : str) : PyResult str :=
  let result := Py.replace_each modern_punctuation text in
  result <- Re.sub_plus is_space (utf8 " ") result ;;
  Ok (Py.strip result).

Section Registry.

(** The registry of [language_config.py]. *)
Variable get_language_config : str -> LanguageConfig.

Definition apply_script_transform_with_config (text : str) (config : LanguageConfig)
    : PyResult str :=
  match text with
  | [] => Ok text
  | _ =>
    let result := text in
    let result :=
      match normalize_chars (script config) with
      | [] => result
      | items => Py.replace_each items result
      end in
    let result := if negb (has_accents (script config)) then _remove_accents result else result in
    let result :=
      match case (script config) with
      | case_upper => Py.upper result
      | case_lower => Py.lower result
      | case_mixed => result
      end in
    let result :=
      match char_v_for_u (script config), normalize_chars (script config) with
      | true, [] => Py.replace (utf8 "u") (utf8 "v") (Py.replace (utf8 "U") (utf8 "V") result)
      | _, _ => result
      end in
    result <-
      match scriptio_continua_default (script config), word_separator (script config) with
      | true, None => apply_scriptio_continua result
      | _, _ => Ok result
      end ;;
    match word_separator (script config) with
    | Some (c :: sep) => _apply_word_separator result (c :: sep)
    | _ => Ok result
    end
  end.

Definition apply_script_transform (text language_code : str) : PyResult str :=
  let config := get_language_config language_code in
  apply_script_transform_with_config text config.

Definition is_greek (language_code : str) : bool :=
  str_eqb language_code (utf8 "grc") || str_eqb language_code (utf8 "grc-koi").

Definition apply_script_preferences (text language_code : str)
    (preferences : option ScriptDisplayMode)
    (authentic_mode use_scriptio_continua use_interpuncts use_iota_adscript
       use_nomina_sacra remove_punctuation : bool) : PyResult str :=
  match text with
  | [] => Ok text
  | _ =>
    let '(use_scriptio_continua, use_interpuncts, use_iota_adscript,
          use_nomina_sacra, remove_punctuation) :=
      match preferences with
      | Some p => (pref_use_scriptio_continua p, pref_use_interpuncts p,
                   pref_use_iota_adscript p, pref_use_nomina_sacra p,
                   pref_remove_modern_punctuation p)
      | None => (use_scriptio_continua, use_interpuncts, use_iota_adscript,
                 use_nomina_sacra, remove_punctuation)
      end in
    let result := text in
    result <- (if authentic_mode then apply_script_transform result language_code
               else Ok result) ;;
    let result :=
      if use_iota_adscript && is_greek language_code
      then convert_iota_subscript_to_adscript result else result in
    result <- (if remove_punctuation then remove_modern_punctuation result language_code
               else Ok result) ;;
    result <- (if use_nomina_sacra && str_eqb language_code (utf8 "grc-koi")
               then apply_nomina_sacra result language_code else Ok result) ;;
    if use_scriptio_continua then apply_scriptio_continua result
    else if use_interpuncts then apply_interpunct result
    else Ok result
  end.

Definition validate_script_authenticity (text language_code : str) : bool :=
  match text with
  | [] => true
  | _ =>
    let config := get_language_config language_code in
    let low_upper_ratio :=
      match case (script config) with
      | case_upper =>
        let upper_ratio :=
          Float.true_divide (Py.count isupper text) (Z.max 1 (Py.count isalpha text)) in
        Float.ltb upper_ratio Float.d0_8
      | _ => false
      end in
    if low_upper_ratio then false
    else if char_v_for_u (script config)
            && (Py.contains 0x55 text || Py.contains 0x75 text) then false
    else true
  end.

End Registry.

Definition convert_lunate_sigma_to_regular (text : str) : str :=
  Py.replace_each
    [ ([0x03F9], utf8 "Σ"); ([0x03F2], utf8 "σ"); ([0x03FD], utf8 "Σ");
      ([0x037C], utf8 "σ"); ([0x037D], utf8 "σ") ] text.

Definition preserve_greek_punctuation_unicode (text : str) : str := text.

Definition in_range (lo hi c : codepoint) : bool := (lo <=? c) && (c <=? hi).

Definition remove_hebrew_vowel_points (text : str) : PyResult str :=
  let result := NFD text in
  result <- Re.sub_each (in_range 0x0591 0x05C7) [] result ;;
  Ok (NFC result).

Definition remove_syriac_vowel_points (text : str) : PyResult str :=
  let result := NFD text in
  result <- Re.sub_each (in_range 0x0730 0x074A) [] result ;;
  Ok (NFC result).

Definition remove_arabic_diacritics_full (text : str) : PyResult str :=
  let result := NFD text in
  result <- Re.sub_each (in_range 0x064B 0x065F) [] result ;;
  Ok (NFC result).

Definition latin_normalizations : list (str * str) :=
  [ (utf8 "J", utf8 "I"); (utf8 "j", utf8 "i"); (utf8 "U", utf8 "V");
    (utf8 "u", utf8 "v"); (utf8 "W", utf8 "VV"); (utf8 "w", utf8 "vv");
    (utf8 "Æ", utf8 "AE"); (utf8 "æ", utf8 "ae"); (utf8 "Œ", utf8 "OE");
    (utf8 "œ", utf8 "oe") ].

Definition apply_latin_character_normalization (text : str) : str :=
  Py.replace_each latin_normalizations text.

Definition apply_ethiopic_word_separator (text : str) : PyResult str :=
  Re.sub_plus is_space (utf8 "፡") (Py.strip text).

Definition apply_tibetan_tsheg (text : str) : PyResult str :=
  if negb (Py.contains 0x0F0B text)
  then Re.sub_plus is_space (utf8 "་") text
  else Ok text.

Definition apply_ugaritic_word_divider (text : str) : PyResult str :=
  Re.sub_plus is_space (utf8 "𐎟") (Py.strip text).

Definition apply_gothic_interpunct (text : str) : PyResult str :=
  Re.sub_plus is_space (utf8 "·") (Py.strip text).

Definition apply_ogham_markers (text : str) : str :=
  let text := if negb (startswith (utf8 "᚛") text) then utf8 "᚛" ++ text else text in
  if negb (Py.endswith (utf8 "᚜") text) then text ++ utf8 "᚜" else text.


Section Alphabet.

Variable get_language_config : str -> LanguageConfig.




End Alphabet.

End ScriptUtils.

(** * Predicates and constants of the statements *)

(** Modelled from the spec: the registry entry of Classical Greek ([grc]);
    [language_config.py] is not among the sources.  The spec describes the
    authentic Greek rendering as uppercase and accent-stripped, with the
    words still separated by spaces. *)
Definition grc_config : LanguageConfig :=
  {| native_name := utf8 "Ἑλληνική";
     script := {| case := case_upper; has_accents := false; normalize_chars := [];
                  char_v_for_u := false; scriptio_continua_default := false;
                  word_separator := None |} |}.

(** A table all of whose keys are one character long. *)
Definition char_keys (table : list (str * str)) : bool :=
  forallb (fun kv => match fst kv with [_] => true | _ => false end) table.

(** Normalization: a character that is its own canonical decomposition. *)
Definition decomposed (c : codepoint) : Prop := Unicode.decomposition c = [c].

Definition decomposedb (c : codepoint) : bool :=
  negb (Unicode.is_hangul_syllable c)
  && match assoc c UCD.decomposition_table with None => true | Some _ => false end.

(** A string in canonical order: no mark stands behind a mark of a higher
    class. *)
Fixpoint ordered (s : str) : Prop :=
  match s with
  | c :: (d :: _) as r => ~ (0 < Unicode.combining d < Unicode.combining c) /\ ordered r
  | _ => True
  end.

(** What is left after the marks are filtered out: decomposed characters
    that are no nonspacing marks. *)
Definition unmarked (c : codepoint) : Prop := decomposed c /\ Unicode.is_Mn c = false.

(** A call that returns. *)
Definition is_ok {A : Type} (m : PyResult A) : Prop := exists r, m = Ok r.

(** The configured separator, if any, has no backslash: [re.sub] then takes
    it as literal text. *)
Definition literal_separator (config : LanguageConfig) : Prop :=
  match word_separator (script config) with
  | Some separator => ~ In Re.backslash separator
  | None => True
  end.


(** [c] is a key of a substitution table. *)
Definition is_key (table : list (str * str)) (c : codepoint) : bool :=
  existsb (fun kv => str_eqb (fst kv) [c]) table.

(** A table of one-character keys none of whose replacements holds a key:
    applying it in order is applying it once to every character. *)
Definition closed_table (table : list (str * str)) : bool :=
  char_keys table
  && forallb (fun kv => forallb (fun c => negb (is_key table c))
                          (Py.replace_each table (fst kv))) table.

(** [w] occurs in [s] as a substring. *)
Fixpoint occurs (w s : str) : bool :=
  startswith w s
  || match s with
     | [] => false
     | _ :: r => occurs w r
     end.

(** Two adjacent characters of [s] are both [c]. *)
Fixpoint doubled (c : codepoint) (s : str) : bool :=
  match s with
  | x :: (y :: _) as r => ((x =? c) && (y =? c)) || doubled c r
  | _ => false
  end.

(** What [strip] returns is empty or has a character that is no whitespace
    at either end. *)
Inductive stripped : str -> Prop :=
| stripped_nil : stripped []
| stripped_one (c : codepoint) : Unicode.isspace c = false -> stripped [c]
| stripped_ends (c d : codepoint) (m : str) :
    Unicode.isspace c = false -> Unicode.isspace d = false -> stripped (c :: m ++ [d]).


(** The code points [lo] to [hi], as the character class [[lo-hi]]. *)
Definition in_class (lo hi : codepoint) (s : str) : Prop :=
  exists c, In c s /\ lo <= c <= hi.

(** Rules of the legacy V-for-U kind, as an example: uppercase, no accents,
    [char_v_for_u] set and no [normalize_chars]. *)
Definition legacy_latin_config : LanguageConfig :=
  {| native_name := utf8 "Lingua Latina";
     script := {| case := case_upper; has_accents := false; normalize_chars := [];
                  char_v_for_u := true; scriptio_continua_default := false;
                  word_separator := None |} |}.

(** The canonical decomposition of [c] has no nonspacing mark. *)
Definition markfree (c : codepoint) : bool :=
  forallb (fun d => negb (Unicode.is_Mn d)) (Unicode.decomposition c).

(** [drops_marks s s']: [s'] is [s] without some of its nonspacing marks of
    a non-zero combining class. *)
Inductive drops_marks : str -> str -> Prop :=
| drops_nil : drops_marks [] []
| drops_keep (c : codepoint) (s s' : str) :
    drops_marks s s' -> drops_marks (c :: s) (c :: s')
| drops_drop (c : codepoint) (s s' : str) :
    Unicode.is_Mn c = true -> 0 < Unicode.combining c ->
    drops_marks s s' -> drops_marks (c :: s) s'.

(** The pattern [\bword\b] matches somewhere in [s], [before] being the
    character in front of [s]. *)
Fixpoint word_matches (word : str) (before : option codepoint) (s : str) : bool :=
  match s with
  | [] => false
  | c :: r => Re.matches_word word before s || word_matches word (Some c) r
  end.

(** The first, third, fifth ... character of [a]. *)
Fixpoint every_other (a : str) : str :=
  match a with
  | l :: _ :: rest => l :: every_other rest
  | _ => []
  end.

(** An entry of the dictionary of sacred names: a word of two or more word
    characters, and an abbreviation that has a combining overline after
    every letter. *)
Definition sacred_name (kv : str * str) : bool :=
  match fst kv with
  | _ :: _ :: _ => true
  | _ => false
  end
  && forallb Unicode.is_word (fst kv)
  && negb (existsb (Z.eqb Re.backslash) (snd kv))
  && match snd kv with
     | [] => false
     | _ => str_eqb (snd kv) (ScriptUtils.overlined (every_other (snd kv)))
     end.

Import ScriptUtils.

(** * Lemmas on the string model *)

Section StringLemmas.

Lemma assoc_In {B : Type} (c : Z) (t : list (Z * B)) (v : B) :
  assoc c t = Some v -> In (c, v) t.
Proof.
  induction t as [|[k w] t IH]; simpl; [discriminate|].
  destruct (Z.eqb_spec k c) as [->|_].
  - intros [= ->]. now left.
  - intros H. right. now apply IH.
Qed.

Lemma assoc_None_of_forallb {B : Type} (p : Z -> bool) (c : Z) (t : list (Z * B)) :
  forallb (fun kv => negb (p (fst kv))) t = true -> p c = true -> assoc c t = None.
Proof.
  intros Ht Hc. induction t as [|[k w] t IH]; simpl in *; [reflexivity|].
  apply andb_prop in Ht as [Hk Ht].
  destruct (Z.eqb_spec k c) as [->|_].
  - rewrite Hc in Hk. discriminate.
  - now apply IH.
Qed.

Lemma str_eqb_eq (a b : str) : str_eqb a b = true -> a = b.
Proof.
  revert b. induction a as [|x a IH]; intros [|y b]; simpl; try discriminate; auto.
  intros H. apply andb_prop in H as [Hx Hab].
  apply Z.eqb_eq in Hx. subst. f_equal. now apply IH.
Qed.

Lemma flat_map_id_on (f : codepoint -> str) (s : str) :
  Forall (fun c => f c = [c]) s -> flat_map f s = s.
Proof.
  induction 1 as [|c s Hc _ IH]; simpl; [reflexivity|].
  now rewrite Hc, IH.
Qed.

(** Replacing a one-character string works character by character. *)
Lemma replace_char (k : codepoint) (new s : str) :
  Py.replace [k] new s = flat_map (fun c => if k =? c then new else [c]) s.
Proof.
  unfold Py.replace. induction s as [|c s IH]; simpl; [reflexivity|].
  destruct (k =? c); simpl; now rewrite IH.
Qed.

Lemma replace_char_app (k : codepoint) (new a b : str) :
  Py.replace [k] new (a ++ b) = Py.replace [k] new a ++ Py.replace [k] new b.
Proof. rewrite !replace_char. apply flat_map_app. Qed.

Lemma replace_char_absent (k : codepoint) (new s : str) :
  ~ In k s -> Py.replace [k] new s = s.
Proof.
  intros Hk. rewrite replace_char. apply flat_map_id_on.
  apply Forall_forall. intros c Hc.
  destruct (Z.eqb_spec k c) as [->|_]; [contradiction|reflexivity].
Qed.

Lemma replace_each_app (table : list (str * str)) (a b : str) :
  char_keys table = true ->
  Py.replace_each table (a ++ b) = Py.replace_each table a ++ Py.replace_each table b.
Proof.
  unfold Py.replace_each. revert a b.
  induction table as [|[k v] table IH]; intros a b Hk; simpl in *; [reflexivity|].
  apply andb_prop in Hk as [Hk Ht].
  destruct k as [|k [|? ?]]; try discriminate.
  rewrite replace_char_app. now apply IH.
Qed.

Lemma replace_each_absent (table : list (str * str)) (s : str) :
  Forall (fun kv => exists k, fst kv = [k] /\ ~ In k s) table ->
  Py.replace_each table s = s.
Proof.
  unfold Py.replace_each.
  induction 1 as [|[k v] table (k' & Hk & Hin) _ IH]; simpl in *; [reflexivity|].
  subst k. now rewrite replace_char_absent.
Qed.

(** With the empty replacement, [[cls]+] deletes the characters of [cls]
    and nothing else. *)
Lemma sub_runs_delete (cls : codepoint -> bool) (run s : str) :
  Re.sub_runs cls [Re.Lit []] run s = filter (fun c => negb (cls c)) s.
Proof.
  revert run. induction s as [|c s IH]; intros run; simpl.
  - now destruct run.
  - destruct (cls c); simpl.
    + apply IH.
    + rewrite IH. now destruct run.
Qed.

End StringLemmas.

(** * The claims *)

(** C1 (the code departs from the claim and from its own docstring).  For
    [apply_script_preferences("χαῖρε, ὦ φίλε", "grc", authentic_mode=True)]
    the text comes back uppercased and accent-stripped but with its comma:
    ["ΧΑΙΡΕ, Ω ΦΙΛΕ"], not ["ΧΑΙΡΕ Ω ΦΙΛΕ"]; with [use_interpuncts=True]
    it is ["ΧΑΙΡΕ,·Ω·ΦΙΛΕ"].  Punctuation goes only when
    [remove_punctuation] is set, and it is not by default. *)
Theorem apply_script_preferences_authentic_keeps_comma :
  let text := utf8 "χαῖρε, ὦ φίλε" in
  apply_script_preferences (fun _ => grc_config) text (utf8 "grc") None
    true false false true false false = Ok (utf8 "ΧΑΙΡΕ, Ω ΦΙΛΕ")
  /\ apply_script_preferences (fun _ => grc_config) text (utf8 "grc") None
       true false true true false false = Ok (utf8 "ΧΑΙΡΕ,·Ω·ΦΙΛΕ")
  /\ utf8 "ΧΑΙΡΕ, Ω ΦΙΛΕ" <> utf8 "ΧΑΙΡΕ Ω ΦΙΛΕ"
  /\ In 0x2C (utf8 "ΧΑΙΡΕ,·Ω·ΦΙΛΕ").
Proof.
  repeat split; try (vm_compute; reflexivity).
  - vm_compute. discriminate.
  - vm_compute. tauto.
Qed.

(** Whatever the registry holds for [grc], as long as its rules have no
    [normalize_chars] and no [word_separator], the call of C1 does not
    return ["ΧΑΙΡΕ Ω ΦΙΛΕ"]. *)
Lemma apply_script_preferences_authentic_never_documented
    (get_language_config : str -> LanguageConfig) (interpuncts : bool) :
  normalize_chars (script (get_language_config (utf8 "grc"))) = [] ->
  word_separator (script (get_language_config (utf8 "grc"))) = None ->
  apply_script_preferences get_language_config (utf8 "χαῖρε, ὦ φίλε") (utf8 "grc") None
    true false interpuncts true false false <> Ok (utf8 "ΧΑΙΡΕ Ω ΦΙΛΕ").
Proof.
  unfold apply_script_preferences, apply_script_transform,
    apply_script_transform_with_config.
  destruct (get_language_config (utf8 "grc")) as [name [c acc norm v sc sep]].
  intros Hnorm Hsep. simpl in Hnorm, Hsep. subst norm sep.
  destruct c, acc, v, sc, interpuncts; vm_compute; discriminate.
Qed.

(** C2 (the code departs from the claim and from its own docstring).
    [convert_iota_subscript_to_adscript("ᾳ")] is the lowercase ["αι"], not
    ["ΑΙ"], and ["τῷ λόγῳ"] becomes ["τωι λόγωι"], not ["ΤΩΙ ΛΟΓΩΙ"]: the
    lowercase forms expand to lowercase pairs and nothing is uppercased. *)
Theorem convert_iota_subscript_to_adscript_docstring_examples :
  convert_iota_subscript_to_adscript (utf8 "ᾳ") = utf8 "αι"
  /\ convert_iota_subscript_to_adscript (utf8 "ᾳ") <> utf8 "ΑΙ"
  /\ convert_iota_subscript_to_adscript (utf8 "τῷ λόγῳ") = utf8 "τωι λόγωι"
  /\ convert_iota_subscript_to_adscript (utf8 "τῷ λόγῳ") <> utf8 "ΤΩΙ ΛΟΓΩΙ".
Proof.
  repeat split; try (vm_compute; reflexivity); vm_compute; discriminate.
Qed.

(** C3.  [apply_nomina_sacra("ΘΕΟΣ", "grc-koi")] is Θ, U+035E, Σ, U+035E:
    each letter of the abbreviation carries its own overline; and
    ["ΚΥΡΙΟΣ ΙΗΣΟΥΣ ΧΡΙΣΤΟΣ"] becomes the three abbreviations ΚΣ, ΙΣ, ΧΣ,
    each letter overlined, with the two spaces where they were. *)
Theorem apply_nomina_sacra_examples :
  apply_nomina_sacra (utf8 "ΘΕΟΣ") (utf8 "grc-koi")
    = Ok [0x0398; 0x035E; 0x03A3; 0x035E]
  /\ apply_nomina_sacra (utf8 "ΚΥΡΙΟΣ ΙΗΣΟΥΣ ΧΡΙΣΤΟΣ") (utf8 "grc-koi")
    = Ok ([0x039A; 0x035E; 0x03A3; 0x035E] ++ [0x20]
          ++ [0x0399; 0x035E; 0x03A3; 0x035E] ++ [0x20]
          ++ [0x03A7; 0x035E; 0x03A3; 0x035E]).
Proof. split; vm_compute; reflexivity. Qed.

(** C4 (the code departs from the claim).  The pattern's [\b] holds between
    a letter and a combining mark, since a mark of category Mn is no word
    character.  So ΘΕΟΣ is replaced inside the decomposed ΆΘΕΟΣ (Α, U+0301,
    Θ, Ε, Ο, Σ), and also when a combining acute follows it. *)
Theorem apply_nomina_sacra_splits_at_diacritic :
  Unicode.is_Mn 0x0301 = true
  /\ Unicode.is_word 0x0301 = false
  /\ apply_nomina_sacra ([0x0391; 0x0301] ++ utf8 "ΘΕΟΣ") (utf8 "grc-koi")
     = Ok ([0x0391; 0x0301] ++ [0x0398; 0x035E; 0x03A3; 0x035E])
  /\ apply_nomina_sacra (utf8 "ΘΕΟΣ" ++ [0x0301]) (utf8 "grc-koi")
     = Ok ([0x0398; 0x035E; 0x03A3; 0x035E] ++ [0x0301]).
Proof. repeat split; vm_compute; reflexivity. Qed.

(** C5.  [apply_scriptio_continua] never raises and returns the text
    without its spaces and tabs: no space or tab is left, and the other
    characters, line breaks among them, stay as they are and in their
    order.  ["ΜΗΝΙΝ ΑΕΙΔΕ ΘΕΑ"] becomes ["ΜΗΝΙΝΑΕΙΔΕΘΕΑ"]. *)
Theorem apply_scriptio_continua_spec (text : str) :
  apply_scriptio_continua text
    = Ok (filter (fun c => negb ((c =? 0x20) || (c =? 0x09))) text)
  /\ (forall r, apply_scriptio_continua text = Ok r ->
        ~ In 0x20 r /\ ~ In 0x09 r
        /\ forall keep : codepoint -> bool,
             keep 0x20 = false -> keep 0x09 = false ->
             filter keep r = filter keep text)
  /\ apply_scriptio_continua (utf8 "ΜΗΝΙΝ ΑΕΙΔΕ ΘΕΑ") = Ok (utf8 "ΜΗΝΙΝΑΕΙΔΕΘΕΑ").
Proof.
  assert (E : apply_scriptio_continua text
              = Ok (filter (fun c => negb ((c =? 0x20) || (c =? 0x09))) text)).
  { unfold apply_scriptio_continua, Re.sub_plus. simpl.
    now rewrite sub_runs_delete. }
  split; [exact E|]. split; [|vm_compute; reflexivity].
  intros r Hr. rewrite E in Hr. injection Hr as <-.
  split; [|split].
  - intros H. apply filter_In in H as [_ H]. discriminate.
  - intros H. apply filter_In in H as [_ H]. discriminate.
  - intros keep Hs Ht. induction text as [|c s IH]; simpl; [reflexivity|].
    { destruct (Z.eqb_spec c 0x20) as [->|Hn]; simpl.
      - rewrite Hs. apply IH.
        unfold apply_scriptio_continua, Re.sub_plus. simpl.
        now rewrite sub_runs_delete.
      - destruct (Z.eqb_spec c 0x09) as [->|Hn']; simpl.
        + rewrite Ht. apply IH.
          unfold apply_scriptio_continua, Re.sub_plus. simpl.
          now rewrite sub_runs_delete.
        + destruct (keep c); [f_equal|]; apply IH;
            unfold apply_scriptio_continua, Re.sub_plus; simpl;
            now rewrite sub_runs_delete. }
Qed.

(** * Normalization: what stripping the marks leaves is stable *)

Module Normalization.

Import Unicode.

Lemma decomposedb_spec (c : codepoint) : decomposedb c = true -> decomposed c.
Proof.
  unfold decomposedb, decomposed, decomposition. intros H.
  apply andb_prop in H as [Hh Ht].
  destruct (is_hangul_syllable c); [discriminate|].
  now destruct (assoc c UCD.decomposition_table).
Qed.

(** *** Facts read off the tables *)

Lemma decomposition_table_is_full :
  forallb (fun kv => forallb decomposedb (snd kv)) UCD.decomposition_table = true.
Proof. vm_compute. reflexivity. Qed.

Lemma jamo_have_no_decomposition :
  forallb (fun kv => negb (in_range 0x1100 0x11FF (fst kv))) UCD.decomposition_table = true.
Proof. vm_compute. reflexivity. Qed.

Lemma combining_classes_positive :
  forallb (fun r => 0 <? snd r) UCD.ccc_ranges = true.
Proof. vm_compute. reflexivity. Qed.

Lemma jamo_are_starters :
  forallb (fun r => (snd (fst r) <? 0x1100) || (0x11FF <? fst (fst r))) UCD.ccc_ranges = true.
Proof. vm_compute. reflexivity. Qed.

(** A primary composite whose second character is no nonspacing mark: the
    second character is a starter, and the composite decomposes into the
    decomposition of the first followed by the second. *)
Lemma composition_table_unmarked :
  forallb (fun e => match e with
                    | (a, b, p) =>
                      is_Mn b
                      || ((combining b =? 0)
                          && str_eqb (decomposition p) (decomposition a ++ [b]))
                    end) UCD.composition_table = true.
Proof. vm_compute. reflexivity. Qed.

Lemma greek_monotonic_keys_carry_marks :
  forallb (fun kv => match fst kv with
                     | [k] => existsb is_Mn (decomposition k)
                     | _ => false
                     end) ScriptUtils.greek_monotonic_map = true.
Proof. vm_compute. reflexivity. Qed.

(** *** Combining classes *)

Lemma combining_in_nonneg (t : list (Z * Z * Z)) (c : codepoint) :
  forallb (fun r => 0 <? snd r) t = true -> 0 <= combining_in t c.
Proof.
  induction t as [|[[lo hi] v] t IH]; simpl; intros H; [lia|].
  apply andb_prop in H as [Hv Ht]. apply Z.ltb_lt in Hv.
  destruct ((lo <=? c) && (c <=? hi)); [lia|auto].
Qed.

Lemma combining_nonneg (c : codepoint) : 0 <= combining c.
Proof. apply combining_in_nonneg, combining_classes_positive. Qed.

Lemma combining_in_outside (t : list (Z * Z * Z)) (lo' hi' c : codepoint) :
  forallb (fun r => (snd (fst r) <? lo') || (hi' <? fst (fst r))) t = true ->
  lo' <= c <= hi' -> combining_in t c = 0.
Proof.
  induction t as [|[[lo hi] v] t IH]; simpl; intros H Hc; [reflexivity|].
  apply andb_prop in H as [Hr Ht].
  destruct (Z.leb_spec lo c), (Z.leb_spec c hi); simpl; auto.
  apply orb_prop in Hr as [Hr|Hr]; apply Z.ltb_lt in Hr; lia.
Qed.

Lemma combining_jamo (c : codepoint) : 0x1100 <= c <= 0x11FF -> combining c = 0.
Proof. apply combining_in_outside, jamo_are_starters. Qed.

(** *** Decomposition *)

Lemma decomposed_jamo (c : codepoint) : 0x1100 <= c <= 0x11FF -> decomposed c.
Proof.
  intros Hc. apply decomposedb_spec. unfold decomposedb.
  rewrite (assoc_None_of_forallb (in_range 0x1100 0x11FF) c _ jamo_have_no_decomposition).
  - unfold is_hangul_syllable, SBase, SCount.
    destruct (Z.leb_spec 0xAC00 c); [lia|reflexivity].
  - unfold in_range. apply andb_true_intro; split; apply Z.leb_le; lia.
Qed.

Lemma hangul_decomposition_jamo (c d : codepoint) :
  is_hangul_syllable c = true -> In d (hangul_decomposition c) -> 0x1100 <= d <= 0x11FF.
Proof.
  unfold is_hangul_syllable, hangul_decomposition, SBase, SCount, LBase, VBase, TBase,
    NCount, TCount.
  intros H. apply andb_prop in H as [H1 H2].
  apply Z.leb_le in H1. apply Z.ltb_lt in H2.
  destruct (_ =? _); cbn [In]; intros Hd; repeat destruct Hd as [<-|Hd]; try contradiction;
    Z.div_mod_to_equations; lia.
Qed.

(** Every character of a canonical decomposition is itself decomposed. *)
Lemma decomposition_decomposed (c d : codepoint) :
  In d (decomposition c) -> decomposed d.
Proof.
  unfold decomposition.
  destruct (is_hangul_syllable c) eqn:Hh.
  - intros Hd. eapply decomposed_jamo, hangul_decomposition_jamo; eassumption.
  - destruct (assoc c UCD.decomposition_table) as [l|] eqn:Ht.
    + intros Hd. apply decomposedb_spec.
      pose proof decomposition_table_is_full as Hfull.
      rewrite forallb_forall in Hfull.
      specialize (Hfull _ (assoc_In _ _ _ Ht)). simpl in Hfull.
      rewrite forallb_forall in Hfull. now apply Hfull.
    + intros [<-|[]]. unfold decomposed, decomposition. now rewrite Hh, Ht.
Qed.

Lemma flat_map_decomposition_decomposed (s : str) :
  Forall decomposed (flat_map decomposition s).
Proof.
  apply Forall_forall. intros d Hd. apply in_flat_map in Hd as (c & _ & Hd).
  eapply decomposition_decomposed; eassumption.
Qed.

Lemma flat_map_decomposition_id (s : str) :
  Forall decomposed s -> flat_map decomposition s = s.
Proof. apply flat_map_id_on. Qed.

(** *** Canonical ordering *)

Lemma insert_mark_Forall (P : codepoint -> Prop) (c : codepoint) (s : str) :
  P c -> Forall P s -> Forall P (insert_mark c s).
Proof.
  intros Hc. induction 1 as [|d r Hd Hr IH]; simpl; [now constructor|].
  destruct (_ && _); constructor; auto.
Qed.

Lemma canonical_order_Forall (P : codepoint -> Prop) (s : str) :
  Forall P s -> Forall P (canonical_order s).
Proof.
  induction 1 as [|c s Hc _ IH]; simpl; [constructor|].
  now apply insert_mark_Forall.
Qed.

Lemma insert_mark_head (c : codepoint) (s : str) :
  exists h t, insert_mark c s = h :: t
              /\ (h = c \/ exists d r, s = d :: r /\ h = d /\ 0 < combining d < combining c).
Proof.
  destruct s as [|d r]; simpl.
  - exists c, []. auto.
  - destruct ((0 <? combining d) && (combining d <? combining c)) eqn:E.
    + apply andb_prop in E as [E1 E2]. apply Z.ltb_lt in E1, E2.
      exists d, (insert_mark c r). split; [reflexivity|]. right. exists d, r. auto.
    + exists c, (d :: r). auto.
Qed.

Lemma insert_mark_ordered (c : codepoint) (s : str) :
  ordered s -> ordered (insert_mark c s).
Proof.
  induction s as [|d r IH]; simpl; [auto|].
  intros Hs.
  destruct ((0 <? combining d) && (combining d <? combining c)) eqn:E.
  - apply andb_prop in E as [E1 E2]. apply Z.ltb_lt in E1, E2.
    assert (Hr : ordered r) by (destruct r; [exact I|apply Hs]).
    specialize (IH Hr).
    destruct (insert_mark_head c r) as (h & t & Eq & Hh).
    rewrite Eq in *. simpl. split; [|exact IH].
    destruct Hh as [->|(d' & r' & -> & -> & _)]; [lia|apply Hs].
  - simpl. split; [|exact Hs].
    intros [H1 H2]. apply andb_false_iff in E as [E|E].
    + apply Z.ltb_ge in E. lia.
    + apply Z.ltb_ge in E. lia.
Qed.

Lemma canonical_order_ordered (s : str) : ordered (canonical_order s).
Proof.
  induction s as [|c s IH]; simpl; [exact I|]. now apply insert_mark_ordered.
Qed.

Lemma canonical_order_fixed (s : str) : ordered s -> canonical_order s = s.
Proof.
  induction s as [|c s IH]; simpl; [reflexivity|].
  intros Hs.
  assert (Hr : ordered s) by (destruct s; [exact I|apply Hs]).
  rewrite (IH Hr). destruct s as [|d r]; simpl; [reflexivity|].
  destruct Hs as [Hcd _].
  destruct (Z.ltb_spec 0 (combining d)), (Z.ltb_spec (combining d) (combining c));
    simpl; try reflexivity.
  exfalso. apply Hcd. lia.
Qed.

Lemma canonical_order_idempotent (s : str) :
  canonical_order (canonical_order s) = canonical_order s.
Proof. apply canonical_order_fixed, canonical_order_ordered. Qed.

(** *** Composition without nonspacing marks *)

Lemma composite_in_In (t : list (Z * Z * Z)) (a b p : codepoint) :
  composite_in t a b = Some p -> In (a, b, p) t.
Proof.
  induction t as [|[[x y] q] t IH]; simpl; [discriminate|].
  destruct (Z.eqb_spec x a) as [->|_]; simpl.
  - destruct (Z.eqb_spec y b) as [->|_].
    + intros [= ->]. now left.
    + intros H. right. auto.
  - intros H. right. auto.
Qed.

Lemma Some_eq (x y : codepoint) : Some x = Some y -> x = y.
Proof. congruence. Qed.

Lemma decomposition_hangul (c : codepoint) :
  is_hangul_syllable c = true -> decomposition c = hangul_decomposition c.
Proof. unfold decomposition. now intros ->. Qed.

(** A leading consonant and a vowel make a syllable that decomposes into
    the two. *)
Lemma hangul_LV (a b : codepoint) :
  LBase <= a < LBase + LCount -> VBase <= b < VBase + VCount ->
  let p := SBase + ((a - LBase) * VCount + (b - VBase)) * TCount in
  is_hangul_syllable p = true /\ hangul_decomposition p = [a; b].
Proof.
  unfold is_hangul_syllable, hangul_decomposition,
    SBase, SCount, LBase, LCount, VBase, VCount, TBase, NCount, TCount.
  intros Ha Hb. cbv zeta. split.
  - apply andb_true_intro. split; [apply Z.leb_le|apply Z.ltb_lt]; lia.
  - match goal with |- context [?x =? ?y] => destruct (Z.eqb_spec x y) as [_|Hn] end.
    + f_equal; [|f_equal]; Z.div_mod_to_equations; lia.
    + exfalso. apply Hn. Z.div_mod_to_equations. lia.
Qed.

(** A syllable without a trailing consonant and a trailing consonant make
    the syllable that decomposes into the three. *)
Lemma hangul_LVT (a b : codepoint) :
  is_hangul_syllable a = true -> (a - SBase) mod TCount = 0 ->
  TBase < b < TBase + TCount ->
  is_hangul_syllable (a + (b - TBase)) = true
  /\ hangul_decomposition (a + (b - TBase)) = hangul_decomposition a ++ [b].
Proof.
  unfold is_hangul_syllable, hangul_decomposition,
    SBase, SCount, LBase, LCount, VBase, VCount, TBase, NCount, TCount.
  intros Ha Hm Hb. apply andb_prop in Ha as [Ha1 Ha2].
  apply Z.leb_le in Ha1. apply Z.ltb_lt in Ha2. split.
  - apply andb_true_intro. split; [apply Z.leb_le|apply Z.ltb_lt];
      Z.div_mod_to_equations; lia.
  - destruct (Z.eqb_spec (0x11A7 + (a - 0xAC00) mod 28) 0x11A7) as [_|Hn]; [|lia].
    match goal with |- context [?x =? ?y] => destruct (Z.eqb_spec x y) as [He|_] end.
    + exfalso. Z.div_mod_to_equations. lia.
    + cbn [app]. f_equal; [|f_equal; [|f_equal]]; Z.div_mod_to_equations; lia.
Qed.

Lemma compose_pair_unmarked (a b p : codepoint) :
  compose_pair a b = Some p -> is_Mn b = false ->
  combining b = 0 /\ decomposition p = decomposition a ++ [b].
Proof.
  unfold compose_pair.
  destruct ((LBase <=? a) && (a <? LBase + LCount) && (VBase <=? b) && (b <? VBase + VCount))
    eqn:ELV.
  - intros Hc _. apply Some_eq in Hc. subst p.
    apply andb_prop in ELV as [ELV H4]. apply andb_prop in ELV as [ELV H3].
    apply andb_prop in ELV as [H1 H2].
    apply Z.leb_le in H1, H3. apply Z.ltb_lt in H2, H4.
    destruct (hangul_LV a b (conj H1 H2) (conj H3 H4)) as [Hp Hd].
    rewrite (decomposition_hangul _ Hp), Hd.
    unfold LBase, LCount in H1, H2. unfold VBase, VCount in H3, H4.
    rewrite (decomposed_jamo a) by lia.
    split; [apply combining_jamo; lia|reflexivity].
  - clear ELV.
    destruct (is_hangul_syllable a && ((a - SBase) mod TCount =? 0)
              && (TBase <? b) && (b <? TBase + TCount)) eqn:ELVT.
    + intros Hc _. apply Some_eq in Hc. subst p.
      apply andb_prop in ELVT as [ELVT H4]. apply andb_prop in ELVT as [ELVT H3].
      apply andb_prop in ELVT as [H1 H2].
      apply Z.eqb_eq in H2. apply Z.ltb_lt in H3, H4.
      destruct (hangul_LVT a b H1 H2 (conj H3 H4)) as [Hp Hd].
      rewrite (decomposition_hangul _ Hp), (decomposition_hangul _ H1), Hd.
      unfold TBase, TCount in H3, H4.
      split; [apply combining_jamo; lia|reflexivity].
    + clear ELVT. intros Hc Hb.
      pose proof composition_table_unmarked as Ht.
      rewrite forallb_forall in Ht.
      specialize (Ht _ (composite_in_In _ _ _ _ Hc)). cbv beta iota in Ht.
      rewrite Hb in Ht. cbn [orb] in Ht.
      apply andb_prop in Ht as [H1 H2].
      apply Z.eqb_eq in H1. apply str_eqb_eq in H2. auto.
Qed.

(** Decomposing undoes the composition of a string without marks. *)
Lemma compose_from_decomposition (s : str) :
  forall starter marks,
    Forall unmarked s -> Forall unmarked marks ->
    flat_map decomposition (compose_from starter marks s)
    = decomposition starter ++ marks ++ s.
Proof.
  assert (Hid : forall marks, Forall unmarked marks -> flat_map decomposition marks = marks).
  { intros marks Hm. apply flat_map_decomposition_id.
    eapply Forall_impl; [|exact Hm]. now intros ? [? _]. }
  induction s as [|c r IH]; intros starter marks Hs Hm.
  - cbn [compose_from flat_map]. now rewrite app_nil_r, Hid.
  - inversion Hs as [|? ? [Hdc Hmc] Hr]; subst.
    cbn [compose_from].
    set (blocked := match marks with
                    | [] => false
                    | _ => combining c <=? combining (last marks 0)
                    end).
    destruct (if blocked then None else compose_pair starter c) as [p|] eqn:Hp.
    + destruct blocked eqn:Hb; [discriminate|].
      destruct (compose_pair_unmarked _ _ _ Hp Hmc) as [Hc0 Hdp].
      assert (marks = []) as ->.
      { destruct marks as [|m ms]; [reflexivity|].
        unfold blocked in Hb. apply Z.leb_gt in Hb.
        pose proof (combining_nonneg (last (m :: ms) 0)). lia. }
      rewrite IH by auto. rewrite Hdp. cbn [app]. now rewrite <- app_assoc.
    + destruct (combining c =? 0).
      * cbn [flat_map]. rewrite flat_map_app, IH, Hid by auto.
        unfold decomposed in Hdc. now rewrite Hdc.
      * rewrite IH; [now rewrite <- !app_assoc|assumption|].
        apply Forall_app. split; [assumption|]. repeat constructor; assumption.
Qed.

Lemma compose_decomposition (s : str) :
  Forall unmarked s -> flat_map decomposition (compose s) = s.
Proof.
  induction 1 as [|c r [Hdc Hmc] Hr IH]; [reflexivity|].
  unfold decomposed in Hdc. cbn [compose].
  destruct (combining c =? 0).
  - rewrite compose_from_decomposition by auto. now rewrite Hdc.
  - cbn [flat_map]. now rewrite Hdc, IH.
Qed.

(** *** Case mappings *)

Lemma upper_table_idempotent :
  forallb (fun kv => str_eqb (flat_map to_upper_full (snd kv)) (snd kv)) UCD.upper_table = true.
Proof. vm_compute. reflexivity. Qed.

Lemma lower_table_idempotent :
  forallb (fun kv => str_eqb (flat_map to_lower_full (snd kv)) (snd kv)
                     && negb (existsb (Z.eqb 0x3A3) (snd kv))) UCD.lower_table = true.
Proof. vm_compute. reflexivity. Qed.

Lemma to_upper_full_idempotent (c : codepoint) :
  flat_map to_upper_full (to_upper_full c) = to_upper_full c.
Proof.
  unfold to_upper_full at 2 3.
  destruct (assoc c UCD.upper_table) as [d|] eqn:E.
  - pose proof upper_table_idempotent as H. rewrite forallb_forall in H.
    apply str_eqb_eq. exact (H _ (assoc_In _ _ _ E)).
  - simpl. unfold to_upper_full. now rewrite E.
Qed.

Lemma to_lower_full_idempotent (c : codepoint) :
  c <> 0x3A3 ->
  flat_map to_lower_full (to_lower_full c) = to_lower_full c
  /\ ~ In 0x3A3 (to_lower_full c).
Proof.
  intros Hc. unfold to_lower_full at 2 3 4.
  destruct (assoc c UCD.lower_table) as [d|] eqn:E.
  - pose proof lower_table_idempotent as H. rewrite forallb_forall in H.
    specialize (H _ (assoc_In _ _ _ E)). simpl in H.
    apply andb_prop in H as [H1 H2]. split; [now apply str_eqb_eq|].
    intros Hin. apply negb_true_iff in H2.
    assert (existsb (Z.eqb 0x3A3) d = true); [|congruence].
    apply existsb_exists. exists 0x3A3. split; [assumption|apply Z.eqb_refl].
  - split.
    + simpl. unfold to_lower_full. now rewrite E.
    + intros [H|[]]. congruence.
Qed.

End Normalization.

(** * Rounded division against the threshold *)

Module FloatFacts.

Import Float.

Lemma round_half_even_cases (n d : Z) :
  round_half_even n d = n / d \/ round_half_even n d = n / d + 1.
Proof.
  unfold round_half_even.
  destruct (2 * (n mod d) <? d); auto.
  destruct (d <? 2 * (n mod d)); auto.
  destruct (Z.even (n / d)); auto.
Qed.

Lemma round_half_even_bounds (n d lo hi : Z) :
  0 < d -> lo * d <= n < hi * d -> lo <= round_half_even n d <= hi.
Proof.
  intros Hd [Hlo Hhi].
  assert (lo <= n / d) by (apply Z.div_le_lower_bound; lia).
  assert (n / d < hi) by (apply Z.div_lt_upper_bound; lia).
  destruct (round_half_even_cases n d) as [-> | ->]; lia.
Qed.

(** Rounding stays below an even integer [m] exactly when the quotient is
    below [m - 1/2]: the tie goes to [m]. *)
Lemma round_half_even_lt_even (n d m : Z) :
  0 < d -> Z.even m = true ->
  (round_half_even n d < m <-> 2 * n < (2 * m - 1) * d).
Proof.
  intros Hd Hm.
  apply Z.even_spec in Hm as [h Hh].
  pose proof (Z.div_mod n d ltac:(lia)) as Hn.
  pose proof (Z.mod_pos_bound n d Hd) as Hr.
  unfold round_half_even.
  set (q := n / d) in *. set (r := n mod d) in *.
  assert (Hq : forall k, q <= k -> d * q <= d * k) by (intros; nia).
  assert (Hq' : forall k, k <= q -> d * k <= d * q) by (intros; nia).
  destruct (Z.ltb_spec (2 * r) d).
  - split; intros H0.
    + specialize (Hq (m - 1) ltac:(lia)). nia.
    + destruct (Z.lt_ge_cases q m) as [|Hge]; [assumption|].
      specialize (Hq' m Hge). nia.
  - destruct (Z.ltb_spec d (2 * r)).
    + split; intros H1.
      * specialize (Hq (m - 2) ltac:(lia)). nia.
      * destruct (Z.lt_ge_cases (q + 1) m) as [|Hge]; [assumption|].
        specialize (Hq' (m - 1) ltac:(lia)). nia.
    + assert (Hd2 : d = 2 * r) by lia.
      destruct (Z.even q) eqn:Eq.
      * apply Z.even_spec in Eq as [hq Hhq].
        split; intros H1.
        -- specialize (Hq (m - 2) ltac:(lia)). nia.
        -- destruct (Z.lt_ge_cases q m) as [|Hge]; [assumption|].
           specialize (Hq' m Hge). nia.
      * assert (Ho : Z.odd q = true) by (rewrite <- Z.negb_even, Eq; reflexivity).
        apply Z.odd_spec in Ho as [hq Hhq].
        split; intros H1.
        -- specialize (Hq (m - 3) ltac:(lia)). nia.
        -- destruct (Z.lt_ge_cases (q + 1) m) as [|Hge]; [assumption|].
           specialize (Hq' (m - 1) ltac:(lia)). nia.
Qed.

Lemma two_le_pow2 (k : Z) : 1 <= k -> 2 <= 2 ^ k.
Proof.
  intros Hk. pose proof (Z.pow_le_mono_r 2 1 k ltac:(lia) Hk) as H.
  now change (2 ^ 1) with 2 in H.
Qed.

Lemma pow2_succ (k : Z) : 0 <= k -> 2 ^ (k + 1) = 2 ^ k * 2.
Proof. intros Hk. now rewrite Z.pow_add_r by lia. Qed.

(** The comparison [n / d < 0.8] in floating point, in exact terms: the
    rounded quotient is below the double [0.8] exactly when the exact
    quotient is below the midpoint of [0.8] and the double before it,
    [14411518807585587 / 2^54]. *)
Lemma true_divide_below_threshold (n d : Z) :
  0 <= n -> 1 <= d ->
  ltb (true_divide n d) d0_8 = (n * 2 ^ 54 <? 14411518807585587 * d).
Proof.
  intros Hn Hd. unfold true_divide.
  destruct (Z.eqb_spec n 0) as [->|Hn0].
  { vm_compute ltb. symmetry. apply Z.ltb_lt. lia. }
  pose proof (Z.log2_nonneg d) as Hld.
  set (l := Z.log2 d + 54).
  assert (Hl : 54 <= l) by (unfold l; lia).
  assert (Hdl : d * 2 ^ 53 < 2 ^ l).
  { unfold l. rewrite Z.pow_add_r by lia.
    pose proof (Z.log2_spec d ltac:(lia)) as [_ Hd2].
    replace (Z.succ (Z.log2 d)) with (Z.log2 d + 1) in Hd2 by lia.
    rewrite Z.pow_add_r in Hd2 by lia.
    change (2 ^ 54) with (2 * 2 ^ 53). change (2 ^ 1) with 2 in Hd2.
    assert (0 < 2 ^ 53) by (vm_compute; reflexivity). nia. }
  set (N := n * 2 ^ l).
  assert (HN : d * 2 ^ 53 <= N).
  { unfold N. assert (0 < 2 ^ l) by (apply Z.pow_pos_nonneg; lia). nia. }
  set (q0 := N / d).
  assert (Hq0 : 2 ^ 53 <= q0).
  { unfold q0. apply Z.div_le_lower_bound; lia. }
  assert (H253 : 0 < 2 ^ 53) by (vm_compute; reflexivity).
  pose proof (Z.log2_spec q0 ltac:(lia)) as [Hx1 Hx2].
  set (x := Z.log2 q0) in *.
  assert (Hx : 53 <= x).
  { apply Z.log2_le_pow2; lia. }
  replace (Z.succ x) with (x + 1) in Hx2 by lia.
  set (s := x - 52).
  assert (Hs : 1 <= s) by (unfold s; lia).
  assert (Exs : 2 ^ x = 2 ^ 52 * 2 ^ s).
  { unfold s. rewrite <- Z.pow_add_r by lia. f_equal. lia. }
  assert (Exs1 : 2 ^ (x + 1) = 2 ^ 53 * 2 ^ s).
  { unfold s. rewrite <- Z.pow_add_r by lia. f_equal. lia. }
  assert (H2s : 0 < 2 ^ s) by (apply Z.pow_pos_nonneg; lia).
  pose proof (Z.div_mod N d ltac:(lia)) as HNd.
  pose proof (Z.mod_pos_bound N d ltac:(lia)) as HNr.
  fold q0 in HNd.
  (* the binade of the scaled quotient *)
  assert (HNlo : 2 ^ 52 * (d * 2 ^ s) <= N) by nia.
  assert (HNhi : N < 2 ^ 53 * (d * 2 ^ s)) by nia.
  pose proof (round_half_even_bounds N (d * 2 ^ s) (2 ^ 52) (2 ^ 53) ltac:(nia)
                (conj HNlo HNhi)) as Hm.
  set (m := round_half_even N (d * 2 ^ s)) in *.
  unfold ltb, d0_8. cbn [fst snd].
  assert (H252 : 2 ^ 52 = 4503599627370496) by reflexivity.
  assert (H253' : 2 ^ 53 = 9007199254740992) by reflexivity.
  assert (H254 : 2 ^ 54 = 18014398509481984) by reflexivity.
  destruct (Z.lt_trichotomy x (l - 1)) as [Hlt|[Heq|Hgt]].
  - (* the quotient is below 1/2 *)
    assert (Hmin : Z.min (s - l) (-53) = s - l) by (unfold s; lia).
    rewrite Hmin, Z.sub_diag, Z.mul_1_r.
    assert (Hp : 2 <= 2 ^ (-53 - (s - l))) by (apply two_le_pow2; unfold s; lia).
    assert (Hxl : 2 ^ (x + 1) * 2 <= 2 ^ l).
    { rewrite <- pow2_succ by lia. apply Z.pow_le_mono_r; lia. }
    assert (Hl2 : 0 < 2 ^ l) by (apply Z.pow_pos_nonneg; lia).
    assert (Hnd : 2 * n < d).
    { assert (N * 2 < d * 2 ^ l) by nia. unfold N in *. nia. }
    transitivity true; [apply Z.ltb_lt; nia|symmetry; apply Z.ltb_lt; lia].
  - (* the quotient is in [1/2, 1) *)
    assert (Hmin : Z.min (s - l) (-53) = -53) by (unfold s; lia).
    assert (Esl : s - l = -53) by (unfold s; lia).
    rewrite Hmin, Esl. change (2 ^ (-53 - -53)) with 1. rewrite !Z.mul_1_r.
    assert (El : 2 ^ l = 2 ^ 53 * 2 ^ s).
    { unfold s. rewrite <- Z.pow_add_r by lia. f_equal. lia. }
    pose proof (round_half_even_lt_even N (d * 2 ^ s) 7205759403792794 ltac:(nia)
                  eq_refl) as Hlt.
    fold m in Hlt.
    destruct (Z.ltb_spec m 7205759403792794) as [H1|H1];
      destruct (Z.ltb_spec (n * 2 ^ 54) (14411518807585587 * d)) as [H2|H2];
      try reflexivity; exfalso.
    + apply Hlt in H1. unfold N in H1. rewrite El in H1. nia.
    + assert (2 * N < (2 * 7205759403792794 - 1) * (d * 2 ^ s)).
      { unfold N. rewrite El. nia. }
      apply Hlt in H. lia.
  - (* the quotient is at least 1 *)
    assert (Hmin : Z.min (s - l) (-53) = -53) by (unfold s; lia).
    rewrite Hmin. change (2 ^ (-53 - -53)) with 1. rewrite Z.mul_1_r.
    assert (Hp : 2 <= 2 ^ (s - l - -53)) by (apply two_le_pow2; unfold s; lia).
    assert (Hxl : 2 ^ l <= 2 ^ x) by (apply Z.pow_le_mono_r; lia).
    assert (Hl2 : 0 < 2 ^ l) by (apply Z.pow_pos_nonneg; lia).
    assert (Hnd : d <= n).
    { assert (d * 2 ^ l <= N) by nia. unfold N in *. nia. }
    transitivity false; [apply Z.ltb_ge; nia|symmetry; apply Z.ltb_ge; lia].
Qed.

(** For counts below [2^54] the floating-point comparison is the exact
    comparison of the ratio with 4/5. *)
Lemma true_divide_below_threshold_exact (n d : Z) :
  0 <= n -> 1 <= d -> d < 2 ^ 54 ->
  ltb (true_divide n d) d0_8 = (5 * n <? 4 * d).
Proof.
  intros Hn Hd Hd54. rewrite true_divide_below_threshold by assumption.
  change (2 ^ 54) with 18014398509481984 in *.
  destruct (Z.ltb_spec (5 * n) (4 * d)); [apply Z.ltb_lt|apply Z.ltb_ge]; lia.
Qed.

End FloatFacts.

(** * C6: idempotence *)

Section Idempotence.

Import Unicode Normalization.

Lemma filter_unmarked (s : str) :
  Forall decomposed s -> Forall unmarked (filter (fun c => negb (is_Mn c)) s).
Proof.
  induction 1 as [|c s Hc _ IH]; cbn [filter]; [constructor|].
  destruct (is_Mn c) eqn:E; cbn [negb]; [assumption|].
  constructor; [split|]; assumption.
Qed.

Lemma filter_unmarked_id (s : str) :
  Forall unmarked s -> filter (fun c => negb (is_Mn c)) s = s.
Proof.
  induction 1 as [|c s [_ Hc] _ IH]; cbn [filter]; [reflexivity|].
  now rewrite Hc, IH.
Qed.

Lemma NFD_decomposed (s : str) : Forall decomposed (NFD s).
Proof. apply canonical_order_Forall, flat_map_decomposition_decomposed. Qed.

(** The text between the filter and the recomposition, put in canonical
    order, is a fixed point of every later step. *)
Lemma remove_accents_fixed (w : str) :
  Forall unmarked w ->
  let y := NFC w in
  _remove_accents y = y.
Proof.
  intros Hw y.
  assert (Hd : Forall decomposed w).
  { eapply Forall_impl; [|exact Hw]. now intros ? [? _]. }
  set (w' := canonical_order w).
  assert (Hw' : Forall unmarked w') by now apply canonical_order_Forall.
  assert (Hd' : Forall decomposed w').
  { eapply Forall_impl; [|exact Hw']. now intros ? [? _]. }
  assert (Ey : y = compose w').
  { unfold y, NFC, NFD. now rewrite flat_map_decomposition_id. }
  assert (Edy : flat_map decomposition y = w').
  { rewrite Ey. now apply compose_decomposition. }
  assert (ER : Py.replace_each greek_monotonic_map y = y).
  { apply replace_each_absent. apply Forall_forall. intros [k v] Hkv.
    pose proof greek_monotonic_keys_carry_marks as Hm.
    rewrite forallb_forall in Hm. specialize (Hm _ Hkv). cbn [fst] in *.
    destruct k as [|k [|? ?]]; try discriminate.
    exists k. split; [reflexivity|]. intros Hin.
    apply existsb_exists in Hm as (m & Hm1 & Hm2).
    assert (Hmw : In m w').
    { rewrite <- Edy. apply in_flat_map. now exists k. }
    rewrite Forall_forall in Hw'. destruct (Hw' _ Hmw) as [_ Hn]. congruence. }
  unfold _remove_accents. rewrite ER.
  assert (EN : NFD y = w').
  { unfold NFD. rewrite Edy. apply canonical_order_idempotent. }
  rewrite EN, filter_unmarked_id by assumption.
  unfold NFC, NFD. rewrite flat_map_decomposition_id by assumption.
  unfold w'. rewrite canonical_order_idempotent. now rewrite Ey.
Qed.

(** Without a capital sigma, lowering goes character by character. *)
Lemma lower_from_flat (s : str) :
  forall before, ~ In 0x3A3 s -> Py.lower_from before s = flat_map to_lower_full s.
Proof.
  induction s as [|c s IH]; intros before Hn; [reflexivity|].
  cbn [Py.lower_from flat_map].
  destruct (Z.eqb_spec c 0x3A3) as [->|_]; [exfalso; apply Hn; now left|].
  f_equal. apply IH. intros H. apply Hn. now right.
Qed.

(** What lowering returns has no capital sigma and is fixed by the
    character mapping. *)
Lemma lower_from_lowered (s : str) :
  forall before,
    ~ In 0x3A3 (Py.lower_from before s)
    /\ flat_map to_lower_full (Py.lower_from before s) = Py.lower_from before s.
Proof.
  induction s as [|c s IH]; intros before; [split; [intros []|reflexivity]|].
  cbn [Py.lower_from]. destruct (IH (c :: before)) as [Hn Hf].
  destruct (Z.eqb_spec c 0x3A3) as [->|Hc].
  - split.
    + intros [H|H]; [|contradiction].
      destruct (Py.final_sigma before s); discriminate.
    + rewrite flat_map_app. f_equal; [|exact Hf].
      destruct (Py.final_sigma before s); vm_compute; reflexivity.
  - destruct (to_lower_full_idempotent c Hc) as [Hi Hn3].
    split.
    + intros H. apply in_app_or in H as [H|H]; contradiction.
    + rewrite flat_map_app. f_equal; [exact Hi|exact Hf].
Qed.

End Idempotence.

(** C6.  Stripping the diacritics ([_remove_accents]: the Greek exception
    map, canonical decomposition, dropping the nonspacing marks,
    recomposition) is idempotent on every string, and so are [str.upper]
    and [str.lower]. *)
Theorem strip_diacritics_and_case_idempotent :
  (forall x : str, _remove_accents (_remove_accents x) = _remove_accents x)
  /\ (forall x : str, Py.upper (Py.upper x) = Py.upper x)
  /\ (forall x : str, Py.lower (Py.lower x) = Py.lower x).
Proof.
  split; [|split]; intros x.
  - unfold _remove_accents at 2 3.
    apply remove_accents_fixed, filter_unmarked, NFD_decomposed.
  - unfold Py.upper. induction x as [|c x IH]; [reflexivity|].
    cbn [flat_map]. rewrite flat_map_app, IH.
    now rewrite Normalization.to_upper_full_idempotent.
  - unfold Py.lower.
    destruct (lower_from_lowered x []) as [Hn Hf].
    now rewrite lower_from_flat.
Qed.

(** * C7: which calls can raise *)

Section Raising.

Lemma is_ok_bind {A B : Type} (m : PyResult A) (f : A -> PyResult B) :
  is_ok m -> (forall r, is_ok (f r)) -> is_ok (bind m f).
Proof. intros [r ->] H. apply H. Qed.

Lemma existsb_backslash (repl : str) :
  ~ In Re.backslash repl -> existsb (Z.eqb Re.backslash) repl = false.
Proof.
  intros Hn. destruct (existsb (Z.eqb Re.backslash) repl) eqn:E; [|reflexivity].
  apply existsb_exists in E as (c & Hc & Ec). apply Z.eqb_eq in Ec. now subst.
Qed.

Lemma parse_template_literal (repl : str) :
  existsb (Z.eqb Re.backslash) repl = false -> Re.parse_template repl = Ok [Re.Lit repl].
Proof. unfold Re.parse_template. now intros ->. Qed.

Lemma sub_plus_literal (cls : codepoint -> bool) (repl s : str) :
  existsb (Z.eqb Re.backslash) repl = false ->
  Re.sub_plus cls repl s = Ok (Re.sub_runs cls [Re.Lit repl] [] s).
Proof. intros H. unfold Re.sub_plus. now rewrite parse_template_literal. Qed.

Lemma sub_each_literal (cls : codepoint -> bool) (repl s : str) :
  existsb (Z.eqb Re.backslash) repl = false -> is_ok (Re.sub_each cls repl s).
Proof. intros H. unfold Re.sub_each. rewrite parse_template_literal by assumption. now eexists. Qed.

Lemma sub_word_literal (word repl s : str) :
  existsb (Z.eqb Re.backslash) repl = false -> is_ok (Re.sub_word word repl s).
Proof. intros H. unfold Re.sub_word. rewrite parse_template_literal by assumption. now eexists. Qed.

Lemma sub_each_word_ok (table : list (str * str)) :
  forallb (fun kv => negb (existsb (Z.eqb Re.backslash) (snd kv))) table = true ->
  forall text, is_ok (sub_each_word table text).
Proof.
  induction table as [|[w a] table IH]; cbn [sub_each_word forallb snd]; intros H text.
  - now eexists.
  - apply andb_prop in H as [Ha Ht]. apply negb_true_iff in Ha.
    destruct (sub_word_literal w a text Ha) as [r ->]. cbn [bind]. now apply IH.
Qed.

Lemma apply_scriptio_continua_eq (text : str) :
  apply_scriptio_continua text = Ok (filter (fun c => negb (is_space_or_tab c)) text).
Proof.
  unfold apply_scriptio_continua. rewrite sub_plus_literal by reflexivity.
  now rewrite sub_runs_delete.
Qed.

Lemma apply_interpunct_eq (text : str) :
  apply_interpunct text
  = Ok (Re.sub_runs is_space [Re.Lit (utf8 "·")] [] (Py.strip text)).
Proof. unfold apply_interpunct. now rewrite sub_plus_literal by reflexivity. Qed.

Lemma _apply_word_separator_eq (text separator : str) :
  ~ In Re.backslash separator ->
  _apply_word_separator text separator
  = Ok (Re.sub_runs is_space [Re.Lit separator] [] (Py.strip text)).
Proof.
  intros H. unfold _apply_word_separator.
  now rewrite sub_plus_literal by now apply existsb_backslash.
Qed.

Lemma remove_modern_punctuation_eq (text language_code : str) :
  remove_modern_punctuation text language_code
  = Ok (Py.strip (Re.sub_runs is_space [Re.Lit (utf8 " ")] []
                    (Py.replace_each modern_punctuation text))).
Proof. unfold remove_modern_punctuation. now rewrite sub_plus_literal by reflexivity. Qed.

Lemma apply_nomina_sacra_ok (text language_code : str) :
  is_ok (apply_nomina_sacra text language_code).
Proof.
  unfold apply_nomina_sacra.
  destruct (negb (str_eqb language_code (utf8 "grc-koi"))); [now eexists|].
  apply sub_each_word_ok. vm_compute. reflexivity.
Qed.

Lemma apply_script_transform_with_config_ok (text : str) (config : LanguageConfig) :
  literal_separator config -> is_ok (apply_script_transform_with_config text config).
Proof.
  unfold literal_separator, apply_script_transform_with_config.
  destruct text as [|c text]; [now eexists|].
  destruct config as [name [cs acc norm v sc sep]]. cbn [script word_separator
    scriptio_continua_default normalize_chars has_accents case char_v_for_u].
  intros Hsep.
  set (result := match v, norm with
                 | true, [] => _
                 | _, _ => _
                 end).
  destruct sep as [[|s0 sep]|].
  - destruct sc; cbn [bind]; now eexists.
  - destruct sc; cbn [bind]; rewrite _apply_word_separator_eq by assumption; now eexists.
  - destruct sc.
    + rewrite apply_scriptio_continua_eq. cbn [bind]. now eexists.
    + cbn [bind]. now eexists.
Qed.

Lemma apply_script_preferences_ok (get_language_config : str -> LanguageConfig)
    (text language_code : str) (preferences : option ScriptDisplayMode)
    (authentic_mode use_scriptio_continua use_interpuncts use_iota_adscript
       use_nomina_sacra remove_punctuation : bool) :
  literal_separator (get_language_config language_code) ->
  is_ok (apply_script_preferences get_language_config text language_code preferences
           authentic_mode use_scriptio_continua use_interpuncts use_iota_adscript
           use_nomina_sacra remove_punctuation).
Proof.
  intros Hsep. unfold apply_script_preferences.
  destruct text as [|c text]; [now eexists|].
  set (flags := match preferences with Some _ => _ | None => _ end).
  destruct flags as [[[[sc ip] ia] ns] rp].
  apply is_ok_bind.
  { destruct authentic_mode; [|now eexists].
    now apply apply_script_transform_with_config_ok. }
  intros r1. apply is_ok_bind.
  { destruct rp; [rewrite remove_modern_punctuation_eq|]; now eexists. }
  intros r3. apply is_ok_bind.
  { destruct (ns && _); [apply apply_nomina_sacra_ok|now eexists]. }
  intros r4.
  destruct sc; [rewrite apply_scriptio_continua_eq; now eexists|].
  destruct ip; [rewrite apply_interpunct_eq|]; now eexists.
Qed.

End Raising.

(** C7.  The claim that no stage raises for any string fails on the
    code: [_apply_word_separator] hands the separator to [re.sub] as the
    replacement, unescaped, and [re.sub] reads a replacement as a template.
    With a backslash as the separator the call raises ("bad escape (end of
    pattern)") instead of returning the text with its spaces replaced, as
    the docstring says and as [apply_interpunct] does with its fixed
    separator; [apply_script_transform_with_config] raises with it for
    rules that configure this separator. *)
Lemma apply_word_separator_backslash_raises :
  _apply_word_separator (utf8 "a b") [Re.backslash] = Raised
  /\ apply_script_transform_with_config (utf8 "a b")
       {| native_name := [];
          script := {| case := case_mixed; has_accents := true; normalize_chars := [];
                       char_v_for_u := false; scriptio_continua_default := false;
                       word_separator := Some [Re.backslash] |} |} = Raised.
Proof. split; vm_compute; reflexivity. Qed.

(** The same reading of the separator where the call returns: two
    backslashes give one, [\n] gives a line feed and [\g<0>] the spaces
    that were there, none of them the separator. *)
Lemma apply_word_separator_reads_template :
  _apply_word_separator (utf8 "a b") [Re.backslash; Re.backslash]
  = Ok [0x61; Re.backslash; 0x62]
  /\ _apply_word_separator (utf8 "a b") [Re.backslash; 0x6E] = Ok [0x61; 0x0A; 0x62]
  /\ _apply_word_separator (utf8 "a  b") (Re.backslash :: utf8 "g<0>") = Ok (utf8 "a  b")
  /\ apply_interpunct (utf8 "a b") = Ok (utf8 "a·b").
Proof. repeat split; vm_compute; reflexivity. Qed.

(** Group names as [int] reads them: a sign, whitespace, single
    underscores and the digit zero of another script are read as group 0;
    a doubled or leading underscore and any other number are not. *)
Lemma parse_template_group_names :
  let g name := Re.parse_template (Re.backslash :: utf8 "g<" ++ name ++ utf8 ">") in
  g (utf8 "0") = Ok [Re.Group0]
  /\ g (utf8 "+0") = Ok [Re.Group0]
  /\ g (utf8 "-0") = Ok [Re.Group0]
  /\ g (utf8 " 0 ") = Ok [Re.Group0]
  /\ g (utf8 "0_0") = Ok [Re.Group0]
  /\ g [0x0660] = Ok [Re.Group0]
  /\ g [0xFF10] = Ok [Re.Group0]
  /\ g (utf8 "0__0") = Raised
  /\ g (utf8 "_0") = Raised
  /\ g (utf8 "1") = Raised
  /\ g (utf8 "-1") = Raised
  /\ g (utf8 "name") = Raised
  /\ g [] = Raised.
Proof. cbv zeta. repeat split; vm_compute; reflexivity. Qed.

(** [_apply_word_separator] returns exactly when the separator is a
    well-formed template. *)
Lemma apply_word_separator_returns (text separator : str) :
  is_ok (_apply_word_separator text separator) <-> is_ok (Re.parse_template separator).
Proof.
  unfold _apply_word_separator, Re.sub_plus.
  destruct (Re.parse_template separator) as [items|]; cbn [bind]; split;
    intros [r Hr]; try discriminate; now eexists.
Qed.

(** Where the defect does not reach.  No other stage raises for any text:
    the stages built on [re.sub] with a fixed replacement return, and so do
    [_apply_word_separator] and the two entry points with a separator that
    has no backslash.  (The remaining stages use only [str.replace],
    [startswith] and [endswith] and are functions of the text.)  The empty
    string comes back at once from both entry points, whatever the
    configuration, language code and preferences. *)
Lemma stages_do_not_raise :
  (forall text language_code : str,
      is_ok (apply_scriptio_continua text)
      /\ is_ok (apply_interpunct text)
      /\ is_ok (apply_nomina_sacra text language_code)
      /\ is_ok (remove_modern_punctuation text language_code)
      /\ is_ok (remove_hebrew_vowel_points text)
      /\ is_ok (remove_syriac_vowel_points text)
      /\ is_ok (remove_arabic_diacritics_full text)
      /\ is_ok (apply_ethiopic_word_separator text)
      /\ is_ok (apply_tibetan_tsheg text)
      /\ is_ok (apply_ugaritic_word_divider text)
      /\ is_ok (apply_gothic_interpunct text))
  /\ (forall text separator : str,
        ~ In Re.backslash separator -> is_ok (_apply_word_separator text separator))
  /\ (forall (text : str) (config : LanguageConfig),
        literal_separator config ->
        is_ok (apply_script_transform_with_config text config))
  /\ (forall (get_language_config : str -> LanguageConfig) (text language_code : str)
        (preferences : option ScriptDisplayMode) (a sc ip ia ns rp : bool),
        literal_separator (get_language_config language_code) ->
        is_ok (apply_script_transform get_language_config text language_code)
        /\ is_ok (apply_script_preferences get_language_config text language_code
                    preferences a sc ip ia ns rp))
  /\ (forall config : LanguageConfig,
        apply_script_transform_with_config [] config = Ok [])
  /\ (forall (get_language_config : str -> LanguageConfig) (language_code : str)
        (preferences : option ScriptDisplayMode) (a sc ip ia ns rp : bool),
        apply_script_preferences get_language_config [] language_code
          preferences a sc ip ia ns rp = Ok []).
Proof.
  split; [|split; [|split; [|split; [|split]]]].
  - intros text language_code.
    assert (Hplus : forall cls repl s,
               existsb (Z.eqb Re.backslash) repl = false -> is_ok (Re.sub_plus cls repl s)).
    { intros cls repl s H. rewrite sub_plus_literal by assumption. now eexists. }
    assert (Hmarks : forall cls s,
               is_ok (result <- Re.sub_each cls [] (Unicode.NFD s) ;; Ok (Unicode.NFC result))).
    { intros cls s. destruct (sub_each_literal cls [] (Unicode.NFD s) eq_refl) as [r ->].
      now eexists. }
    repeat split.
    + rewrite apply_scriptio_continua_eq. now eexists.
    + rewrite apply_interpunct_eq. now eexists.
    + apply apply_nomina_sacra_ok.
    + rewrite remove_modern_punctuation_eq. now eexists.
    + apply Hmarks.
    + apply Hmarks.
    + apply Hmarks.
    + now apply Hplus.
    + unfold apply_tibetan_tsheg. destruct (negb _); [now apply Hplus|now eexists].
    + now apply Hplus.
    + now apply Hplus.
  - intros text separator H. rewrite _apply_word_separator_eq by assumption. now eexists.
  - apply apply_script_transform_with_config_ok.
  - intros. split.
    + now apply apply_script_transform_with_config_ok.
    + now apply apply_script_preferences_ok.
  - reflexivity.
  - reflexivity.
Qed.

Lemma stages_do_not_raise_example :
  let config :=
    {| native_name := [];
       script := {| case := case_upper; has_accents := false; normalize_chars := [];
                    char_v_for_u := false; scriptio_continua_default := false;
                    word_separator := Some (utf8 "·") |} |} in
  literal_separator config
  /\ apply_script_transform_with_config (utf8 "arma virumque") config
     = Ok (utf8 "ARMA·VIRUMQUE").
Proof.
  cbv zeta. split.
  - vm_compute. intros [H|[]]. discriminate H.
  - vm_compute. reflexivity.
Qed.

(** * C8, C9: the authenticity check *)

Section Validator.

Variable get_language_config : str -> LanguageConfig.

Lemma count_nonneg (p : codepoint -> bool) (s : str) : 0 <= Py.count p s.
Proof. unfold Py.count. lia. Qed.

Lemma count_le_length (p : codepoint -> bool) (s : str) :
  Py.count p s <= Z.of_nat (length s).
Proof. unfold Py.count. pose proof (filter_length_le p s). lia. Qed.

Lemma contains_In (c : codepoint) (s : str) : In c s -> Py.contains c s = true.
Proof.
  intros H. unfold Py.contains. apply existsb_exists.
  exists c. split; [assumption|apply Z.eqb_refl].
Qed.

(** What the validator computes, with the floating-point comparison in
    exact terms. *)
Lemma validate_script_authenticity_eq (text language_code : str) :
  text <> [] ->
  validate_script_authenticity get_language_config text language_code
  = let config := script (get_language_config language_code) in
    negb (match case config with
          | case_upper =>
            Py.count Unicode.isupper text * 2 ^ 54
            <? 14411518807585587 * Z.max 1 (Py.count Unicode.isalpha text)
          | _ => false
          end)
    && negb (char_v_for_u config && (Py.contains 0x55 text || Py.contains 0x75 text)).
Proof.
  intros Ht. unfold validate_script_authenticity.
  destruct text as [|c text]; [contradiction|].
  cbv zeta.
  destruct (case (script (get_language_config language_code))).
  - rewrite FloatFacts.true_divide_below_threshold
      by (try apply count_nonneg; lia).
    destruct (_ <? _); [reflexivity|].
    now destruct (char_v_for_u _ && _).
  - now destruct (char_v_for_u _ && _).
  - now destruct (char_v_for_u _ && _).
Qed.

End Validator.

(** C8.  [validate_script_authenticity] returns False for every text with
    a "U" or a "u" when the language's rules set [char_v_for_u]; returns
    False for every text whose uppercase characters are fewer than 0.8 of
    its alphabetic characters when the rules' case is "upper"; and returns
    True for the empty string.  (The ratio is compared in double precision,
    which is exact for any text shorter than 2^54 characters.) *)
Theorem validate_script_authenticity_rejects
    (get_language_config : str -> LanguageConfig) (language_code : str) :
  (forall text : str,
      char_v_for_u (script (get_language_config language_code)) = true ->
      In 0x55 text \/ In 0x75 text ->
      validate_script_authenticity get_language_config text language_code = false)
  /\ (forall text : str,
        case (script (get_language_config language_code)) = case_upper ->
        Z.of_nat (length text) < 2 ^ 54 ->
        0 < Py.count Unicode.isalpha text ->
        5 * Py.count Unicode.isupper text < 4 * Py.count Unicode.isalpha text ->
        validate_script_authenticity get_language_config text language_code = false)
  /\ validate_script_authenticity get_language_config [] language_code = true.
Proof.
  split; [|split; [|reflexivity]].
  - intros text Hv Hu.
    assert (Ht : text <> []) by (destruct Hu as [H|H]; intros ->; destruct H).
    rewrite validate_script_authenticity_eq by assumption. cbv zeta.
    rewrite Hv.
    assert (E : Py.contains 0x55 text || Py.contains 0x75 text = true).
    { destruct Hu as [H|H]; rewrite (contains_In _ _ H);
        [reflexivity|apply orb_true_r]. }
    rewrite E. cbn [andb negb]. apply andb_false_r.
  - intros text Hc Hlen Ha Hr.
    assert (Ht : text <> []).
    { intros ->. vm_compute in Ha. discriminate. }
    rewrite validate_script_authenticity_eq by assumption. cbv zeta.
    rewrite Hc.
    pose proof (count_le_length Unicode.isalpha text) as Hal.
    change (2 ^ 54) with 18014398509481984 in *.
    assert (E : (Py.count Unicode.isupper text * 18014398509481984
                 <? 14411518807585587 * Z.max 1 (Py.count Unicode.isalpha text)) = true).
    { apply Z.ltb_lt. lia. }
    rewrite E. reflexivity.
Qed.

Lemma validate_script_authenticity_rejects_witness :
  validate_script_authenticity (fun _ => grc_config) (utf8 "Χαῖρε") (utf8 "grc") = false.
Proof.
  apply (proj1 (proj2 (validate_script_authenticity_rejects (fun _ => grc_config) (utf8 "grc")))).
  - reflexivity.
  - vm_compute. reflexivity.
  - vm_compute. reflexivity.
  - vm_compute. reflexivity.
Defined.

(** C9, counterexample.  A text can have uppercase characters without
    having alphabetic ones: the Roman numeral Ⅰ (U+2160) is uppercase for
    [str.isupper] and no letter for [str.isalpha].  For the text "Ⅰ" the
    ratio is 1 / max(1, 0) = 1, so the check passes under rules whose case
    is "upper". *)
Lemma validate_script_authenticity_uppercase_numeral :
  let text := [0x2160] in
  text <> []
  /\ Py.count Unicode.isalpha text = 0
  /\ Py.count Unicode.isupper text = 1
  /\ case (script grc_config) = case_upper
  /\ validate_script_authenticity (fun _ => grc_config) text (utf8 "grc") = true.
Proof. cbv zeta. repeat split; try (vm_compute; reflexivity). discriminate. Qed.

(** C9, as amended.  For every non-empty text that has no alphabetic
    character and no uppercase character (digits or ASCII punctuation only,
    say), [validate_script_authenticity] returns False under rules whose
    case is "upper": the ratio is 0 / max(1, 0) = 0, below 0.8. *)
Theorem validate_script_authenticity_no_letters
    (get_language_config : str -> LanguageConfig) (text language_code : str) :
  text <> [] ->
  Py.count Unicode.isalpha text = 0 ->
  Py.count Unicode.isupper text = 0 ->
  case (script (get_language_config language_code)) = case_upper ->
  validate_script_authenticity get_language_config text language_code = false.
Proof.
  intros Ht Ha Hu Hc.
  rewrite validate_script_authenticity_eq by assumption. cbv zeta.
  rewrite Hc, Ha, Hu. reflexivity.
Qed.

Lemma validate_script_authenticity_no_letters_witness :
  validate_script_authenticity (fun _ => grc_config) (utf8 "12, 3.") (utf8 "grc") = false.
Proof.
  apply validate_script_authenticity_no_letters.
  - discriminate.
  - vm_compute. reflexivity.
  - vm_compute. reflexivity.
  - reflexivity.
Defined.

(** * C10: the accent-only entries of the iota table *)

Section IotaTable.

Lemma lowercase_map_char_keys : char_keys lowercase_map = true.
Proof. vm_compute. reflexivity. Qed.

Lemma uppercase_map_char_keys : char_keys uppercase_map = true.
Proof. vm_compute. reflexivity. Qed.

(** The conversion works character by character. *)
Lemma convert_iota_subscript_to_adscript_app (a b : str) :
  convert_iota_subscript_to_adscript (a ++ b)
  = convert_iota_subscript_to_adscript a ++ convert_iota_subscript_to_adscript b.
Proof.
  unfold convert_iota_subscript_to_adscript.
  rewrite (replace_each_app lowercase_map) by apply lowercase_map_char_keys.
  now rewrite (replace_each_app uppercase_map) by apply uppercase_map_char_keys.
Qed.

End IotaTable.

(** C10.  [convert_iota_subscript_to_adscript] also rewrites the vowels
    that carry an accent and no iota subscript: wherever they stand in a
    text, ᾰ (U+1FB0), ᾱ (U+1FB1) and ᾶ (U+1FB6) become the bare α, ῆ
    (U+1FC6) the bare η and ῶ (U+1FF6) the bare ω, the text before and
    after being converted as usual. *)
Theorem convert_iota_subscript_to_adscript_strips_accents (before after : str) :
  let convert := convert_iota_subscript_to_adscript in
  convert (before ++ [0x1FB0] ++ after) = convert before ++ [0x03B1] ++ convert after
  /\ convert (before ++ [0x1FB1] ++ after) = convert before ++ [0x03B1] ++ convert after
  /\ convert (before ++ [0x1FB6] ++ after) = convert before ++ [0x03B1] ++ convert after
  /\ convert (before ++ [0x1FC6] ++ after) = convert before ++ [0x03B7] ++ convert after
  /\ convert (before ++ [0x1FF6] ++ after) = convert before ++ [0x03C9] ++ convert after.
Proof.
  cbv zeta.
  repeat split; rewrite !convert_iota_subscript_to_adscript_app; do 2 f_equal.
Qed.

(** * Further properties of the module *)

Section TableLemmas.

Lemma replace_each_nil (table : list (str * str)) :
  char_keys table = true -> Py.replace_each table [] = [].
Proof.
  unfold Py.replace_each.
  induction table as [|[k v] table IH]; [reflexivity|].
  cbn [char_keys forallb fst snd fold_left]. intros H.
  apply andb_prop in H as [Hk Ht].
  destruct k as [|k [|? ?]]; try discriminate. exact (IH Ht).
Qed.

Lemma replace_each_flat_map (table : list (str * str)) (s : str) :
  char_keys table = true ->
  Py.replace_each table s = flat_map (fun c => Py.replace_each table [c]) s.
Proof.
  intros Hk. induction s as [|c s IH].
  - now apply replace_each_nil.
  - change (c :: s) with ([c] ++ s).
    rewrite replace_each_app by assumption. cbn [flat_map app].
    now rewrite IH.
Qed.

Lemma replace_each_cat (t1 t2 : list (str * str)) (s : str) :
  Py.replace_each (t1 ++ t2) s = Py.replace_each t2 (Py.replace_each t1 s).
Proof. unfold Py.replace_each. apply fold_left_app. Qed.

Lemma is_key_false_absent (table : list (str * str)) (s : str) :
  char_keys table = true ->
  Forall (fun c => is_key table c = false) s ->
  Forall (fun kv => exists k, fst kv = [k] /\ ~ In k s) table.
Proof.
  intros Hk Hs. apply Forall_forall. intros [k v] Hkv.
  unfold char_keys in Hk. rewrite forallb_forall in Hk.
  specialize (Hk _ Hkv). cbn [fst] in *.
  destruct k as [|k [|? ?]]; try discriminate.
  exists k. split; [reflexivity|]. intros Hin.
  rewrite Forall_forall in Hs. specialize (Hs _ Hin).
  assert (is_key table k = true); [|congruence].
  apply existsb_exists. exists ([k], v). split; [assumption|].
  cbn [fst str_eqb]. now rewrite Z.eqb_refl.
Qed.

Lemma is_key_true_In (table : list (str * str)) (c : codepoint) :
  is_key table c = true -> exists v, In ([c], v) table.
Proof.
  intros H. apply existsb_exists in H as ([k v] & Hin & Hk).
  cbn [fst] in Hk. apply str_eqb_eq in Hk. subst k. now exists v.
Qed.

(** A closed table leaves none of its keys behind, and applying it again
    changes nothing. *)
Lemma closed_table_spec (table : list (str * str)) (s : str) :
  closed_table table = true ->
  Forall (fun c => is_key table c = false) (Py.replace_each table s)
  /\ Py.replace_each table (Py.replace_each table s) = Py.replace_each table s.
Proof.
  intros Hc. apply andb_prop in Hc as [Hk Hv].
  assert (Hkeys : Forall (fun c => is_key table c = false) (Py.replace_each table s)).
  { rewrite replace_each_flat_map by assumption.
    apply Forall_forall. intros d Hd. apply in_flat_map in Hd as (c & _ & Hd).
    destruct (is_key table c) eqn:Ec.
    - apply is_key_true_In in Ec as [v Hin].
      rewrite forallb_forall in Hv. specialize (Hv _ Hin). cbn [fst] in Hv.
      rewrite forallb_forall in Hv. specialize (Hv _ Hd).
      now apply negb_true_iff in Hv.
    - rewrite replace_each_absent in Hd.
      + destruct Hd as [<-|[]]. exact Ec.
      + apply is_key_false_absent; [assumption|]. now constructor. }
  split; [exact Hkeys|].
  apply replace_each_absent. now apply is_key_false_absent.
Qed.

End TableLemmas.

Section StripLemmas.

Import Unicode.

Lemma lstrip_suffix (s : str) :
  exists pre, s = pre ++ Py.lstrip s /\ Forall (fun c => isspace c = true) pre.
Proof.
  induction s as [|c s (pre & E & Hp)]; [now exists []|].
  cbn [Py.lstrip]. destruct (isspace c) eqn:Ec.
  - exists (c :: pre). split; [cbn [app]; now f_equal|now constructor].
  - now exists [].
Qed.

Lemma lstrip_head (s : str) :
  match Py.lstrip s with
  | c :: _ => isspace c = false
  | [] => True
  end.
Proof.
  induction s as [|c s IH]; [exact I|].
  cbn [Py.lstrip]. destruct (isspace c) eqn:Ec; [exact IH|exact Ec].
Qed.

Lemma lstrip_fixed (s : str) :
  match s with c :: _ => isspace c = false | [] => True end -> Py.lstrip s = s.
Proof. destruct s as [|c s]; [reflexivity|]. cbn [Py.lstrip]. now intros ->. Qed.

Lemma stripped_ends_inv (s : str) :
  stripped s ->
  match s with c :: _ => isspace c = false | [] => True end
  /\ match rev s with c :: _ => isspace c = false | [] => True end.
Proof.
  intros [|c Hc|c d m Hc Hd]; cbn [rev app]; auto.
  split; [assumption|]. rewrite rev_app_distr. cbn [rev app]. assumption.
Qed.

Lemma stripped_of_ends (s : str) :
  match s with c :: _ => isspace c = false | [] => True end ->
  match rev s with c :: _ => isspace c = false | [] => True end ->
  stripped s.
Proof.
  destruct s as [|c s]; [constructor|]. intros Hc Hr.
  destruct (rev s) as [|d m'] eqn:E.
  - apply (f_equal (@rev _)) in E. rewrite rev_involutive in E. subst s.
    now constructor.
  - apply (f_equal (@rev _)) in E. rewrite rev_involutive in E. subst s.
    cbn [rev] in *. rewrite rev_app_distr in Hr. cbn [rev app] in Hr.
    now constructor.
Qed.

Lemma strip_stripped (s : str) : stripped (Py.strip s).
Proof.
  unfold Py.strip. set (t := Py.lstrip s).
  set (u := Py.lstrip (rev t)).
  apply stripped_of_ends.
  - (* the head of [rev u] is the last of [u], a suffix of [rev t] *)
    destruct (lstrip_suffix (rev t)) as (pre & E & _). fold u in E.
    pose proof (lstrip_head s) as Hh. fold t in Hh.
    destruct u as [|x u'] eqn:Eu; [exact I|].
    assert (Ht : t = rev (x :: u') ++ rev pre).
    { rewrite <- rev_app_distr, <- E. now rewrite rev_involutive. }
    destruct (rev (x :: u')) as [|y z] eqn:Er.
    + apply (f_equal (@length _)) in Er. rewrite length_rev in Er. discriminate.
    + rewrite Ht in Hh. exact Hh.
  - rewrite rev_involutive. apply lstrip_head.
Qed.

Lemma strip_fixed (s : str) : stripped s -> Py.strip s = s.
Proof.
  intros Hs. apply stripped_ends_inv in Hs as [Hh Hl].
  unfold Py.strip. rewrite (lstrip_fixed s Hh), (lstrip_fixed (rev s) Hl).
  apply rev_involutive.
Qed.

Lemma strip_In (c : codepoint) (s : str) : In c (Py.strip s) -> In c s.
Proof.
  unfold Py.strip. intros H. apply in_rev in H.
  destruct (lstrip_suffix (rev (Py.lstrip s))) as (p1 & E1 & _).
  assert (H1 : In c (rev (Py.lstrip s))).
  { rewrite E1. apply in_or_app. now right. }
  apply in_rev in H1.
  destruct (lstrip_suffix s) as (p2 & E2 & _).
  rewrite E2. apply in_or_app. now right.
Qed.

End StripLemmas.

Section RunLemmas.

Variable cls : codepoint -> bool.
Variable sep : str.

Lemma sub_runs_head (c : codepoint) (s : str) :
  cls c = false ->
  Re.sub_runs cls [Re.Lit sep] [] (c :: s) = c :: Re.sub_runs cls [Re.Lit sep] [] s.
Proof. intros H. cbn [Re.sub_runs]. now rewrite H. Qed.

Lemma sub_runs_last (d : codepoint) (m : str) :
  cls d = false ->
  forall run, exists x, Re.sub_runs cls [Re.Lit sep] run (m ++ [d]) = x ++ [d].
Proof.
  intros Hd. induction m as [|c m IH]; intros run.
  - cbn [app Re.sub_runs]. rewrite Hd.
    exists (match run with [] => [] | _ => Re.expand [Re.Lit sep] (rev run) end).
    now destruct run.
  - cbn [app Re.sub_runs]. destruct (cls c).
    + apply IH.
    + destruct (IH []) as [x ->].
      exists (match run with [] => [] | _ => Re.expand [Re.Lit sep] (rev run) end
              ++ c :: x).
      now rewrite <- app_assoc.
Qed.

Lemma sub_runs_In (c : codepoint) (s : str) :
  forall run,
    In c (Re.sub_runs cls [Re.Lit sep] run s) -> (In c s /\ cls c = false) \/ In c sep.
Proof.
  assert (Hexp : forall run, In c (match run with
                                   | [] => []
                                   | _ => Re.expand [Re.Lit sep] (rev run)
                                   end) -> In c sep).
  { intros [|x run]; [intros []|]. cbn [Re.expand flat_map]. now rewrite app_nil_r. }
  induction s as [|x s IH]; intros run; cbn [Re.sub_runs].
  - intros H. right. eapply Hexp, H.
  - destruct (cls x) eqn:Ex.
    + intros H. destruct (IH _ H) as [[H1 H2]|H1]; [left; split; [now right|assumption]|now right].
    + intros H. apply in_app_or in H as [H|[<-|H]].
      * right. eapply Hexp, H.
      * left. split; [now left|assumption].
      * destruct (IH _ H) as [[H1 H2]|H1]; [left; split; [now right|assumption]|now right].
Qed.

Lemma sub_runs_fixed (s : str) :
  Forall (fun c => cls c = false) s -> Re.sub_runs cls [Re.Lit sep] [] s = s.
Proof.
  induction 1 as [|c s Hc _ IH]; [reflexivity|].
  rewrite sub_runs_head by assumption. now rewrite IH.
Qed.

End RunLemmas.

Section SeparatorLemmas.

Import Unicode.

Lemma isspace_space (c : codepoint) : isspace c = false -> is_space c = false.
Proof.
  intros H. unfold is_space. destruct (Z.eqb_spec c 0x20) as [->|_]; [|reflexivity].
  vm_compute in H. discriminate.
Qed.

(** Putting a separator without spaces between the words of a stripped
    text: no space is left, the ends stay, and doing it again changes
    nothing. *)
Lemma separated_spec (sep text : str) :
  ~ In 0x20 sep ->
  let r := Re.sub_runs is_space [Re.Lit sep] [] (Py.strip text) in
  ~ In 0x20 r
  /\ stripped r
  /\ Re.sub_runs is_space [Re.Lit sep] [] (Py.strip r) = r
  /\ hd_error r = hd_error (Py.strip text)
  /\ hd_error (rev r) = hd_error (rev (Py.strip text)).
Proof.
  intros Hsep r.
  assert (Hno : ~ In 0x20 r).
  { intros H. apply sub_runs_In in H as [[_ H]|H]; [discriminate|contradiction]. }
  assert (Hshape : stripped r /\ hd_error r = hd_error (Py.strip text)
                   /\ hd_error (rev r) = hd_error (rev (Py.strip text))).
  { unfold r. destruct (strip_stripped text) as [|c Hc|c d m Hc Hd].
    - repeat split. constructor.
    - rewrite sub_runs_head by now apply isspace_space.
      repeat split. now constructor.
    - rewrite sub_runs_head by now apply isspace_space.
      destruct (sub_runs_last is_space sep d m (isspace_space d Hd) []) as [x ->].
      repeat split.
      + now constructor.
      + change (c :: x ++ [d]) with ((c :: x) ++ [d]).
        change (c :: m ++ [d]) with ((c :: m) ++ [d]).
        now rewrite !rev_app_distr. }
  destruct Hshape as (Hs & Hh & Hl).
  repeat split; try assumption.
  rewrite strip_fixed by assumption. apply sub_runs_fixed.
  apply Forall_forall. intros c Hc. unfold is_space.
  destruct (Z.eqb_spec c 0x20) as [->|_]; [contradiction|reflexivity].
Qed.

End SeparatorLemmas.

(** * Punctuation and word separators *)

Section PunctuationLemmas.

Lemma modern_punctuation_closed : closed_table modern_punctuation = true.
Proof. vm_compute. reflexivity. Qed.

Lemma doubled_cons (c x y : codepoint) (r : str) :
  doubled c (x :: y :: r) = ((x =? c) && (y =? c)) || doubled c (y :: r).
Proof. reflexivity. Qed.

Lemma doubled_app_inv (c : codepoint) (a b : str) :
  doubled c (a ++ b) = false -> doubled c a = false /\ doubled c b = false.
Proof.
  induction a as [|x a IH]; [now split|].
  destruct a as [|y a].
  - cbn [app]. intros H. split; [reflexivity|].
    destruct b as [|z b]; [reflexivity|].
    rewrite doubled_cons in H. now apply orb_false_iff in H as [_ H].
  - change ((x :: y :: a) ++ b) with (x :: y :: a ++ b).
    rewrite !doubled_cons. intros H. apply orb_false_iff in H as [H1 H2].
    destruct (IH H2) as [Ha Hb]. split; [|assumption].
    now rewrite H1, Ha.
Qed.

(** [strip] returns a piece of its argument. *)
Lemma strip_infix (s : str) : exists pre post, s = pre ++ Py.strip s ++ post.
Proof.
  unfold Py.strip.
  destruct (lstrip_suffix s) as (p1 & E1 & _).
  destruct (lstrip_suffix (rev (Py.lstrip s))) as (p2 & E2 & _).
  exists p1, (rev p2).
  rewrite <- rev_app_distr, <- E2, rev_involutive. exact E1.
Qed.

Lemma doubled_skip (c x : codepoint) (r : str) :
  (x =? c) = false \/ match r with y :: _ => (y =? c) = false | [] => True end ->
  doubled c (x :: r) = doubled c r.
Proof.
  destruct r as [|y r]; [reflexivity|]. rewrite doubled_cons.
  intros [->| ->]; [reflexivity|]. now rewrite andb_false_r.
Qed.

Lemma expand_space (run : str) : Re.expand [Re.Lit [0x20]] run = [0x20].
Proof. reflexivity. Qed.

(** Collapsing the runs of spaces to one space leaves no two spaces side
    by side. *)
Lemma collapse_not_doubled (s : str) :
  forall run,
    let r := Re.sub_runs is_space [Re.Lit [0x20]] run s in
    doubled 0x20 r = false
    /\ (run <> [] ->
        exists t, r = 0x20 :: t
                  /\ match t with y :: _ => (y =? 0x20) = false | [] => True end).
Proof.
  induction s as [|c s IH]; intros run; cbv zeta; cbn [Re.sub_runs].
  - destruct run as [|x run].
    + split; [reflexivity|]. intros H. now elim H.
    + rewrite expand_space. split; [reflexivity|]. intros _. now exists [].
  - destruct (is_space c) eqn:Ec.
    + destruct (IH (c :: run)) as [H1 H2]. split; [exact H1|].
      intros _. apply H2. discriminate.
    + destruct (IH []) as [H1 _]. cbv zeta in H1. unfold is_space in Ec.
      assert (Hc : doubled 0x20 (c :: Re.sub_runs is_space [Re.Lit [0x20]] [] s) = false).
      { rewrite doubled_skip by now left. exact H1. }
      destruct run as [|x run].
      * cbn [app]. split; [exact Hc|]. intros H. now elim H.
      * rewrite expand_space. cbn [app]. split.
        -- rewrite doubled_skip by now right. exact Hc.
        -- intros _. eexists. split; [reflexivity|exact Ec].
Qed.

(** Where no two spaces stand side by side, collapsing changes nothing. *)
Lemma collapse_fixed_from (s : str) :
  doubled 0x20 s = false ->
  Re.sub_runs is_space [Re.Lit [0x20]] [] s = s
  /\ forall x, match s with y :: _ => (y =? 0x20) = false | [] => True end ->
               Re.sub_runs is_space [Re.Lit [0x20]] [x] s = 0x20 :: s.
Proof.
  induction s as [|c s IH]; intros Hd; [now split|].
  assert (Hs : doubled 0x20 s = false).
  { destruct s as [|y s]; [reflexivity|]. rewrite doubled_cons in Hd.
    now apply orb_false_iff in Hd as [_ Hd]. }
  destruct (IH Hs) as [IH1 IH2].
  cbn [Re.sub_runs]. destruct (is_space c) eqn:Ec; unfold is_space in Ec.
  - apply Z.eqb_eq in Ec. subst c. split.
    + apply IH2. destruct s as [|y s]; [exact I|].
      rewrite doubled_cons in Hd. apply orb_false_iff in Hd as [Hd _].
      now rewrite Z.eqb_refl in Hd.
    + intros x Hx. discriminate.
  - rewrite IH1. split; [reflexivity|]. intros x _. now rewrite expand_space.
Qed.

Lemma collapse_fixed (s : str) :
  doubled 0x20 s = false ->
  Re.sub_runs is_space [Re.Lit [0x20]] [] s = s.
Proof. intros Hd. now apply collapse_fixed_from. Qed.

End PunctuationLemmas.

(** X1.  [remove_modern_punctuation] returns a text with none of the
    fourteen marks of its table, with no two spaces side by side and with
    no whitespace at either end; applied to its own result it changes
    nothing. *)
Theorem remove_modern_punctuation_clean (text language_code r : str) :
  remove_modern_punctuation text language_code = Ok r ->
  (forall mark, In mark (map fst modern_punctuation) ->
     forall c, In c mark -> ~ In c r)
  /\ doubled 0x20 r = false
  /\ stripped r
  /\ remove_modern_punctuation r language_code = Ok r.
Proof.
  rewrite remove_modern_punctuation_eq. change (utf8 " ") with [0x20]. intros [= <-].
  set (r1 := Py.replace_each modern_punctuation text).
  set (r2 := Re.sub_runs is_space [Re.Lit [0x20]] [] r1).
  destruct (closed_table_spec modern_punctuation text modern_punctuation_closed)
    as [Hk1 _]. fold r1 in Hk1.
  assert (Hk2 : Forall (fun c => is_key modern_punctuation c = false) r2).
  { apply Forall_forall. intros c Hc. apply sub_runs_In in Hc as [[Hc _]|Hc].
    - rewrite Forall_forall in Hk1. now apply Hk1.
    - destruct Hc as [<-|[]]. reflexivity. }
  assert (Hk : Forall (fun c => is_key modern_punctuation c = false) (Py.strip r2)).
  { apply Forall_forall. intros c Hc. apply strip_In in Hc.
    rewrite Forall_forall in Hk2. now apply Hk2. }
  assert (Hd : doubled 0x20 (Py.strip r2) = false).
  { destruct (strip_infix r2) as (pre & post & E).
    destruct (collapse_not_doubled r1 []) as [H _]. cbv zeta in H. fold r2 in H.
    rewrite E in H. apply doubled_app_inv in H as [_ H].
    now apply doubled_app_inv in H as [H _]. }
  split; [|split; [exact Hd|split; [apply strip_stripped|]]].
  - intros mark Hm c Hc Hin.
    apply in_map_iff in Hm as ([k v] & <- & Hkv). cbn [fst] in Hc.
    rewrite Forall_forall in Hk. specialize (Hk _ Hin).
    pose proof modern_punctuation_closed as Hcl.
    apply andb_prop in Hcl as [Hck _].
    unfold char_keys in Hck. rewrite forallb_forall in Hck.
    specialize (Hck _ Hkv). cbn [fst] in Hck.
    destruct k as [|k [|? ?]]; try discriminate.
    destruct Hc as [<-|[]].
    assert (is_key modern_punctuation k = true); [|congruence].
    apply existsb_exists. exists ([k], v). split; [assumption|].
    cbn [fst str_eqb]. now rewrite Z.eqb_refl.
  - rewrite remove_modern_punctuation_eq. f_equal.
    rewrite replace_each_absent
      by (apply is_key_false_absent; [reflexivity|exact Hk]).
    change (utf8 " ") with [0x20].
    rewrite collapse_fixed by exact Hd.
    apply strip_fixed, strip_stripped.
Qed.

Lemma remove_modern_punctuation_clean_witness :
  remove_modern_punctuation (utf8 "SALVE,  AMICE. ") (utf8 "lat") = Ok (utf8 "SALVE AMICE")
  /\ remove_modern_punctuation (utf8 "SALVE AMICE") (utf8 "lat") = Ok (utf8 "SALVE AMICE").
Proof.
  split; [vm_compute; reflexivity|].
  apply (remove_modern_punctuation_clean (utf8 "SALVE,  AMICE. ") (utf8 "lat")).
  vm_compute. reflexivity.
Defined.

(** X2.  The word separators leave no space behind: what
    [apply_interpunct], [apply_ethiopic_word_separator],
    [apply_ugaritic_word_divider] and [apply_gothic_interpunct] return has
    no U+0020 and no whitespace at either end, and so has what
    [_apply_word_separator] returns for a separator without a space and
    without a backslash;
    [apply_tibetan_tsheg] returns a text without a space unless the text
    has a tsheg already, and then it returns the text as it is. *)
Theorem word_separators_leave_no_space (text : str) :
  (forall r, apply_interpunct text = Ok r -> ~ In 0x20 r /\ stripped r)
  /\ (forall r, apply_ethiopic_word_separator text = Ok r -> ~ In 0x20 r /\ stripped r)
  /\ (forall r, apply_ugaritic_word_divider text = Ok r -> ~ In 0x20 r /\ stripped r)
  /\ (forall r, apply_gothic_interpunct text = Ok r -> ~ In 0x20 r /\ stripped r)
  /\ (forall separator r,
        ~ In 0x20 separator -> ~ In Re.backslash separator ->
        _apply_word_separator text separator = Ok r ->
        ~ In 0x20 r /\ stripped r)
  /\ (forall r, apply_tibetan_tsheg text = Ok r ->
        if Py.contains 0x0F0B text then r = text else ~ In 0x20 r).
Proof.
  assert (Hfix : forall sep r,
             existsb (Z.eqb Re.backslash) sep = false -> ~ In 0x20 sep ->
             Re.sub_plus is_space sep (Py.strip text) = Ok r ->
             ~ In 0x20 r /\ stripped r).
  { intros sep r Hb Hs. rewrite sub_plus_literal by assumption. intros [= <-].
    destruct (separated_spec sep text Hs) as (H1 & H2 & _). now split. }
  split; [|split; [|split; [|split; [|split]]]].
  - intros r. apply Hfix; [reflexivity|]. vm_compute. intuition discriminate.
  - intros r. apply Hfix; [reflexivity|]. vm_compute. intuition discriminate.
  - intros r. apply Hfix; [reflexivity|]. vm_compute. intuition discriminate.
  - intros r. apply Hfix; [reflexivity|]. vm_compute. intuition discriminate.
  - intros separator r Hs Hb. apply Hfix; [now apply existsb_backslash|assumption].
  - intros r. unfold apply_tibetan_tsheg.
    destruct (Py.contains 0x0F0B text); cbn [negb].
    + now intros [= <-].
    + rewrite sub_plus_literal by reflexivity. intros [= <-].
      intros H. apply sub_runs_In in H as [[_ H]|H]; [discriminate|].
      vm_compute in H. intuition discriminate.
Qed.

(** X3.  [apply_interpunct] is idempotent, and it puts no interpunct at
    the ends that the text does not have there: the result begins and ends
    with the first and the last character of the text that are no
    whitespace.  So for a text without an interpunct the result neither
    begins nor ends with one. *)
Theorem apply_interpunct_ends (text r : str) :
  apply_interpunct text = Ok r ->
  apply_interpunct r = Ok r
  /\ hd_error r = hd_error (Py.strip text)
  /\ hd_error (rev r) = hd_error (rev (Py.strip text))
  /\ (~ In 0xB7 text -> hd_error r <> Some 0xB7 /\ hd_error (rev r) <> Some 0xB7).
Proof.
  rewrite apply_interpunct_eq. intros [= <-].
  assert (Hsep : ~ In 0x20 (utf8 "·")) by (vm_compute; intuition discriminate).
  destruct (separated_spec (utf8 "·") text Hsep) as (_ & _ & Hi & Hh & Hl).
  cbv zeta in *.
  split; [|split; [exact Hh|split; [exact Hl|]]].
  - rewrite apply_interpunct_eq. now rewrite Hi.
  - intros Hno. rewrite Hh, Hl.
    assert (Hs : ~ In 0xB7 (Py.strip text)).
    { intros H. apply strip_In in H. contradiction. }
    split.
    + intros H. apply Hs. revert H.
      destruct (Py.strip text) as [|c s]; cbn [hd_error In]; [discriminate|].
      intros H. left. congruence.
    + intros H. apply Hs. apply (proj2 (in_rev (Py.strip text) 0xB7)). revert H.
      destruct (rev (Py.strip text)) as [|c s]; cbn [hd_error In]; [discriminate|].
      intros H. left. congruence.
Qed.

Lemma apply_interpunct_ends_witness :
  apply_interpunct (utf8 "ARMA·VIRVMQVE·CANO") = Ok (utf8 "ARMA·VIRVMQVE·CANO").
Proof.
  apply (apply_interpunct_ends (utf8 "  ARMA VIRVMQVE   CANO ")).
  vm_compute. reflexivity.
Defined.

Section CharTables.

Lemma replace_char_length (k v : codepoint) (s : str) :
  length (Py.replace [k] [v] s) = length s.
Proof.
  rewrite replace_char. induction s as [|c s IH]; [reflexivity|].
  cbn [flat_map]. rewrite length_app, IH. now destruct (k =? c).
Qed.

Lemma replace_char_length_le (k : codepoint) (v s : str) :
  v <> [] -> (length s <= length (Py.replace [k] v s))%nat.
Proof.
  intros Hv. rewrite replace_char. induction s as [|c s IH]; [reflexivity|].
  cbn [flat_map]. rewrite length_app. destruct (k =? c); cbn [length].
  - destruct v; [contradiction|]. cbn [length]. lia.
  - lia.
Qed.

Lemma replace_each_length (table : list (str * str)) (s : str) :
  forallb (fun kv => match fst kv, snd kv with [_], [_] => true | _, _ => false end)
    table = true ->
  length (Py.replace_each table s) = length s.
Proof.
  unfold Py.replace_each. revert s.
  induction table as [|[k v] table IH]; intros s H; [reflexivity|].
  cbn [forallb fst snd fold_left] in *. apply andb_prop in H as [Hk Ht].
  destruct k as [|k [|? ?]]; try discriminate.
  destruct v as [|v [|? ?]]; try discriminate.
  rewrite IH by assumption. apply replace_char_length.
Qed.

Lemma replace_each_length_le (table : list (str * str)) (s : str) :
  forallb (fun kv => match fst kv, snd kv with [_], _ :: _ => true | _, _ => false end)
    table = true ->
  (length s <= length (Py.replace_each table s))%nat.
Proof.
  unfold Py.replace_each. revert s.
  induction table as [|[k v] table IH]; intros s H; [reflexivity|].
  cbn [forallb fst snd fold_left] in *. apply andb_prop in H as [Hk Ht].
  destruct k as [|k [|? ?]]; try discriminate.
  destruct v as [|v0 v]; try discriminate.
  etransitivity; [|apply IH; assumption].
  apply replace_char_length_le. discriminate.
Qed.

Lemma not_key_not_In (table : list (str * str)) (r : str) :
  Forall (fun c => is_key table c = false) r ->
  forall key, In key (map fst table) -> forall c, key = [c] -> ~ In c r.
Proof.
  intros Hr key Hk c -> Hin.
  apply in_map_iff in Hk as ([k v] & Ek & Hkv). cbn [fst] in Ek. subst k.
  rewrite Forall_forall in Hr. specialize (Hr _ Hin).
  assert (is_key table c = true); [|congruence].
  apply existsb_exists. exists ([c], v). split; [assumption|].
  cbn [fst str_eqb]. now rewrite Z.eqb_refl.
Qed.

End CharTables.

(** X4.  [convert_lunate_sigma_to_regular] leaves none of the five lunate
    sigma code points (U+03F9, U+03F2, U+03FD, U+037C, U+037D) in the
    text, keeps its length, and is idempotent. *)
Theorem convert_lunate_sigma_to_regular_spec (text : str) :
  let r := convert_lunate_sigma_to_regular text in
  (forall c, In c [0x03F9; 0x03F2; 0x03FD; 0x037C; 0x037D] -> ~ In c r)
  /\ length r = length text
  /\ convert_lunate_sigma_to_regular r = r.
Proof.
  cbv zeta. unfold convert_lunate_sigma_to_regular.
  set (table := [ ([0x03F9], utf8 "Σ"); ([0x03F2], utf8 "σ"); ([0x03FD], utf8 "Σ");
                  ([0x037C], utf8 "σ"); ([0x037D], utf8 "σ") ]).
  assert (Hc : closed_table table = true) by (vm_compute; reflexivity).
  destruct (closed_table_spec table text Hc) as [Hk Hi].
  split; [|split; [|exact Hi]].
  - intros c Hin. apply (not_key_not_In table _ Hk [c]); [|reflexivity].
    cbn [In] in Hin. cbn [map fst table In].
    intuition (subst; auto).
  - apply replace_each_length. vm_compute. reflexivity.
Qed.

(** X5.  [apply_latin_character_normalization] leaves none of J, j, U, u,
    W, w, Æ, æ, Œ, œ in the text and is idempotent. *)
Theorem apply_latin_character_normalization_spec (text : str) :
  let r := apply_latin_character_normalization text in
  (forall c, In c (utf8 "JjUuWwÆæŒœ") -> ~ In c r)
  /\ apply_latin_character_normalization r = r.
Proof.
  cbv zeta. unfold apply_latin_character_normalization.
  assert (Hc : closed_table latin_normalizations = true) by (vm_compute; reflexivity).
  destruct (closed_table_spec latin_normalizations text Hc) as [Hk Hi].
  split; [|exact Hi].
  intros c Hin. apply (not_key_not_In latin_normalizations _ Hk [c]); [|reflexivity].
  change (utf8 "JjUuWwÆæŒœ") with [74; 106; 85; 117; 87; 119; 198; 230; 338; 339] in Hin.
  change (map fst latin_normalizations)
    with [[74]; [106]; [85]; [117]; [87]; [119]; [198]; [230]; [338]; [339]].
  cbn [In] in *. intuition (subst; auto 12).
Qed.

(** X6.  [convert_iota_subscript_to_adscript] leaves none of the 65 code
    points of its two tables in the text, never shortens it, and is
    idempotent. *)
Theorem convert_iota_subscript_to_adscript_spec (text : str) :
  let r := convert_iota_subscript_to_adscript text in
  (forall key, In key (map fst (lowercase_map ++ uppercase_map)) ->
     forall c, In c key -> ~ In c r)
  /\ (length text <= length r)%nat
  /\ convert_iota_subscript_to_adscript r = r.
Proof.
  cbv zeta.
  assert (E : forall s, convert_iota_subscript_to_adscript s
                        = Py.replace_each (lowercase_map ++ uppercase_map) s).
  { intros s. unfold convert_iota_subscript_to_adscript. now rewrite replace_each_cat. }
  rewrite !E.
  assert (Hc : closed_table (lowercase_map ++ uppercase_map) = true)
    by (vm_compute; reflexivity).
  destruct (closed_table_spec _ text Hc) as [Hk Hi].
  split; [|split; [|exact Hi]].
  - intros key Hkey c Hc'.
    assert (key = [c]).
    { apply andb_prop in Hc as [Hck _]. unfold char_keys in Hck.
      rewrite forallb_forall in Hck.
      apply in_map_iff in Hkey as ([k v] & Ek & Hkv). cbn [fst] in Ek. subst k.
      specialize (Hck _ Hkv). cbn [fst] in Hck.
      destruct key as [|k [|? ?]]; try discriminate.
      destruct Hc' as [->|[]]. reflexivity. }
    now apply (not_key_not_In _ _ Hk key).
  - apply replace_each_length_le. vm_compute. reflexivity.
Qed.

Section Ogham.

Lemma endswith_char (e : codepoint) (s : str) :
  Py.endswith [e] (s ++ [e]) = true.
Proof.
  unfold Py.endswith. rewrite rev_app_distr. cbn [rev app startswith].
  now rewrite Z.eqb_refl.
Qed.

Lemma startswith_char_app (c : codepoint) (s t : str) :
  startswith [c] s = true -> startswith [c] (s ++ t) = true.
Proof. destruct s as [|x s]; [discriminate|]. cbn [app startswith]. auto. Qed.

End Ogham.

(** X7.  What [apply_ogham_markers] returns begins with the Ogham start
    mark ᚛ and ends with the end mark ᚜, and marking it again changes
    nothing. *)
Theorem apply_ogham_markers_spec (text : str) :
  let r := apply_ogham_markers text in
  startswith (utf8 "᚛") r = true
  /\ Py.endswith (utf8 "᚜") r = true
  /\ apply_ogham_markers r = r.
Proof.
  cbv zeta. change (utf8 "᚛") with [0x169B]. change (utf8 "᚜") with [0x169C].
  assert (H : startswith [0x169B] (apply_ogham_markers text) = true
              /\ Py.endswith [0x169C] (apply_ogham_markers text) = true).
  { unfold apply_ogham_markers. cbv zeta.
    change (utf8 "᚛") with [0x169B]. change (utf8 "᚜") with [0x169C].
    match goal with |- context [Py.endswith _ ?t] => set (t1 := t) end.
    assert (H1 : startswith [0x169B] t1 = true).
    { unfold t1. destruct (startswith [0x169B] text) eqn:E; [exact E|reflexivity]. }
    destruct (Py.endswith [0x169C] t1) eqn:E2; cbn [negb].
    - now split.
    - split; [now apply startswith_char_app|apply endswith_char]. }
  destruct H as [Hs He]. split; [exact Hs|split; [exact He|]].
  unfold apply_ogham_markers at 1. cbv zeta.
  change (utf8 "᚛") with [0x169B]. change (utf8 "᚜") with [0x169C].
  rewrite Hs. cbn [negb]. now rewrite He.
Qed.

(** * The alphabet of a language *)

Section AlphabetLemmas.

Import Unicode.

Lemma contains_false (c : codepoint) (s : str) : Py.contains c s = false -> ~ In c s.
Proof.
  intros H Hin. rewrite (contains_In c s Hin) in H. discriminate.
Qed.






End AlphabetLemmas.


(** * The authenticity check at and above the threshold *)

(** X9.  [validate_script_authenticity] accepts a text whose uppercase
    characters are at least 0.8 of its alphabetic characters (the threshold
    is inclusive, for a text of any length), or any text when the rules'
    case is not "upper", provided the rules do not set [char_v_for_u] or
    the text has neither "U" nor "u". *)
Theorem validate_script_authenticity_accepts
    (get_language_config : str -> LanguageConfig) (text language_code : str) :
  let config := script (get_language_config language_code) in
  case config <> case_upper
  \/ 4 * Z.max 1 (Py.count Unicode.isalpha text) <= 5 * Py.count Unicode.isupper text ->
  char_v_for_u config = false \/ (~ In 0x55 text /\ ~ In 0x75 text) ->
  validate_script_authenticity get_language_config text language_code = true.
Proof.
  cbv zeta. intros Hc Hv.
  destruct text as [|c0 text0] eqn:Et; [reflexivity|]. rewrite <- Et in *.
  assert (Hne : text <> []) by (rewrite Et; discriminate).
  rewrite validate_script_authenticity_eq by assumption. cbv zeta.
  assert (E2 : char_v_for_u (script (get_language_config language_code))
               && (Py.contains 0x55 text || Py.contains 0x75 text) = false).
  { destruct Hv as [-> | [H1 H2]]; [reflexivity|].
    destruct (Py.contains 0x55 text) eqn:E55.
    - exfalso. apply H1. unfold Py.contains in E55. apply existsb_exists in E55
        as (x & Hx & Ex). apply Z.eqb_eq in Ex. now subst.
    - destruct (Py.contains 0x75 text) eqn:E75; [|apply andb_false_r].
      exfalso. apply H2. unfold Py.contains in E75. apply existsb_exists in E75
        as (x & Hx & Ex). apply Z.eqb_eq in Ex. now subst. }
  rewrite E2. cbn [negb]. rewrite andb_true_r.
  destruct (case (script (get_language_config language_code))) eqn:Ec; try reflexivity.
  destruct Hc as [Hc|Hc]; [now elim Hc|].
  apply negb_true_iff. apply Z.ltb_ge.
  change (2 ^ 54) with 18014398509481984. lia.
Qed.

Lemma validate_script_authenticity_accepts_witness :
  validate_script_authenticity (fun _ => grc_config) (utf8 "ΘΕΟΣ a") (utf8 "grc") = true.
Proof.
  apply validate_script_authenticity_accepts.
  - right. vm_compute. discriminate.
  - left. reflexivity.
Defined.

(** * What stripping leaves *)

Section ComposeLemmas.

Import Unicode Normalization.

Lemma canonical_order_In (c : codepoint) (s : str) :
  In c (canonical_order s) -> In c s.
Proof.
  pose proof (canonical_order_Forall (fun x => In x s) s) as H.
  rewrite !Forall_forall in H. intros Hc. apply (H (fun x Hx => Hx)), Hc.
Qed.

(** A character of a composed string was there before or is a composite. *)
Lemma compose_from_In (c : codepoint) (s : str) :
  forall starter marks,
    In c (compose_from starter marks s) ->
    c = starter \/ In c marks \/ In c s \/ exists a b, compose_pair a b = Some c.
Proof.
  induction s as [|x r IH]; intros starter marks; cbn [compose_from].
  - intros [<-|H]; auto.
  - set (blocked := match marks with [] => false | _ => _ end).
    destruct (if blocked then None else compose_pair starter x) as [p|] eqn:Hp.
    + intros H. destruct (IH _ _ H) as [->|[H1|[H1|H1]]].
      * do 3 right. destruct blocked; [discriminate|]. now exists starter, x.
      * auto.
      * right. right. left. now right.
      * auto.
    + destruct (combining x =? 0).
      * intros [<-|H]; [now left|].
        apply in_app_or in H as [H|H]; [auto|].
        destruct (IH _ _ H) as [->|[[]|[H1|H1]]].
        -- right. right. left. now left.
        -- right. right. left. now right.
        -- auto.
      * intros H. destruct (IH _ _ H) as [->|[H1|[H1|H1]]].
        -- now left.
        -- apply in_app_or in H1 as [H1|[<-|[]]]; [auto|].
           right. right. left. now left.
        -- right. right. left. now right.
        -- auto.
Qed.

Lemma compose_In (c : codepoint) (s : str) :
  In c (compose s) -> In c s \/ exists a b, compose_pair a b = Some c.
Proof.
  induction s as [|x r IH]; [intros []|]. cbn [compose].
  destruct (combining x =? 0).
  - intros H. destruct (compose_from_In _ _ _ _ H) as [->|[[]|[H1|H1]]].
    + left. now left.
    + left. now right.
    + now right.
  - intros [<-|H]; [left; now left|].
    destruct (IH H) as [H1|H1]; [left; now right|now right].
Qed.

Lemma composites_outside_marks :
  forallb (fun e => match e with
                    | (_, _, p) =>
                      negb (in_range 0x0591 0x05C7 p || in_range 0x0730 0x074A p
                            || in_range 0x064B 0x065F p)
                    end) UCD.composition_table = true.
Proof. vm_compute. reflexivity. Qed.

Lemma hangul_not_Mn :
  forallb (fun r => (snd r <? 0xAC00) || (0xD7A3 <? fst r)) UCD.Mn_ranges = true.
Proof. vm_compute. reflexivity. Qed.

Lemma in_ranges_outside (rs : list (Z * Z)) (lo hi c : Z) :
  forallb (fun r => (snd r <? lo) || (hi <? fst r)) rs = true ->
  lo <= c <= hi -> in_ranges rs c = false.
Proof.
  unfold in_ranges. induction rs as [|[a b] rs IH]; [reflexivity|].
  cbn [forallb existsb fst snd]. intros H Hc. apply andb_prop in H as [H1 H2].
  rewrite IH by assumption. rewrite orb_false_r.
  apply orb_prop in H1 as [H1|H1]; apply Z.ltb_lt in H1.
  - destruct (Z.leb_spec c b); [lia|apply andb_false_r].
  - destruct (Z.leb_spec a c); [lia|reflexivity].
Qed.

Lemma in_range_spec (lo hi c : codepoint) : in_range lo hi c = true <-> lo <= c <= hi.
Proof.
  unfold in_range. rewrite andb_true_iff, !Z.leb_le. tauto.
Qed.

(** A composite lies outside the three vowel-point ranges. *)
Lemma composite_outside (a b p : codepoint) :
  compose_pair a b = Some p ->
  in_range 0x0591 0x05C7 p || in_range 0x0730 0x074A p || in_range 0x064B 0x065F p = false.
Proof.
  assert (Hh : forall q, 0xAC00 <= q ->
                 in_range 0x0591 0x05C7 q || in_range 0x0730 0x074A q
                 || in_range 0x064B 0x065F q = false).
  { intros q Hq. unfold in_range.
    destruct (Z.leb_spec q 0x05C7), (Z.leb_spec q 0x074A), (Z.leb_spec q 0x065F);
      try lia; try (now rewrite !andb_false_r). }
  unfold compose_pair.
  destruct ((LBase <=? a) && (a <? LBase + LCount) && (VBase <=? b) && (b <? VBase + VCount))
    eqn:ELV.
  - intros Hp. apply Some_eq in Hp. subst p.
    apply andb_prop in ELV as [ELV H4]. apply andb_prop in ELV as [ELV H3].
    apply andb_prop in ELV as [H1 H2].
    apply Z.leb_le in H1, H3. apply Z.ltb_lt in H2, H4.
    unfold LBase, LCount in H1, H2. unfold VBase, VCount in H3, H4.
    apply Hh. unfold SBase, LBase, VBase, VCount, TCount. lia.
  - clear ELV.
    destruct (is_hangul_syllable a && ((a - SBase) mod TCount =? 0)
              && (TBase <? b) && (b <? TBase + TCount)) eqn:ELVT.
    + intros Hp. apply Some_eq in Hp. subst p.
      apply andb_prop in ELVT as [ELVT H4]. apply andb_prop in ELVT as [ELVT H3].
      apply andb_prop in ELVT as [H1 H2].
      apply Z.ltb_lt in H3, H4.
      unfold is_hangul_syllable in H1. apply andb_prop in H1 as [Ha1 Ha2].
      apply Z.leb_le in Ha1.
      unfold SBase, TBase in *. apply Hh. lia.
    + clear ELVT. intros Hc.
      pose proof composites_outside_marks as Ht. rewrite forallb_forall in Ht.
      specialize (Ht _ (composite_in_In _ _ _ _ Hc)). cbv beta iota in Ht.
      now apply negb_true_iff in Ht.
Qed.

(** Deleting one of the three ranges between decomposition and
    recomposition: no code point of the range is left. *)
Lemma delete_range_spec (lo hi : codepoint) (text r : str) :
  (forall p, in_range 0x0591 0x05C7 p || in_range 0x0730 0x074A p
             || in_range 0x064B 0x065F p = false -> in_range lo hi p = false) ->
  (result <- Re.sub_each (in_range lo hi) [] (NFD text) ;; Ok (NFC result)) = Ok r ->
  forall c, In c r -> ~ (lo <= c <= hi).
Proof.
  intros Hsub. unfold Re.sub_each.
  rewrite parse_template_literal by reflexivity. cbn [bind]. intros Hr.
  assert (Er : r = NFC (flat_map (fun c => if in_range lo hi c
                                           then Re.expand [Re.Lit []] [c] else [c])
                          (NFD text))) by congruence.
  clear Hr. subst r.
  set (f := flat_map _ (NFD text)).
  assert (Hf : forall c, In c f -> decomposed c /\ in_range lo hi c = false).
  { intros c Hc. unfold f in Hc. apply in_flat_map in Hc as (x & Hx & Hc).
    destruct (in_range lo hi x) eqn:Ex; [destruct Hc|].
    destruct Hc as [<-|[]]. split; [|exact Ex].
    pose proof (NFD_decomposed text) as Hd. rewrite Forall_forall in Hd. now apply Hd. }
  intros c Hc. unfold NFC, NFD in Hc.
  rewrite flat_map_decomposition_id in Hc
    by (apply Forall_forall; intros x Hx; now apply Hf).
  intros Hin. apply in_range_spec in Hin.
  apply compose_In in Hc as [Hc|(a & b & Hc)].
  - apply canonical_order_In in Hc. destruct (Hf _ Hc) as [_ Hr]. congruence.
  - apply composite_outside, Hsub in Hc. congruence.
Qed.

End ComposeLemmas.

(** X10.  The vowel-point strippers leave no code point of their range:
    [remove_hebrew_vowel_points] none of U+0591..U+05C7,
    [remove_syriac_vowel_points] none of U+0730..U+074A and
    [remove_arabic_diacritics_full] none of U+064B..U+065F, also after the
    recomposition. *)
Theorem vowel_points_removed (text : str) :
  (forall r, remove_hebrew_vowel_points text = Ok r ->
     forall c, In c r -> ~ (0x0591 <= c <= 0x05C7))
  /\ (forall r, remove_syriac_vowel_points text = Ok r ->
        forall c, In c r -> ~ (0x0730 <= c <= 0x074A))
  /\ (forall r, remove_arabic_diacritics_full text = Ok r ->
        forall c, In c r -> ~ (0x064B <= c <= 0x065F)).
Proof.
  repeat split; intros r Hr; eapply delete_range_spec; try exact Hr;
    intros p Hp; apply orb_false_iff in Hp as [Hp H3];
    apply orb_false_iff in Hp as [H1 H2]; assumption.
Qed.

Section RemoveAccents.

Import Unicode Normalization.

Lemma Mn_decompositions_carry_marks :
  forallb (fun kv => negb (is_Mn (fst kv)) || existsb is_Mn (snd kv))
    UCD.decomposition_table = true.
Proof. vm_compute. reflexivity. Qed.

(** What [_remove_accents] returns: the composition of a string in
    canonical order that has no marks, and that the decomposition gives
    back. *)
Lemma remove_accents_shape (text : str) :
  exists w, Forall unmarked w
            /\ canonical_order w = w
            /\ _remove_accents text = compose w
            /\ flat_map decomposition (compose w) = w.
Proof.
  set (f := filter (fun c => negb (is_Mn c))
              (NFD (Py.replace_each greek_monotonic_map text))).
  assert (Hf : Forall unmarked f) by apply filter_unmarked, NFD_decomposed.
  exists (canonical_order f).
  assert (Hw : Forall unmarked (canonical_order f)) by now apply canonical_order_Forall.
  repeat split.
  - exact Hw.
  - apply canonical_order_idempotent.
  - unfold _remove_accents, NFC, NFD. fold f.
    rewrite flat_map_decomposition_id; [reflexivity|].
    eapply Forall_impl; [|exact Hf]. now intros ? [? _].
  - now apply compose_decomposition.
Qed.

End RemoveAccents.

(** X11.  What [_remove_accents] returns has no nonspacing mark (no
    character of category Mn) and is in normalization form C:
    [unicodedata.normalize("NFC", ...)] does not change it. *)
Theorem remove_accents_clean (text : str) :
  let r := _remove_accents text in
  Forall (fun c => Unicode.is_Mn c = false) r
  /\ Unicode.NFC r = r.
Proof.
  cbv zeta. destruct (remove_accents_shape text) as (w & Hw & Ho & -> & Hd).
  split.
  - apply Forall_forall. intros c Hc.
    destruct (Unicode.is_Mn c) eqn:Em; [exfalso|reflexivity].
    assert (Hsub : forall d, In d (Unicode.decomposition c) -> Unicode.is_Mn d = false).
    { intros d Hdc. rewrite Forall_forall in Hw.
      apply Hw. rewrite <- Hd. apply in_flat_map. now exists c. }
    unfold Unicode.decomposition in Hsub.
    destruct (Unicode.is_hangul_syllable c) eqn:Eh.
    + unfold Unicode.is_hangul_syllable, Unicode.SBase, Unicode.SCount in Eh.
      apply andb_prop in Eh as [E1 E2]. apply Z.leb_le in E1. apply Z.ltb_lt in E2.
      unfold Unicode.is_Mn in Em.
      rewrite (in_ranges_outside _ 0xAC00 0xD7A3 c hangul_not_Mn) in Em by lia.
      discriminate.
    + destruct (assoc c UCD.decomposition_table) as [d|] eqn:Et.
      * pose proof Mn_decompositions_carry_marks as Hm. rewrite forallb_forall in Hm.
        specialize (Hm _ (assoc_In _ _ _ Et)). cbn [fst snd] in Hm.
        rewrite Em in Hm. cbn [negb orb] in Hm.
        apply existsb_exists in Hm as (m & Hm1 & Hm2).
        rewrite (Hsub _ Hm1) in Hm2. discriminate.
      * rewrite (Hsub c) in Em by now left. discriminate.
  - unfold Unicode.NFC, Unicode.NFD. now rewrite Hd, Ho.
Qed.

(** * Sacred names, V for U, continuous writing *)

Section WordLemmas.

Lemma sub_words_absent (word : str) (items : list Re.item) (s : str) :
  occurs word s = false ->
  forall before, Re.sub_words word items before 0 s = s.
Proof.
  induction s as [|c s IH]; intros Ho before; [reflexivity|].
  cbn [occurs] in Ho. apply orb_false_iff in Ho as [Hs Ho].
  cbn [Re.sub_words]. unfold Re.matches_word. rewrite Hs.
  rewrite andb_false_r. cbn [andb]. now rewrite IH.
Qed.

Lemma insert_by_In {A : Type} (key : A -> Z) (x y : A) (l : list A) :
  In y (Py.insert_by key x l) -> y = x \/ In y l.
Proof.
  induction l as [|z l IH]; cbn [Py.insert_by].
  - intros [<-|[]]. now left.
  - destruct (key z <? key x).
    + intros [<-|H]; [right; now left|].
      destruct (IH H) as [->|H']; [now left|right; now right].
    + intros [<-|H]; [now left|now right].
Qed.

Lemma sorted_In {A : Type} (key : A -> Z) (y : A) (l : list A) :
  In y (Py.sorted key l) -> In y l.
Proof.
  induction l as [|x l IH]; [intros []|]. cbn [Py.sorted].
  intros H. apply insert_by_In in H as [->|H]; [now left|right; now apply IH].
Qed.

Lemma sub_each_word_absent (table : list (str * str)) (text : str) :
  forallb (fun kv => negb (existsb (Z.eqb Re.backslash) (snd kv))) table = true ->
  Forall (fun kv => occurs (fst kv) text = false) table ->
  sub_each_word table text = Ok text.
Proof.
  induction table as [|[w a] table IH]; [reflexivity|].
  cbn [forallb snd fst sub_each_word]. intros Hb Ho.
  apply andb_prop in Hb as [Ha Hb]. apply negb_true_iff in Ha.
  inversion Ho as [|? ? Hw Ht]; subst. cbn [fst] in Hw.
  unfold Re.sub_word. rewrite parse_template_literal by assumption.
  cbn [bind]. rewrite sub_words_absent by assumption. now apply IH.
Qed.

Lemma replace_char_In (k c : codepoint) (new s : str) :
  In c (Py.replace [k] new s) -> (In c s /\ c <> k) \/ In c new.
Proof.
  rewrite replace_char. intros H. apply in_flat_map in H as (x & Hx & H).
  destruct (Z.eqb_spec k x) as [->|Hk]; [now right|].
  destruct H as [<-|[]]. left. split; [assumption|congruence].
Qed.

Lemma bind_Ok_inv {A B : Type} (m : PyResult A) (f : A -> PyResult B) (r : B) :
  bind m f = Ok r -> exists v, m = Ok v /\ f v = Ok r.
Proof. destruct m as [v|]; [|discriminate]. intros H. now exists v. Qed.

End WordLemmas.

(** X12.  [apply_nomina_sacra] returns the text unchanged when none of the
    26 sacred names of its dictionary occurs in it, and for every text when
    the language code is not "grc-koi". *)
Theorem apply_nomina_sacra_unchanged (text language_code : str) :
  str_eqb language_code (utf8 "grc-koi") = false
  \/ forallb (fun kv => negb (occurs (fst kv) text)) nomina_sacra = true ->
  apply_nomina_sacra text language_code = Ok text.
Proof.
  unfold apply_nomina_sacra. intros [-> | H]; [reflexivity|].
  destruct (negb (str_eqb language_code (utf8 "grc-koi"))); [reflexivity|].
  apply sub_each_word_absent; [vm_compute; reflexivity|].
  apply Forall_forall. intros kv Hkv. apply sorted_In in Hkv.
  rewrite forallb_forall in H. specialize (H _ Hkv). now apply negb_true_iff in H.
Qed.

Lemma apply_nomina_sacra_unchanged_witness :
  apply_nomina_sacra (utf8 "ΕΝ ΑΡΧΗ ΗΝ Ο ΛΟΓΟΣ") (utf8 "grc-koi")
  = Ok (utf8 "ΕΝ ΑΡΧΗ ΗΝ Ο ΛΟΓΟΣ").
Proof.
  apply apply_nomina_sacra_unchanged. right. vm_compute. reflexivity.
Defined.

(** X13.  Under rules that set [char_v_for_u] and have no
    [normalize_chars] and no [word_separator], what
    [apply_script_transform_with_config] returns has neither "U" nor "u":
    the legacy V-for-U substitution runs after the case transformation and
    nothing after it brings a U back. *)
Theorem apply_script_transform_legacy_v_for_u (text r : str) (config : LanguageConfig) :
  char_v_for_u (script config) = true ->
  normalize_chars (script config) = [] ->
  word_separator (script config) = None ->
  apply_script_transform_with_config text config = Ok r ->
  ~ In 0x55 r /\ ~ In 0x75 r.
Proof.
  destruct config as [name [cs acc norm v sc sep]].
  cbn [script char_v_for_u normalize_chars word_separator].
  intros -> -> ->. unfold apply_script_transform_with_config.
  destruct text as [|c0 text]; [intros [= <-]; split; intros []|].
  cbn [script char_v_for_u normalize_chars word_separator has_accents case
         scriptio_continua_default].
  set (s := match cs with case_upper => _ | case_lower => _ | case_mixed => _ end).
  change (utf8 "u") with [0x75]. change (utf8 "v") with [0x76].
  change (utf8 "U") with [0x55]. change (utf8 "V") with [0x56].
  set (t := Py.replace [0x75] [0x76] (Py.replace [0x55] [0x56] s)).
  assert (Ht : ~ In 0x55 t /\ ~ In 0x75 t).
  { unfold t. split; intros H.
    - apply replace_char_In in H as [[H _]|[H|[]]]; [|discriminate].
      apply replace_char_In in H as [[_ H]|[H|[]]]; [now apply H|discriminate].
    - apply replace_char_In in H as [[_ H]|[H|[]]]; [now apply H|discriminate]. }
  destruct sc; cbn [bind].
  - rewrite apply_scriptio_continua_eq. cbn [bind]. intros [= <-].
    destruct Ht as [H1 H2].
    split; intros H; apply filter_In in H as [H _]; contradiction.
  - now intros [= <-].
Qed.

Lemma apply_script_transform_legacy_v_for_u_witness :
  apply_script_transform_with_config (utf8 "Julius unus") legacy_latin_config
  = Ok (utf8 "JVLIVS VNVS")
  /\ ~ In 0x55 (utf8 "JVLIVS VNVS").
Proof.
  split; [vm_compute; reflexivity|].
  apply (apply_script_transform_legacy_v_for_u (utf8 "Julius unus") (utf8 "JVLIVS VNVS")
           legacy_latin_config); reflexivity.
Defined.

(** X14.  Continuous writing leaves no space and no tab: what
    [apply_script_preferences] returns when [use_scriptio_continua] is set
    (by the preferences object if there is one, by the flag otherwise) has
    neither, whatever the other flags are, and so has what
    [apply_script_transform_with_config] returns under rules with
    [scriptio_continua_default] and no [word_separator]. *)
Theorem scriptio_continua_leaves_no_space :
  (forall (get_language_config : str -> LanguageConfig) (text language_code r : str)
      (preferences : option ScriptDisplayMode) (a sc ip ia ns rp : bool),
      match preferences with
      | Some p => pref_use_scriptio_continua p
      | None => sc
      end = true ->
      apply_script_preferences get_language_config text language_code preferences
        a sc ip ia ns rp = Ok r ->
      text <> [] ->
      ~ In 0x20 r /\ ~ In 0x09 r)
  /\ (forall (text r : str) (config : LanguageConfig),
        scriptio_continua_default (script config) = true ->
        word_separator (script config) = None ->
        apply_script_transform_with_config text config = Ok r ->
        text <> [] ->
        ~ In 0x20 r /\ ~ In 0x09 r).
Proof.
  assert (Hfilter : forall s r, apply_scriptio_continua s = Ok r ->
                      ~ In 0x20 r /\ ~ In 0x09 r).
  { intros s r. rewrite apply_scriptio_continua_eq. intros [= <-].
    split; intros H; apply filter_In in H as [_ H]; discriminate. }
  split.
  - intros get_language_config text language_code r preferences a sc ip ia ns rp Hsc.
    unfold apply_script_preferences.
    destruct text as [|c0 text]; [intros _ H; now elim H|]. intros H _. revert H.
    set (flags := match preferences with Some _ => _ | None => _ end).
    assert (Ef : fst (fst (fst (fst flags))) = true).
    { unfold flags. now destruct preferences. }
    destruct flags as [[[[sc' ip'] ia'] ns'] rp']. cbn [fst] in Ef. subst sc'.
    intros H.
    apply bind_Ok_inv in H as (r1 & _ & H).
    apply bind_Ok_inv in H as (r2 & _ & H).
    apply bind_Ok_inv in H as (r3 & _ & H).
    now apply (Hfilter r3).
  - intros text r [name [cs acc norm v sc sep]].
    cbn [script scriptio_continua_default word_separator]. intros -> ->.
    unfold apply_script_transform_with_config.
    destruct text as [|c0 text]; [intros _ H; now elim H|]. intros H _. revert H.
    cbn [script char_v_for_u normalize_chars word_separator has_accents case
           scriptio_continua_default].
    intros H. apply bind_Ok_inv in H as (r1 & H1 & H). injection H as <-.
    now apply (Hfilter _ _ H1).
Qed.

Lemma scriptio_continua_leaves_no_space_witness :
  apply_script_preferences (fun _ => grc_config) (utf8 "ΜΗΝΙΝ ΑΕΙΔΕ ΘΕΑ") (utf8 "grc") None
    false true true true false false = Ok (utf8 "ΜΗΝΙΝΑΕΙΔΕΘΕΑ")
  /\ ~ In 0x20 (utf8 "ΜΗΝΙΝΑΕΙΔΕΘΕΑ").
Proof.
  split; [vm_compute; reflexivity|].
  eapply (proj1 scriptio_continua_leaves_no_space (fun _ => grc_config)
            (utf8 "ΜΗΝΙΝ ΑΕΙΔΕ ΘΕΑ") (utf8 "grc") _ None false true true true false false).
  - reflexivity.
  - vm_compute. reflexivity.
  - discriminate.
Defined.

(** * Iota subscripts in authentic mode *)

Section Markfree.

Import Unicode Normalization.

Lemma upper_table_markfree :
  forallb (fun kv => negb (markfree (fst kv)) || forallb markfree (snd kv))
    UCD.upper_table = true.
Proof. vm_compute. reflexivity. Qed.

Lemma lower_table_markfree :
  forallb (fun kv => negb (markfree (fst kv)) || forallb markfree (snd kv))
    UCD.lower_table = true.
Proof. vm_compute. reflexivity. Qed.

Lemma iota_keys_marked :
  forallb (fun kv => match fst kv with
                     | [k] => negb (markfree k)
                     | _ => false
                     end) (lowercase_map ++ uppercase_map) = true.
Proof. vm_compute. reflexivity. Qed.

Lemma to_upper_full_markfree (c : codepoint) :
  markfree c = true -> Forall (fun x => markfree x = true) (to_upper_full c).
Proof.
  intros Hc. unfold to_upper_full.
  destruct (assoc c UCD.upper_table) as [d|] eqn:E; [|now repeat constructor].
  pose proof upper_table_markfree as H. rewrite forallb_forall in H.
  specialize (H _ (assoc_In _ _ _ E)). cbn [fst snd] in H.
  rewrite Hc in H. cbn [negb orb] in H.
  apply Forall_forall. now rewrite forallb_forall in H.
Qed.

Lemma to_lower_full_markfree (c : codepoint) :
  markfree c = true -> Forall (fun x => markfree x = true) (to_lower_full c).
Proof.
  intros Hc. unfold to_lower_full.
  destruct (assoc c UCD.lower_table) as [d|] eqn:E; [|now repeat constructor].
  pose proof lower_table_markfree as H. rewrite forallb_forall in H.
  specialize (H _ (assoc_In _ _ _ E)). cbn [fst snd] in H.
  rewrite Hc in H. cbn [negb orb] in H.
  apply Forall_forall. now rewrite forallb_forall in H.
Qed.

Lemma upper_markfree (s : str) :
  Forall (fun x => markfree x = true) s -> Forall (fun x => markfree x = true) (Py.upper s).
Proof.
  unfold Py.upper. induction 1 as [|c s Hc _ IH]; [constructor|].
  cbn [flat_map]. apply Forall_app. split; [now apply to_upper_full_markfree|exact IH].
Qed.

Lemma lower_markfree (s : str) :
  Forall (fun x => markfree x = true) s ->
  forall before, Forall (fun x => markfree x = true) (Py.lower_from before s).
Proof.
  induction 1 as [|c s Hc _ IH]; intros before; [constructor|].
  cbn [Py.lower_from]. apply Forall_app. split; [|apply IH].
  destruct (c =? 0x3A3); [|now apply to_lower_full_markfree].
  destruct (Py.final_sigma before s); repeat constructor; vm_compute; reflexivity.
Qed.

Lemma remove_accents_markfree (text : str) :
  Forall (fun x => markfree x = true) (_remove_accents text).
Proof.
  destruct (remove_accents_shape text) as (w & Hw & _ & -> & Hd).
  apply Forall_forall. intros c Hc. unfold markfree. apply forallb_forall.
  intros d Hdc. apply negb_true_iff.
  rewrite Forall_forall in Hw. apply Hw. rewrite <- Hd.
  apply in_flat_map. now exists c.
Qed.

Lemma replace_char_Forall (P : codepoint -> Prop) (k : codepoint) (new s : str) :
  Forall P new -> Forall P s -> Forall P (Py.replace [k] new s).
Proof.
  intros Hn Hs. rewrite replace_char. apply Forall_forall. intros c Hc.
  apply in_flat_map in Hc as (x & Hx & Hc).
  rewrite Forall_forall in Hs, Hn.
  destruct (k =? x); [now apply Hn|]. destruct Hc as [<-|[]]. now apply Hs.
Qed.

(** Under rules without accents, without [normalize_chars] and without a
    separator, the authentic text has no character that carries a mark. *)
Lemma apply_script_transform_markfree (text r : str) (config : LanguageConfig) :
  has_accents (script config) = false ->
  normalize_chars (script config) = [] ->
  word_separator (script config) = None ->
  apply_script_transform_with_config text config = Ok r ->
  text <> [] ->
  Forall (fun x => markfree x = true) r.
Proof.
  destruct config as [name [cs acc norm v sc sep]].
  cbn [script has_accents normalize_chars word_separator].
  intros -> -> ->. unfold apply_script_transform_with_config.
  destruct text as [|c0 text]; [intros _ H; now elim H|]. intros H _. revert H.
  cbn [script char_v_for_u normalize_chars word_separator has_accents case
         scriptio_continua_default negb].
  set (s0 := _remove_accents (c0 :: text)).
  assert (H0 : Forall (fun x => markfree x = true) s0) by apply remove_accents_markfree.
  set (s1 := match cs with case_upper => _ | case_lower => _ | case_mixed => _ end).
  assert (H1 : Forall (fun x => markfree x = true) s1).
  { unfold s1. destruct cs; [now apply upper_markfree|now apply lower_markfree|assumption]. }
  set (s2 := if v then _ else s1).
  assert (H2 : Forall (fun x => markfree x = true) s2).
  { unfold s2. destruct v; [|assumption].
    apply replace_char_Forall; [repeat constructor; vm_compute; reflexivity|].
    apply replace_char_Forall; [repeat constructor; vm_compute; reflexivity|assumption]. }
  destruct sc; cbn [bind].
  - rewrite apply_scriptio_continua_eq. cbn [bind]. intros [= <-].
    apply Forall_forall. intros x Hx. apply filter_In in Hx as [Hx _].
    rewrite Forall_forall in H2. now apply H2.
  - now intros [= <-].
Qed.

Lemma convert_iota_markfree (s : str) :
  Forall (fun x => markfree x = true) s -> convert_iota_subscript_to_adscript s = s.
Proof.
  intros Hs. unfold convert_iota_subscript_to_adscript.
  rewrite <- replace_each_cat. apply replace_each_absent.
  apply Forall_forall. intros [k v] Hkv.
  pose proof iota_keys_marked as H. rewrite forallb_forall in H.
  specialize (H _ Hkv). cbn [fst] in *.
  destruct k as [|k [|? ?]]; try discriminate.
  exists k. split; [reflexivity|]. intros Hin.
  rewrite Forall_forall in Hs. rewrite (Hs _ Hin) in H. discriminate.
Qed.

End Markfree.

(** X15.  In authentic mode, under rules without accents (and without
    [normalize_chars] and [word_separator]), [use_iota_adscript] has no
    effect: the iota subscripts are stripped with the other marks by the
    authentic transformation, so no adscript is written and
    [apply_script_preferences] returns the same with the flag as without
    it. *)
Theorem iota_adscript_idle_in_authentic_mode
    (get_language_config : str -> LanguageConfig) (text language_code : str)
    (sc ip ns rp : bool) :
  has_accents (script (get_language_config language_code)) = false ->
  normalize_chars (script (get_language_config language_code)) = [] ->
  word_separator (script (get_language_config language_code)) = None ->
  apply_script_preferences get_language_config text language_code None
    true sc ip true ns rp
  = apply_script_preferences get_language_config text language_code None
      true sc ip false ns rp.
Proof.
  intros Ha Hn Hs. unfold apply_script_preferences.
  destruct text as [|c0 text]; [reflexivity|].
  unfold apply_script_transform.
  destruct (apply_script_transform_with_config (c0 :: text)
              (get_language_config language_code)) as [r|] eqn:E; [|reflexivity].
  cbn [bind andb].
  assert (Hr : Forall (fun x => markfree x = true) r).
  { eapply apply_script_transform_markfree; try eassumption. discriminate. }
  destruct (is_greek language_code); [|reflexivity].
  now rewrite convert_iota_markfree.
Qed.

Lemma iota_adscript_idle_in_authentic_mode_witness :
  apply_script_preferences (fun _ => grc_config) (utf8 "τῷ λόγῳ") (utf8 "grc") None
    true false false true false false
  = apply_script_preferences (fun _ => grc_config) (utf8 "τῷ λόγῳ") (utf8 "grc") None
      true false false false false false.
Proof.
  apply (iota_adscript_idle_in_authentic_mode (fun _ => grc_config)); reflexivity.
Defined.

(** X16.  The other word separators are idempotent too:
    [apply_ethiopic_word_separator], [apply_ugaritic_word_divider],
    [apply_gothic_interpunct] and [apply_tibetan_tsheg] change nothing in
    what they returned. *)
Theorem word_separators_idempotent (text r : str) :
  (apply_ethiopic_word_separator text = Ok r -> apply_ethiopic_word_separator r = Ok r)
  /\ (apply_ugaritic_word_divider text = Ok r -> apply_ugaritic_word_divider r = Ok r)
  /\ (apply_gothic_interpunct text = Ok r -> apply_gothic_interpunct r = Ok r)
  /\ (apply_tibetan_tsheg text = Ok r -> apply_tibetan_tsheg r = Ok r).
Proof.
  assert (Hfix : forall sep,
             existsb (Z.eqb Re.backslash) sep = false -> ~ In 0x20 sep ->
             Re.sub_plus is_space sep (Py.strip text) = Ok r ->
             Re.sub_plus is_space sep (Py.strip r) = Ok r).
  { intros sep Hb Hs. rewrite !sub_plus_literal by assumption. intros [= <-].
    destruct (separated_spec sep text Hs) as (_ & _ & H & _). cbv zeta in H.
    now rewrite H. }
  split; [|split; [|split]].
  - apply Hfix; [reflexivity|]. vm_compute. intuition discriminate.
  - apply Hfix; [reflexivity|]. vm_compute. intuition discriminate.
  - apply Hfix; [reflexivity|]. vm_compute. intuition discriminate.
  - unfold apply_tibetan_tsheg.
    destruct (Py.contains 0x0F0B text) eqn:Et; cbn [negb].
    + intros [= <-]. now rewrite Et.
    + rewrite sub_plus_literal by reflexivity. intros [= <-].
      destruct (Py.contains 0x0F0B (Re.sub_runs is_space [Re.Lit (utf8 "་")] [] text));
        cbn [negb]; [reflexivity|].
      rewrite sub_plus_literal by reflexivity. f_equal.
      apply sub_runs_fixed. apply Forall_forall. intros c Hc.
      apply sub_runs_In in Hc as [[_ Hc]|Hc]; [exact Hc|].
      vm_compute in Hc. destruct Hc as [<-|[]]. reflexivity.
Qed.

(** * Decomposition after composition, in general *)

Section Roundtrip.

Import Unicode Normalization.

(** Every primary composite decomposes into the decomposition of its first
    character followed by its second. *)
Lemma composition_table_decomposes :
  forallb (fun e => match e with
                    | (a, b, p) => str_eqb (decomposition p) (decomposition a ++ [b])
                    end) UCD.composition_table = true.
Proof. vm_compute. reflexivity. Qed.

Lemma compose_pair_decomposition (a b p : codepoint) :
  compose_pair a b = Some p -> decomposition p = decomposition a ++ [b].
Proof.
  unfold compose_pair.
  destruct ((LBase <=? a) && (a <? LBase + LCount) && (VBase <=? b) && (b <? VBase + VCount))
    eqn:ELV.
  - intros Hc. apply Some_eq in Hc. subst p.
    apply andb_prop in ELV as [ELV H4]. apply andb_prop in ELV as [ELV H3].
    apply andb_prop in ELV as [H1 H2].
    apply Z.leb_le in H1, H3. apply Z.ltb_lt in H2, H4.
    destruct (hangul_LV a b (conj H1 H2) (conj H3 H4)) as [Hp Hd].
    rewrite (decomposition_hangul _ Hp), Hd.
    unfold LBase, LCount in H1, H2.
    now rewrite (decomposed_jamo a) by lia.
  - clear ELV.
    destruct (is_hangul_syllable a && ((a - SBase) mod TCount =? 0)
              && (TBase <? b) && (b <? TBase + TCount)) eqn:ELVT.
    + intros Hc. apply Some_eq in Hc. subst p.
      apply andb_prop in ELVT as [ELVT H4]. apply andb_prop in ELVT as [ELVT H3].
      apply andb_prop in ELVT as [H1 H2].
      apply Z.eqb_eq in H2. apply Z.ltb_lt in H3, H4.
      destruct (hangul_LVT a b H1 H2 (conj H3 H4)) as [Hp Hd].
      now rewrite (decomposition_hangul _ Hp), (decomposition_hangul _ H1), Hd.
    + clear ELVT. intros Hc.
      pose proof composition_table_decomposes as Ht. rewrite forallb_forall in Ht.
      specialize (Ht _ (composite_in_In _ _ _ _ Hc)). cbv beta iota in Ht.
      now apply str_eqb_eq in Ht.
Qed.

(** Two marks of different classes go into a string in either order. *)
Lemma insert_mark_cons (c d : codepoint) (r : str) :
  insert_mark c (d :: r)
  = if (0 <? combining d) && (combining d <? combining c)
    then d :: insert_mark c r else c :: d :: r.
Proof. reflexivity. Qed.

Lemma insert_mark_swap (m c : codepoint) (t : str) :
  0 < combining m < combining c ->
  insert_mark c (insert_mark m t) = insert_mark m (insert_mark c t).
Proof.
  intros Hmc.
  assert (Hcm : insert_mark c [m] = [m; c]).
  { rewrite insert_mark_cons.
    destruct (Z.ltb_spec 0 (combining m)), (Z.ltb_spec (combining m) (combining c));
      try lia. reflexivity. }
  assert (Hmcs : forall u, insert_mark c (m :: u) = m :: insert_mark c u).
  { intros u. rewrite insert_mark_cons.
    destruct (Z.ltb_spec 0 (combining m)), (Z.ltb_spec (combining m) (combining c));
      try lia. reflexivity. }
  assert (Hmmc : forall u, insert_mark m (c :: u) = m :: c :: u).
  { intros u. rewrite insert_mark_cons.
    destruct (Z.ltb_spec 0 (combining c)), (Z.ltb_spec (combining c) (combining m));
      try lia; reflexivity. }
  induction t as [|d t IH].
  - change (insert_mark m []) with [m]. change (insert_mark c []) with [c].
    now rewrite Hcm, Hmmc.
  - rewrite (insert_mark_cons m d t), (insert_mark_cons c d t).
    destruct (Z.ltb_spec 0 (combining d)) as [Hd|Hd];
      destruct (Z.ltb_spec (combining d) (combining m)) as [Hdm|Hdm];
      destruct (Z.ltb_spec (combining d) (combining c)) as [Hdc|Hdc];
      cbn [andb]; try lia;
      rewrite ?Hmcs, ?Hmmc, ?insert_mark_cons;
      repeat match goal with
             | |- context [0 <? combining ?x] =>
               destruct (Z.ltb_spec 0 (combining x)); try lia
             | |- context [combining ?x <? combining ?y] =>
               destruct (Z.ltb_spec (combining x) (combining y)); try lia
             end; cbn [andb]; rewrite ?IH; reflexivity.
Qed.

Lemma canonical_order_app (x y : str) :
  canonical_order (x ++ y) = fold_right insert_mark (canonical_order y) x.
Proof. induction x as [|c x IH]; [reflexivity|]. cbn [app canonical_order fold_right]. now rewrite IH. Qed.

(** A mark may be read before the marks of smaller classes that stand in
    front of it: the canonical order is the same. *)
Lemma canonical_order_move (c : codepoint) (marks r : str) :
  Forall (fun m => 0 < combining m < combining c) marks ->
  canonical_order (c :: marks ++ r) = canonical_order (marks ++ c :: r).
Proof.
  induction 1 as [|m marks Hm _ IH]; [reflexivity|].
  cbn [app canonical_order] in *. rewrite <- IH.
  now apply insert_mark_swap.
Qed.

Lemma canonical_order_cong (x y y' : str) :
  canonical_order y = canonical_order y' ->
  canonical_order (x ++ y) = canonical_order (x ++ y').
Proof. intros H. now rewrite !canonical_order_app, H. Qed.

Lemma ordered_app_l (a b : str) : ordered (a ++ b) -> ordered a.
Proof.
  induction a as [|x a IH]; [intros; exact I|].
  destruct a as [|y a]; [intros; exact I|].
  cbn [app ordered]. intros [H1 H2]. split; [exact H1|]. apply IH. exact H2.
Qed.

(** In a run of marks in canonical order no mark has a higher class than
    the last. *)
Lemma marks_le_last (marks : str) :
  ordered marks -> Forall (fun m => 0 < combining m) marks ->
  Forall (fun m => combining m <= combining (last marks 0)) marks.
Proof.
  induction marks as [|m marks IH]; intros Ho Hm; [constructor|].
  inversion Hm as [|? ? Hm0 Hms]; subst.
  destruct marks as [|m' ms].
  - constructor; [cbn [last]; lia|constructor].
  - cbn [ordered] in Ho. destruct Ho as [Hmm Ho].
    specialize (IH Ho Hms). change (last (m :: m' :: ms) 0) with (last (m' :: ms) 0).
    constructor; [|exact IH].
    inversion IH as [|? ? Hl _]; subst. inversion Hms as [|? ? Hm'0 _]; subst. lia.
Qed.

Lemma ordered_app_r (a b : str) : ordered (a ++ b) -> ordered b.
Proof.
  induction a as [|x a IH]; [auto|]. intros H. apply IH.
  cbn [app] in H. destruct (a ++ b) eqn:E; [exact I|apply H].
Qed.

Lemma ordered_remove (marks : str) (c : codepoint) (r : str) :
  ordered (marks ++ c :: r) ->
  Forall (fun m => 0 < combining m < combining c) marks ->
  ordered (marks ++ r).
Proof.
  induction marks as [|m marks IH]; intros Ho Hm.
  - cbn [app] in *. destruct r; [exact I|apply Ho].
  - inversion Hm as [|? ? Hm0 Hms]; subst.
    assert (Ho' : ordered (marks ++ c :: r)) by (apply (ordered_app_r [m]), Ho).
    specialize (IH Ho' Hms).
    destruct marks as [|m' marks'].
    + cbn [app] in *. destruct r as [|d r]; [exact I|].
      cbn [ordered] in Ho. destruct Ho as [_ [Hcd _]].
      cbn [ordered]. split; [lia|exact IH].
    + cbn [app ordered] in *. destruct Ho as [Hmm _]. split; [exact Hmm|exact IH].
Qed.

Lemma ordered_snoc_move (marks : str) (c : codepoint) (r : str) :
  ordered (marks ++ c :: r) -> ordered ((marks ++ [c]) ++ r).
Proof. now rewrite <- app_assoc. Qed.

(** The canonical order of what a composition decomposes into is that of
    what was composed. *)
Lemma compose_from_roundtrip (s : str) :
  forall starter marks,
    Forall decomposed s -> Forall decomposed marks ->
    Forall (fun m => 0 < combining m) marks ->
    ordered (marks ++ s) ->
    canonical_order (flat_map decomposition (compose_from starter marks s))
    = canonical_order (decomposition starter ++ marks ++ s).
Proof.
  induction s as [|c r IH]; intros starter marks Hs Hmd Hm Ho.
  - cbn [compose_from flat_map]. now rewrite app_nil_r, flat_map_decomposition_id.
  - inversion Hs as [|? ? Hdc Hr]; subst. cbn [compose_from].
    set (blocked := match marks with
                    | [] => false
                    | _ => combining c <=? combining (last marks 0)
                    end).
    destruct (if blocked then None else compose_pair starter c) as [p|] eqn:Hp.
    + destruct blocked eqn:Hb; [discriminate|].
      assert (Hlt : Forall (fun m => 0 < combining m < combining c) marks).
      { assert (Hlast : marks = [] \/ combining (last marks 0) < combining c).
        { unfold blocked in Hb. destruct marks; [now left|right; now apply Z.leb_gt in Hb]. }
        destruct Hlast as [->|Hlast]; [constructor|].
        pose proof (marks_le_last marks (ordered_app_l _ _ Ho) Hm) as Hle.
        rewrite Forall_forall in Hle, Hm. apply Forall_forall. intros m Hin.
        specialize (Hm _ Hin). specialize (Hle _ Hin). lia. }
      rewrite IH; try assumption; [|now apply (ordered_remove marks c r)].
      rewrite (compose_pair_decomposition _ _ _ Hp), <- app_assoc.
      apply canonical_order_cong. cbn [app]. now apply canonical_order_move.
    + destruct (combining c =? 0) eqn:Ec.
      * cbn [flat_map]. rewrite flat_map_app, flat_map_decomposition_id by assumption.
        rewrite app_assoc, canonical_order_app.
        rewrite IH; try assumption; try apply Forall_nil;
          [|apply (ordered_app_r (marks ++ [c]) r); now rewrite <- app_assoc].
        rewrite <- canonical_order_app. unfold decomposed in Hdc. rewrite Hdc.
        now rewrite <- app_assoc.
      * rewrite IH; try assumption.
        -- now rewrite <- !app_assoc.
        -- apply Forall_app. split; [assumption|now repeat constructor].
        -- apply Forall_app. split; [assumption|]. repeat constructor.
           apply Z.eqb_neq in Ec. pose proof (combining_nonneg c). lia.
        -- now apply ordered_snoc_move.
Qed.

(** Decomposing undoes the composition of any decomposed string in
    canonical order. *)
Lemma compose_roundtrip (w : str) :
  ordered w -> Forall decomposed w -> NFD (compose w) = w.
Proof.
  unfold NFD. induction w as [|c r IH]; intros Ho Hd; [reflexivity|].
  inversion Hd as [|? ? Hdc Hr]; subst.
  assert (Hor : ordered r) by apply (ordered_app_r [c] r Ho).
  cbn [compose]. destruct (combining c =? 0).
  - rewrite compose_from_roundtrip; try assumption; try apply Forall_nil.
    unfold decomposed in Hdc. rewrite Hdc. cbn [app].
    now apply canonical_order_fixed.
  - cbn [flat_map]. unfold decomposed in Hdc. rewrite Hdc. cbn [app canonical_order].
    rewrite IH by assumption.
    rewrite <- (canonical_order_fixed r Hor) at 1.
    now apply (canonical_order_fixed (c :: r)).
Qed.

Lemma NFD_ordered (s : str) : ordered (NFD s).
Proof. apply canonical_order_ordered. Qed.

Lemma NFD_NFC (s : str) : NFD (NFC s) = NFD s.
Proof. unfold NFC. apply compose_roundtrip; [apply NFD_ordered|apply NFD_decomposed]. Qed.

Lemma NFD_fixed (w : str) : ordered w -> Forall decomposed w -> NFD w = w.
Proof.
  intros Ho Hd. unfold NFD. rewrite flat_map_decomposition_id by assumption.
  now apply canonical_order_fixed.
Qed.

Lemma NFD_idempotent (s : str) : NFD (NFD s) = NFD s.
Proof. apply NFD_fixed; [apply NFD_ordered|apply NFD_decomposed]. Qed.

Lemma NFC_idempotent (s : str) : NFC (NFC s) = NFC s.
Proof. unfold NFC at 1. now rewrite NFD_NFC. Qed.

(** Deleting a character class between decomposition and recomposition, as
    the vowel-point strippers do. *)
Lemma delete_class_eq (cls : codepoint -> bool) (text : str) :
  (result <- Re.sub_each cls [] (NFD text) ;; Ok (NFC result))
  = Ok (NFC (filter (fun c => negb (cls c)) (NFD text))).
Proof.
  unfold Re.sub_each. rewrite parse_template_literal by reflexivity. cbn [bind].
  do 2 f_equal. induction (NFD text) as [|c s IH]; [reflexivity|].
  cbn [flat_map filter]. rewrite IH. now destruct (cls c).
Qed.

Lemma filter_id (keep : codepoint -> bool) (s : str) :
  Forall (fun c => keep c = true) s -> filter keep s = s.
Proof. induction 1 as [|c s Hc _ IH]; cbn [filter]; [reflexivity|]. now rewrite Hc, IH. Qed.

Lemma filter_filter_id (keep : codepoint -> bool) (s : str) :
  Forall (fun c => keep c = true) (filter keep s).
Proof. apply Forall_forall. intros c Hc. now apply filter_In in Hc. Qed.

(** Deleting the class again from what was recomposed changes nothing. *)
Lemma delete_class_idempotent (cls : codepoint -> bool) (text : str) :
  let strip t := NFC (filter (fun c => negb (cls c)) (NFD t)) in
  strip (strip text) = strip text.
Proof.
  cbv beta zeta.
  set (d := filter (fun c => negb (cls c)) (NFD text)).
  assert (Hd : Forall decomposed d).
  { apply Forall_forall. intros c Hc. apply filter_In in Hc as [Hc _].
    pose proof (NFD_decomposed text) as H. rewrite Forall_forall in H. now apply H. }
  assert (Hk : Forall (fun c => negb (cls c) = true) (NFD d)).
  { unfold NFD. apply canonical_order_Forall.
    rewrite flat_map_decomposition_id by assumption. apply filter_filter_id. }
  rewrite NFD_NFC, (filter_id _ _ Hk).
  unfold NFC. now rewrite NFD_idempotent.
Qed.

End Roundtrip.

(** X17.  The vowel-point strippers are idempotent: running
    [remove_hebrew_vowel_points], [remove_syriac_vowel_points] or
    [remove_arabic_diacritics_full] on its own result returns that
    result. *)
Theorem vowel_point_strippers_idempotent (text : str) :
  (r <- remove_hebrew_vowel_points text ;; remove_hebrew_vowel_points r)
  = remove_hebrew_vowel_points text
  /\ (r <- remove_syriac_vowel_points text ;; remove_syriac_vowel_points r)
     = remove_syriac_vowel_points text
  /\ (r <- remove_arabic_diacritics_full text ;; remove_arabic_diacritics_full r)
     = remove_arabic_diacritics_full text.
Proof.
  unfold remove_hebrew_vowel_points, remove_syriac_vowel_points,
    remove_arabic_diacritics_full. cbv zeta.
  rewrite !delete_class_eq. cbn [bind]. rewrite !delete_class_eq.
  repeat split; f_equal; apply delete_class_idempotent.
Qed.

(** X18.  Where the decomposed text has no code point of a stripper's
    range, the stripper returns the text in normalization form C: it
    composes what was decomposed, also in text of another script. *)
Theorem vowel_point_strippers_normalize (text : str) :
  (Forall (fun c => in_range 0x0591 0x05C7 c = false) (Unicode.NFD text) ->
   remove_hebrew_vowel_points text = Ok (Unicode.NFC text))
  /\ (Forall (fun c => in_range 0x0730 0x074A c = false) (Unicode.NFD text) ->
      remove_syriac_vowel_points text = Ok (Unicode.NFC text))
  /\ (Forall (fun c => in_range 0x064B 0x065F c = false) (Unicode.NFD text) ->
      remove_arabic_diacritics_full text = Ok (Unicode.NFC text)).
Proof.
  unfold remove_hebrew_vowel_points, remove_syriac_vowel_points,
    remove_arabic_diacritics_full. cbv zeta.
  rewrite !delete_class_eq.
  repeat split; intros H; f_equal; rewrite filter_id;
    try (eapply Forall_impl; [|exact H]; cbv beta; now intros c ->);
    unfold Unicode.NFC; now rewrite NFD_idempotent.
Qed.

Lemma vowel_point_strippers_normalize_witness :
  remove_hebrew_vowel_points [0x65; 0x301; 0x20; 0x5E9] = Ok [0xE9; 0x20; 0x5E9].
Proof.
  apply (proj1 (vowel_point_strippers_normalize [0x65; 0x301; 0x20; 0x5E9])).
  vm_compute. repeat constructor.
Defined.

(** * The Greek exception table of [_remove_accents] *)

Section GreekTable.

Import Unicode Normalization.

(** Every key of the table decomposes into what its replacement decomposes
    into, followed by marks. *)
Lemma greek_monotonic_keys_decompose :
  forallb (fun kv => match fst kv with
                     | [k] =>
                       match decomposition k with
                       | b :: ms =>
                         str_eqb (flat_map decomposition
                                    (Py.replace_each greek_monotonic_map [k])) [b]
                         && forallb (fun m => is_Mn m && (0 <? combining m)) ms
                       | [] => false
                       end
                     | _ => false
                     end) greek_monotonic_map = true.
Proof. vm_compute. reflexivity. Qed.

Lemma greek_monotonic_char_keys : char_keys greek_monotonic_map = true.
Proof. reflexivity. Qed.

Lemma drops_refl (s : str) : drops_marks s s.
Proof. induction s; constructor; assumption. Qed.

Lemma drops_app (a a' b b' : str) :
  drops_marks a a' -> drops_marks b b' -> drops_marks (a ++ b) (a' ++ b').
Proof. induction 1; intros Hb; cbn [app]; try constructor; auto. Qed.

Lemma drops_all (ms : str) :
  Forall (fun m => is_Mn m = true /\ 0 < combining m) ms -> drops_marks ms [].
Proof. induction 1 as [|m ms [H1 H2] _ IH]; constructor; assumption. Qed.

(** Decomposing after the table is decomposing and dropping marks. *)
Lemma greek_monotonic_drops (text : str) :
  drops_marks (flat_map decomposition text)
    (flat_map decomposition (Py.replace_each greek_monotonic_map text)).
Proof.
  rewrite replace_each_flat_map by apply greek_monotonic_char_keys.
  induction text as [|c text IH]; [constructor|].
  cbn [flat_map]. rewrite flat_map_app. apply drops_app; [|exact IH].
  destruct (is_key greek_monotonic_map c) eqn:Ek.
  - apply is_key_true_In in Ek as [v Hin].
    pose proof greek_monotonic_keys_decompose as Ht. rewrite forallb_forall in Ht.
    specialize (Ht _ Hin). cbn [fst] in Ht.
    destruct (decomposition c) as [|b ms]; [discriminate|].
    apply andb_prop in Ht as [H1 H2]. apply str_eqb_eq in H1. rewrite H1.
    apply drops_keep, drops_all. rewrite forallb_forall in H2.
    apply Forall_forall. intros m Hm. specialize (H2 _ Hm).
    apply andb_prop in H2 as [H2 H3]. apply Z.ltb_lt in H3. now split.
  - rewrite replace_each_absent.
    + cbn [flat_map]. rewrite app_nil_r. apply drops_refl.
    + apply is_key_false_absent; [apply greek_monotonic_char_keys|]. now constructor.
Qed.

Lemma drops_filter (s s' : str) :
  drops_marks s s' ->
  filter (fun c => negb (is_Mn c)) s = filter (fun c => negb (is_Mn c)) s'.
Proof.
  induction 1 as [|c s s' _ IH|c s s' Hc _ _ IH]; cbn [filter].
  - reflexivity.
  - now rewrite IH.
  - now rewrite Hc.
Qed.

(** In a string in canonical order, what follows a mark and is left after
    dropping marks does not begin with a mark of a smaller class. *)
Lemma drops_head_bound (s : str) :
  forall e d s', ordered (e :: s) -> 0 < combining e ->
                 drops_marks s (d :: s') -> ~ (0 < combining d < combining e).
Proof.
  induction s as [|x s IH]; intros e d s' Ho He Hd; [inversion Hd|].
  cbn [ordered] in Ho. destruct Ho as [Hex Ho].
  inversion Hd as [|? ? ? Hd'|? ? ? _ Hx Hd']; subst.
  - exact Hex.
  - pose proof (IH x d s' Ho Hx Hd'). lia.
Qed.

Lemma ordered_tail (c : codepoint) (s : str) : ordered (c :: s) -> ordered s.
Proof. destruct s; [intros; exact I|]. now intros [_ H]. Qed.

Lemma insert_mark_stop (c : codepoint) (s : str) :
  match s with [] => True | d :: _ => ~ (0 < combining d < combining c) end ->
  insert_mark c s = c :: s.
Proof.
  destruct s as [|d s]; [reflexivity|]. intros H. cbn [insert_mark].
  destruct (Z.ltb_spec 0 (combining d)), (Z.ltb_spec (combining d) (combining c));
    try reflexivity. lia.
Qed.

Lemma insert_mark_drops_keep (c : codepoint) (t t' : str) :
  drops_marks t t' -> ordered t ->
  drops_marks (insert_mark c t) (insert_mark c t').
Proof.
  induction 1 as [|d s s' Hd IH|e s s' He1 He2 Hd IH]; intros Ho.
  - apply drops_refl.
  - pose proof (ordered_tail _ _ Ho) as Hos. cbn [insert_mark].
    destruct ((0 <? combining d) && (combining d <? combining c)).
    + apply drops_keep. now apply IH.
    + now do 2 apply drops_keep.
  - pose proof (ordered_tail _ _ Ho) as Hos. cbn [insert_mark].
    destruct ((0 <? combining e) && (combining e <? combining c)) eqn:E.
    + apply drops_drop; try assumption. now apply IH.
    + assert (Hce : combining c <= combining e).
      { destruct (Z.ltb_spec 0 (combining e)); [|lia].
        destruct (Z.ltb_spec (combining e) (combining c)); [discriminate|lia]. }
      rewrite (insert_mark_stop c s').
      * apply drops_keep. now apply drops_drop.
      * destruct s' as [|d s']; [exact I|].
        pose proof (drops_head_bound s e d s' Ho He2 Hd). lia.
Qed.

Lemma insert_mark_drops_drop (e : codepoint) (t : str) :
  forall t', drops_marks t t' -> is_Mn e = true -> 0 < combining e ->
             drops_marks (insert_mark e t) t'.
Proof.
  induction t as [|d t IH]; intros t' Hd He1 He2.
  - now apply drops_drop.
  - cbn [insert_mark]. destruct ((0 <? combining d) && (combining d <? combining e)).
    + inversion Hd as [|? ? s' Hd'|? ? ? Hd1 Hd2 Hd']; subst.
      * apply drops_keep. now apply IH.
      * apply drops_drop; try assumption. now apply IH.
    + now apply drops_drop.
Qed.

(** Canonical ordering keeps the relation. *)
Lemma canonical_order_drops (s s' : str) :
  drops_marks s s' -> drops_marks (canonical_order s) (canonical_order s').
Proof.
  induction 1 as [|c s s' _ IH|e s s' He1 He2 _ IH]; cbn [canonical_order].
  - constructor.
  - apply insert_mark_drops_keep; [exact IH|apply canonical_order_ordered].
  - now apply insert_mark_drops_drop.
Qed.

End GreekTable.

(** X19.  The table of Greek capitals with tonos or dialytika in
    [_remove_accents] changes no result: these letters decompose under NFD
    like every other accented letter, and the function returns what
    decomposition, dropping the characters of category Mn and recomposition
    give without the table. *)
Theorem remove_accents_table_redundant (text : str) :
  _remove_accents text
  = Unicode.NFC (filter (fun char => negb (Unicode.is_Mn char)) (Unicode.NFD text)).
Proof.
  unfold _remove_accents. cbv zeta. f_equal.
  symmetry. apply drops_filter. unfold Unicode.NFD.
  apply canonical_order_drops, greek_monotonic_drops.
Qed.

(** * Sacred names: nothing is left to abbreviate *)

Section SacredNames.

Lemma is_word_OVERLINE : Unicode.is_word OVERLINE = false.
Proof. vm_compute. reflexivity. Qed.

Lemma nomina_sacra_sacred_names :
  forallb sacred_name (Py.sorted (fun x => - Z.of_nat (length (fst x))) nomina_sacra) = true.
Proof. vm_compute. reflexivity. Qed.

Lemma nomina_sacra_all_sorted :
  forallb (fun kv => existsb (fun kv' => str_eqb (fst kv) (fst kv'))
                       (Py.sorted (fun x => - Z.of_nat (length (fst x))) nomina_sacra))
    nomina_sacra = true.
Proof. vm_compute. reflexivity. Qed.

(** *** One match *)

Lemma Zeqb_word (x y : codepoint) :
  Unicode.is_word x = true -> Unicode.is_word y = false -> (x =? y) = false.
Proof. intros Hx Hy. apply Z.eqb_neq. intros ->. congruence. Qed.

(** No match behind a word character. *)
Lemma matches_word_after_word (w0 : codepoint) (w s : str) (c0 : codepoint) :
  Unicode.is_word w0 = true -> Unicode.is_word c0 = true ->
  Re.matches_word (w0 :: w) (Some c0) s = false.
Proof.
  intros Hw Hc. unfold Re.matches_word, Re.at_boundary.
  cbn [hd_error Re.word_before_or_after]. now rewrite Hw, Hc.
Qed.

(** No match at a character that is no word character, nor at the end. *)
Lemma matches_word_at_other (w0 : codepoint) (w : str) (b : option codepoint) (s : str) :
  Unicode.is_word w0 = true ->
  Re.word_before_or_after (hd_error s) = false ->
  Re.matches_word (w0 :: w) b s = false.
Proof.
  intros Hw Hs. unfold Re.matches_word.
  destruct s as [|x s]; cbn [startswith].
  - now rewrite andb_false_r.
  - cbn [hd_error Re.word_before_or_after] in Hs.
    rewrite (Zeqb_word w0 x Hw Hs). cbn [andb]. now rewrite andb_false_r.
Qed.

Lemma last_word (d : codepoint) (w : str) :
  w <> [] -> forallb Unicode.is_word w = true -> Unicode.is_word (last w d) = true.
Proof.
  induction w as [|c w IH]; [congruence|]. intros _ H.
  cbn [forallb] in H. apply andb_prop in H as [Hc Hw].
  destruct w as [|c' w']; [exact Hc|].
  change (last (c :: c' :: w') d) with (last (c' :: w') d).
  apply IH; [discriminate|exact Hw].
Qed.

Lemma startswith_app (w s : str) :
  startswith w s = true -> s = w ++ skipn (length w) s.
Proof.
  revert s. induction w as [|x w IH]; intros s; [reflexivity|].
  destruct s as [|y s]; cbn [startswith]; [discriminate|].
  intros H. apply andb_prop in H as [Hxy Hw]. apply Z.eqb_eq in Hxy. subst y.
  cbn [length skipn app]. f_equal. now apply IH.
Qed.

Lemma skipn_length_app (x y : str) : skipn (length x) (x ++ y) = y.
Proof. induction x; [reflexivity|assumption]. Qed.

Lemma sub_words_skip (w : str) (items : list Re.item) (x y : str) :
  x <> [] ->
  forall b, Re.sub_words w items b (length x) (x ++ y)
            = Re.sub_words w items (Some (last x 0)) 0 y.
Proof.
  induction x as [|c x IH]; [congruence|]. intros _ b.
  destruct x as [|c' x'].
  - reflexivity.
  - change (last (c :: c' :: x') 0) with (last (c' :: x') 0).
    rewrite <- IH with (b := Some c) by discriminate. reflexivity.
Qed.

(** Where the pattern does not match, the character is copied. *)
Lemma sub_words_copy (w : str) (items : list Re.item) (b : option codepoint)
    (c : codepoint) (r : str) :
  Re.matches_word w b (c :: r) = false ->
  Re.sub_words w items b 0 (c :: r) = c :: Re.sub_words w items (Some c) 0 r.
Proof. intros H. cbn [Re.sub_words]. now rewrite H. Qed.

(** Where it matches, the abbreviation is written and the scan goes on
    behind the word, where no word character follows. *)
Lemma sub_words_match (w0 : codepoint) (w a : str) (b : option codepoint) (s : str) :
  forallb Unicode.is_word (w0 :: w) = true ->
  Re.matches_word (w0 :: w) b s = true ->
  exists t, s = (w0 :: w) ++ t
            /\ Re.sub_words (w0 :: w) [Re.Lit a] b 0 s
               = a ++ Re.sub_words (w0 :: w) [Re.Lit a] (Some (last (w0 :: w) 0)) 0 t
            /\ Re.word_before_or_after (hd_error t) = false.
Proof.
  intros Hw Hm. pose proof Hm as Hm'. unfold Re.matches_word in Hm'.
  apply andb_prop in Hm' as [Hm' Hafter]. apply andb_prop in Hm' as [_ Hs].
  apply startswith_app in Hs.
  set (t := skipn (length (w0 :: w)) s) in *.
  exists t. split; [exact Hs|]. split.
  - rewrite Hs in Hm |- *. cbn [app]. cbn [app] in Hm. cbn [Re.sub_words].
    rewrite Hm. unfold Re.expand. cbn [flat_map]. rewrite app_nil_r. f_equal.
    replace (length (w0 :: w) - 1)%nat with (length w) by (cbn [length]; lia).
    destruct w as [|w1 w'].
    + reflexivity.
    + now rewrite sub_words_skip by discriminate.
  - unfold Re.at_boundary in Hafter. cbn [Re.word_before_or_after] in Hafter.
    rewrite (last_word 0 (w0 :: w)) in Hafter by (discriminate || assumption).
    now destruct (Re.word_before_or_after (hd_error t)).
Qed.

(** *** What matches in the result *)

Lemma sub_words_unmatched (w : str) (items : list Re.item) (s : str) :
  forall b, word_matches w b s = false -> Re.sub_words w items b 0 s = s.
Proof.
  induction s as [|c r IH]; intros b H; [reflexivity|].
  cbn [word_matches] in H. apply orb_false_iff in H as [H1 H2].
  rewrite sub_words_copy by assumption. now rewrite IH.
Qed.

Lemma word_matches_suffix (w x y : str) :
  x <> [] ->
  forall b, word_matches w b (x ++ y) = false -> word_matches w (Some (last x 0)) y = false.
Proof.
  induction x as [|c x IH]; [congruence|]. intros _ b H.
  cbn [app word_matches] in H. apply orb_false_iff in H as [_ H].
  destruct x as [|c' x']; [exact H|].
  change (last (c :: c' :: x') 0) with (last (c' :: x') 0).
  apply (IH ltac:(discriminate) _ H).
Qed.

(** No match begins inside an abbreviation. *)
Lemma word_matches_overlined (p q : codepoint) (w t : str) :
  Unicode.is_word p = true -> Unicode.is_word q = true ->
  forall u l b,
    word_matches (p :: q :: w) b (overlined (l :: u) ++ t)
    = word_matches (p :: q :: w) (Some OVERLINE) t.
Proof.
  intros Hp Hq.
  induction u as [|l' u IH]; intros l b;
    change (overlined (l :: ?v)) with (l :: OVERLINE :: overlined v);
    cbn [app word_matches]; unfold Re.matches_word at 1 2; cbn [startswith];
    rewrite (Zeqb_word q OVERLINE Hq is_word_OVERLINE),
      (Zeqb_word p OVERLINE Hp is_word_OVERLINE);
    rewrite ?andb_false_r; cbn [andb orb].
  - reflexivity.
  - apply IH.
Qed.

(** Behind a word character, a word that begins the result begins the text,
    and ends there where it ends here. *)
Lemma sub_words_prefix (w0 : codepoint) (w : str) (items : list Re.item) (v : str) :
  Unicode.is_word w0 = true -> forallb Unicode.is_word v = true ->
  forall r c0,
    Unicode.is_word c0 = true ->
    startswith v (Re.sub_words (w0 :: w) items (Some c0) 0 r) = true ->
    Re.word_before_or_after
      (hd_error (skipn (length v) (Re.sub_words (w0 :: w) items (Some c0) 0 r))) = false ->
    startswith v r = true
    /\ Re.word_before_or_after (hd_error (skipn (length v) r)) = false.
Proof.
  intros Hw0. induction v as [|y v IH]; intros Hv r c0 Hc0 Hs Ha.
  - split; [reflexivity|]. cbn [length skipn] in *.
    destruct r as [|x r]; [reflexivity|].
    rewrite sub_words_copy in Ha by now apply matches_word_after_word.
    exact Ha.
  - cbn [forallb] in Hv. apply andb_prop in Hv as [Hy Hv].
    destruct r as [|x r]; [discriminate|].
    rewrite sub_words_copy in Hs, Ha by now apply matches_word_after_word.
    cbn [startswith] in Hs. apply andb_prop in Hs as [Hyx Hs].
    apply Z.eqb_eq in Hyx. subst x. cbn [length skipn] in Ha |- *.
    destruct (IH Hv r y Hy Hs Ha) as [H1 H2].
    split; [|exact H2]. cbn [startswith]. now rewrite Z.eqb_refl.
Qed.

(** A match at a copied character was a match in the text. *)
Lemma matches_word_copied (w0 : codepoint) (w : str) (items : list Re.item) (w' : str)
    (b : option codepoint) (c : codepoint) (r : str) :
  Unicode.is_word w0 = true -> forallb Unicode.is_word w' = true -> w' <> [] ->
  Re.matches_word w' b (c :: Re.sub_words (w0 :: w) items (Some c) 0 r) = true ->
  Re.matches_word w' b (c :: r) = true.
Proof.
  intros Hw0 Hw' Hne. destruct w' as [|p v]; [congruence|].
  pose proof (last_word 0 (p :: v) Hne Hw') as Hl.
  cbn [forallb] in Hw'. apply andb_prop in Hw' as [Hp Hv].
  unfold Re.matches_word, Re.at_boundary.
  cbn [startswith length skipn hd_error Re.word_before_or_after].
  rewrite Hl. intros H.
  apply andb_prop in H as [H H3]. apply andb_prop in H as [H1 H2].
  apply andb_prop in H2 as [Hpc H2]. pose proof Hpc as Hpc'. apply Z.eqb_eq in Hpc'. subst c.
  assert (H3' : Re.word_before_or_after
                  (hd_error (skipn (length v)
                     (Re.sub_words (w0 :: w) items (Some p) 0 r))) = false).
  { match goal with |- ?x = false => destruct x end;
      [cbn [xorb] in H3; discriminate H3|reflexivity]. }
  destruct (sub_words_prefix w0 w items v Hw0 Hv r p Hp H2 H3') as [E1 E2].
  rewrite H1, Hpc, E1, E2. reflexivity.
Qed.

(** After the substitution of one sacred name, the name matches nowhere,
    and no other name matches that did not match before. *)
Lemma sub_words_no_match (kv : str * str) (w' : str) :
  sacred_name kv = true ->
  match w' with _ :: _ :: _ => true | _ => false end = true ->
  forallb Unicode.is_word w' = true ->
  forall n s b,
    (length s <= n)%nat ->
    w' = fst kv \/ word_matches w' b s = false ->
    word_matches w' b (Re.sub_words (fst kv) [Re.Lit (snd kv)] b 0 s) = false.
Proof.
  destruct kv as [w a]. unfold sacred_name. cbn [fst snd]. intros Hkv Hlen Hw'.
  apply andb_prop in Hkv as [Hkv Ha]. apply andb_prop in Hkv as [Hkv _].
  apply andb_prop in Hkv as [Hw2 Hw].
  destruct w as [|w0 w]; [discriminate|].
  destruct a as [|a0 a1]; [discriminate|]. apply str_eqb_eq in Ha.
  destruct (every_other (a0 :: a1)) as [|l u] eqn:Eu; [discriminate|].
  destruct w' as [|p [|q v]]; try discriminate.
  assert (Hw0 : Unicode.is_word w0 = true) by (cbn [forallb] in Hw; now apply andb_prop in Hw).
  assert (Hp : Unicode.is_word p = true) by (cbn [forallb] in Hw'; now apply andb_prop in Hw').
  assert (Hq : Unicode.is_word q = true).
  { cbn [forallb] in Hw'. apply andb_prop in Hw' as [_ Hw'].
    now apply andb_prop in Hw'. }
  induction n as [|n IH]; intros s b Hn H.
  - destruct s; [reflexivity|cbn [length] in Hn; lia].
  - destruct s as [|c r]; [reflexivity|].
    destruct (Re.matches_word (w0 :: w) b (c :: r)) eqn:Em.
    + destruct (sub_words_match w0 w (a0 :: a1) b (c :: r) Hw Em) as (t & Es & Eo & Et).
      rewrite Eo. rewrite Ha at 1.
      rewrite (word_matches_overlined p q v _ Hp Hq u l b).
      destruct t as [|x t].
      * reflexivity.
      * cbn [hd_error Re.word_before_or_after] in Et.
        rewrite sub_words_copy by (apply matches_word_at_other; assumption).
        cbn [word_matches].
        rewrite matches_word_at_other by assumption. cbn [orb].
        apply IH.
        -- rewrite Es in Hn. rewrite length_app in Hn. cbn [length] in Hn. lia.
        -- destruct H as [H|H]; [now left|right].
           rewrite Es in H.
           change ((w0 :: w) ++ x :: t) with ((w0 :: w) ++ [x] ++ t) in H.
           rewrite app_assoc in H.
           apply word_matches_suffix in H; [|now destruct w].
           now rewrite last_last in H.
    + rewrite sub_words_copy by assumption. cbn [word_matches].
      assert (Hno : Re.matches_word (p :: q :: v) b (c :: r) = false).
      { destruct H as [H|H]; [now rewrite H|].
        cbn [word_matches] in H. now apply orb_false_iff in H. }
      destruct (Re.matches_word (p :: q :: v) b
                  (c :: Re.sub_words (w0 :: w) [Re.Lit (a0 :: a1)] (Some c) 0 r)) eqn:Eo.
      * apply matches_word_copied in Eo; try assumption; [congruence|discriminate].
      * cbn [orb]. apply IH; [cbn [length] in Hn; lia|].
        destruct H as [H|H]; [now left|right].
        cbn [word_matches] in H. now apply orb_false_iff in H.
Qed.

(** *** The whole dictionary *)

Lemma sub_each_word_no_match (table : list (str * str)) :
  forallb sacred_name table = true ->
  forall (done : list (str * str)) (text : str),
    forallb sacred_name done = true ->
    Forall (fun kv => word_matches (fst kv) None text = false) done ->
    exists r, sub_each_word table text = Ok r
              /\ Forall (fun kv => word_matches (fst kv) None r = false) (done ++ table).
Proof.
  assert (Hgood : forall kv, sacred_name kv = true ->
            match fst kv with _ :: _ :: _ => true | _ => false end = true
            /\ forallb Unicode.is_word (fst kv) = true
            /\ existsb (Z.eqb Re.backslash) (snd kv) = false).
  { intros kv H. unfold sacred_name in H.
    apply andb_prop in H as [H _]. apply andb_prop in H as [H H3].
    apply andb_prop in H as [H1 H2]. apply negb_true_iff in H3. auto. }
  induction table as [|kv table IH]; intros Ht done text Hd Hm.
  - exists text. split; [reflexivity|]. now rewrite app_nil_r.
  - cbn [forallb] in Ht. apply andb_prop in Ht as [Hkv Ht].
    destruct (Hgood _ Hkv) as (Hk1 & Hk2 & Hk3).
    destruct kv as [w a]. cbn [sub_each_word]. cbn [fst snd] in *.
    unfold Re.sub_word. rewrite parse_template_literal by assumption. cbn [bind].
    set (r1 := Re.sub_words w [Re.Lit a] None 0 text).
    destruct (IH Ht (done ++ [(w, a)]) r1) as (r & Hr & Hall).
    + rewrite forallb_app. cbn [forallb]. now rewrite Hd, Hkv.
    + apply Forall_app. split.
      * apply Forall_forall. intros kv' Hin.
        rewrite forallb_forall in Hd. destruct (Hgood _ (Hd _ Hin)) as (H1 & H2 & _).
        rewrite Forall_forall in Hm.
        apply (sub_words_no_match (w, a) (fst kv') Hkv H1 H2 (length text) text None
                 (le_n _)).
        right. now apply Hm.
      * repeat constructor. cbn [fst].
        apply (sub_words_no_match (w, a) w Hkv Hk1 Hk2 (length text) text None (le_n _)).
        now left.
    + exists r. split; [exact Hr|]. now rewrite <- app_assoc in Hall.
Qed.

Lemma sub_each_word_unmatched (table : list (str * str)) (text : str) :
  forallb (fun kv => negb (existsb (Z.eqb Re.backslash) (snd kv))) table = true ->
  Forall (fun kv => word_matches (fst kv) None text = false) table ->
  sub_each_word table text = Ok text.
Proof.
  induction table as [|[w a] table IH]; [reflexivity|].
  cbn [forallb snd fst sub_each_word]. intros Hb Ho.
  apply andb_prop in Hb as [Ha Hb]. apply negb_true_iff in Ha.
  inversion Ho as [|? ? Hw Ht]; subst. cbn [fst] in Hw.
  unfold Re.sub_word. rewrite parse_template_literal by assumption.
  cbn [bind]. rewrite sub_words_unmatched by assumption. now apply IH.
Qed.

Lemma apply_nomina_sacra_result (text : str) :
  exists r, apply_nomina_sacra text (utf8 "grc-koi") = Ok r
            /\ Forall (fun kv => word_matches (fst kv) None r = false)
                 (Py.sorted (fun x => - Z.of_nat (length (fst x))) nomina_sacra).
Proof.
  unfold apply_nomina_sacra.
  change (negb (str_eqb (utf8 "grc-koi") (utf8 "grc-koi"))) with false. cbv iota.
  apply (sub_each_word_no_match _ nomina_sacra_sacred_names [] text); constructor.
Qed.

End SacredNames.

(** X20.  In what [apply_nomina_sacra] returns for Koine Greek, none of
    the 26 sacred names of the dictionary is left as a whole word: the
    pattern of no entry matches anywhere in the result. *)
Theorem apply_nomina_sacra_leaves_no_name (text r : str) :
  apply_nomina_sacra text (utf8 "grc-koi") = Ok r ->
  forallb (fun kv => negb (word_matches (fst kv) None r)) nomina_sacra = true.
Proof.
  intros Hr. destruct (apply_nomina_sacra_result text) as (r' & Hr' & Hall).
  assert (r' = r) by congruence. subst r'.
  apply forallb_forall. intros kv Hin.
  pose proof nomina_sacra_all_sorted as Hs. rewrite forallb_forall in Hs.
  specialize (Hs _ Hin). apply existsb_exists in Hs as (kv' & Hin' & He).
  apply str_eqb_eq in He. rewrite Forall_forall in Hall.
  rewrite He, (Hall _ Hin'). reflexivity.
Qed.

Lemma apply_nomina_sacra_leaves_no_name_witness :
  forallb (fun kv => negb (word_matches (fst kv) None
                             (overlined (utf8 "ΙΣ") ++ utf8 " Ο " ++ overlined (utf8 "ΧΣ"))))
    nomina_sacra = true.
Proof.
  apply (apply_nomina_sacra_leaves_no_name (utf8 "ΙΗΣΟΥΣ Ο ΧΡΙΣΤΟΣ")).
  vm_compute. reflexivity.
Defined.

(** X21.  [apply_nomina_sacra] is idempotent: applied to its own result it
    returns that result, for every text and language code. *)
Theorem apply_nomina_sacra_idempotent (text language_code : str) :
  (r <- apply_nomina_sacra text language_code ;; apply_nomina_sacra r language_code)
  = apply_nomina_sacra text language_code.
Proof.
  destruct (str_eqb language_code (utf8 "grc-koi")) eqn:E.
  - apply str_eqb_eq in E. subst language_code.
    destruct (apply_nomina_sacra_result text) as (r & Hr & Hall).
    rewrite Hr. cbn [bind]. unfold apply_nomina_sacra.
    change (negb (str_eqb (utf8 "grc-koi") (utf8 "grc-koi"))) with false. cbv iota.
    apply sub_each_word_unmatched; [|exact Hall].
    pose proof nomina_sacra_sacred_names as Hs.
    rewrite forallb_forall in Hs. apply forallb_forall. intros kv Hin.
    specialize (Hs _ Hin). unfold sacred_name in Hs.
    apply andb_prop in Hs as [Hs _]. now apply andb_prop in Hs as [_ Hs].
  - unfold apply_nomina_sacra. rewrite E. reflexivity.
Qed.
